(** * Clipboard: a shallow embedding of [Source/clipboard.c]

    The program is an AmigaOS command that copies files to, pastes from,
    lists and flushes the units of [clipboard.device].  Bytes are modelled
    as [Z] in [0,255], 32-bit words ([ULONG]/[LONG]) as [Z] with the
    wrap-around written out, and memory that holds a [ULONG] as four bytes
    in big-endian order (the layout of the 68k).  The operating system
    (exec, dos, clipboard.device, iffparse.library, datatypes.library) is
    not part of the repository: it is modelled as an explicit [World] that
    every operation threads through a small state monad. *)

From Stdlib Require Import ZArith List Lia Bool String Ascii.
Import ListNotations.
Open Scope Z_scope.

Set Implicit Arguments.

(** ** Machine integers and bytes *)

Definition wrap32 (x : Z) : Z := x mod 2 ^ 32.

(** Reinterpretation of a 32-bit pattern as a signed [LONG]. *)
Definition to_LONG (x : Z) : Z :=
  let u := wrap32 x in if u <? 2 ^ 31 then u else u - 2 ^ 32.

Definition UBYTE_of (x : Z) : Z := Z.land x 255.

Definition chr (c : ascii) : Z := Z.of_N (N_of_ascii c).

Fixpoint bytes_of_string (s : string) : list Z :=
  match s with
  | EmptyString => []
  | String c s' => chr c :: bytes_of_string s'
  end.

Definition Zlen (A : Type) (l : list A) : Z := Z.of_nat (List.length l).

(** [#define MAKE_ID(a,b,c,d) ((ULONG)(a)<<24 | (ULONG)(b)<<16 | (ULONG)(c)<<8 | (ULONG)(d))] *)
Definition MAKE_ID (a b c d : Z) : Z :=
  Z.lor (Z.lor (Z.lor (Z.shiftl a 24) (Z.shiftl b 16)) (Z.shiftl c 8)) d.

Definition ID_FTXT : Z := MAKE_ID (chr "F") (chr "T") (chr "X") (chr "T").
Definition ID_CHRS : Z := MAKE_ID (chr "C") (chr "H") (chr "R") (chr "S").
Definition ID_FORM : Z := MAKE_ID (chr "F") (chr "O") (chr "R") (chr "M").
Definition ID_LIST : Z := MAKE_ID (chr "L") (chr "I") (chr "S") (chr "T").
Definition ID_CAT : Z := MAKE_ID (chr "C") (chr "A") (chr "T") (chr " ").
Definition ID_PROP : Z := MAKE_ID (chr "P") (chr "R") (chr "O") (chr "P").

(** A [ULONG] stored in memory: four bytes, most significant first. *)
Definition bytes_of_ULONG (x : Z) : list Z :=
  [Z.land (Z.shiftr x 24) 255; Z.land (Z.shiftr x 16) 255;
   Z.land (Z.shiftr x 8) 255; Z.land x 255].

Definition be32 (bs : list Z) : Z :=
  match bs with
  | [a; b; c; d] => MAKE_ID a b c d
  | _ => 0
  end.

(** The [ULONG] found at byte offset [i] of a buffer. *)
Definition ULONG_at (buf : list Z) (i : nat) : Z :=
  be32 (firstn 4 (skipn i buf)).

(** A transfer of [data] into the start of a buffer: the bytes beyond the
    transferred ones keep what the buffer held before. *)
Definition overlay (data buf : list Z) : list Z :=
  data ++ skipn (List.length data) buf.

(** ** Constants of the operating system headers

    The headers ([dos/dos.h], [exec/io.h], [libraries/iffparse.h]) are not
    in the repository; the values are those of the AmigaOS NDK. *)

Definition RETURN_OK : Z := 0.
Definition RETURN_FAIL : Z := 20.

Definition ERROR_NO_FREE_STORE : Z := 103.
Definition ERROR_OBJECT_EXISTS : Z := 203.
Definition ERROR_OBJECT_NOT_FOUND : Z := 205.
Definition ERROR_OBJECT_WRONG_TYPE : Z := 212.
Definition ERROR_WRITE_PROTECTED : Z := 223.
Definition ERROR_READ_PROTECTED : Z := 224.
Definition ERROR_BAD_NUMBER : Z := 115.
Definition ERROR_INVALID_RESIDENT_LIBRARY : Z := 122.

Definition CMD_READ : Z := 2.
Definition CMD_WRITE : Z := 3.
Definition CMD_UPDATE : Z := 4.

Definition IFFERR_EOF : Z := -1.
Definition IFFERR_EOC : Z := -2.
Definition IFFERR_NOMEM : Z := -4.
Definition IFFERR_READ : Z := -5.
Definition IFFERR_WRITE : Z := -6.
Definition IFFERR_MANGLED : Z := -8.
Definition IFFSIZE_UNKNOWN : Z := -1.

(** ** The unit router *)

(** [ULONG FormIDToUnit(ULONG formID)] of [Source/clipboard.c]. *)
Definition FormIDToUnit (formID : Z) : Z :=
  let byte0 := UBYTE_of (Z.land (Z.shiftr formID 24) 255) in
  let byte1 := UBYTE_of (Z.land (Z.shiftr formID 16) 255) in
  let byte2 := UBYTE_of (Z.land (Z.shiftr formID 8) 255) in
  let byte3 := UBYTE_of (Z.land formID 255) in
  let hash :=
    wrap32 (Z.lxor (Z.lxor (Z.lxor byte0 (Z.shiftl byte1 8))
                          (Z.shiftl byte2 16)) (Z.shiftl byte3 24)) in
  let hash := Z.lxor (wrap32 (hash * 209)) (Z.shiftr hash 16) in
  (hash mod 255) + 1.

(** The router of the earlier revision of the file (polynomial hash). *)
Definition FormIDToUnit_v10 (formID : Z) : Z :=
  let byte0 := UBYTE_of (Z.land (Z.shiftr formID 24) 255) in
  let byte1 := UBYTE_of (Z.land (Z.shiftr formID 16) 255) in
  let byte2 := UBYTE_of (Z.land (Z.shiftr formID 8) 255) in
  let byte3 := UBYTE_of (Z.land formID 255) in
  let hash := byte0 in
  let hash := Z.lxor (wrap32 (hash * 31)) byte1 in
  let hash := Z.lxor (wrap32 (hash * 31)) byte2 in
  let hash := Z.lxor (wrap32 (hash * 31)) byte3 in
  (hash mod 255) + 1.

(** ** Sanitising the listing preview *)

(** The body of the loop "Replace non-printable characters" of
    [ListClipboards], applied to one [UBYTE]. *)
Definition sanitize_byte (b : Z) : Z :=
  if (b <? 32) || (127 <=? b) then
    if (b =? chr "010") || (b =? chr "013") || (b =? chr "009")
    then chr " " else chr "."
  else b.

(** ** The world outside the program *)

(** Outcome the environment gives to one fallible request: success, an
    error code, or (for a write) acceptance of only [n] bytes. *)
Inductive Fault : Type :=
| NoFault
| Err (code : Z)
| Partial (n : Z).

(** Commands that reach [clipboard.device], in the order they are issued. *)
Inductive DevEvent : Type :=
| EvOpen (u : Z)
| EvRead (u len actual err : Z)
| EvWrite (u off len actual err : Z)
| EvUpdate (u err : Z)
| EvClose (u : Z).

(** One unit of the device: the clip its readers see, and the bytes of a
    write session that has not been committed by [CMD_UPDATE]. *)
Record ClipUnit : Type := mkUnit {
  cu_clip : list Z;
  cu_pending : list Z;
  cu_id : Z
}.

(** What [datatypes.library] makes of a file or clip (the opaque converter
    of the specification): whether it belongs to the text group, the text
    buffer it exposes, whether it can be written, and its IFF form. *)
Record DTObject : Type := mkDT {
  dto_isText : bool;
  dto_text : option (list Z);
  dto_canWrite : bool;
  dto_iff : list Z
}.

(** One row printed by the listing. *)
Record ListRow : Type := mkRow {
  row_unit : Z;
  row_type : list Z;
  row_size : Z;
  row_mapped : Z;
  row_preview : option (list Z)
}.

Inductive Output : Type :=
| OutFault (code : Z) (msg : string)
| OutText (s : string)
| OutRow (r : ListRow)
| OutTotal (n : Z).

Record World : Type := mkWorld {
  w_units : Z -> ClipUnit;
  w_files : string -> option (list Z);
  w_trace : list DevEvent;
  w_out : list Output;
  w_faults : nat -> Fault;
  w_tick : nat;
  w_ioerr : Z;
  w_uid : Z;
  w_dt_file : list Z -> option DTObject;
  w_dt_clip : list Z -> option DTObject;
  w_diverged : bool;
  w_junk : list Z
}.

(** [w_faults] and [w_tick] are the decisions of the environment on the
    requests that can fail, [w_junk] is what automatic variables hold before
    they are assigned, and [w_diverged] records that a loop of the model ran
    out of its iteration bound. *)

(** ** A state monad over the world *)

Definition M (A : Type) : Type := World -> A * World.

Definition ret (A : Type) (a : A) : M A := fun w => (a, w).

Definition bind (A B : Type) (m : M A) (k : A -> M B) : M B :=
  fun w => let (a, w') := m w in k a w'.

Declare Scope clip_scope.
Delimit Scope clip_scope with clip.
Notation "x <- m ;; k" := (bind m (fun x => k))
  (at level 61, m at next level, right associativity) : clip_scope.
Notation "' p <- m ;; k" := (bind m (fun x => match x with p => k end))
  (at level 61, p pattern, m at next level, right associativity) : clip_scope.
Notation "m ;;; k" := (bind m (fun _ => k))
  (at level 61, right associativity) : clip_scope.
Open Scope clip_scope.

Definition get_world : M World := fun w => (w, w).

Definition set_units (f : Z -> ClipUnit) : M unit :=
  fun w => (tt, mkWorld f (w_files w) (w_trace w) (w_out w) (w_faults w)
                        (w_tick w) (w_ioerr w) (w_uid w) (w_dt_file w)
                        (w_dt_clip w) (w_diverged w) (w_junk w)).

Definition set_files (f : string -> option (list Z)) : M unit :=
  fun w => (tt, mkWorld (w_units w) f (w_trace w) (w_out w) (w_faults w)
                        (w_tick w) (w_ioerr w) (w_uid w) (w_dt_file w)
                        (w_dt_clip w) (w_diverged w) (w_junk w)).

Definition log (e : DevEvent) : M unit :=
  fun w => (tt, mkWorld (w_units w) (w_files w) (w_trace w ++ [e]) (w_out w)
                        (w_faults w) (w_tick w) (w_ioerr w) (w_uid w)
                        (w_dt_file w) (w_dt_clip w) (w_diverged w) (w_junk w)).

Definition emit (o : Output) : M unit :=
  fun w => (tt, mkWorld (w_units w) (w_files w) (w_trace w) (w_out w ++ [o])
                        (w_faults w) (w_tick w) (w_ioerr w) (w_uid w)
                        (w_dt_file w) (w_dt_clip w) (w_diverged w) (w_junk w)).

(** The next decision of the environment. *)
Definition fault : M Fault :=
  fun w => (w_faults w (w_tick w),
            mkWorld (w_units w) (w_files w) (w_trace w) (w_out w) (w_faults w)
                    (S (w_tick w)) (w_ioerr w) (w_uid w) (w_dt_file w)
                    (w_dt_clip w) (w_diverged w) (w_junk w)).

Definition SetIoErr (e : Z) : M unit :=
  fun w => (tt, mkWorld (w_units w) (w_files w) (w_trace w) (w_out w)
                        (w_faults w) (w_tick w) e (w_uid w) (w_dt_file w)
                        (w_dt_clip w) (w_diverged w) (w_junk w)).

Definition IoErr : M Z := fun w => (w_ioerr w, w).

Definition GetUniqueID : M Z :=
  fun w => (w_uid w,
            mkWorld (w_units w) (w_files w) (w_trace w) (w_out w) (w_faults w)
                    (w_tick w) (w_ioerr w) (wrap32 (w_uid w + 1)) (w_dt_file w)
                    (w_dt_clip w) (w_diverged w) (w_junk w)).

(** A loop of the model that used up its iteration bound records it here;
    the theorems show that this never happens. *)
Definition diverge : M unit :=
  fun w => (tt, mkWorld (w_units w) (w_files w) (w_trace w) (w_out w)
                        (w_faults w) (w_tick w) (w_ioerr w) (w_uid w)
                        (w_dt_file w) (w_dt_clip w) true (w_junk w)).

Definition PrintFault (code : Z) (msg : string) : M unit :=
  emit (OutFault code msg).

Definition Printf (s : string) : M unit := emit (OutText s).

(** A fallible call with no other effect: [0] on success, else the code. *)
Definition fallible : M Z :=
  f <- fault ;;
  match f with
  | Err e => ret e
  | _ => ret 0
  end.

Definition upd (A : Type) (f : Z -> A) (k : Z) (v : A) : Z -> A :=
  fun x => if x =? k then v else f x.

Definition upd_file (f : string -> option (list Z)) (k : string)
  (v : option (list Z)) : string -> option (list Z) :=
  fun x => if String.eqb x k then v else f x.

(** ** clipboard.device *)

Record IOClipReq : Type := mkReq {
  io_Command : Z;
  io_Error : Z;
  io_Actual : Z;
  io_Length : Z;
  io_Data : list Z;
  io_Offset : Z;
  io_ClipID : Z
}.

Record ClipboardHandle : Type := mkHandle {
  cbh_Unit : Z;
  cbh_Req : IOClipReq
}.

Definition req0 : IOClipReq := mkReq 0 0 0 0 [] 0 0.

Definition set_Command (c : Z) (r : IOClipReq) : IOClipReq :=
  mkReq c (io_Error r) (io_Actual r) (io_Length r) (io_Data r) (io_Offset r)
        (io_ClipID r).
Definition set_Error (e : Z) (r : IOClipReq) : IOClipReq :=
  mkReq (io_Command r) e (io_Actual r) (io_Length r) (io_Data r) (io_Offset r)
        (io_ClipID r).
Definition set_Length (n : Z) (r : IOClipReq) : IOClipReq :=
  mkReq (io_Command r) (io_Error r) (io_Actual r) n (io_Data r) (io_Offset r)
        (io_ClipID r).
Definition set_Data (d : list Z) (r : IOClipReq) : IOClipReq :=
  mkReq (io_Command r) (io_Error r) (io_Actual r) (io_Length r) d (io_Offset r)
        (io_ClipID r).
Definition set_Offset (o : Z) (r : IOClipReq) : IOClipReq :=
  mkReq (io_Command r) (io_Error r) (io_Actual r) (io_Length r) (io_Data r) o
        (io_ClipID r).
Definition set_ClipID (i : Z) (r : IOClipReq) : IOClipReq :=
  mkReq (io_Command r) (io_Error r) (io_Actual r) (io_Length r) (io_Data r)
        (io_Offset r) i.

(** Completion of a request by the device. *)
Definition complete (e actual off id : Z) (d : list Z) (r : IOClipReq)
  : IOClipReq :=
  mkReq (io_Command r) e actual (io_Length r) d off id.

(** Bytes [data] stored at offset [off] of a write-session buffer. *)
Definition write_at (off : nat) (data buf : list Z) : list Z :=
  firstn off (buf ++ repeat 0 (off - List.length buf)) ++ data ++
  skipn (off + List.length data) buf.

(** [CMD_READ]: the bytes of the committed clip from [io_Offset] on, at most
    [io_Length] of them; [io_Actual] is their number and [io_Offset] moves
    past them.  A read at or beyond the end delivers nothing. *)
Definition DoIO_read (u : Z) (r : IOClipReq) : M IOClipReq :=
  f <- fault ;;
  match f with
  | Err e =>
      log (EvRead u (io_Length r) 0 e) ;;;
      ret (complete e 0 (io_Offset r) (io_ClipID r) [] r)
  | _ =>
      w <- get_world ;;
      let cu := w_units w u in
      let data := firstn (Z.to_nat (io_Length r))
                         (skipn (Z.to_nat (io_Offset r)) (cu_clip cu)) in
      log (EvRead u (io_Length r) (Zlen data) 0) ;;;
      ret (complete 0 (Zlen data) (io_Offset r + Zlen data)
             (if io_ClipID r =? 0 then cu_id cu else io_ClipID r) data r)
  end.

(** [CMD_WRITE]: bytes go to the buffer of the write session, which a
    request with [io_ClipID = 0] starts afresh; readers do not see them. *)
Definition DoIO_write (u : Z) (r : IOClipReq) : M IOClipReq :=
  f <- fault ;;
  match f with
  | Err e =>
      log (EvWrite u (io_Offset r) (io_Length r) 0 e) ;;;
      ret (complete e 0 (io_Offset r) (io_ClipID r) (io_Data r) r)
  | _ =>
      w <- get_world ;;
      let cu := w_units w u in
      let want := firstn (Z.to_nat (io_Length r)) (io_Data r) in
      let acc := match f with
                 | Partial n => firstn (Z.to_nat n) want
                 | _ => want
                 end in
      let base := if io_ClipID r =? 0 then [] else cu_pending cu in
      set_units (upd (w_units w) u
                   (mkUnit (cu_clip cu)
                           (write_at (Z.to_nat (io_Offset r)) acc base)
                           (cu_id cu))) ;;;
      log (EvWrite u (io_Offset r) (io_Length r) (Zlen acc) 0) ;;;
      ret (complete 0 (Zlen acc) (io_Offset r + Zlen acc)
             (if io_ClipID r =? 0 then cu_id cu + 1 else io_ClipID r)
             (io_Data r) r)
  end.

(** [CMD_UPDATE]: the bytes of the write session become the clip, in one
    step. *)
Definition DoIO_update (u : Z) (r : IOClipReq) : M IOClipReq :=
  f <- fault ;;
  match f with
  | Err e =>
      log (EvUpdate u e) ;;;
      ret (complete e 0 (io_Offset r) (io_ClipID r) (io_Data r) r)
  | _ =>
      w <- get_world ;;
      let cu := w_units w u in
      set_units (upd (w_units w) u
                   (mkUnit (cu_pending cu) [] (cu_id cu + 1))) ;;;
      log (EvUpdate u 0) ;;;
      ret (complete 0 0 (io_Offset r) (io_ClipID r) (io_Data r) r)
  end.

Definition DoIO (u : Z) (r : IOClipReq) : M IOClipReq :=
  if io_Command r =? CMD_READ then DoIO_read u r
  else if io_Command r =? CMD_WRITE then DoIO_write u r
  else if io_Command r =? CMD_UPDATE then DoIO_update u r
  else ret (set_Error (-3) r).

(** [OpenClipboard] and [CloseClipboard] of iffparse.library.  Closing
    abandons whatever a write session has not committed. *)
Definition OpenClipboard (u : Z) : M (option ClipboardHandle) :=
  f <- fault ;;
  match f with
  | Err e => SetIoErr e ;;; ret None
  | _ => log (EvOpen u) ;;; ret (Some (mkHandle u req0))
  end.

Definition CloseClipboard (h : ClipboardHandle) : M unit :=
  w <- get_world ;;
  let cu := w_units w (cbh_Unit h) in
  set_units (upd (w_units w) (cbh_Unit h)
               (mkUnit (cu_clip cu) [] (cu_id cu))) ;;;
  log (EvClose (cbh_Unit h)).

(** ** dos.library: files *)

Definition Open_OLDFILE (name : string) : M (option string) :=
  f <- fault ;;
  match f with
  | Err e => SetIoErr e ;;; ret None
  | _ =>
      w <- get_world ;;
      match w_files w name with
      | Some _ => ret (Some name)
      | None => SetIoErr ERROR_OBJECT_NOT_FOUND ;;; ret None
      end
  end.

Definition Open_NEWFILE (name : string) : M (option string) :=
  f <- fault ;;
  match f with
  | Err e => SetIoErr e ;;; ret None
  | _ =>
      w <- get_world ;;
      set_files (upd_file (w_files w) name (Some [])) ;;;
      ret (Some name)
  end.

Definition Close (fh : string) : M unit := ret tt.

(** [Write(fh, buffer, len)]: the number of bytes written, or [-1]. *)
Definition Write (fh : string) (data : list Z) : M Z :=
  f <- fault ;;
  match f with
  | Err e => SetIoErr e ;;; ret (-1)
  | _ =>
      w <- get_world ;;
      let acc := match f with
                 | Partial n => firstn (Z.to_nat n) data
                 | _ => data
                 end in
      let old := match w_files w fh with Some c => c | None => [] end in
      set_files (upd_file (w_files w) fh (Some (old ++ acc))) ;;;
      ret (Zlen acc)
  end.

(** [Seek(fh, 0, OFFSET_END)] followed by [Seek(fh, 0, OFFSET_BEGINNING)],
    which returns the position left by the first: the size of the file. *)
Definition Seek_size (fh : string) : M Z :=
  w <- get_world ;;
  ret (match w_files w fh with Some c => Zlen c | None => -1 end).

Definition Read (fh : string) (len : Z) : M (Z * list Z) :=
  f <- fault ;;
  match f with
  | Err e => SetIoErr e ;;; ret (-1, [])
  | _ =>
      w <- get_world ;;
      let c := match w_files w fh with Some c => c | None => [] end in
      let want := firstn (Z.to_nat len) c in
      let got := match f with
                 | Partial n => firstn (Z.to_nat n) want
                 | _ => want
                 end in
      ret (Zlen got, got)
  end.

Definition DeleteFile (name : string) : M unit :=
  w <- get_world ;;
  set_files (upd_file (w_files w) name None).

(** [AllocMem], [AllocIFF] and [OpenLibrary] succeed unless the environment
    refuses. *)
Definition AllocMem : M bool :=
  e <- fallible ;; ret (e =? 0).

Definition OpenLibrary : M bool :=
  e <- fallible ;; ret (e =? 0).

(** ** datatypes.library *)

Definition NewDTObject_file (name : string) : M (option DTObject) :=
  w <- get_world ;;
  match w_files w name with
  | None => SetIoErr ERROR_OBJECT_NOT_FOUND ;;; ret None
  | Some c =>
      match w_dt_file w c with
      | None => SetIoErr 0 ;;; ret None
      | Some o => ret (Some o)
      end
  end.

(** [NewDTObject(NULL, DTA_SourceType, DTST_CLIPBOARD, DTA_Handle, iffh)]:
    the object the converter finds in the clip of the unit. *)
Definition NewDTObject_clip (u : Z) : M (option DTObject) :=
  w <- get_world ;;
  match w_dt_clip w (cu_clip (w_units w u)) with
  | None => SetIoErr 0 ;;; ret None
  | Some o => ret (Some o)
  end.

(** [SaveDTObjectA(o, NULL, NULL, file, DTWM_IFF, FALSE, TAG_END)]. *)
Definition SaveDTObjectA (o : DTObject) (name : string) : M bool :=
  f <- fault ;;
  match f with
  | Err e => SetIoErr e ;;; ret false
  | _ =>
      w <- get_world ;;
      set_files (upd_file (w_files w) name (Some (dto_iff o))) ;;;
      ret true
  end.

(** ** iffparse.library over a clipboard stream

    The library is not part of the repository.  Its reader follows the
    decode contract of the specification (chunk headers of 8 bytes, group
    headers of 12, word alignment, a header that is not fully available is
    an error); its writer follows the encode contract.  Both work through
    the [IOClipReq] of the clipboard handle they were given, which the
    program also uses directly: the handle is threaded through every call
    so that the two see the same request. *)

Record ContextNode : Type := mkCN {
  cn_ID : Z;
  cn_Type : Z;
  cn_Size : Z;
  cn_Scan : Z;
  cn_Start : Z
}.

Record IFFHandle : Type := mkIFF {
  iff_Stream : ClipboardHandle;
  iff_Write : bool;
  iff_Stack : list ContextNode;
  iff_Stop : list (Z * Z)
}.

Definition is_group (id : Z) : bool :=
  (id =? ID_FORM) || (id =? ID_LIST) || (id =? ID_CAT) || (id =? ID_PROP).

Definition pad (n : Z) : Z := if Z.odd n then 1 else 0.

Definition AllocIFF : M (option IFFHandle) :=
  e <- fallible ;;
  if e =? 0 then ret (Some (mkIFF (mkHandle 0 req0) false [] []))
  else ret None.

(** [InitIFFasClip(iffh); iffh->iff_Stream = (ULONG)clipHandle;] *)
Definition InitIFFasClip (clipHandle : ClipboardHandle) (iffh : IFFHandle)
  : IFFHandle :=
  mkIFF clipHandle (iff_Write iffh) (iff_Stack iffh) (iff_Stop iffh).

Definition set_stream (h : ClipboardHandle) (iffh : IFFHandle) : IFFHandle :=
  mkIFF h (iff_Write iffh) (iff_Stack iffh) (iff_Stop iffh).

Definition set_stack (st : list ContextNode) (iffh : IFFHandle) : IFFHandle :=
  mkIFF (iff_Stream iffh) (iff_Write iffh) st (iff_Stop iffh).

Definition with_req (r : IOClipReq) (h : ClipboardHandle) : ClipboardHandle :=
  mkHandle (cbh_Unit h) r.

(** [OpenIFF(iffh, mode)]: the stream starts at offset 0 with a fresh clip
    identifier. *)
Definition OpenIFF (iffh : IFFHandle) (write : bool) : M (Z * IFFHandle) :=
  e <- fallible ;;
  if e =? 0 then
    let h := iff_Stream iffh in
    ret (0, mkIFF (with_req (set_ClipID 0 (set_Offset 0 (cbh_Req h))) h)
                  write [] (iff_Stop iffh))
  else ret (e, iffh).

Definition StopChunk (iffh : IFFHandle) (type id : Z) : M (Z * IFFHandle) :=
  e <- fallible ;;
  if e =? 0 then
    ret (0, mkIFF (iff_Stream iffh) (iff_Write iffh) (iff_Stack iffh)
                  ((type, id) :: iff_Stop iffh))
  else ret (e, iffh).

Definition CurrentChunk (iffh : IFFHandle) : option ContextNode :=
  match iff_Stack iffh with
  | cn :: _ => Some cn
  | [] => None
  end.

(** The stream hook: one [CMD_READ] of [n] bytes at the current offset. *)
Definition stream_read (n : Z) (iffh : IFFHandle)
  : M (list Z * Z * IFFHandle) :=
  let h := iff_Stream iffh in
  r <- DoIO (cbh_Unit h)
         (set_Length n (set_Data [] (set_Command CMD_READ (cbh_Req h)))) ;;
  ret (io_Data r, io_Error r, set_stream (with_req r h) iffh).

(** The stream hook: one [CMD_WRITE] of [data] at offset [off]. *)
Definition stream_write_at (off : Z) (data : list Z) (iffh : IFFHandle)
  : M (Z * Z * IFFHandle) :=
  let h := iff_Stream iffh in
  r <- DoIO (cbh_Unit h)
         (set_Length (Zlen data)
            (set_Data data (set_Offset off (set_Command CMD_WRITE (cbh_Req h))))) ;;
  ret (io_Actual r, io_Error r, set_stream (with_req r h) iffh).

Definition stream_offset (iffh : IFFHandle) : Z :=
  io_Offset (cbh_Req (iff_Stream iffh)).

(** A seek changes the offset of the request and issues no command. *)
Definition stream_seek (d : Z) (iffh : IFFHandle) : IFFHandle :=
  let h := iff_Stream iffh in
  set_stream (with_req (set_Offset (io_Offset (cbh_Req h) + d) (cbh_Req h)) h)
    iffh.

Definition add_scan (d : Z) (st : list ContextNode) : list ContextNode :=
  match st with
  | [] => []
  | p :: rest =>
      mkCN (cn_ID p) (cn_Type p) (cn_Size p) (cn_Scan p + d) (cn_Start p)
      :: rest
  end.

(** Leaving the chunk on top of the stack while reading: what is left of
    it and its pad byte are skipped, and the parent accounts for it. *)
Definition pop_read (iffh : IFFHandle) : IFFHandle :=
  match iff_Stack iffh with
  | [] => iffh
  | top :: rest =>
      set_stack (add_scan (8 + cn_Size top + pad (cn_Size top)) rest)
        (stream_seek (Z.max 0 (cn_Size top - cn_Scan top) + pad (cn_Size top))
           iffh)
  end.

Definition parent_type (st : list ContextNode) : Z :=
  match st with
  | [] => 0
  | p :: _ => cn_Type p
  end.

(** Reading the header of the next chunk and entering it.  A header that
    cannot be read in full is an error; no bytes at all at the outermost
    level is the end of the stream. *)
Definition next_chunk (iffh : IFFHandle) : M (Z * IFFHandle) :=
  let start := stream_offset iffh in
  ' (d1, e1, iffh1) <- stream_read 8 iffh ;;
  if negb (e1 =? 0) then ret (IFFERR_READ, iffh1)
  else if Zlen d1 =? 0 then
    ret (match iff_Stack iffh1 with
         | [] => IFFERR_EOF
         | _ => IFFERR_MANGLED
         end, iffh1)
  else if Zlen d1 <? 8 then ret (IFFERR_MANGLED, iffh1)
  else
    let id := ULONG_at d1 0 in
    let size := to_LONG (ULONG_at d1 4) in
    if size <? 0 then ret (IFFERR_MANGLED, iffh1)
    else if is_group id then
      ' (d2, e2, iffh2) <- stream_read 4 iffh1 ;;
      if negb (e2 =? 0) then ret (IFFERR_READ, iffh2)
      else if Zlen d2 <? 4 then ret (IFFERR_MANGLED, iffh2)
      else ret (0, set_stack (mkCN id (be32 d2) size 4 start
                              :: iff_Stack iffh2) iffh2)
    else
      ret (0, set_stack (mkCN id (parent_type (iff_Stack iffh1)) size 0 start
                         :: iff_Stack iffh1) iffh1).

Definition is_stop (iffh : IFFHandle) (cn : ContextNode) : bool :=
  existsb (fun p => (fst p =? cn_Type cn) && (snd p =? cn_ID cn))
          (iff_Stop iffh).

(** [ParseIFF(iffh, IFFPARSE_SCAN)]: chunks are entered and left until one
    registered by [StopChunk] is entered (result 0), a group ends
    ([IFFERR_EOC]), the stream ends ([IFFERR_EOF]) or an error occurs. *)
Fixpoint ParseIFF_scan (fuel : nat) (iffh : IFFHandle) : M (Z * IFFHandle) :=
  match fuel with
  | O => diverge ;;; ret (IFFERR_MANGLED, iffh)
  | S fuel' =>
      let enter :=
        ' (e, iffh1) <- next_chunk iffh ;;
        if negb (e =? 0) then ret (e, iffh1)
        else match iff_Stack iffh1 with
             | cn :: _ =>
                 if is_stop iffh1 cn then ret (0, iffh1)
                 else ParseIFF_scan fuel' iffh1
             | [] => ret (0, iffh1)
             end in
      match iff_Stack iffh with
      | top :: _ =>
          if is_group (cn_ID top) then
            if cn_Size top <=? cn_Scan top then ret (IFFERR_EOC, pop_read iffh)
            else enter
          else ParseIFF_scan fuel' (pop_read iffh)
      | [] => enter
      end
  end.

(** The number of steps a scan can take is bounded by the bytes left in
    the clip and the depth of the stack. *)
Definition scan_bound (w : World) (iffh : IFFHandle) : nat :=
  S (Z.to_nat (Zlen (cu_clip (w_units w (cbh_Unit (iff_Stream iffh))))
               - stream_offset iffh)
     + List.length (iff_Stack iffh)).

Definition ParseIFF (iffh : IFFHandle) : M (Z * IFFHandle) :=
  w <- get_world ;;
  ParseIFF_scan (scan_bound w iffh) iffh.

(** [ReadChunkBytes(iffh, buf, n)]: at most [n] bytes of what is left of
    the current chunk; their number, 0 at the end of the chunk, or a
    negative error. *)
Definition ReadChunkBytes (iffh : IFFHandle) (n : Z)
  : M (Z * list Z * IFFHandle) :=
  match iff_Stack iffh with
  | [] => ret (IFFERR_EOC, [], iffh)
  | top :: rest =>
      let k := Z.min n (cn_Size top - cn_Scan top) in
      if k <=? 0 then ret (0, [], iffh)
      else
        ' (d, e, iffh1) <- stream_read k iffh ;;
        if negb (e =? 0) then ret (IFFERR_READ, [], iffh1)
        else if Zlen d <? k then ret (IFFERR_READ, [], iffh1)
        else ret (k, d, set_stack (mkCN (cn_ID top) (cn_Type top) (cn_Size top)
                                        (cn_Scan top + k) (cn_Start top)
                                   :: rest) iffh1)
  end.

(** [PushChunk(iffh, type, id, size)] when writing: the header goes to the
    stream, with a size field to be patched by [PopChunk] when the size is
    [IFFSIZE_UNKNOWN]. *)
Definition PushChunk (iffh : IFFHandle) (type id size : Z)
  : M (Z * IFFHandle) :=
  let start := stream_offset iffh in
  let sz := if size =? IFFSIZE_UNKNOWN then 0 else size in
  let hdr := bytes_of_ULONG id ++ bytes_of_ULONG sz ++
             (if is_group id then bytes_of_ULONG type else []) in
  ' (a, e, iffh1) <- stream_write_at start hdr iffh ;;
  if negb (e =? 0) || (a <? Zlen hdr) then ret (IFFERR_WRITE, iffh1)
  else
    ret (0, set_stack
              (mkCN id (if is_group id then type
                        else parent_type (iff_Stack iffh1))
                    size (if is_group id then 4 else 0) start
               :: iff_Stack iffh1) iffh1).

(** [WriteChunkBytes(iffh, buf, n)]: the number of bytes the stream took,
    or a negative error. *)
Definition WriteChunkBytes (iffh : IFFHandle) (buf : list Z) (n : Z)
  : M (Z * IFFHandle) :=
  match iff_Stack iffh with
  | [] => ret (IFFERR_EOC, iffh)
  | top :: rest =>
      let k := if cn_Size top =? IFFSIZE_UNKNOWN then n
               else Z.min n (cn_Size top - cn_Scan top) in
      ' (a, e, iffh1) <-
        stream_write_at (stream_offset iffh) (firstn (Z.to_nat k) buf) iffh ;;
      if negb (e =? 0) then ret (IFFERR_WRITE, iffh1)
      else ret (a, set_stack (mkCN (cn_ID top) (cn_Type top) (cn_Size top)
                                   (cn_Scan top + a) (cn_Start top)
                              :: rest) iffh1)
  end.

(** [PopChunk(iffh)] when writing: a pad byte after an odd payload, the
    size field patched when it was not declared, and the chunk leaves the
    stack whether or not that worked. *)
Definition PopChunk (iffh : IFFHandle) : M (Z * IFFHandle) :=
  match iff_Stack iffh with
  | [] => ret (IFFERR_EOC, iffh)
  | top :: rest =>
      let unknown := cn_Size top =? IFFSIZE_UNKNOWN in
      let sz := if unknown then cn_Scan top else cn_Size top in
      let leave := fun (e : Z) (i : IFFHandle) =>
        ret (e, set_stack (add_scan (8 + sz + pad sz) rest) i) in
      if negb unknown && negb (cn_Scan top =? cn_Size top) then
        leave IFFERR_MANGLED iffh
      else
        ' (e1, iffh1) <-
          (if Z.odd sz then
             ' (a, e, i) <- stream_write_at (stream_offset iffh) [0] iffh ;;
             ret (if negb (e =? 0) || (a <? 1) then IFFERR_WRITE else 0, i)
           else ret (0, iffh)) ;;
        if negb (e1 =? 0) then leave e1 iffh1
        else if unknown then
          let here := stream_offset iffh1 in
          ' (a, e, i) <-
            stream_write_at (cn_Start top + 4) (bytes_of_ULONG sz) iffh1 ;;
          let i := stream_seek (here - stream_offset i) i in
          leave (if negb (e =? 0) || (a <? 4) then IFFERR_WRITE else 0) i
        else leave 0 iffh1
  end.

(** [CloseIFF(iffh)].  For a handle opened for writing the source says of
    it: "Close IFF - this sends CMD_UPDATE automatically".  For a handle
    opened for reading no command is issued. *)
Definition CloseIFF (iffh : IFFHandle) : M IFFHandle :=
  if iff_Write iffh then
    let h := iff_Stream iffh in
    r <- DoIO (cbh_Unit h) (set_Command CMD_UPDATE (cbh_Req h)) ;;
    ret (mkIFF (with_req r h) (iff_Write iffh) [] (iff_Stop iffh))
  else ret (set_stack [] iffh).

Definition FreeIFF (iffh : IFFHandle) : M unit := ret tt.

(** ** The program *)

(** [VOID CBReadDone(struct IOClipReq *ioreq)].  Its callers pass the
    address of the request inside an open handle, so the pointer is never
    null.  The bound of the loop is the number of bytes left in the clip:
    every iteration but the last moves the offset forward. *)
Fixpoint CBReadDone_loop (fuel : nat) (u : Z) (ioreq : IOClipReq)
  : M IOClipReq :=
  match fuel with
  | O => diverge ;;; ret ioreq
  | S fuel' =>
      ioreq <- DoIO u ioreq ;;
      if (io_Actual ioreq =? 0) || negb (io_Error ioreq =? 0) then ret ioreq
      else CBReadDone_loop fuel' u ioreq
  end.

Definition drain_bound (w : World) (u : Z) (ioreq : IOClipReq) : nat :=
  S (Z.to_nat (Zlen (cu_clip (w_units w u)) - io_Offset ioreq)).

Definition CBReadDone (h : ClipboardHandle) : M ClipboardHandle :=
  let ioreq := cbh_Req h in
  let ioreq := set_Command CMD_READ ioreq in
  let ioreq := set_Data [] ioreq in
  let ioreq := set_Length 254 ioreq in
  w <- get_world ;;
  ioreq <- CBReadDone_loop (drain_bound w (cbh_Unit h) ioreq) (cbh_Unit h) ioreq ;;
  ret (with_req ioreq h).

(** What an automatic variable of [n] bytes holds before it is assigned. *)
Definition uninitialised (n : nat) : M (list Z) :=
  w <- get_world ;; ret (firstn n (w_junk w ++ repeat 0 n)).

Definition is_empty (s : string) : bool :=
  match s with
  | EmptyString => true
  | _ => false
  end.

(** [IoErr()] with the fallback the source applies when it is 0. *)
Definition IoErr_or (dflt : Z) : M Z :=
  errorCode <- IoErr ;;
  ret (if errorCode =? 0 then dflt else errorCode).

(** [LONG CopyTextToClipboard(fileName, unit, textBuffer, textLength)] *)
Definition CopyTextToClipboard (fileName : string) (unit : Z)
  (textBuffer : list Z) (textLength : Z) : M Z :=
  if textLength =? 0 then
    PrintFault ERROR_OBJECT_NOT_FOUND "Clipboard: No text data to copy" ;;;
    ret RETURN_FAIL
  else
  oi <- AllocIFF ;;
  match oi with
  | None =>
      PrintFault ERROR_NO_FREE_STORE "Clipboard: Could not allocate IFF handle" ;;;
      ret RETURN_FAIL
  | Some iffh =>
  oc <- OpenClipboard unit ;;
  match oc with
  | None =>
      errorCode <- IoErr_or ERROR_OBJECT_NOT_FOUND ;;
      PrintFault errorCode "Clipboard: Could not open clipboard" ;;;
      FreeIFF iffh ;;;
      ret RETURN_FAIL
  | Some clipHandle =>
  let iffh := InitIFFasClip clipHandle iffh in
  ' (error, iffh) <- OpenIFF iffh true ;;
  if negb (error =? 0) then
    PrintFault error "Clipboard: Could not open clipboard for writing" ;;;
    CloseClipboard clipHandle ;;;
    FreeIFF iffh ;;;
    ret RETURN_FAIL
  else
  ' (error, iffh) <- PushChunk iffh ID_FTXT ID_FORM IFFSIZE_UNKNOWN ;;
  if negb (error =? 0) then
    PrintFault error "Clipboard: Could not create FORM FTXT" ;;;
    iffh <- CloseIFF iffh ;;
    CloseClipboard clipHandle ;;;
    FreeIFF iffh ;;;
    ret RETURN_FAIL
  else
  ' (error, iffh) <- PushChunk iffh 0 ID_CHRS textLength ;;
  if negb (error =? 0) then
    PrintFault error "Clipboard: Could not create CHRS chunk" ;;;
    ' (_, iffh) <- PopChunk iffh ;;
    iffh <- CloseIFF iffh ;;
    CloseClipboard clipHandle ;;;
    FreeIFF iffh ;;;
    ret RETURN_FAIL
  else
  ' (written, iffh) <- WriteChunkBytes iffh textBuffer textLength ;;
  if negb (written =? textLength) then
    error <- IoErr_or IFFERR_WRITE ;;
    PrintFault error "Clipboard: Could not write text data" ;;;
    ' (_, iffh) <- PopChunk iffh ;;
    ' (_, iffh) <- PopChunk iffh ;;
    iffh <- CloseIFF iffh ;;
    CloseClipboard clipHandle ;;;
    FreeIFF iffh ;;;
    ret RETURN_FAIL
  else
  ' (error, iffh) <- PopChunk iffh ;;
  if negb (error =? 0) then
    PrintFault error "Clipboard: Error closing CHRS chunk" ;;;
    ' (_, iffh) <- PopChunk iffh ;;
    iffh <- CloseIFF iffh ;;
    CloseClipboard clipHandle ;;;
    FreeIFF iffh ;;;
    ret RETURN_FAIL
  else
  ' (error, iffh) <- PopChunk iffh ;;
  if negb (error =? 0) then
    PrintFault error "Clipboard: Error closing FORM chunk" ;;;
    iffh <- CloseIFF iffh ;;
    CloseClipboard clipHandle ;;;
    FreeIFF iffh ;;;
    ret RETURN_FAIL
  else
  iffh <- CloseIFF iffh ;;
  CloseClipboard clipHandle ;;;
  FreeIFF iffh ;;;
  ret RETURN_OK
  end
  end.

Definition hex_digit (n : Z) : ascii :=
  match String.get (Z.to_nat (Z.land n 15)) "0123456789ABCDEF" with
  | Some c => c
  | None => "0"%char
  end.

(** [SNPrintf(tempFileName, sizeof(tempFileName), "T:clip%08lX", uniqueID)] *)
Definition temp_name (uniqueID : Z) : string :=
  ("T:clip" ++
   String (hex_digit (Z.shiftr uniqueID 28))
  (String (hex_digit (Z.shiftr uniqueID 24))
  (String (hex_digit (Z.shiftr uniqueID 20))
  (String (hex_digit (Z.shiftr uniqueID 16))
  (String (hex_digit (Z.shiftr uniqueID 12))
  (String (hex_digit (Z.shiftr uniqueID 8))
  (String (hex_digit (Z.shiftr uniqueID 4))
  (String (hex_digit uniqueID) EmptyString))))))))%string.

(** The transfer of the temporary IFF file to the unit, the block
    "Get file size" of [CopyToClipboard]. *)
Definition copy_file_to_unit (clipHandle : ClipboardHandle)
  (tempFileHandle : string) : M Z :=
  fileSize <- Seek_size tempFileHandle ;;
  if 0 <? fileSize then
    ok <- AllocMem ;;
    if ok : bool then
      ' (bytesRead, fileBuffer) <- Read tempFileHandle fileSize ;;
      if bytesRead =? fileSize then
        let ioreq := cbh_Req clipHandle in
        let ioreq := set_Offset 0 ioreq in
        let ioreq := set_ClipID 0 ioreq in
        let ioreq := set_Error 0 ioreq in
        let ioreq := set_Command CMD_WRITE ioreq in
        let ioreq := set_Data fileBuffer ioreq in
        let ioreq := set_Length fileSize ioreq in
        ioreq <- DoIO (cbh_Unit clipHandle) ioreq ;;
        if (io_Error ioreq =? 0) && (io_Actual ioreq =? fileSize) then
          let ioreq := set_Command CMD_UPDATE ioreq in
          let ioreq := set_Error 0 ioreq in
          ioreq <- DoIO (cbh_Unit clipHandle) ioreq ;;
          if io_Error ioreq =? 0 then ret RETURN_OK
          else
            PrintFault (io_Error ioreq) "Clipboard: Could not update clipboard" ;;;
            ret RETURN_FAIL
        else
          PrintFault (if io_Error ioreq =? 0 then ERROR_WRITE_PROTECTED
                      else io_Error ioreq)
                     "Clipboard: Could not write to clipboard" ;;;
          ret RETURN_FAIL
      else
        errorCode <- IoErr_or ERROR_READ_PROTECTED ;;
        PrintFault errorCode "Clipboard: Could not read temporary file" ;;;
        ret RETURN_FAIL
    else
      PrintFault ERROR_NO_FREE_STORE "Clipboard: Could not allocate memory" ;;;
      ret RETURN_FAIL
  else
    PrintFault ERROR_OBJECT_WRONG_TYPE "Clipboard: Temporary file is empty" ;;;
    ret RETURN_FAIL.

(** The part of [CopyToClipboard] after the text check: the object is saved
    as IFF to a temporary file, which is written to the unit. *)
Definition copy_object (dtObject : DTObject) (unit : Z) : M Z :=
  if negb (dto_canWrite dtObject) then
    PrintFault ERROR_OBJECT_WRONG_TYPE
      "Clipboard: File type does not support clipboard write" ;;;
    ret RETURN_FAIL
  else
  uniqueID <- GetUniqueID ;;
  let tempFile := temp_name uniqueID in
  saved <- SaveDTObjectA dtObject tempFile ;;
  if negb saved then
    errorCode <- IoErr_or ERROR_WRITE_PROTECTED ;;
    PrintFault errorCode "Clipboard: Failed to save object to temporary file" ;;;
    ret RETURN_FAIL
  else
  oc <- OpenClipboard unit ;;
  match oc with
  | None =>
      errorCode <- IoErr_or ERROR_OBJECT_NOT_FOUND ;;
      DeleteFile tempFile ;;;
      PrintFault errorCode "Clipboard: Could not open clipboard" ;;;
      ret RETURN_FAIL
  | Some clipHandle =>
  ofh <- Open_OLDFILE tempFile ;;
  match ofh with
  | None =>
      errorCode <- IoErr_or ERROR_OBJECT_NOT_FOUND ;;
      DeleteFile tempFile ;;;
      CloseClipboard clipHandle ;;;
      PrintFault errorCode "Clipboard: Could not open temporary file" ;;;
      ret RETURN_FAIL
  | Some tempFileHandle =>
      result <- copy_file_to_unit clipHandle tempFileHandle ;;
      Close tempFileHandle ;;;
      DeleteFile tempFile ;;;
      CloseClipboard clipHandle ;;;
      ret result
  end
  end.

(** [LONG CopyToClipboard(STRPTR fileName, ULONG unit)] *)
Definition CopyToClipboard (fileName : string) (unit : Z) : M Z :=
  if is_empty fileName then
    PrintFault ERROR_OBJECT_NOT_FOUND "Clipboard: No file specified" ;;;
    ret RETURN_FAIL
  else
  od <- NewDTObject_file fileName ;;
  match od with
  | None =>
      errorCode <- IoErr_or ERROR_OBJECT_NOT_FOUND ;;
      PrintFault errorCode "Clipboard: Could not create datatype object" ;;;
      ret RETURN_FAIL
  | Some dtObject =>
      match (if dto_isText dtObject then dto_text dtObject else None) with
      | Some textBuffer =>
          if 0 <? Zlen textBuffer then
            ok <- AllocMem ;;
            if ok : bool then
              CopyTextToClipboard fileName unit textBuffer (Zlen textBuffer)
            else copy_object dtObject unit
          else copy_object dtObject unit
      | None => copy_object dtObject unit
      end
  end.

(** The inner loop of the text extraction:
    [while ((bytesRead = ReadChunkBytes(iffh, readBuffer, bufferSize)) > 0)].
    It yields the last value of [bytesRead] and [result]; a failed write
    to the file leaves the inner loop only. *)
Fixpoint read_chunk_loop (fuel : nat) (iffh : IFFHandle) (outputFile : string)
  (result : Z) : M (Z * Z * IFFHandle) :=
  match fuel with
  | O => diverge ;;; ret (0, result, iffh)
  | S fuel' =>
      ' (bytesRead, readBuffer, iffh) <- ReadChunkBytes iffh 4096 ;;
      if 0 <? bytesRead then
        n <- Write outputFile readBuffer ;;
        if negb (n =? bytesRead) then
          e <- IoErr ;;
          PrintFault e "Clipboard: Error writing file" ;;;
          ret (bytesRead, RETURN_FAIL, iffh)
        else read_chunk_loop fuel' iffh outputFile result
      else ret (bytesRead, result, iffh)
  end.

Definition chunk_bound (iffh : IFFHandle) : nat :=
  match iff_Stack iffh with
  | [] => 1%nat
  | cn :: _ => S (Z.to_nat (cn_Size cn - cn_Scan cn))
  end.

(** The loop "Parse IFF and extract all CHRS chunks" of
    [PasteFromClipboard]. *)
Fixpoint paste_loop (fuel : nat) (iffh : IFFHandle) (outputFile : string)
  (result : Z) : M (Z * IFFHandle) :=
  match fuel with
  | O => diverge ;;; ret (result, iffh)
  | S fuel' =>
      ' (error, iffh) <- ParseIFF iffh ;;
      if error =? IFFERR_EOC then paste_loop fuel' iffh outputFile result
      else if negb (error =? 0) then
        if negb (error =? IFFERR_EOF) then
          PrintFault error "Clipboard: Error parsing clipboard" ;;;
          ret (RETURN_FAIL, iffh)
        else ret (RETURN_OK, iffh)
      else
        match CurrentChunk iffh with
        | Some cn =>
            if (cn_Type cn =? ID_FTXT) && (cn_ID cn =? ID_CHRS) then
              ' (bytesRead, result, iffh) <-
                read_chunk_loop (chunk_bound iffh) iffh outputFile result ;;
              if bytesRead <? 0 then
                PrintFault bytesRead "Clipboard: Error reading chunk" ;;;
                ret (RETURN_FAIL, iffh)
              else paste_loop fuel' iffh outputFile result
            else paste_loop fuel' iffh outputFile result
        | None => paste_loop fuel' iffh outputFile result
        end
  end.

(** The branch "It's FTXT" of [PasteFromClipboard]. *)
Definition paste_text (fileName : string) (clipHandle : ClipboardHandle)
  : M Z :=
  clipHandle <- CBReadDone clipHandle ;;
  oi <- AllocIFF ;;
  match oi with
  | None =>
      PrintFault ERROR_NO_FREE_STORE "Clipboard: Could not allocate IFF handle" ;;;
      CloseClipboard clipHandle ;;;
      ret RETURN_FAIL
  | Some iffh =>
  let iffh := InitIFFasClip clipHandle iffh in
  ' (error, iffh) <- OpenIFF iffh false ;;
  if negb (error =? 0) then
    PrintFault error "Clipboard: Could not open clipboard for reading" ;;;
    FreeIFF iffh ;;;
    CloseClipboard clipHandle ;;;
    ret RETURN_FAIL
  else
  ' (error, iffh) <- StopChunk iffh ID_FTXT ID_CHRS ;;
  if negb (error =? 0) then
    PrintFault error "Clipboard: Could not register IFF chunk" ;;;
    iffh <- CloseIFF iffh ;;
    FreeIFF iffh ;;;
    CloseClipboard clipHandle ;;;
    ret RETURN_FAIL
  else
  ofh <- Open_NEWFILE fileName ;;
  match ofh with
  | None =>
      errorCode <- IoErr ;;
      iffh <- CloseIFF iffh ;;
      FreeIFF iffh ;;;
      CloseClipboard clipHandle ;;;
      PrintFault errorCode "Clipboard: Could not open output file" ;;;
      ret RETURN_FAIL
  | Some outputFile =>
  ok <- AllocMem ;;
  if negb ok then
    PrintFault ERROR_NO_FREE_STORE "Clipboard: Could not allocate buffer" ;;;
    Close outputFile ;;;
    iffh <- CloseIFF iffh ;;
    FreeIFF iffh ;;;
    CloseClipboard clipHandle ;;;
    ret RETURN_FAIL
  else
  w <- get_world ;;
  ' (result, iffh) <- paste_loop (scan_bound w iffh) iffh outputFile RETURN_FAIL ;;
  Close outputFile ;;;
  iffh <- CloseIFF iffh ;;
  FreeIFF iffh ;;;
  CloseClipboard clipHandle ;;;
  ret result
  end
  end.

(** The branch "Not text - use datatypes API to save as IFF". *)
Definition paste_object (fileName : string) (clipHandle : ClipboardHandle)
  : M Z :=
  clipHandle <- CBReadDone clipHandle ;;
  oi <- AllocIFF ;;
  match oi with
  | None =>
      PrintFault ERROR_NO_FREE_STORE "Clipboard: Could not allocate IFF handle" ;;;
      CloseClipboard clipHandle ;;;
      ret RETURN_FAIL
  | Some iffh =>
  let iffh := InitIFFasClip clipHandle iffh in
  ' (error, iffh) <- OpenIFF iffh false ;;
  if negb (error =? 0) then
    PrintFault ERROR_OBJECT_NOT_FOUND
      "Clipboard: Could not open clipboard for reading" ;;;
    FreeIFF iffh ;;;
    CloseClipboard clipHandle ;;;
    ret RETURN_FAIL
  else
  od <- NewDTObject_clip (cbh_Unit clipHandle) ;;
  match od with
  | None =>
      errorCode <- IoErr_or ERROR_OBJECT_NOT_FOUND ;;
      PrintFault errorCode
        "Clipboard: Could not create datatype object from clipboard" ;;;
      iffh <- CloseIFF iffh ;;
      FreeIFF iffh ;;;
      CloseClipboard clipHandle ;;;
      ret RETURN_FAIL
  | Some dtObject =>
      saved <- SaveDTObjectA dtObject fileName ;;
      result <-
        (if saved : bool then ret RETURN_OK
         else
           errorCode <- IoErr_or ERROR_WRITE_PROTECTED ;;
           PrintFault errorCode "Clipboard: Failed to paste from clipboard" ;;;
           ret RETURN_FAIL) ;;
      (* DisposeDTObject: "it will cleanup IFF and clipboard handles" *)
      iffh <- CloseIFF iffh ;;
      CloseClipboard clipHandle ;;;
      ret result
  end
  end.

(** The test that decides between the two branches: the 12 bytes of the
    local [iffHeader] after the header read, of which only the first
    [io_Actual] were delivered by the device. *)
Definition header_is_text (ioreq : IOClipReq) (iffHeader : list Z) : bool :=
  (8 <=? io_Actual ioreq) && (ULONG_at iffHeader 0 =? ID_FORM) &&
  (ULONG_at iffHeader 8 =? MAKE_ID (chr "F") (chr "T") (chr "X") (chr "T")).

(** [LONG PasteFromClipboard(STRPTR fileName, ULONG unit, BOOL forceOverwrite)] *)
Definition PasteFromClipboard (fileName : string) (unit : Z)
  (forceOverwrite : bool) : M Z :=
  iffHeader <- uninitialised 12 ;;
  if is_empty fileName then
    PrintFault ERROR_OBJECT_NOT_FOUND "Clipboard: No file specified" ;;;
    ret RETURN_FAIL
  else
  testFile <- (if forceOverwrite then ret None else Open_OLDFILE fileName) ;;
  match testFile with
  | Some fh =>
      Close fh ;;;
      PrintFault ERROR_OBJECT_EXISTS
        "Clipboard: File already exists (use FORCE to overwrite)" ;;;
      ret RETURN_FAIL
  | None =>
  oc <- OpenClipboard unit ;;
  match oc with
  | None =>
      errorCode <- IoErr_or ERROR_OBJECT_NOT_FOUND ;;
      PrintFault errorCode "Clipboard: Could not open clipboard" ;;;
      ret RETURN_FAIL
  | Some clipHandle =>
      let ioreq := cbh_Req clipHandle in
      let ioreq := set_Offset 0 ioreq in
      let ioreq := set_ClipID 0 ioreq in
      let ioreq := set_Command CMD_READ ioreq in
      let ioreq := set_Length 12 ioreq in
      let ioreq := set_Data [] ioreq in
      ioreq <- DoIO unit ioreq ;;
      let iffHeader := overlay (io_Data ioreq) iffHeader in
      let clipHandle := with_req ioreq clipHandle in
      if header_is_text ioreq iffHeader then paste_text fileName clipHandle
      else paste_object fileName clipHandle
  end
  end.

(** A C string as [Printf("%.40s")] prints it: up to the first NUL, at most
    [n] characters. *)
Fixpoint until_NUL (buf : list Z) : list Z :=
  match buf with
  | [] => []
  | b :: rest => if b =? 0 then [] else b :: until_NUL rest
  end.

Definition printed (n : nat) (buf : list Z) : list Z :=
  firstn n (until_NUL buf).

(** A C string as [Printf("%-4s")] prints it: up to the first NUL, followed
    by spaces when that is less than [n] characters. *)
Definition left_justified (n : nat) (buf : list Z) : list Z :=
  let s := until_NUL buf in
  s ++ repeat 32 (n - List.length s).

(** The preview buffer after "Ensure null termination" and "Replace
    non-printable characters": the first [textLen] bytes are replaced, the
    byte after them is NUL. *)
Definition sanitize_buffer (textLen : Z) (textPreview : list Z) : list Z :=
  map sanitize_byte (firstn (Z.to_nat textLen) textPreview) ++
  0 :: skipn (S (Z.to_nat textLen)) textPreview.

(** The part of [ListClipboards] under "Parse to find CHRS chunk": the first
    stop of the scan, and up to 40 bytes of the chunk found there.  It
    yields [textPreview] (when kept) and [textLen]. *)
Definition preview_chunk (iffh : IFFHandle)
  : M (option (list Z) * Z * IFFHandle) :=
  ' (e, iffh) <- ParseIFF iffh ;;
  if e =? 0 then
    match CurrentChunk iffh with
    | Some cn =>
        if (cn_Type cn =? ID_FTXT) && (cn_ID cn =? ID_CHRS) then
          let previewSize := cn_Size cn in
          let previewSize := if 40 <? previewSize then 40 else previewSize in
          if 0 <? previewSize then
            let previewAllocSize := previewSize + 1 in
            ok <- AllocMem ;;
            if ok : bool then
              let textPreview := repeat 0 (Z.to_nat previewAllocSize) in
              ' (textLen, data, iffh) <- ReadChunkBytes iffh previewSize ;;
              let textPreview := overlay data textPreview in
              if 0 <? textLen then
                ret (Some (sanitize_buffer textLen textPreview), textLen, iffh)
              else ret (None, textLen, iffh)
            else ret (None, 0, iffh)
          else ret (None, 0, iffh)
        else ret (None, 0, iffh)
    | None => ret (None, 0, iffh)
    end
  else ret (None, 0, iffh).

(** The part of [ListClipboards] that reads the preview of an FTXT clip
    through iffparse.  It yields [textPreview], [textLen] and the clipboard
    handle as the library left it. *)
Definition list_preview (clipHandle : ClipboardHandle)
  : M (option (list Z) * Z * ClipboardHandle) :=
  oi <- AllocIFF ;;
  match oi with
  | None => ret (None, 0, clipHandle)
  | Some iffh =>
      let iffh := InitIFFasClip clipHandle iffh in
      ' (e, iffh) <- OpenIFF iffh false ;;
      if e =? 0 then
        ' (e, iffh) <- StopChunk iffh ID_FTXT ID_CHRS ;;
        ' (res, iffh) <-
          (if e =? 0 then preview_chunk iffh else ret (None, 0, iffh)) ;;
        iffh <- CloseIFF iffh ;;
        FreeIFF iffh ;;;
        ret (fst res, snd res, iff_Stream iffh)
      else
        FreeIFF iffh ;;;
        ret (None, 0, iff_Stream iffh)
  end.

(** The body of the loop of [ListClipboards] for one unit; it yields
    [hasContent]. *)
Definition ListClipboards_unit (unit : Z) : M bool :=
  cbuff <- uninitialised 16 ;;
  oc <- OpenClipboard unit ;;
  match oc with
  | None => ret false
  | Some clipHandle =>
      let ioreq := cbh_Req clipHandle in
      let ioreq := set_Offset 0 ioreq in
      let ioreq := set_Error 0 ioreq in
      let ioreq := set_ClipID 0 ioreq in
      let ioreq := set_Command CMD_READ ioreq in
      let ioreq := set_Data [] ioreq in
      let ioreq := set_Length 12 ioreq in
      ioreq <- DoIO unit ioreq ;;
      let cbuff := overlay (io_Data ioreq) cbuff in
      let clipHandle := with_req ioreq clipHandle in
      ' (hasContent, formType, formSize, textPreview, textLen, clipHandle) <-
        (if (io_Actual ioreq =? 12) && (io_Error ioreq =? 0) then
           if ULONG_at cbuff 0 =? ID_FORM then
             let formType := ULONG_at cbuff 8 in
             let formSize := ULONG_at cbuff 4 in
             ' (textPreview, textLen, clipHandle) <-
               (if formType =? ID_FTXT then list_preview clipHandle
                else ret (None, 0, clipHandle)) ;;
             clipHandle <- CBReadDone clipHandle ;;
             ret (true, formType, formSize, textPreview, textLen, clipHandle)
           else
             clipHandle <- CBReadDone clipHandle ;;
             ret (false, 0, 0, None, 0, clipHandle)
         else ret (false, 0, 0, None, 0, clipHandle)) ;;
      (if hasContent : bool then
         let typeStr := bytes_of_ULONG formType ++ [0] in
         let mappedUnit := FormIDToUnit formType in
         emit (OutRow (mkRow unit (left_justified 4 typeStr) formSize
                         mappedUnit
                         (match textPreview with
                          | Some buf =>
                              if 0 <? textLen then Some (printed 40 buf)
                              else None
                          | None => None
                          end)))
       else ret tt) ;;;
      CloseClipboard clipHandle ;;;
      ret hasContent
  end.

(** [for (unit = 0; unit <= 255; unit++)] *)
Fixpoint ListClipboards_loop (n : nat) (unit : Z) (unitsWithContent : Z)
  : M Z :=
  match n with
  | O => ret unitsWithContent
  | S n' =>
      hasContent <- ListClipboards_unit unit ;;
      ListClipboards_loop n' (unit + 1)
        (if hasContent : bool then unitsWithContent + 1 else unitsWithContent)
  end.

(** [LONG ListClipboards(VOID)] *)
Definition ListClipboards : M Z :=
  Printf "Current clipboard contents:" ;;;
  Printf "Unit  Type    Size    Preview (FTXT only)" ;;;
  Printf "----  ----    ----    -------------------" ;;;
  unitsWithContent <- ListClipboards_loop 256 0 0 ;;
  (if unitsWithContent =? 0 then Printf "No clipboard units contain data."
   else emit (OutTotal unitsWithContent)) ;;;
  ret RETURN_OK.

(** [LONG FlushClipboard(ULONG unit)] *)
Definition FlushClipboard (unit : Z) : M Z :=
  if 255 <? unit then
    PrintFault ERROR_BAD_NUMBER "Clipboard" ;;;
    ret RETURN_FAIL
  else
  oc <- OpenClipboard unit ;;
  match oc with
  | None =>
      errorCode <- IoErr_or ERROR_OBJECT_NOT_FOUND ;;
      PrintFault errorCode "Clipboard: Could not open clipboard" ;;;
      ret RETURN_FAIL
  | Some clipHandle =>
      let ioreq := cbh_Req clipHandle in
      let ioreq := set_Command CMD_WRITE ioreq in
      let ioreq := set_Data [] ioreq in
      let ioreq := set_Length 0 ioreq in
      let ioreq := set_Offset 0 ioreq in
      let ioreq := set_ClipID 0 ioreq in
      let ioreq := set_Error 0 ioreq in
      ioreq <- DoIO unit ioreq ;;
      result <-
        (if io_Error ioreq =? 0 then
           ioreq <- DoIO unit (set_Command CMD_UPDATE ioreq) ;;
           if io_Error ioreq =? 0 then ret RETURN_OK
           else
             PrintFault (io_Error ioreq) "Clipboard: Could not update clipboard" ;;;
             ret RETURN_FAIL
         else
           PrintFault (io_Error ioreq) "Clipboard: Could not clear clipboard" ;;;
           ret RETURN_FAIL) ;;
      CloseClipboard clipHandle ;;;
      ret result
  end.

(** [BOOL InitializeLibraries(VOID)]: intuition, utility, datatypes and
    iffparse are opened in this order; the first failure ends it. *)
Definition InitializeLibraries : M bool :=
  ok <- OpenLibrary ;;
  if negb ok then SetIoErr ERROR_INVALID_RESIDENT_LIBRARY ;;; ret false else
  ok <- OpenLibrary ;;
  if negb ok then SetIoErr ERROR_INVALID_RESIDENT_LIBRARY ;;; ret false else
  ok <- OpenLibrary ;;
  if negb ok then SetIoErr ERROR_INVALID_RESIDENT_LIBRARY ;;; ret false else
  ok <- OpenLibrary ;;
  if negb ok then SetIoErr ERROR_INVALID_RESIDENT_LIBRARY ;;; ret false else
  ret true.

Definition Cleanup : M unit := ret tt.

Definition ShowUsage : M unit :=
  Printf "Clipboard - Universal clipboard and file converter".

(** What [ReadArgs] stores in [args] for the template
    [FROM=COPY/K,TO=PASTE/K,CLIPUNIT/K/N,LIST/S,FLUSH/S,FORCE/S].
    [arg_unit] is the number given for CLIPUNIT, which may be negative;
    [main] reads the cell as a [ULONG]. *)
Record Args : Type := mkArgs {
  arg_copy : option string;
  arg_paste : option string;
  arg_unit : option Z;
  arg_list : bool;
  arg_flush : bool;
  arg_force : bool
}.

(** The block "Perform the requested operation(s)" of [main];
    [result] is [RETURN_FAIL] on entry. *)
Definition perform (copyFile pasteFile : option string) (unit : Z)
  (forceOverwrite : bool) : M Z :=
  let result := RETURN_FAIL in
  result <-
    match copyFile with
    | Some name =>
        result <- CopyToClipboard name unit ;;
        ret (if negb (result =? RETURN_OK) &&
                match pasteFile with Some _ => true | None => false end
             then RETURN_FAIL else result)
    | None => ret result
    end ;;
  match pasteFile with
  | Some name =>
      pasteResult <- PasteFromClipboard name unit forceOverwrite ;;
      ret (if negb (pasteResult =? RETURN_OK) then pasteResult else result)
  | None => ret result
  end.

(** [int main(int argc, char *argv[])]; [rda] is what [ReadArgs] makes of
    the command line, [None] when it rejects it. *)
Definition main (argc : Z) (rda : option Args) : M Z :=
  if argc =? 0 then ret RETURN_FAIL else
  ok <- InitializeLibraries ;;
  if negb ok then
    errorCode <- IoErr_or ERROR_INVALID_RESIDENT_LIBRARY ;;
    PrintFault errorCode "Clipboard" ;;;
    ret RETURN_FAIL
  else
  match rda with
  | None =>
      ShowUsage ;;; Cleanup ;;; ret RETURN_FAIL
  | Some args =>
      let copyFile := arg_copy args in
      let pasteFile := arg_paste args in
      let unit :=
        match arg_unit args with Some u => wrap32 u | None => 0 end in
      let listMode := arg_list args in
      let flushMode := arg_flush args in
      let forceOverwrite := arg_force args in
      if 255 <? unit then
        PrintFault ERROR_BAD_NUMBER "Clipboard" ;;;
        Cleanup ;;; ret RETURN_FAIL
      else if match copyFile, pasteFile with
              | None, None => negb listMode && negb flushMode
              | _, _ => false
              end then
        ShowUsage ;;; Cleanup ;;; ret RETURN_FAIL
      else if listMode then
        result <- ListClipboards ;; Cleanup ;;; ret result
      else if flushMode then
        result <- FlushClipboard unit ;; Cleanup ;;; ret result
      else
        result <- perform copyFile pasteFile unit forceOverwrite ;;
        Cleanup ;;; ret result
  end.

(** ** Concrete worlds used by the examples *)

Definition unit_empty : ClipUnit := mkUnit [] [] 0.

(** A machine with 256 empty units, no files, a cooperative environment
    and a converter that recognises nothing. *)
Definition world0 : World :=
  mkWorld (fun _ => unit_empty) (fun _ => None) [] [] (fun _ => NoFault)
          0%nat 0 0 (fun _ => None) (fun _ => None) false [].

Definition with_clip (u : Z) (c : list Z) (w : World) : World :=
  snd (set_units (upd (w_units w) u (mkUnit c [] 0)) w).

Definition with_file (name : string) (c : list Z) (w : World) : World :=
  snd (set_files (upd_file (w_files w) name (Some c)) w).

Definition with_faults (f : nat -> Fault) (w : World) : World :=
  mkWorld (w_units w) (w_files w) (w_trace w) (w_out w) f (w_tick w)
          (w_ioerr w) (w_uid w) (w_dt_file w) (w_dt_clip w) (w_diverged w)
          (w_junk w).

Definition with_junk (j : list Z) (w : World) : World :=
  mkWorld (w_units w) (w_files w) (w_trace w) (w_out w) (w_faults w)
          (w_tick w) (w_ioerr w) (w_uid w) (w_dt_file w) (w_dt_clip w)
          (w_diverged w) j.

Definition with_dt_file (f : list Z -> option DTObject) (w : World) : World :=
  mkWorld (w_units w) (w_files w) (w_trace w) (w_out w) (w_faults w)
          (w_tick w) (w_ioerr w) (w_uid w) f (w_dt_clip w) (w_diverged w)
          (w_junk w).

(** The wire format of the specification: a chunk is its identifier, its
    size, its payload and a pad byte after an odd payload; a FORM wraps
    its type and its chunks. *)
Definition chunk (id : Z) (payload : list Z) : list Z :=
  bytes_of_ULONG id ++ bytes_of_ULONG (Zlen payload) ++ payload ++
  repeat 0 (Z.to_nat (pad (Zlen payload))).

Definition chunks (cs : list (Z * list Z)) : list Z :=
  List.concat (map (fun c => chunk (fst c) (snd c)) cs).

Definition form (type : Z) (body : list Z) : list Z :=
  bytes_of_ULONG ID_FORM ++ bytes_of_ULONG (4 + Zlen body) ++
  bytes_of_ULONG type ++ body.

(** The payloads of the chunks with identifier [id], in stream order. *)
Definition payloads_of (id : Z) (cs : list (Z * list Z)) : list Z :=
  List.concat (map (fun c => if fst c =? id then snd c else []) cs).

(** The events of a trace that concern unit [u]. *)
Definition event_unit (e : DevEvent) : Z :=
  match e with
  | EvOpen u => u
  | EvRead u _ _ _ => u
  | EvWrite u _ _ _ _ => u
  | EvUpdate u _ => u
  | EvClose u => u
  end.

Definition events_of (u : Z) (t : list DevEvent) : list DevEvent :=
  filter (fun e => event_unit e =? u) t.

(** A read session is drained when the last read before every close
    delivered no bytes.  [last] is the [io_Actual] of the last read since
    the unit was opened. *)
Fixpoint drained_from (last : option Z) (t : list DevEvent) : bool :=
  match t with
  | [] => true
  | EvOpen _ :: t' => drained_from None t'
  | EvRead _ _ actual _ :: t' => drained_from (Some actual) t'
  | EvClose _ :: t' =>
      match last with
      | Some a => (a =? 0) && drained_from None t'
      | None => drained_from None t'
      end
  | _ :: t' => drained_from last t'
  end.

Definition drained (u : Z) (t : list DevEvent) : bool :=
  drained_from None (events_of u t).

Definition read_only (e : DevEvent) : Prop :=
  match e with
  | EvWrite _ _ _ _ _ => False
  | EvUpdate _ _ => False
  | _ => True
  end.

Definition is_fault (o : Output) : bool :=
  match o with
  | OutFault _ _ => true
  | _ => false
  end.

Definition rows_of (out : list Output) : list ListRow :=
  flat_map (fun o => match o with OutRow r => [r] | _ => [] end) out.

(** * Verification *)

Unset Implicit Arguments.

(** ** The unit router *)

Lemma mod255_range (h : Z) : 1 <= h mod 255 + 1 <= 255.
Proof.
  pose proof (Z.mod_pos_bound h 255 ltac:(lia)). lia.
Qed.

(** C2.  The unit router is a total function of the form identifier: every
    identifier, in particular each of the 2^32 four-byte tags, is mapped to
    a unit between 1 and 255, never to 0, and two calls on the same
    identifier give the same unit.  This holds for the router of
    [Source/clipboard.c] and for the router of the earlier revision. *)
Theorem C2_FormIDToUnit_range_deterministic :
  forall formID : Z,
    (1 <= FormIDToUnit formID <= 255) /\
    (1 <= FormIDToUnit_v10 formID <= 255) /\
    (forall formID' : Z, formID' = formID ->
       FormIDToUnit formID' = FormIDToUnit formID /\
       FormIDToUnit_v10 formID' = FormIDToUnit_v10 formID).
Proof.
  intro formID. repeat split.
  - unfold FormIDToUnit. cbv zeta. apply mod255_range.
  - unfold FormIDToUnit. cbv zeta. apply mod255_range.
  - unfold FormIDToUnit_v10. cbv zeta. apply mod255_range.
  - unfold FormIDToUnit_v10. cbv zeta. apply mod255_range.
  - subst. reflexivity.
  - subst. reflexivity.
Qed.

Example FormIDToUnit_FTXT : FormIDToUnit ID_FTXT = 18.
Proof. reflexivity. Qed.

Example FormIDToUnit_v10_FTXT : FormIDToUnit_v10 ID_FTXT = 252.
Proof. reflexivity. Qed.

(** ** A program logic for the state monad *)

Definition hoare (A : Type) (P : World -> Prop) (m : M A)
  (Q : A -> World -> Prop) : Prop :=
  forall w, P w -> Q (fst (m w)) (snd (m w)).

Arguments hoare {A} P m Q.

Lemma bind_run (A B : Type) (m : M A) (k : A -> M B) (w : World) :
  bind m k w = k (fst (m w)) (snd (m w)).
Proof. unfold bind. destruct (m w). reflexivity. Qed.

Lemma hoare_bind (A B : Type) (P : World -> Prop) (m : M A)
  (Q : A -> World -> Prop) (k : A -> M B) (R : B -> World -> Prop) :
  hoare P m Q -> (forall a, hoare (Q a) (k a) R) -> hoare P (bind m k) R.
Proof.
  intros Hm Hk w Hw. rewrite bind_run. apply Hk, Hm, Hw.
Qed.

Lemma hoare_ret (A : Type) (P : World -> Prop) (a : A)
  (Q : A -> World -> Prop) :
  (forall w, P w -> Q a w) -> hoare P (ret a) Q.
Proof. intros H w Hw. apply H, Hw. Qed.

Lemma hoare_post (A : Type) (P : World -> Prop) (m : M A)
  (Q Q' : A -> World -> Prop) :
  hoare P m Q -> (forall a w, Q a w -> Q' a w) -> hoare P m Q'.
Proof. intros H HQ w Hw. apply HQ, H, Hw. Qed.

Lemma hoare_pre (A : Type) (P P' : World -> Prop) (m : M A)
  (Q : A -> World -> Prop) :
  hoare P' m Q -> (forall w, P w -> P' w) -> hoare P m Q.
Proof. intros H HP w Hw. apply H, HP, Hw. Qed.

(** A fact that does not depend on the world moves out of the
    precondition. *)
Lemma hoare_pure (A : Type) (P : World -> Prop) (F : Prop) (m : M A)
  (Q : A -> World -> Prop) :
  (F -> hoare P m Q) -> hoare (fun w => P w /\ F) m Q.
Proof. intros H w [Hw HF]. apply (H HF), Hw. Qed.

(** What an operation that only reads leaves as it was: the clip of every
    unit, the files, the output, the converter, the decisions of the
    environment and the divergence flag; the trace grows by events that
    are no writes. *)
Record frame (w0 w : World) : Prop := mkFrame {
  fr_clip : forall u, cu_clip (w_units w u) = cu_clip (w_units w0 u);
  fr_files : w_files w = w_files w0;
  fr_out : w_out w = w_out w0;
  fr_dt_clip : w_dt_clip w = w_dt_clip w0;
  fr_faults : w_faults w = w_faults w0;
  fr_junk : w_junk w = w_junk w0;
  fr_div : w_diverged w = w_diverged w0;
  fr_trace : exists t, w_trace w = w_trace w0 ++ t /\ Forall read_only t
}.

Lemma frame_refl (w : World) : frame w w.
Proof.
  constructor; try reflexivity. exists []. split.
  - now rewrite app_nil_r.
  - constructor.
Qed.

Lemma frame_trans (w0 w1 w2 : World) :
  frame w0 w1 -> frame w1 w2 -> frame w0 w2.
Proof.
  intros [c1 f1 p1 d1 o1 j1 v1 [t1 [e1 r1]]] [c2 f2 p2 d2 o2 j2 v2 [t2 [e2 r2]]].
  constructor; [ | congruence | congruence | congruence | congruence
               | congruence | congruence | ].
  - intro u. rewrite c2. apply c1.
  - exists (t1 ++ t2). split.
    + rewrite e2, e1, app_assoc. reflexivity.
    + apply Forall_app. split; assumption.
Qed.

(** [framed m]: [m] only reads. *)
Definition framed (A : Type) (m : M A) : Prop :=
  forall w0, hoare (frame w0) m (fun _ w => frame w0 w).

Arguments framed {A} m.

Lemma framed_step (A : Type) (m : M A) :
  (forall w, frame w (snd (m w))) -> framed m.
Proof.
  intros H w0 w Hw. eapply frame_trans; [exact Hw | apply H].
Qed.

Lemma framed_ret (A : Type) (a : A) : framed (ret a).
Proof. intros w0 w Hw. exact Hw. Qed.

Lemma framed_bind (A B : Type) (m : M A) (k : A -> M B) :
  framed m -> (forall a, framed (k a)) -> framed (bind m k).
Proof.
  intros Hm Hk w0. eapply hoare_bind; [apply Hm | intro a; apply Hk].
Qed.

Lemma trace_same (w : World) :
  exists t, w_trace w = w_trace w ++ t /\ Forall read_only t.
Proof. exists []. split; [now rewrite app_nil_r | constructor]. Qed.

Lemma framed_get_world : framed get_world.
Proof. apply framed_step. intro w. apply frame_refl. Qed.

Lemma framed_fault : framed fault.
Proof.
  apply framed_step. intro w. constructor; try reflexivity. exact (trace_same w).
Qed.

Lemma framed_SetIoErr (e : Z) : framed (SetIoErr e).
Proof.
  apply framed_step. intro w. constructor; try reflexivity. exact (trace_same w).
Qed.

Lemma framed_IoErr : framed IoErr.
Proof. apply framed_step. intro w. apply frame_refl. Qed.

Lemma framed_log (e : DevEvent) : read_only e -> framed (log e).
Proof.
  intro He. apply framed_step. intro w. constructor; try reflexivity.
  exists [e]. split; [reflexivity | constructor; [exact He | constructor]].
Qed.

Create HintDb framed.

#[local] Hint Resolve framed_ret framed_get_world framed_fault framed_SetIoErr
  framed_IoErr : framed.

(** Symbolic execution of a monadic term in a goal [framed _]. *)
Ltac framed_step_tac :=
  match goal with
  | |- framed (bind _ _) => apply framed_bind; [ | intro ]
  | |- framed (ret _) => apply framed_ret
  | |- framed (if ?b then _ else _) => destruct b
  | |- framed (match ?x with _ => _ end) => destruct x
  | |- framed (log _) => apply framed_log; exact I
  | |- framed _ => solve [auto with framed]
  end.

Ltac framed_tac := repeat framed_step_tac.

Lemma framed_fallible : framed fallible.
Proof. unfold fallible. framed_tac. Qed.

Lemma framed_uninitialised (n : nat) : framed (uninitialised n).
Proof. unfold uninitialised. framed_tac. Qed.

#[local] Hint Resolve framed_fallible framed_uninitialised : framed.

Lemma framed_DoIO_read (u : Z) (r : IOClipReq) : framed (DoIO_read u r).
Proof. unfold DoIO_read. framed_tac. Qed.

Lemma framed_OpenClipboard (u : Z) : framed (OpenClipboard u).
Proof. unfold OpenClipboard. framed_tac. Qed.

Lemma framed_CloseClipboard (h : ClipboardHandle) : framed (CloseClipboard h).
Proof.
  apply framed_step. intro w. unfold CloseClipboard.
  rewrite !bind_run. cbn.
  constructor; try reflexivity.
  - intro u. cbn. unfold upd. destruct (u =? cbh_Unit h) eqn:E.
    + apply Z.eqb_eq in E. subst. reflexivity.
    + reflexivity.
  - exists [EvClose (cbh_Unit h)]. split; [reflexivity | repeat constructor].
Qed.

#[local] Hint Resolve framed_DoIO_read framed_OpenClipboard
  framed_CloseClipboard : framed.

(** ** The device when it reads *)

(** The request [r'] with which the device completes the read [r] of a
    clip: nothing was delivered, or the bytes at the offset were. *)
Definition read_result (clip : list Z) (r r' : IOClipReq) : Prop :=
  io_Command r' = io_Command r /\ io_Length r' = io_Length r /\
  ((io_Actual r' = 0 /\ io_Data r' = [] /\ io_Offset r' = io_Offset r) \/
   (io_Error r' = 0 /\
    io_Data r' = firstn (Z.to_nat (io_Length r))
                        (skipn (Z.to_nat (io_Offset r)) clip) /\
    io_Actual r' = Zlen (io_Data r') /\
    io_Offset r' = io_Offset r + Zlen (io_Data r'))).

Lemma DoIO_is_read (u : Z) (r : IOClipReq) :
  io_Command r = CMD_READ -> DoIO u r = DoIO_read u r.
Proof. intro H. unfold DoIO. rewrite H. reflexivity. Qed.

Lemma DoIO_read_spec (u : Z) (r : IOClipReq) (w0 : World) :
  hoare (frame w0) (DoIO_read u r)
        (fun r' w => frame w0 w /\ read_result (cu_clip (w_units w0 u)) r r').
Proof.
  intros w Hw. split; [apply framed_DoIO_read; exact Hw | ].
  unfold DoIO_read. rewrite bind_run. cbn.
  destruct (w_faults w (w_tick w)); cbn; unfold read_result; cbn;
    rewrite <- ?(fr_clip _ _ Hw u); auto 10.
Qed.

Lemma Zlen_nonneg (A : Type) (l : list A) : 0 <= Zlen l.
Proof. unfold Zlen. lia. Qed.

Lemma Zlen_app (A : Type) (l l' : list A) : Zlen (l ++ l') = Zlen l + Zlen l'.
Proof. unfold Zlen. rewrite length_app. lia. Qed.

Lemma Zlen_firstn_le (A : Type) (n : nat) (l : list A) :
  Zlen (firstn n l) <= Z.of_nat n.
Proof. unfold Zlen. pose proof (firstn_le_length n l). lia. Qed.

Lemma Zlen_window (A : Type) (n k : nat) (l : list A) :
  0 < Zlen (firstn n (skipn k l)) ->
  Z.of_nat k + Zlen (firstn n (skipn k l)) <= Zlen l.
Proof.
  unfold Zlen. rewrite length_firstn, length_skipn. lia.
Qed.

(** A read that delivers bytes moves the offset forward and stays inside
    the clip. *)
Lemma read_progress (clip : list Z) (r r' : IOClipReq) :
  read_result clip r r' -> io_Actual r' <> 0 ->
  io_Offset r < io_Offset r' /\ io_Offset r' <= Zlen clip - Z.min 0 (io_Offset r) /\
  io_Offset r < Zlen clip.
Proof.
  intros (_ & _ & [(Ha & _) | (_ & Hd & Ha & Ho)]) Hn; [contradiction | ].
  pose proof (Zlen_nonneg _ (io_Data r')) as Hpos.
  assert (0 < Zlen (io_Data r')) as Hlt by lia.
  rewrite Hd in Hlt. apply Zlen_window in Hlt. rewrite <- Hd in Hlt.
  lia.
Qed.

(** The drain loop only reads, and its bound is never used up. *)
Lemma CBReadDone_loop_framed (fuel : nat) :
  forall (u : Z) (r : IOClipReq) (w0 : World),
    io_Command r = CMD_READ ->
    (Z.to_nat (Zlen (cu_clip (w_units w0 u)) - io_Offset r) < fuel)%nat ->
    hoare (frame w0) (CBReadDone_loop fuel u r) (fun _ w => frame w0 w).
Proof.
  induction fuel as [ | fuel IH]; intros u r w0 Hc Hm; [lia | ].
  cbn [CBReadDone_loop]. rewrite (DoIO_is_read u r Hc).
  eapply hoare_bind; [apply DoIO_read_spec | ].
  intro r'. apply hoare_pure. intro Hr.
  destruct ((io_Actual r' =? 0) || negb (io_Error r' =? 0)) eqn:E.
  - apply hoare_ret. auto.
  - apply orb_false_iff in E. destruct E as [E _]. apply Z.eqb_neq in E.
    apply IH.
    + destruct Hr as (Hc' & _). congruence.
    + pose proof (read_progress _ _ _ Hr E). lia.
Qed.

Lemma hoare_get_world (P : World -> Prop) :
  hoare P get_world (fun a w => P w /\ a = w).
Proof. intros w Hw. cbn. auto. Qed.

(** Reading the world: what follows may use any fact the frame gives
    about it. *)
Lemma frame_get (B : Type) (w0 : World) (k : World -> M B)
  (Q : B -> World -> Prop) :
  (forall w1, frame w0 w1 -> hoare (frame w0) (k w1) Q) ->
  hoare (frame w0) (bind get_world k) Q.
Proof.
  intros H w Hw. rewrite bind_run. cbn. apply (H w Hw), Hw.
Qed.

Lemma framed_CBReadDone (h : ClipboardHandle) : framed (CBReadDone h).
Proof.
  intro w0. unfold CBReadDone. apply frame_get. intros w1 Hw1.
  eapply hoare_bind.
  - apply CBReadDone_loop_framed; [reflexivity | ].
    unfold drain_bound. rewrite (fr_clip _ _ Hw1). lia.
  - intro r. apply hoare_ret. auto.
Qed.

#[local] Hint Resolve framed_CBReadDone : framed.

Lemma read_window (clip : list Z) (r r' : IOClipReq) :
  read_result clip r r' -> io_Actual r' <> 0 ->
  0 < io_Actual r' /\ Z.max 0 (io_Offset r) + io_Actual r' <= Zlen clip /\
  io_Offset r' = io_Offset r + io_Actual r'.
Proof.
  intros (_ & _ & [(Ha & _) | (_ & Hd & Ha & Ho)]) Hn; [contradiction | ].
  pose proof (Zlen_nonneg _ (io_Data r')) as Hpos.
  assert (0 < Zlen (io_Data r')) as Hlt by lia.
  rewrite Hd in Hlt. apply Zlen_window in Hlt. rewrite <- Hd in Hlt.
  lia.
Qed.

(** ** The reader of iffparse.library only reads *)

Definition same_handle (i i' : IFFHandle) : Prop :=
  cbh_Unit (iff_Stream i') = cbh_Unit (iff_Stream i) /\
  iff_Stop i' = iff_Stop i /\ iff_Write i' = iff_Write i.

Lemma same_handle_refl (i : IFFHandle) : same_handle i i.
Proof. repeat split. Qed.

Lemma same_handle_trans (i1 i2 i3 : IFFHandle) :
  same_handle i1 i2 -> same_handle i2 i3 -> same_handle i1 i3.
Proof. unfold same_handle. intuition congruence. Qed.

(** The clip behind the stream of a handle. *)
Definition clip_of (w : World) (i : IFFHandle) : list Z :=
  cu_clip (w_units w (cbh_Unit (iff_Stream i))).

Definition stream_post (clip : list Z) (n : Z) (i : IFFHandle)
  (x : list Z * Z * IFFHandle) : Prop :=
  same_handle i (snd x) /\ iff_Stack (snd x) = iff_Stack i /\
  ((fst (fst x) = [] /\ stream_offset (snd x) = stream_offset i) \/
   (snd (fst x) = 0 /\
    fst (fst x) = firstn (Z.to_nat n) (skipn (Z.to_nat (stream_offset i)) clip) /\
    stream_offset (snd x) = stream_offset i + Zlen (fst (fst x)))).

Lemma stream_read_spec (n : Z) (i : IFFHandle) (w0 : World) :
  hoare (frame w0) (stream_read n i)
        (fun x w => frame w0 w /\ stream_post (clip_of w0 i) n i x).
Proof.
  unfold stream_read. eapply hoare_bind.
  - rewrite DoIO_is_read by reflexivity. apply DoIO_read_spec.
  - intro r. apply hoare_pure. intros (_ & _ & Hr). apply hoare_ret.
    intros w Hw. split; [exact Hw | ].
    unfold stream_post, same_handle, stream_offset. cbn.
    repeat split. destruct Hr as [(Ha & Hd & Ho) | (He & Hd & Ha & Ho)]; auto.
Qed.

(** The measure that bounds a scan. *)
Definition mu (w0 : World) (i : IFFHandle) : nat :=
  (Z.to_nat (Zlen (clip_of w0 i) - stream_offset i)
   + List.length (iff_Stack i))%nat.

Definition entered (w0 : World) (i : IFFHandle) (x : Z * IFFHandle) : Prop :=
  same_handle i (snd x) /\
  (fst x = 0 -> (mu w0 (snd x) < mu w0 i)%nat).

Lemma mu_push (w0 : World) (i i' : IFFHandle) (cn : ContextNode) (d : Z) :
  same_handle i i' ->
  8 <= d -> Z.max 0 (stream_offset i) + 8 <= Zlen (clip_of w0 i) ->
  stream_offset i + d <= stream_offset i' ->
  iff_Stack i' = cn :: iff_Stack i ->
  (mu w0 i' < mu w0 i)%nat.
Proof.
  intros (Hu & _) Hd Hw Ho Hs. unfold mu, clip_of in *. rewrite Hu, Hs. cbn.
  lia.
Qed.

Lemma next_chunk_spec (i : IFFHandle) (w0 : World) :
  hoare (frame w0) (next_chunk i)
        (fun x w => frame w0 w /\ entered w0 i x).
Proof.
  unfold next_chunk. eapply hoare_bind; [apply stream_read_spec | ].
  intros [[d1 e1] i1]. apply hoare_pure. intros (Hs1 & Hst1 & Hr1). cbn in *.
  assert (forall e, e <> 0 -> forall w, frame w0 w ->
            frame w0 w /\ entered w0 i (e, i1)) as Hfail.
  { intros e He w Hw. split; [exact Hw | ]. split; [exact Hs1 | ].
    cbn. intro. contradiction. }
  destruct (negb (e1 =? 0)) eqn:E1; [apply hoare_ret, Hfail; discriminate | ].
  destruct (Zlen d1 =? 0) eqn:E2.
  { apply hoare_ret. destruct (iff_Stack i1); apply Hfail; discriminate. }
  destruct (Zlen d1 <? 8) eqn:E3; [apply hoare_ret, Hfail; discriminate | ].
  destruct (to_LONG (ULONG_at d1 4) <? 0) eqn:E4;
    [apply hoare_ret, Hfail; discriminate | ].
  apply Z.eqb_neq in E2. apply Z.ltb_ge in E3.
  destruct Hr1 as [(Hd & _) | (_ & Hd & Ho)];
    [rewrite Hd in E2; contradiction | ].
  assert (Z.max 0 (stream_offset i) + 8 <= Zlen (clip_of w0 i)) as Hwin.
  { assert (0 < Zlen d1) as Hpos by lia.
    rewrite Hd in Hpos. apply Zlen_window in Hpos. rewrite <- Hd in Hpos.
    lia. }
  destruct (is_group (ULONG_at d1 0)).
  - eapply hoare_bind; [apply stream_read_spec | ].
    intros [[d2 e2] i2]. apply hoare_pure. intros (Hs2 & Hst2 & Hr2). cbn in *.
    assert (same_handle i i2) as Hs by (eapply same_handle_trans; eauto).
    assert (forall e, e <> 0 -> forall w, frame w0 w ->
              frame w0 w /\ entered w0 i (e, i2)) as Hfail2.
    { intros e He w Hw. split; [exact Hw | ]. split; [exact Hs | ].
      cbn. intro. contradiction. }
    destruct (negb (e2 =? 0)); [apply hoare_ret, Hfail2; discriminate | ].
    destruct (Zlen d2 <? 4); [apply hoare_ret, Hfail2; discriminate | ].
    apply hoare_ret. intros w Hw. split; [exact Hw | ].
    split; [exact Hs | ]. cbn. intros _.
    eapply mu_push with (d := 8); [exact Hs | lia | exact Hwin | | ].
    + unfold stream_offset in *. cbn.
      pose proof (Zlen_nonneg _ d2).
      destruct Hr2 as [(_ & Ho2) | (_ & _ & Ho2)]; lia.
    + cbn. rewrite Hst2, Hst1. reflexivity.
  - apply hoare_ret. intros w Hw. split; [exact Hw | ].
    split; [exact Hs1 | ]. cbn. intros _.
    eapply mu_push with (d := 8); [exact Hs1 | lia | exact Hwin | | ].
    + unfold stream_offset in *. cbn. lia.
    + cbn. rewrite Hst1. reflexivity.
Qed.

Lemma pop_read_same (i : IFFHandle) : same_handle i (pop_read i).
Proof.
  unfold pop_read. destruct (iff_Stack i); repeat split.
Qed.

Lemma pad_nonneg (n : Z) : 0 <= pad n.
Proof. unfold pad. destruct (Z.odd n); lia. Qed.

Lemma length_add_scan (d : Z) (st : list ContextNode) :
  List.length (add_scan d st) = List.length st.
Proof. destruct st; reflexivity. Qed.

Lemma mu_pop (w0 : World) (i : IFFHandle) :
  iff_Stack i <> [] -> (mu w0 (pop_read i) < mu w0 i)%nat.
Proof.
  intro Hne. unfold mu, pop_read, clip_of, stream_offset.
  destruct (iff_Stack i) as [ | top rest]; [contradiction | ].
  cbn [iff_Stack iff_Stream set_stack stream_seek set_stream with_req cbh_Unit
       cbh_Req io_Offset set_Offset List.length].
  rewrite length_add_scan.
  pose proof (pad_nonneg (cn_Size top)). lia.
Qed.

(** A scan only reads and never uses up a bound above the measure. *)
Lemma ParseIFF_scan_spec (fuel : nat) :
  forall (i : IFFHandle) (w0 : World),
    (mu w0 i < fuel)%nat ->
    hoare (frame w0) (ParseIFF_scan fuel i)
          (fun x w => frame w0 w /\ same_handle i (snd x)).
Proof.
  induction fuel as [ | fuel IH]; intros i w0 Hm; [lia | ].
  cbn [ParseIFF_scan].
  assert (hoare (frame w0)
            (bind (next_chunk i) (fun x =>
               match x with
               | (e, iffh1) =>
                   if negb (e =? 0) then ret (e, iffh1)
                   else match iff_Stack iffh1 with
                        | cn :: _ =>
                            if is_stop iffh1 cn then ret (0, iffh1)
                            else ParseIFF_scan fuel iffh1
                        | [] => ret (0, iffh1)
                        end
               end))
            (fun x w => frame w0 w /\ same_handle i (snd x))) as Henter.
  { eapply hoare_bind; [apply next_chunk_spec | ].
    intros [e i1]. apply hoare_pure. intros (Hs & Hmu). cbn in *.
    destruct (negb (e =? 0)) eqn:E; [apply hoare_ret; auto | ].
    apply negb_false_iff, Z.eqb_eq in E. specialize (Hmu E).
    destruct (iff_Stack i1) as [ | cn st] eqn:Est; [apply hoare_ret; auto | ].
    destruct (is_stop i1 cn); [apply hoare_ret; auto | ].
    eapply hoare_post; [apply IH; lia | ].
    intros x w (Hw & Hs'). split; [exact Hw | ].
    eapply same_handle_trans; eauto. }
  destruct (iff_Stack i) as [ | top rest] eqn:Est; [exact Henter | ].
  destruct (is_group (cn_ID top)).
  - destruct (cn_Size top <=? cn_Scan top); [ | exact Henter].
    apply hoare_ret. intros w Hw. split; [exact Hw | apply pop_read_same].
  - assert (mu w0 (pop_read i) < mu w0 i)%nat as Hpop
        by (apply mu_pop; rewrite Est; discriminate).
    eapply hoare_post; [apply IH; lia | ].
    intros x w (Hw & Hs'). split; [exact Hw | ].
    eapply same_handle_trans; [apply pop_read_same | exact Hs'].
Qed.

Lemma ParseIFF_spec (i : IFFHandle) (w0 : World) :
  hoare (frame w0) (ParseIFF i)
        (fun x w => frame w0 w /\ same_handle i (snd x)).
Proof.
  unfold ParseIFF. apply frame_get. intros w1 Hw1.
  apply ParseIFF_scan_spec. unfold scan_bound, mu, clip_of.
  rewrite (fr_clip _ _ Hw1). lia.
Qed.

Lemma framed_AllocIFF : framed AllocIFF.
Proof. unfold AllocIFF. framed_tac. Qed.

Lemma framed_AllocMem : framed AllocMem.
Proof. unfold AllocMem. framed_tac. Qed.

Lemma framed_FreeIFF (i : IFFHandle) : framed (FreeIFF i).
Proof. apply framed_ret. Qed.

Lemma framed_Close (fh : string) : framed (Close fh).
Proof. apply framed_ret. Qed.

Lemma framed_IoErr_or (d : Z) : framed (IoErr_or d).
Proof. unfold IoErr_or. framed_tac. Qed.

Lemma framed_Open_OLDFILE (name : string) : framed (Open_OLDFILE name).
Proof. unfold Open_OLDFILE. framed_tac. Qed.

#[local] Hint Resolve framed_AllocIFF framed_AllocMem framed_FreeIFF
  framed_Close framed_IoErr_or framed_Open_OLDFILE : framed.

Lemma AllocIFF_spec (w0 : World) :
  hoare (frame w0) AllocIFF
        (fun o w => frame w0 w /\
                    forall i, o = Some i -> iff_Write i = false).
Proof.
  intros w Hw. split; [apply framed_AllocIFF; exact Hw | ].
  unfold AllocIFF. intros i Hi. rewrite bind_run in Hi.
  destruct (fst (fallible w) =? 0); cbn in Hi; inversion Hi; reflexivity.
Qed.

Lemma OpenIFF_spec (i : IFFHandle) (wr : bool) (w0 : World) :
  hoare (frame w0) (OpenIFF i wr)
        (fun x w => frame w0 w /\
                    cbh_Unit (iff_Stream (snd x)) = cbh_Unit (iff_Stream i) /\
                    (fst x = 0 -> iff_Write (snd x) = wr)).
Proof.
  unfold OpenIFF. eapply hoare_bind; [apply framed_fallible | ].
  intro e. cbn beta. destruct (e =? 0) eqn:E; apply hoare_ret; cbn; auto.
  intros w Hw. split; [exact Hw | split; [reflexivity | ]].
  intro He. apply Z.eqb_neq in E. exfalso. apply E. exact He.
Qed.

Lemma StopChunk_spec (i : IFFHandle) (type id : Z) (w0 : World) :
  hoare (frame w0) (StopChunk i type id)
        (fun x w => frame w0 w /\
                    cbh_Unit (iff_Stream (snd x)) = cbh_Unit (iff_Stream i) /\
                    iff_Write (snd x) = iff_Write i).
Proof.
  unfold StopChunk. eapply hoare_bind; [apply framed_fallible | ].
  intro e. cbn beta. destruct (e =? 0); apply hoare_ret; cbn; auto.
Qed.

Lemma CloseIFF_reader_spec (i : IFFHandle) (w0 : World) :
  iff_Write i = false ->
  hoare (frame w0) (CloseIFF i)
        (fun i' w => frame w0 w /\ iff_Stream i' = iff_Stream i).
Proof.
  intro Hr. unfold CloseIFF. rewrite Hr. apply hoare_ret. auto.
Qed.

(** What [ReadChunkBytes] delivers when it delivers: exactly the number of
    bytes it reports, at most the number asked for, taken from the clip at
    the offset of the stream. *)
Definition chunk_bytes (clip : list Z) (n : Z) (i : IFFHandle)
  (x : Z * list Z * IFFHandle) : Prop :=
  same_handle i (snd x) /\
  (0 < fst (fst x) ->
   fst (fst x) <= n /\ Zlen (snd (fst x)) = fst (fst x) /\
   snd (fst x) = firstn (Z.to_nat (fst (fst x)))
                        (skipn (Z.to_nat (stream_offset i)) clip)).

Lemma ReadChunkBytes_spec (i : IFFHandle) (n : Z) (w0 : World) :
  hoare (frame w0) (ReadChunkBytes i n)
        (fun x w => frame w0 w /\ chunk_bytes (clip_of w0 i) n i x).
Proof.
  unfold ReadChunkBytes.
  assert (forall e i', e <= 0 -> same_handle i i' ->
          forall w, frame w0 w ->
            frame w0 w /\ chunk_bytes (clip_of w0 i) n i (e, [], i')) as Hnone.
  { intros e i' He Hs w Hw. split; [exact Hw | ]. split; [exact Hs | ].
    cbn. lia. }
  destruct (iff_Stack i) as [ | top rest] eqn:Est.
  { apply hoare_ret, Hnone; [unfold IFFERR_EOC; lia | apply same_handle_refl]. }
  destruct (Z.min n (cn_Size top - cn_Scan top) <=? 0) eqn:Ek.
  { apply hoare_ret, Hnone; [lia | apply same_handle_refl]. }
  apply Z.leb_gt in Ek.
  eapply hoare_bind; [apply stream_read_spec | ].
  intros [[d e] i1]. apply hoare_pure. intros (Hs & Hst & Hr). cbn in Hs, Hst, Hr.
  cbn beta iota.
  destruct (negb (e =? 0)).
  { apply hoare_ret, Hnone; [unfold IFFERR_READ; lia | exact Hs]. }
  destruct (Zlen d <? Z.min n (cn_Size top - cn_Scan top)) eqn:El.
  { apply hoare_ret, Hnone; [unfold IFFERR_READ; lia | exact Hs]. }
  apply Z.ltb_ge in El.
  apply hoare_ret. intros w Hw. split; [exact Hw | ].
  split; [exact Hs | ]. cbn [fst snd]. intros _.
  destruct Hr as [(Hd & _) | (_ & Hd & _)].
  - rewrite Hd in El. unfold Zlen in El. cbn in El. lia.
  - pose proof (Zlen_firstn_le _ (Z.to_nat (Z.min n (cn_Size top - cn_Scan top)))
                  (skipn (Z.to_nat (stream_offset i)) (clip_of w0 i))) as Hle.
    rewrite <- Hd in Hle. repeat split; [lia | lia | exact Hd].
Qed.

(** ** The preview of the listing *)

Lemma sanitize_byte_printable (b : Z) : 32 <= sanitize_byte b <= 126.
Proof.
  unfold sanitize_byte.
  destruct (b <? 32) eqn:E1; destruct (127 <=? b) eqn:E2; cbn [orb];
    try (destruct ((b =? chr "010") || (b =? chr "013") || (b =? chr "009"));
         cbv; split; congruence).
  apply Z.ltb_ge in E1. apply Z.leb_gt in E2. lia.
Qed.

Lemma until_NUL_sanitized (d rest : list Z) :
  until_NUL (map sanitize_byte d ++ 0 :: rest) = map sanitize_byte d.
Proof.
  induction d as [ | b d IH]; cbn [map app until_NUL].
  - reflexivity.
  - pose proof (sanitize_byte_printable b) as Hb.
    destruct (sanitize_byte b =? 0) eqn:E.
    + apply Z.eqb_eq in E. lia.
    + rewrite IH. reflexivity.
Qed.

Lemma printed_sanitized (data buf : list Z) (textLen : Z) :
  Zlen data = textLen -> textLen <= 40 ->
  printed 40 (sanitize_buffer textLen (overlay data buf))
  = map sanitize_byte data.
Proof.
  intros Hl Hle. unfold printed, sanitize_buffer, overlay.
  assert (Z.to_nat textLen = List.length data) as -> by (unfold Zlen in Hl; lia).
  rewrite firstn_app, firstn_all, Nat.sub_diag, firstn_O, app_nil_r.
  rewrite until_NUL_sanitized. apply firstn_all2.
  rewrite length_map. unfold Zlen in Hl. lia.
Qed.

(** A preview: at most 40 characters, each the sanitised image of a byte
    of the clip, in the order of the clip. *)
Definition preview_ok (clip p : list Z) : Prop :=
  (List.length p <= 40)%nat /\
  exists n off, p = map sanitize_byte (firstn n (skipn off clip)).

Definition preview_post (clip : list Z) (h : ClipboardHandle)
  (res : option (list Z)) (textLen : Z) (h' : ClipboardHandle) : Prop :=
  cbh_Unit h' = cbh_Unit h /\
  forall buf, res = Some buf -> 0 < textLen -> preview_ok clip (printed 40 buf).

Lemma preview_chunk_spec (i : IFFHandle) (w0 : World) :
  hoare (frame w0) (preview_chunk i)
        (fun x w => frame w0 w /\ same_handle i (snd x) /\
                    forall buf, fst (fst x) = Some buf -> 0 < snd (fst x) ->
                                preview_ok (clip_of w0 i) (printed 40 buf)).
Proof.
  unfold preview_chunk. eapply hoare_bind; [apply ParseIFF_spec | ].
  intros [e i1]. apply hoare_pure. cbn [snd]. intro Hs.
  assert (forall i', same_handle i i' -> forall w, frame w0 w ->
            frame w0 w /\ same_handle i (snd (@None (list Z), 0, i')) /\
            forall buf, fst (fst (@None (list Z), 0, i')) = Some buf ->
                        0 < snd (fst (@None (list Z), 0, i')) ->
                        preview_ok (clip_of w0 i) (printed 40 buf)) as Hnone.
  { intros i' Hs' w Hw. split; [exact Hw | ]. split; [exact Hs' | ].
    cbn. intros buf Hb. discriminate. }
  destruct (e =? 0); [ | apply hoare_ret, Hnone, Hs].
  destruct (CurrentChunk i1) as [cn | ]; [ | apply hoare_ret, Hnone, Hs].
  destruct ((cn_Type cn =? ID_FTXT) && (cn_ID cn =? ID_CHRS));
    [ | apply hoare_ret, Hnone, Hs].
  cbv zeta.
  set (previewSize := if 40 <? cn_Size cn then 40 else cn_Size cn).
  assert (previewSize <= 40) as Hps.
  { unfold previewSize. destruct (40 <? cn_Size cn) eqn:E; [lia | ].
    apply Z.ltb_ge in E. exact E. }
  destruct (0 <? previewSize); [ | apply hoare_ret, Hnone, Hs].
  eapply hoare_bind; [apply framed_AllocMem | ].
  intros [ | ]; [ | apply hoare_ret, Hnone, Hs].
  eapply hoare_bind; [apply ReadChunkBytes_spec | ].
  intros [[textLen data] i2]. apply hoare_pure. intros (Hs2 & Hbytes).
  cbn [fst snd] in Hs2, Hbytes. cbn beta iota.
  assert (same_handle i i2) as Hs' by (eapply same_handle_trans; eauto).
  destruct (0 <? textLen) eqn:Et.
  - apply Z.ltb_lt in Et. destruct (Hbytes Et) as (Hle & Hlen & Hdata).
    apply hoare_ret. intros w Hw. split; [exact Hw | ]. split; [exact Hs' | ].
    cbn [fst snd]. intros buf Hbuf _. inversion Hbuf; subst buf; clear Hbuf.
    rewrite printed_sanitized by lia. split.
    + rewrite length_map. unfold Zlen in Hlen. lia.
    + exists (Z.to_nat textLen), (Z.to_nat (stream_offset i1)).
      rewrite Hdata. unfold clip_of. destruct Hs as (Hu & _). rewrite Hu.
      reflexivity.
  - apply hoare_ret. intros w Hw. split; [exact Hw | ]. split; [exact Hs' | ].
    cbn. intros buf Hb. discriminate.
Qed.

Lemma list_preview_spec (h : ClipboardHandle) (w0 : World) :
  hoare (frame w0) (list_preview h)
        (fun x w => frame w0 w /\
                    preview_post (cu_clip (w_units w0 (cbh_Unit h))) h
                                 (fst (fst x)) (snd (fst x)) (snd x)).
Proof.
  unfold list_preview.
  assert (forall h', cbh_Unit h' = cbh_Unit h -> forall w, frame w0 w ->
            frame w0 w /\
            preview_post (cu_clip (w_units w0 (cbh_Unit h))) h None 0 h')
    as Hnone.
  { intros h' Hh w Hw. split; [exact Hw | ]. split; [exact Hh | ].
    intros buf Hb. discriminate. }
  eapply hoare_bind; [apply AllocIFF_spec | ].
  intros [i | ]; apply hoare_pure; intro Hi;
    [ | apply hoare_ret, Hnone; reflexivity].
  specialize (Hi i eq_refl). cbv zeta.
  eapply hoare_bind; [apply OpenIFF_spec | ].
  intros [e i1]. apply hoare_pure. cbn [fst snd]. intros (Hu1 & Hw1).
  cbn [InitIFFasClip iff_Stream] in Hu1.
  destruct (e =? 0) eqn:E.
  - apply Z.eqb_eq in E. specialize (Hw1 E).
    eapply hoare_bind; [apply StopChunk_spec | ].
    intros [e2 i2]. apply hoare_pure. cbn [fst snd]. intros (Hu2 & Hw2).
    eapply hoare_bind with
      (Q := fun x w => frame w0 w /\ same_handle i2 (snd x) /\
                       forall buf, fst (fst x) = Some buf -> 0 < snd (fst x) ->
                                   preview_ok (clip_of w0 i2) (printed 40 buf)).
    + destruct (e2 =? 0); [apply preview_chunk_spec | ].
      apply hoare_ret. intros w Hw. split; [exact Hw | ].
      split; [apply same_handle_refl | ]. cbn. intros buf Hb. discriminate.
    + intros [res i3]. apply hoare_pure. cbn [fst snd].
      intros ((Hu3 & _ & Hw3) & Hp).
      eapply hoare_bind; [apply CloseIFF_reader_spec; congruence | ].
      intro i4. apply hoare_pure. intro Hst.
      eapply hoare_bind; [apply framed_FreeIFF | ].
      intros []. apply hoare_ret. intros w Hw. split; [exact Hw | ].
      cbn [fst snd]. split; [congruence | ].
      unfold clip_of in Hp. rewrite Hu2, Hu1 in Hp. exact Hp.
  - eapply hoare_bind; [apply framed_FreeIFF | ].
    intros []. apply hoare_ret, Hnone. exact Hu1.
Qed.

Lemma CBReadDone_spec (h : ClipboardHandle) (w0 : World) :
  hoare (frame w0) (CBReadDone h)
        (fun h' w => frame w0 w /\ cbh_Unit h' = cbh_Unit h).
Proof.
  intros w Hw. split; [apply framed_CBReadDone; exact Hw | ].
  unfold CBReadDone. rewrite !bind_run. reflexivity.
Qed.

(** ** The listing of one unit *)

Definition add_out (o : list Output) (w : World) : World :=
  mkWorld (w_units w) (w_files w) (w_trace w) (w_out w ++ o) (w_faults w)
          (w_tick w) (w_ioerr w) (w_uid w) (w_dt_file w) (w_dt_clip w)
          (w_diverged w) (w_junk w).

Lemma emit_spec (o : Output) (w0 : World) :
  hoare (frame w0) (emit o) (fun _ w => frame (add_out [o] w0) w).
Proof.
  intros w [c f p d q j v t]. constructor; cbn; try assumption.
  rewrite p. reflexivity.
Qed.

Lemma frame_add_out (o o' : list Output) (w0 w : World) :
  frame (add_out o w0) w -> frame (add_out (o ++ o') w0) (add_out o' w).
Proof.
  intros [c f p d q j v t]. constructor; cbn in *; try assumption.
  rewrite p, app_assoc. reflexivity.
Qed.

(** A clip the listing reports, and the row it prints for it. *)
Definition reportable (clip : list Z) : Prop :=
  12 <= Zlen clip /\ ULONG_at clip 0 = ID_FORM.

Definition row_ok (clip : list Z) (u : Z) (row : ListRow) : Prop :=
  row_unit row = u /\
  row_type row = left_justified 4 (bytes_of_ULONG (ULONG_at clip 8) ++ [0]) /\
  row_size row = ULONG_at clip 4 /\
  row_mapped row = FormIDToUnit (ULONG_at clip 8) /\
  forall p, row_preview row = Some p ->
            ULONG_at clip 8 = ID_FTXT /\ preview_ok clip p.

Lemma ULONG_at_overlay (data buf : list Z) (i : nat) :
  (i + 4 <= List.length data)%nat ->
  ULONG_at (overlay data buf) i = ULONG_at data i.
Proof.
  intro H. unfold ULONG_at, overlay. f_equal.
  rewrite skipn_app, firstn_app, length_skipn.
  replace (4 - (List.length data - i))%nat with 0%nat by lia.
  rewrite firstn_O, app_nil_r. reflexivity.
Qed.

Lemma ULONG_at_firstn (clip : list Z) (n i : nat) :
  (i + 4 <= n)%nat -> ULONG_at (firstn n clip) i = ULONG_at clip i.
Proof.
  intro H. unfold ULONG_at. f_equal.
  rewrite skipn_firstn_comm, firstn_firstn. f_equal. lia.
Qed.

(** The twelve bytes of a full header read are the first twelve bytes of
    the clip. *)
Lemma header_read_full (clip : list Z) (r r' : IOClipReq) :
  read_result clip r r' -> io_Offset r = 0 -> io_Length r = 12 ->
  io_Actual r' = 12 ->
  io_Data r' = firstn 12 clip /\ 12 <= Zlen clip /\
  List.length (io_Data r') = 12%nat.
Proof.
  intros (_ & _ & [(Ha & _) | (_ & Hd & Ha & _)]) Ho Hl H12; [lia | ].
  rewrite Ho, Hl in Hd. cbn in Hd. rewrite Ha in H12.
  assert (List.length (io_Data r') = 12%nat) as Hlen
      by (unfold Zlen in H12; lia).
  repeat split; try assumption.
  rewrite Hd in Hlen. rewrite length_firstn in Hlen. unfold Zlen. lia.
Qed.

Lemma OpenClipboard_spec (u : Z) (w0 : World) :
  hoare (frame w0) (OpenClipboard u)
        (fun o w => frame w0 w /\
                    forall h, o = Some h -> cbh_Unit h = u /\ cbh_Req h = req0).
Proof.
  intros w Hw. split; [apply framed_OpenClipboard; exact Hw | ].
  unfold OpenClipboard. intros h Hh. rewrite bind_run in Hh.
  destruct (fst (fault w)); rewrite bind_run in Hh; cbn in Hh;
    inversion Hh; split; reflexivity.
Qed.

(** What the classification block of [ListClipboards] yields. *)
Definition classified (clip : list Z) (u : Z)
  (x : bool * Z * Z * option (list Z) * Z * ClipboardHandle) : Prop :=
  match x with
  | (hasContent, formType, formSize, textPreview, textLen, h) =>
      cbh_Unit h = u /\
      (hasContent = true ->
       reportable clip /\ formType = ULONG_at clip 8 /\
       formSize = ULONG_at clip 4 /\
       forall buf, textPreview = Some buf -> 0 < textLen ->
                   formType = ID_FTXT /\ preview_ok clip (printed 40 buf))
  end.

(** The listing of one unit only reads; when it reports the unit it
    prints one row, for a clip that starts with a full FORM header. *)
Lemma ListClipboards_unit_spec (u : Z) (w0 : World) :
  hoare (frame w0) (ListClipboards_unit u)
        (fun has w =>
           (has = false /\ frame w0 w) \/
           (has = true /\
            exists row, frame (add_out [OutRow row] w0) w /\
                        reportable (cu_clip (w_units w0 u)) /\
                        row_ok (cu_clip (w_units w0 u)) u row)).
Proof.
  unfold ListClipboards_unit. set (clip := cu_clip (w_units w0 u)).
  eapply hoare_bind; [apply framed_uninitialised | ]. intro cbuff.
  eapply hoare_bind; [apply OpenClipboard_spec | ].
  intros [h | ]; apply hoare_pure; intro Hh;
    [ | apply hoare_ret; intros w Hw; left; auto].
  destruct (Hh h eq_refl) as (Hu & Hreq). clear Hh. cbv zeta.
  rewrite DoIO_is_read by reflexivity.
  eapply hoare_bind; [apply DoIO_read_spec | ].
  intro r. apply hoare_pure. fold clip. intro Hr.
  eapply hoare_bind with
    (Q := fun x w => frame w0 w /\ classified clip u x).
  - destruct ((io_Actual r =? 12) && (io_Error r =? 0)) eqn:E12.
    + apply andb_true_iff in E12. destruct E12 as (Ea & _).
      apply Z.eqb_eq in Ea.
      destruct (header_read_full _ _ _ Hr eq_refl eq_refl Ea)
        as (Hd & Hlen & Hdl).
      assert (forall i, (i + 4 <= 12)%nat ->
                ULONG_at (overlay (io_Data r) cbuff) i = ULONG_at clip i) as Hat.
      { intros i Hi. rewrite ULONG_at_overlay by lia.
        rewrite Hd. apply ULONG_at_firstn. exact Hi. }
      rewrite !Hat by lia.
      destruct (ULONG_at clip 0 =? ID_FORM) eqn:Ef.
      * apply Z.eqb_eq in Ef.
        eapply hoare_bind with
          (Q := fun x w => frame w0 w /\
                           cbh_Unit (snd x) = u /\
                           forall buf, fst (fst x) = Some buf ->
                                       0 < snd (fst x) ->
                                       ULONG_at clip 8 = ID_FTXT /\
                                       preview_ok clip (printed 40 buf)).
        -- destruct (ULONG_at clip 8 =? ID_FTXT) eqn:Et.
           ++ apply Z.eqb_eq in Et.
              eapply hoare_post; [apply list_preview_spec | ].
              intros x w (Hw & Hu' & Hp). split; [exact Hw | ].
              cbn [cbh_Unit with_req] in Hu', Hp. rewrite Hu in Hu', Hp.
              split; [exact Hu' | ]. intros buf Hb Hl. split; [exact Et | ].
              apply (Hp buf Hb Hl).
           ++ apply hoare_ret. intros w Hw. split; [exact Hw | ].
              split; [exact Hu | ]. cbn. intros buf Hb. discriminate.
        -- intros [[tp tl] h1]. apply hoare_pure. cbn [fst snd].
           intros (Hu1 & Hp).
           eapply hoare_bind; [apply CBReadDone_spec | ].
           intro h2. apply hoare_pure. intro Hu2. apply hoare_ret.
           intros w Hw. split; [exact Hw | ]. unfold classified.
           split; [congruence | ]. intros _.
           split; [split; assumption | ].
           split; [reflexivity | ]. split; [reflexivity | exact Hp].
      * eapply hoare_bind; [apply CBReadDone_spec | ].
        intro h2. apply hoare_pure. intro Hu2. apply hoare_ret.
        intros w Hw. split; [exact Hw | ]. unfold classified.
        cbn [cbh_Unit with_req] in Hu2.
        split; [congruence | ]. intro. discriminate.
    + apply hoare_ret. intros w Hw. split; [exact Hw | ]. unfold classified.
      split; [exact Hu | ]. intro. discriminate.
  - intros [[[[[has ft] fs] tp] tl] h1]. apply hoare_pure. cbn [classified].
    intros (Hu1 & Hc).
    destruct has.
    + destruct (Hc eq_refl) as (Hrep & Hft & Hfs & Hp). clear Hc.
      eapply hoare_bind; [apply emit_spec | ]. intros [].
      eapply hoare_bind; [apply framed_CloseClipboard | ]. intros [].
      apply hoare_ret. intros w Hw. right. split; [reflexivity | ].
      eexists. split; [exact Hw | ]. split; [exact Hrep | ].
      unfold row_ok. cbn [row_unit row_type row_size row_mapped row_preview].
      subst ft fs.
      split; [reflexivity | ]. split; [reflexivity | ].
      split; [reflexivity | ]. split; [reflexivity | ].
      intros p Hpv.
      destruct tp as [buf | ]; [ | discriminate].
      destruct (0 <? tl) eqn:El; [ | discriminate].
      apply Z.ltb_lt in El. inversion Hpv; subst p.
      apply (Hp buf eq_refl El).
    + eapply hoare_bind; [apply framed_ret | ]. intros [].
      eapply hoare_bind; [apply framed_CloseClipboard | ]. intros [].
      apply hoare_ret. intros w Hw. left. auto.
Qed.

(** ** The listing as a whole *)

Lemma add_out_add_out (o o' : list Output) (w : World) :
  add_out o' (add_out o w) = add_out (o ++ o') w.
Proof. unfold add_out. cbn. rewrite app_assoc. reflexivity. Qed.

Lemma add_out_nil (w0 w : World) : frame w0 w -> frame (add_out [] w0) w.
Proof.
  intros [c f p d q j v t]. constructor; cbn; try assumption.
  rewrite app_nil_r. exact p.
Qed.

(** What holds of a row of the listing, in terms of the clips the listing
    found. *)
Definition listed (w0 : World) (lo hi : Z) (row : ListRow) : Prop :=
  lo <= row_unit row < hi /\
  reportable (cu_clip (w_units w0 (row_unit row))) /\
  row_ok (cu_clip (w_units w0 (row_unit row))) (row_unit row) row.

Lemma listed_weaken (w0 : World) (lo lo' hi hi' : Z) (row : ListRow) :
  lo' <= lo -> hi <= hi' -> listed w0 lo hi row -> listed w0 lo' hi' row.
Proof. unfold listed. intuition lia. Qed.

Lemma ListClipboards_loop_spec (n : nat) :
  forall (u c : Z) (w0 : World),
    hoare (frame w0) (ListClipboards_loop n u c)
          (fun c' w =>
             exists rows,
               frame (add_out (map OutRow rows) w0) w /\
               c' = c + Zlen rows /\
               Forall (listed w0 u (u + Z.of_nat n)) rows).
Proof.
  induction n as [ | n IH]; intros u c w0.
  - apply hoare_ret. intros w Hw. exists []. split; [ | split].
    + apply add_out_nil, Hw.
    + unfold Zlen. cbn. lia.
    + constructor.
  - cbn [ListClipboards_loop].
    eapply hoare_bind; [apply ListClipboards_unit_spec | ].
    intros has w [(-> & Hw) | (-> & row & Hw & Hrep & Hrow)].
    + destruct (IH (u + 1) c w0 w Hw) as (rows & Hf & Hc & Hall).
      exists rows. split; [exact Hf | ]. split; [exact Hc | ].
      eapply Forall_impl; [ | exact Hall].
      intro r. apply listed_weaken; lia.
    + destruct (IH (u + 1) (c + 1) (add_out [OutRow row] w0) w Hw)
        as (rows & Hf & Hc & Hall).
      change (Forall (listed w0 (u + 1) (u + 1 + Z.of_nat n)) rows) in Hall.
      exists (row :: rows). split; [ | split].
      * rewrite add_out_add_out in Hf. exact Hf.
      * rewrite Hc. unfold Zlen. cbn [List.length]. lia.
      * constructor.
        -- pose proof Hrow as (Hru & _). unfold listed. rewrite Hru.
           split; [lia | ]. split; [exact Hrep | exact Hrow].
        -- eapply Forall_impl; [ | exact Hall].
           intro r. apply listed_weaken; lia.
Qed.

Lemma rows_of_app (o o' : list Output) :
  rows_of (o ++ o') = rows_of o ++ rows_of o'.
Proof. unfold rows_of. apply flat_map_app. Qed.

Lemma rows_of_rows (rows : list ListRow) : rows_of (map OutRow rows) = rows.
Proof.
  induction rows as [ | r rows IH]; [reflexivity | ].
  cbn. f_equal. exact IH.
Qed.

Lemma no_fault_rows (rows : list ListRow) :
  forallb (fun o => negb (is_fault o)) (map OutRow rows) = true.
Proof. induction rows; [reflexivity | exact IHrows]. Qed.

(** The listing returns [RETURN_OK], reports no error, only reads, and
    prints rows for clips that start with a full FORM header. *)
Lemma ListClipboards_spec (w0 : World) :
  hoare (frame w0) ListClipboards
        (fun r w =>
           r = RETURN_OK /\
           exists o,
             frame (add_out o w0) w /\
             forallb (fun x => negb (is_fault x)) o = true /\
             Forall (listed w0 0 256) (rows_of o)).
Proof.
  unfold ListClipboards, Printf.
  eapply hoare_bind; [apply emit_spec | ]. intros [].
  eapply hoare_bind; [apply emit_spec | ]. intros [].
  eapply hoare_bind; [apply emit_spec | ]. intros [].
  rewrite !add_out_add_out.
  eapply hoare_bind; [apply ListClipboards_loop_spec | ].
  intros c w (rows & Hw & _ & Hall).
  rewrite add_out_add_out in Hw.
  assert (Forall (listed w0 0 256) rows) as Hall'.
  { eapply Forall_impl; [ | exact Hall]. intros r (Hr & Hrep & Hrow).
    exact (conj Hr (conj Hrep Hrow)). }
  cbn beta. rewrite bind_run.
  split; [reflexivity | ].
  destruct (c =? 0).
  - eexists. split; [ | split].
    + replace (snd _) with
        (snd (emit (OutText "No clipboard units contain data.") w))
        by reflexivity.
      pose proof (emit_spec (OutText "No clipboard units contain data.") _ w Hw)
        as H.
      cbn beta in H. rewrite add_out_add_out in H. exact H.
    + rewrite !forallb_app. rewrite no_fault_rows. reflexivity.
    + rewrite !rows_of_app, rows_of_rows. cbn. rewrite app_nil_r. exact Hall'.
  - eexists. split; [ | split].
    + replace (snd _) with (snd (emit (OutTotal c) w)) by reflexivity.
      pose proof (emit_spec (OutTotal c) _ w Hw) as H.
      cbn beta in H. rewrite add_out_add_out in H. exact H.
    + rewrite !forallb_app. rewrite no_fault_rows. reflexivity.
    + rewrite !rows_of_app, rows_of_rows. cbn. rewrite app_nil_r. exact Hall'.
Qed.

(** C8.  The listing is read-only: whatever the 256 units hold and whatever
    the environment decides, the commands the scan issues to the device
    contain no write and no commit, and the content of every unit is the
    same after the scan as before it (and so are the files). *)
Theorem C8_listing_is_read_only :
  forall w : World,
    (exists t, w_trace (snd (ListClipboards w)) = w_trace w ++ t /\
               Forall read_only t) /\
    (forall u, cu_clip (w_units (snd (ListClipboards w)) u)
               = cu_clip (w_units w u)) /\
    w_files (snd (ListClipboards w)) = w_files w /\
    w_diverged (snd (ListClipboards w)) = w_diverged w.
Proof.
  intro w.
  destruct (ListClipboards_spec w w (frame_refl w)) as (_ & o & Hf & _).
  split; [exact (fr_trace _ _ Hf) | ].
  split; [exact (fr_clip _ _ Hf) | ].
  split; [exact (fr_files _ _ Hf) | exact (fr_div _ _ Hf)].
Qed.

(** The initial read of the listing for a unit: the unit is opened and 12
    bytes are requested at offset 0; [None] when the unit cannot be
    opened. *)
Definition header_read (unit : Z) : M (option IOClipReq) :=
  oc <- OpenClipboard unit ;;
  match oc with
  | None => ret None
  | Some clipHandle =>
      let ioreq := cbh_Req clipHandle in
      let ioreq := set_Offset 0 ioreq in
      let ioreq := set_Error 0 ioreq in
      let ioreq := set_ClipID 0 ioreq in
      let ioreq := set_Command CMD_READ ioreq in
      let ioreq := set_Data [] ioreq in
      let ioreq := set_Length 12 ioreq in
      ioreq <- DoIO unit ioreq ;;
      ret (Some ioreq)
  end.

Lemma hoare_exact (A : Type) (m : M A) (w : World) :
  hoare (fun w' => w' = w) m (fun a w' => a = fst (m w) /\ w' = snd (m w)).
Proof. intros w' ->. auto. Qed.

Lemma hoare_any (A : Type) (P : World -> Prop) (m : M A) :
  hoare P m (fun _ _ => True).
Proof. intros w _. exact I. Qed.

(** The device reports as many bytes as it delivers. *)
Lemma DoIO_read_length (u : Z) (r : IOClipReq) (w : World) :
  io_Command r = CMD_READ ->
  io_Actual (fst (DoIO u r w)) = Zlen (io_Data (fst (DoIO u r w))).
Proof.
  intro Hc. rewrite (DoIO_is_read u r Hc).
  destruct (DoIO_read_spec u r w w (frame_refl w))
    as (_ & _ & _ & [(Ha & Hd & _) | (_ & _ & Ha & _)]).
  - rewrite Ha, Hd. reflexivity.
  - exact Ha.
Qed.

(** Whether the listing reports a unit is decided by the header read
    alone. *)
Lemma ListClipboards_unit_decision (u : Z) (w : World) :
  fst (ListClipboards_unit u w) =
  match fst (header_read u w) with
  | Some r => (io_Actual r =? 12) && (io_Error r =? 0) &&
              (ULONG_at (io_Data r) 0 =? ID_FORM)
  | None => false
  end.
Proof.
  unfold ListClipboards_unit, header_read.
  rewrite (bind_run _ _ (uninitialised 16)).
  change (snd (uninitialised 16 w)) with w.
  set (cbuff := fst (uninitialised 16 w)).
  rewrite (bind_run _ _ (OpenClipboard u)).
  rewrite (bind_run _ _ (OpenClipboard u)).
  destruct (fst (OpenClipboard u w)) as [h | ]; [ | reflexivity].
  set (w1 := snd (OpenClipboard u w)). cbv zeta.
  set (req := set_Length 12 (set_Data [] (set_Command CMD_READ
                (set_ClipID 0 (set_Error 0 (set_Offset 0 (cbh_Req h))))))).
  rewrite (bind_run _ _ (DoIO u req)). rewrite (bind_run _ _ (DoIO u req)).
  pose proof (DoIO_read_length u req w1 eq_refl) as Hlen.
  set (r := fst (DoIO u req w1)) in *. set (w2 := snd (DoIO u req w1)).
  cbn [fst ret].
  match goal with
  | |- fst (bind ?B ?K w2) = _ =>
      assert (hoare (fun _ => True) (bind B K)
                (fun has _ => has = (io_Actual r =? 12) && (io_Error r =? 0) &&
                                    (ULONG_at (io_Data r) 0 =? ID_FORM))) as H
  end.
  { eapply hoare_bind with
      (Q := fun x _ => fst (fst (fst (fst (fst x)))) =
                       (io_Actual r =? 12) && (io_Error r =? 0) &&
                       (ULONG_at (io_Data r) 0 =? ID_FORM)).
    - destruct ((io_Actual r =? 12) && (io_Error r =? 0)) eqn:E12.
      + apply andb_true_iff in E12. destruct E12 as (Ea & _).
        apply Z.eqb_eq in Ea.
        rewrite ULONG_at_overlay by (unfold Zlen in Hlen; lia).
        destruct (ULONG_at (io_Data r) 0 =? ID_FORM).
        * eapply hoare_bind; [apply hoare_any | ]. intros [[tp tl] h1].
          eapply hoare_bind; [apply hoare_any | ]. intro h2.
          apply hoare_ret. reflexivity.
        * eapply hoare_bind; [apply hoare_any | ]. intro h2.
          apply hoare_ret. reflexivity.
      + apply hoare_ret. reflexivity.
    - intros [[[[[has ft] fs] tp] tl] h1]. cbn [fst].
      intros w' Hq. rewrite !bind_run. exact Hq. }
  exact (H w2 I).
Qed.

(** C9.  The listing reports a unit exactly when the unit can be opened, the
    initial read of 12 bytes returns exactly 12 bytes without error, and
    the first four of them are the tag FORM.  A unit whose clip is shorter
    than 12 bytes or does not begin with FORM is omitted without a word,
    though it has content; every row of the whole listing is for a unit
    between 0 and 255 whose clip has at least 12 bytes and begins with
    FORM. *)
Theorem C9_listing_reports_full_FORM_headers_only :
  (forall (u : Z) (w : World),
     fst (ListClipboards_unit u w) = true <->
     exists r, fst (header_read u w) = Some r /\
               io_Actual r = 12 /\ io_Error r = 0 /\
               ULONG_at (io_Data r) 0 = ID_FORM) /\
  (forall (u : Z) (w : World),
     Zlen (cu_clip (w_units w u)) < 12 \/
     ULONG_at (cu_clip (w_units w u)) 0 <> ID_FORM ->
     fst (ListClipboards_unit u w) = false /\
     w_out (snd (ListClipboards_unit u w)) = w_out w) /\
  (forall w : World,
     exists o,
       w_out (snd (ListClipboards w)) = w_out w ++ o /\
       Forall (fun row =>
                 0 <= row_unit row <= 255 /\
                 12 <= Zlen (cu_clip (w_units w (row_unit row))) /\
                 ULONG_at (cu_clip (w_units w (row_unit row))) 0 = ID_FORM)
              (rows_of o)).
Proof.
  split; [ | split].
  - intros u w. rewrite ListClipboards_unit_decision.
    destruct (fst (header_read u w)) as [r | ].
    + rewrite !andb_true_iff, !Z.eqb_eq. split.
      * intros ((Ha & He) & Hf). exists r. auto.
      * intros (r' & Hr & Ha & He & Hf). inversion Hr; subst r'. auto.
    + split; [discriminate | ]. intros (r & Hr & _). discriminate.
  - intros u w Hshort.
    destruct (ListClipboards_unit_spec u w w (frame_refl w))
      as [(Hhas & Hf) | (_ & row & _ & (Hlen & Hform) & _)].
    + split; [exact Hhas | exact (fr_out _ _ Hf)].
    + destruct Hshort; [lia | contradiction].
  - intro w.
    destruct (ListClipboards_spec w w (frame_refl w)) as (_ & o & Hf & _ & Hall).
    exists o. split; [exact (fr_out _ _ Hf) | ].
    eapply Forall_impl; [ | exact Hall].
    intros row (Hu & (Hlen & Hform) & _). repeat split; try assumption; lia.
Qed.

(** The example of the specification: unit 0 holds the text "Hi", unit 5
    a 40-byte clip that is no text, unit 7 five bytes that are no IFF; the
    listing has a row for units 0 and 5 and none for unit 7. *)
Definition world_listing : World :=
  with_clip 7 (bytes_of_string "HELLO")
    (with_clip 5 (form (MAKE_ID (chr "I") (chr "L") (chr "B") (chr "M"))
                       (repeat 0 28))
       (with_clip 0 (form ID_FTXT (chunk ID_CHRS (bytes_of_string "Hi")))
          world0)).

Example listing_example :
  fst (ListClipboards world_listing) = RETURN_OK /\
  rows_of (w_out (snd (ListClipboards world_listing))) =
  [ mkRow 0 (bytes_of_string "FTXT") 14 (FormIDToUnit ID_FTXT)
          (Some (bytes_of_string "Hi"));
    mkRow 5 (bytes_of_string "ILBM") 32
          (FormIDToUnit (MAKE_ID (chr "I") (chr "L") (chr "B") (chr "M")))
          None ].
Proof. vm_compute. split; reflexivity. Qed.

(** A preview is cut at 40 characters and its control characters are
    replaced. *)
Example preview_example :
  rows_of (w_out (snd (ListClipboards
     (with_clip 0
        (form ID_FTXT
           (chunk ID_CHRS
              (bytes_of_string "a" ++ [9; 10; 13; 0; 200; 127] ++
               bytes_of_string "0123456789012345678901234567890123456789")))
        world0)))) =
  [ mkRow 0 (bytes_of_string "FTXT") 60 (FormIDToUnit ID_FTXT)
      (Some (bytes_of_string "a   ...012345678901234567890123456789012")) ].
Proof. vm_compute. reflexivity. Qed.

(** The type column is printed as a C string: a type with a NUL in it is
    cut there and filled up with spaces. *)
Example type_column_example :
  rows_of (w_out (snd (ListClipboards
     (with_clip 3 (form (MAKE_ID 65 66 0 68) (repeat 0 4)) world0)))) =
  [ mkRow 3 (bytes_of_string "AB  ") 8 (FormIDToUnit (MAKE_ID 65 66 0 68))
      None ].
Proof. vm_compute. reflexivity. Qed.

(** ** Draining *)

(** Unit 5 holds five bytes. *)
Definition world_short : World :=
  with_clip 5 (bytes_of_string "HELLO") world0.

(** Unit 5 holds twelve bytes that do not begin with FORM. *)
Definition world_plain : World :=
  with_clip 5 (bytes_of_string "HELLO, WORLD") world0.

(** C3, at the failing input.  The listing of a unit whose clip has five
    bytes opens the unit, reads 12 bytes, gets 5, and closes the unit: no
    read that delivers nothing comes before the close, so the session is
    not drained.  On the sibling path (twelve bytes that are no FORM) the
    drain helper runs and the last read before the close delivers
    nothing. *)
Theorem C3_listing_short_clip_not_drained :
  events_of 5 (w_trace (snd (ListClipboards world_short))) =
    [EvOpen 5; EvRead 5 12 5 0; EvClose 5] /\
  drained 5 (w_trace (snd (ListClipboards world_short))) = false /\
  events_of 5 (w_trace (snd (ListClipboards world_plain))) =
    [EvOpen 5; EvRead 5 12 12 0; EvRead 5 254 0 0; EvClose 5] /\
  drained 5 (w_trace (snd (ListClipboards world_plain))) = true.
Proof. vm_compute. repeat split; reflexivity. Qed.

(** ** Classification of the header *)

(** The request of the header read of [PasteFromClipboard] on a handle
    that was just opened. *)
Definition paste_header_request : IOClipReq :=
  set_Data [] (set_Length 12 (set_Command CMD_READ
    (set_ClipID 0 (set_Offset 0 req0)))).

(** Unit 0 holds the eight bytes of a FORM header without its type. *)
Definition world_eight : World :=
  with_clip 0 (bytes_of_ULONG ID_FORM ++ bytes_of_ULONG 0) world0.

(** The claim C4 as it is stated fails in two ways.  In the listing a
    header of five bytes is no error: the unit is skipped, no fault is
    printed and the listing returns [RETURN_OK].  In the paste a header of
    which 8 bytes were read is classified by the 4 bytes after them, which
    the device did not deliver: with the same clip, the destination file is
    created or not according to what the header variable held before. *)
Lemma C4_counterexample :
  (fst (ListClipboards world_short) = RETURN_OK /\
   existsb is_fault (w_out (snd (ListClipboards world_short))) = false /\
   rows_of (w_out (snd (ListClipboards world_short))) = []) /\
  (io_Actual (fst (DoIO 0 paste_header_request world_eight)) = 8 /\
   w_files (snd (PasteFromClipboard "out" 0 false
                   (with_junk (repeat 0 8 ++ bytes_of_string "FTXT")
                      world_eight))) "out"%string = Some [] /\
   w_files (snd (PasteFromClipboard "out" 0 false
                   (with_junk (repeat 0 12) world_eight))) "out"%string
   = None).
Proof. vm_compute. repeat split; reflexivity. Qed.

Lemma header_is_text_full (r : IOClipReq) (junk : list Z) :
  io_Actual r = 12 -> Zlen (io_Data r) = 12 ->
  header_is_text r (overlay (io_Data r) junk) =
  (ULONG_at (io_Data r) 0 =? ID_FORM) && (ULONG_at (io_Data r) 8 =? ID_FTXT).
Proof.
  intros Ha Hl. unfold header_is_text. rewrite Ha.
  rewrite !ULONG_at_overlay by (unfold Zlen in Hl; lia). reflexivity.
Qed.

Lemma header_is_text_short (r : IOClipReq) (hdr : list Z) :
  io_Actual r < 8 -> header_is_text r hdr = false.
Proof.
  intro Ha. unfold header_is_text.
  assert ((8 <=? io_Actual r) = false) as -> by lia. reflexivity.
Qed.

(** [PasteFromClipboard] up to its header read: the handle with the request
    as the device returned it, and the local [iffHeader] with the bytes
    delivered copied over what it held; nothing on the paths on which the
    function prints its fault and returns before the read. *)
Definition paste_header (fileName : string) (unit : Z)
  (forceOverwrite : bool) : M (option (ClipboardHandle * list Z)) :=
  iffHeader <- uninitialised 12 ;;
  if is_empty fileName then
    PrintFault ERROR_OBJECT_NOT_FOUND "Clipboard: No file specified" ;;;
    ret None
  else
  testFile <- (if forceOverwrite then ret None else Open_OLDFILE fileName) ;;
  match testFile with
  | Some fh =>
      Close fh ;;;
      PrintFault ERROR_OBJECT_EXISTS
        "Clipboard: File already exists (use FORCE to overwrite)" ;;;
      ret None
  | None =>
  oc <- OpenClipboard unit ;;
  match oc with
  | None =>
      errorCode <- IoErr_or ERROR_OBJECT_NOT_FOUND ;;
      PrintFault errorCode "Clipboard: Could not open clipboard" ;;;
      ret None
  | Some clipHandle =>
      let ioreq := cbh_Req clipHandle in
      let ioreq := set_Offset 0 ioreq in
      let ioreq := set_ClipID 0 ioreq in
      let ioreq := set_Command CMD_READ ioreq in
      let ioreq := set_Length 12 ioreq in
      let ioreq := set_Data [] ioreq in
      ioreq <- DoIO unit ioreq ;;
      let iffHeader := overlay (io_Data ioreq) iffHeader in
      let clipHandle := with_req ioreq clipHandle in
      ret (Some (clipHandle, iffHeader))
  end
  end.

(** [PasteFromClipboard] is [paste_header] followed by one of the two
    branches, chosen by [header_is_text], or by the return of
    [RETURN_FAIL]. *)
Lemma PasteFromClipboard_run (fileName : string) (u : Z) (force : bool)
  (w : World) :
  PasteFromClipboard fileName u force w =
  match fst (paste_header fileName u force w) with
  | Some (h, hdr) =>
      (if header_is_text (cbh_Req h) hdr then paste_text fileName h
       else paste_object fileName h) (snd (paste_header fileName u force w))
  | None => (RETURN_FAIL, snd (paste_header fileName u force w))
  end.
Proof.
  unfold PasteFromClipboard, paste_header.
  rewrite !(bind_run _ _ (uninitialised 12)).
  destruct (is_empty fileName).
  { rewrite !bind_run. reflexivity. }
  set (probe := if force then ret None else Open_OLDFILE fileName).
  rewrite !(bind_run _ _ probe).
  destruct (fst (probe _)) as [fh | ].
  { rewrite !bind_run. reflexivity. }
  rewrite !(bind_run _ _ (OpenClipboard u)).
  destruct (fst (OpenClipboard u _)) as [h0 | ].
  - cbv zeta. rewrite !(bind_run _ _ (DoIO u _)). reflexivity.
  - rewrite !bind_run. reflexivity.
Qed.

(** The header holds the bytes delivered, as many as the device reports. *)
Lemma PasteFromClipboard_decision (fileName : string) (u : Z) (force : bool)
  (w : World) (h : ClipboardHandle) (hdr : list Z) :
  fst (paste_header fileName u force w) = Some (h, hdr) ->
  PasteFromClipboard fileName u force w =
    (if header_is_text (cbh_Req h) hdr then paste_text fileName h
     else paste_object fileName h) (snd (paste_header fileName u force w)) /\
  Zlen (io_Data (cbh_Req h)) = io_Actual (cbh_Req h) /\
  hdr = overlay (io_Data (cbh_Req h)) (firstn 12 (w_junk w ++ repeat 0 12)).
Proof.
  intro Hh. split; [rewrite PasteFromClipboard_run, Hh; reflexivity | ].
  revert Hh. unfold paste_header.
  rewrite !(bind_run _ _ (uninitialised 12)).
  change (snd (uninitialised 12 w)) with w.
  change (fst (uninitialised 12 w)) with (firstn 12 (w_junk w ++ repeat 0 12)).
  destruct (is_empty fileName); [rewrite !bind_run; discriminate | ].
  set (probe := if force then ret None else Open_OLDFILE fileName).
  rewrite !(bind_run _ _ probe).
  destruct (fst (probe w)) as [fh | ]; [rewrite !bind_run; discriminate | ].
  rewrite !(bind_run _ _ (OpenClipboard u)).
  destruct (fst (OpenClipboard u (snd (probe w)))) as [h0 | ];
    [ | rewrite !bind_run; discriminate].
  cbv zeta.
  set (req := set_Data [] (set_Length 12 (set_Command CMD_READ
                (set_ClipID 0 (set_Offset 0 (cbh_Req h0)))))).
  rewrite !(bind_run _ _ (DoIO u req)).
  pose proof (DoIO_read_length u req (snd (OpenClipboard u (snd (probe w))))
                eq_refl) as Hlen.
  cbn [ret fst snd]. intro H. injection H as <- <-.
  split; [ | reflexivity].
  destruct h0. symmetry. exact Hlen.
Qed.

(** The header read of the paste on a clip of eight bytes delivers eight
    bytes, and the four bytes after them are what the variable held. *)
Example paste_header_of_eight_bytes :
  exists h hdr,
    fst (paste_header "out" 0 false
           (with_junk (repeat 0 8 ++ bytes_of_string "FTXT") world_eight))
    = Some (h, hdr) /\
    io_Actual (cbh_Req h) = 8 /\
    hdr = bytes_of_ULONG ID_FORM ++ bytes_of_ULONG 0 ++ bytes_of_string "FTXT" /\
    header_is_text (cbh_Req h) hdr = true.
Proof. eexists. eexists. vm_compute. repeat split; reflexivity. Qed.

(** C4, amended.  In the listing a unit is classified only from a header
    of 12 bytes read in full and without error, and its row shows the type
    found in the bytes 8-11 of the clip, as [Printf("%-4s")] prints it, and
    the size found in the bytes 4-7; a shorter header is no error: the
    listing never prints a fault and always returns [RETURN_OK].
    [PasteFromClipboard], once it has read the header, runs its text branch
    when [header_is_text] holds and its object branch otherwise; when all 12
    bytes of the header were read that is exactly when the bytes 0-3
    delivered are FORM and the bytes 8-11 delivered are FTXT, whatever the
    header variable held before, and when fewer than 8 bytes were read it is
    the object branch. *)
Theorem C4_classification_of_full_headers :
  (forall (u : Z) (w : World),
     fst (ListClipboards_unit u w) = true ->
     exists r, fst (header_read u w) = Some r /\
               io_Actual r = 12 /\ io_Error r = 0) /\
  (forall w : World,
     fst (ListClipboards w) = RETURN_OK /\
     exists o,
       w_out (snd (ListClipboards w)) = w_out w ++ o /\
       existsb is_fault o = false /\
       Forall (fun row =>
                 12 <= Zlen (cu_clip (w_units w (row_unit row))) /\
                 row_type row = left_justified 4
                   (bytes_of_ULONG
                      (ULONG_at (cu_clip (w_units w (row_unit row))) 8)
                    ++ [0]) /\
                 row_size row =
                   ULONG_at (cu_clip (w_units w (row_unit row))) 4)
              (rows_of o)) /\
  (forall (fileName : string) (u : Z) (force : bool) (w : World)
          (h : ClipboardHandle) (hdr : list Z),
     fst (paste_header fileName u force w) = Some (h, hdr) ->
     PasteFromClipboard fileName u force w =
       (if header_is_text (cbh_Req h) hdr then paste_text fileName h
        else paste_object fileName h)
         (snd (paste_header fileName u force w)) /\
     (io_Actual (cbh_Req h) = 12 ->
      header_is_text (cbh_Req h) hdr =
      (ULONG_at (io_Data (cbh_Req h)) 0 =? ID_FORM) &&
      (ULONG_at (io_Data (cbh_Req h)) 8 =? ID_FTXT)) /\
     (io_Actual (cbh_Req h) < 8 ->
      PasteFromClipboard fileName u force w =
        paste_object fileName h (snd (paste_header fileName u force w)))).
Proof.
  split; [ | split].
  - intros u w Hhas. rewrite ListClipboards_unit_decision in Hhas.
    destruct (fst (header_read u w)) as [r | ]; [ | discriminate].
    rewrite !andb_true_iff, !Z.eqb_eq in Hhas. exists r. tauto.
  - intro w.
    destruct (ListClipboards_spec w w (frame_refl w))
      as (Hr & o & Hf & Hnf & Hall).
    split; [exact Hr | ]. exists o. split; [exact (fr_out _ _ Hf) | ].
    split.
    + clear - Hnf. induction o as [ | x o IH]; [reflexivity | ].
      cbn in *. apply andb_true_iff in Hnf. destruct Hnf as (Hx & Ho).
      apply negb_true_iff in Hx. rewrite Hx, (IH Ho). reflexivity.
    + eapply Forall_impl; [ | exact Hall].
      intros row (_ & (Hlen & _) & (_ & Ht & Hs & _)). auto.
  - intros fileName u force w h hdr Hh.
    destruct (PasteFromClipboard_decision fileName u force w h hdr Hh)
      as (Hrun & Hlen & Hhdr).
    split; [exact Hrun | ]. split.
    + intro Ha. rewrite Hhdr. apply header_is_text_full; [exact Ha | ].
      rewrite Hlen. exact Ha.
    + intro Ha. rewrite Hrun, (header_is_text_short _ hdr Ha). reflexivity.
Qed.

(** ** Pasting an empty unit *)

Lemma NewDTObject_clip_none (u : Z) (w0 : World) :
  w_dt_clip w0 (cu_clip (w_units w0 u)) = None ->
  hoare (frame w0) (NewDTObject_clip u) (fun o w => frame w0 w /\ o = None).
Proof.
  intros Hnone w Hw. unfold NewDTObject_clip. rewrite bind_run.
  change (fst (get_world w)) with w. change (snd (get_world w)) with w.
  rewrite (fr_dt_clip _ _ Hw), (fr_clip _ _ Hw), Hnone. rewrite bind_run.
  split; [ | reflexivity].
  eapply frame_trans; [exact Hw | ].
  constructor; try reflexivity. exact (trace_same w).
Qed.

Ltac hbind L := eapply hoare_bind; [apply L | ].

(** The end of a path that fails after it printed its one fault. *)
Ltac hfail :=
  apply hoare_ret; intros ? ?; split;
  [reflexivity | eexists; split; [eassumption | reflexivity]].

Definition failed_quietly (w0 : World) (r : Z) (w : World) : Prop :=
  r = RETURN_FAIL /\
  exists o, frame (add_out [o] w0) w /\ is_fault o = true.

Lemma paste_object_empty (fileName : string) (h : ClipboardHandle)
  (w0 : World) :
  w_dt_clip w0 (cu_clip (w_units w0 (cbh_Unit h))) = None ->
  hoare (frame w0) (paste_object fileName h) (failed_quietly w0).
Proof.
  intro Hnone. unfold paste_object, failed_quietly, PrintFault.
  hbind CBReadDone_spec. intro h1. apply hoare_pure. intro Hu1.
  hbind AllocIFF_spec. intros [i | ]; apply hoare_pure; intro Hi.
  - cbv zeta. hbind OpenIFF_spec. intros [e i1]. apply hoare_pure.
    cbn [fst snd]. intros (_ & Hwr).
    destruct (negb (e =? 0)) eqn:E.
    + hbind emit_spec. intros []. hbind framed_FreeIFF. intros [].
      hbind framed_CloseClipboard. intros []. hfail.
    + apply negb_false_iff, Z.eqb_eq in E. specialize (Hwr E).
      rewrite Hu1. hbind NewDTObject_clip_none; [exact Hnone | ].
      intro od. apply hoare_pure. intros ->.
      hbind framed_IoErr_or. intro errorCode.
      hbind emit_spec. intros [].
      hbind CloseIFF_reader_spec; [exact Hwr | ].
      intro i2. apply hoare_pure. intros _.
      hbind framed_FreeIFF. intros [].
      hbind framed_CloseClipboard. intros []. hfail.
  - hbind emit_spec. intros []. hbind framed_CloseClipboard. intros [].
    hfail.
Qed.

Lemma PasteFromClipboard_empty (fileName : string) (unit : Z) (force : bool)
  (w0 : World) :
  cu_clip (w_units w0 unit) = [] ->
  w_dt_clip w0 [] = None ->
  hoare (frame w0) (PasteFromClipboard fileName unit force)
        (failed_quietly w0).
Proof.
  intros Hempty Hnone. unfold PasteFromClipboard.
  hbind framed_uninitialised. intro iffHeader.
  destruct (is_empty fileName).
  { unfold PrintFault, failed_quietly. hbind emit_spec. intros []. hfail. }
  eapply hoare_bind with (Q := fun _ w => frame w0 w).
  { destruct force; [apply framed_ret | apply framed_Open_OLDFILE]. }
  intros [fh | ].
  { unfold PrintFault, failed_quietly. hbind framed_Close. intros [].
    hbind emit_spec. intros []. hfail. }
  hbind OpenClipboard_spec. intros [h | ]; apply hoare_pure; intro Hh.
  - destruct (Hh h eq_refl) as (Hu & _). clear Hh. cbv zeta.
    rewrite DoIO_is_read by reflexivity.
    hbind DoIO_read_spec. intro r. apply hoare_pure. rewrite Hempty.
    intros (_ & _ & Hr).
    assert (io_Actual r = 0) as Ha.
    { destruct Hr as [(Ha & _) | (_ & Hd & Ha & _)]; [exact Ha | ].
      rewrite Ha, Hd, skipn_nil, firstn_nil. reflexivity. }
    rewrite header_is_text_short by lia.
    apply paste_object_empty. cbn [cbh_Unit with_req].
    rewrite Hu, Hempty. exact Hnone.
  - unfold PrintFault, failed_quietly. hbind framed_IoErr_or. intro e.
    hbind emit_spec. intros []. hfail.
Qed.

(** ** Copying and the commit *)

(** A converter for which every file is a text whose buffer is the file,
    and one for which every file is an object that is its own IFF form. *)
Definition dt_text (c : list Z) : option DTObject :=
  Some (mkDT true (Some c) true (form ID_FTXT (chunk ID_CHRS c))).

Definition dt_blob (c : list Z) : option DTObject :=
  Some (mkDT false None true c).

(** An environment that is cooperative except for its [n]-th decision. *)
Definition fault_at (n : nat) (f : Fault) : nat -> Fault :=
  fun k => if Nat.eqb k n then f else NoFault.

(** Unit 0 holds "OLD"; the file "in" holds the text "Hi!". *)
Definition world_text : World :=
  with_dt_file dt_text
    (with_file "in" (bytes_of_string "Hi!")
       (with_clip 0 (bytes_of_string "OLD") world0)).

(** Unit 0 holds "OLD"; the file "in" is an IFF object of 24 bytes. *)
Definition world_blob : World :=
  with_dt_file dt_blob
    (with_file "in" (form ID_FTXT (chunk ID_CHRS (bytes_of_string "Hi!")))
       (with_clip 0 (bytes_of_string "OLD") world0)).

(** C5, at the failing input.  A text file is copied and the transport
    rejects the write of the payload (its 7th decision), or accepts one
    byte of it: [CopyTextToClipboard] prints the fault, pops the chunks and
    calls [CloseIFF], which sends [CMD_UPDATE]; the commit comes after the
    failed write and the unit no longer holds "OLD" but a truncated stream.
    On the sibling path, the transfer of an object by [CMD_WRITE], a write
    of which 3 of 24 bytes are accepted is followed by no commit and the
    unit still holds "OLD". *)
Theorem C5_text_copy_commits_after_failed_write :
  (fst (CopyToClipboard "in" 0 (with_faults (fault_at 6 (Err 28)) world_text))
   = RETURN_FAIL /\
   w_trace (snd (CopyToClipboard "in" 0
                   (with_faults (fault_at 6 (Err 28)) world_text))) =
   [EvOpen 0; EvWrite 0 0 12 12 0; EvWrite 0 12 8 8 0; EvWrite 0 20 3 0 28;
    EvWrite 0 4 4 4 0; EvUpdate 0 0; EvClose 0] /\
   cu_clip (w_units (snd (CopyToClipboard "in" 0
                            (with_faults (fault_at 6 (Err 28)) world_text))) 0)
   = bytes_of_string "FORM" ++ [0; 0; 0; 16] ++ bytes_of_string "FTXTCHRS" ++
     [0; 0; 0; 3]) /\
  (fst (CopyToClipboard "in" 0
          (with_faults (fault_at 6 (Partial 1)) world_text)) = RETURN_FAIL /\
   cu_clip (w_units (snd (CopyToClipboard "in" 0
                            (with_faults (fault_at 6 (Partial 1)) world_text))) 0)
   = bytes_of_string "FORM" ++ [0; 0; 0; 16] ++ bytes_of_string "FTXTCHRS" ++
     [0; 0; 0; 3] ++ bytes_of_string "H") /\
  (fst (CopyToClipboard "in" 0
          (with_faults (fault_at 5 (Partial 3)) world_blob)) = RETURN_FAIL /\
   w_trace (snd (CopyToClipboard "in" 0
                   (with_faults (fault_at 5 (Partial 3)) world_blob))) =
   [EvOpen 0; EvWrite 0 0 24 3 0; EvClose 0] /\
   cu_clip (w_units (snd (CopyToClipboard "in" 0
                            (with_faults (fault_at 5 (Partial 3)) world_blob))) 0)
   = bytes_of_string "OLD").
Proof. vm_compute. repeat split; reflexivity. Qed.

(** Without a fault both paths commit the whole stream, and what was
    copied as text is pasted back as the same text. *)
Example copy_then_paste_text :
  fst (CopyToClipboard "in" 0 world_text) = RETURN_OK /\
  cu_clip (w_units (snd (CopyToClipboard "in" 0 world_text)) 0) =
    form ID_FTXT (chunk ID_CHRS (bytes_of_string "Hi!")) /\
  fst (PasteFromClipboard "out" 0 false
         (snd (CopyToClipboard "in" 0 world_text))) = RETURN_OK /\
  w_files (snd (PasteFromClipboard "out" 0 false
                  (snd (CopyToClipboard "in" 0 world_text)))) "out"%string
  = Some (bytes_of_string "Hi!").
Proof. vm_compute. repeat split; reflexivity. Qed.

(** ** The operations of one invocation *)

(** The unit of an invocation: CLIPUNIT read as a [ULONG], 0 without it. *)
Definition unit_of (args : Args) : Z :=
  match arg_unit args with
  | Some u => wrap32 u
  | None => 0
  end.

(** Both a source and a destination, and LIST as well. *)
Definition args_copy_paste_list : Args :=
  mkArgs (Some "in"%string) (Some "out"%string) None true false false.

Definition args_copy_paste : Args :=
  mkArgs (Some "in"%string) (Some "out"%string) None false false false.

(** The claim C10 as it is stated fails when LIST is given too: [main]
    lists the units and exits with success; no copy and no paste is
    attempted (nothing is written to the device, no file appears), although
    the copy and the paste, had they run, would both have failed here for
    want of the source file. *)
Lemma C10_counterexample :
  arg_copy args_copy_paste_list = Some "in"%string /\
  arg_paste args_copy_paste_list = Some "out"%string /\
  fst (main 1 (Some args_copy_paste_list) world0) = RETURN_OK /\
  existsb is_fault (w_out (snd (main 1 (Some args_copy_paste_list) world0)))
  = false /\
  fst (CopyToClipboard "in" 0 (snd (InitializeLibraries world0)))
  = RETURN_FAIL /\
  fst (perform (Some "in"%string) (Some "out"%string) 0 false
         (snd (InitializeLibraries world0))) = RETURN_FAIL.
Proof. vm_compute. repeat split; reflexivity. Qed.

(** C10, amended.  When the program was started from the shell, its
    libraries opened and its arguments parsed, the unit (the number given
    for CLIPUNIT read as a [ULONG], 0 without it) is at most 255 and
    neither LIST nor FLUSH is given, then with both a source and a
    destination the copy runs first, the paste runs next on the world the
    copy left, whether or not the copy succeeded, and the exit status is
    [RETURN_OK] exactly when the copy and the paste both returned
    [RETURN_OK]. *)
Theorem C10_copy_then_paste :
  forall (argc : Z) (args : Args) (c p : string) (w : World),
    argc <> 0 ->
    fst (InitializeLibraries w) = true ->
    arg_copy args = Some c ->
    arg_paste args = Some p ->
    unit_of args <= 255 ->
    arg_list args = false ->
    arg_flush args = false ->
    snd (main argc (Some args) w) =
    snd (PasteFromClipboard p (unit_of args) (arg_force args)
           (snd (CopyToClipboard c (unit_of args)
                   (snd (InitializeLibraries w))))) /\
    (fst (main argc (Some args) w) = RETURN_OK <->
     fst (CopyToClipboard c (unit_of args) (snd (InitializeLibraries w)))
     = RETURN_OK /\
     fst (PasteFromClipboard p (unit_of args) (arg_force args)
            (snd (CopyToClipboard c (unit_of args)
                    (snd (InitializeLibraries w))))) = RETURN_OK).
Proof.
  intros argc args c p w Hargc Hinit Hc Hp Hu Hl Hf.
  unfold main. apply Z.eqb_neq in Hargc. rewrite Hargc.
  rewrite bind_run, Hinit. cbn [negb].
  fold (unit_of args). rewrite Hc, Hp, Hl, Hf.
  assert ((255 <? unit_of args) = false) as -> by lia.
  cbn [negb andb]. rewrite bind_run. unfold Cleanup. rewrite bind_run.
  cbn [ret fst snd].
  unfold perform. rewrite bind_run, bind_run, bind_run.
  cbn [ret fst snd].
  set (rc := fst (CopyToClipboard c (unit_of args) (snd (InitializeLibraries w)))).
  set (w1 := snd (CopyToClipboard c (unit_of args) (snd (InitializeLibraries w)))).
  set (rp := fst (PasteFromClipboard p (unit_of args) (arg_force args) w1)).
  split; [reflexivity | ].
  destruct (rp =? RETURN_OK) eqn:Ep; cbn [negb].
  - apply Z.eqb_eq in Ep.
    destruct (rc =? RETURN_OK) eqn:Ec; cbn [negb andb].
    + apply Z.eqb_eq in Ec. tauto.
    + apply Z.eqb_neq in Ec. split; [discriminate | tauto].
  - apply Z.eqb_neq in Ep. tauto.
Qed.

Lemma C10_witness :
  1 <> 0 /\
  fst (InitializeLibraries world_text) = true /\
  arg_copy args_copy_paste = Some "in"%string /\
  arg_paste args_copy_paste = Some "out"%string /\
  unit_of args_copy_paste <= 255 /\
  arg_list args_copy_paste = false /\
  arg_flush args_copy_paste = false /\
  snd (main 1 (Some args_copy_paste) world_text) =
  snd (PasteFromClipboard "out" (unit_of args_copy_paste)
         (arg_force args_copy_paste)
         (snd (CopyToClipboard "in" (unit_of args_copy_paste)
                 (snd (InitializeLibraries world_text))))) /\
  (fst (main 1 (Some args_copy_paste) world_text) = RETURN_OK <->
   fst (CopyToClipboard "in" (unit_of args_copy_paste)
          (snd (InitializeLibraries world_text))) = RETURN_OK /\
   fst (PasteFromClipboard "out" (unit_of args_copy_paste)
          (arg_force args_copy_paste)
          (snd (CopyToClipboard "in" (unit_of args_copy_paste)
                  (snd (InitializeLibraries world_text))))) = RETURN_OK).
Proof.
  assert (1 <> 0) as H1 by lia.
  assert (unit_of args_copy_paste <= 255) as H2 by (vm_compute; discriminate).
  split; [exact H1 | ]. split; [vm_compute; reflexivity | ].
  split; [reflexivity | ]. split; [reflexivity | ]. split; [exact H2 | ].
  split; [reflexivity | ]. split; [reflexivity | ].
  exact (C10_copy_then_paste 1 args_copy_paste "in" "out" world_text
           H1 eq_refl eq_refl eq_refl H2 eq_refl eq_refl).
Defined.

(** CLIPUNIT=-1 is read as 4294967295 and turned down: [main] prints
    [ERROR_BAD_NUMBER] and neither copies nor pastes. *)
Definition args_unit_minus_1 : Args :=
  mkArgs (Some "in"%string) (Some "out"%string) (Some (-1)) false false false.

Example main_negative_unit :
  unit_of args_unit_minus_1 = 4294967295 /\
  fst (main 1 (Some args_unit_minus_1) world_text) = RETURN_FAIL /\
  w_out (snd (main 1 (Some args_unit_minus_1) world_text))
  = [OutFault ERROR_BAD_NUMBER "Clipboard"] /\
  w_files (snd (main 1 (Some args_unit_minus_1) world_text)) "out"%string
  = None /\
  w_trace (snd (main 1 (Some args_unit_minus_1) world_text)) = [].
Proof. vm_compute. repeat split; reflexivity. Qed.

Example main_copy_paste_succeeds :
  fst (main 1 (Some args_copy_paste) world_text) = RETURN_OK /\
  w_files (snd (main 1 (Some args_copy_paste) world_text)) "out"%string
  = Some (bytes_of_string "Hi!").
Proof. vm_compute. split; reflexivity. Qed.

(** ** Words and their bytes *)

Lemma testbit_255 (m : Z) : 0 <= m -> Z.testbit 255 m = (m <? 8).
Proof.
  intro Hm. change 255 with (Z.ones 8). apply Z.testbit_ones_nonneg; lia.
Qed.

Lemma testbit_high (x n : Z) :
  0 <= x < 2 ^ 32 -> 32 <= n -> Z.testbit x n = false.
Proof.
  intros Hx Hn. destruct (Z.eq_dec x 0) as [-> | Hnz].
  - apply Z.bits_0.
  - apply Z.bits_above_log2; [lia | ].
    assert (Z.log2 x < 32) by (apply Z.log2_lt_pow2; lia). lia.
Qed.

(** A [ULONG] is recovered from its four bytes in memory. *)
Lemma be32_bytes_of_ULONG (x : Z) :
  0 <= x < 2 ^ 32 -> be32 (bytes_of_ULONG x) = x.
Proof.
  intro Hx. unfold be32, bytes_of_ULONG, MAKE_ID.
  apply Z.bits_inj'. intros n Hn.
  rewrite !Z.lor_spec.
  rewrite !Z.shiftl_spec by lia.
  destruct (Z.ltb_spec n 8).
  { rewrite (Z.testbit_neg_r _ (n - 24)), (Z.testbit_neg_r _ (n - 16)),
      (Z.testbit_neg_r _ (n - 8)) by lia.
    rewrite Z.land_spec, testbit_255 by lia.
    assert ((n <? 8) = true) as -> by lia.
    cbn [orb]. apply andb_true_r. }
  destruct (Z.ltb_spec n 16).
  { rewrite (Z.testbit_neg_r _ (n - 24)), (Z.testbit_neg_r _ (n - 16)) by lia.
    rewrite !Z.land_spec, !Z.shiftr_spec by lia. rewrite !testbit_255 by lia.
    assert ((n - 8 <? 8) = true) as -> by lia.
    assert ((n <? 8) = false) as -> by lia.
    replace (n - 8 + 8) with n by lia.
    cbn [orb]. rewrite andb_true_r, andb_false_r, orb_false_r. reflexivity. }
  destruct (Z.ltb_spec n 24).
  { rewrite (Z.testbit_neg_r _ (n - 24)) by lia.
    rewrite !Z.land_spec, !Z.shiftr_spec by lia. rewrite !testbit_255 by lia.
    assert ((n - 16 <? 8) = true) as -> by lia.
    assert ((n - 8 <? 8) = false) as -> by lia.
    assert ((n <? 8) = false) as -> by lia.
    replace (n - 16 + 16) with n by lia.
    cbn [orb]. rewrite andb_true_r, !andb_false_r, !orb_false_r. reflexivity. }
  rewrite !Z.land_spec, !Z.shiftr_spec by lia. rewrite !testbit_255 by lia.
  destruct (Z.ltb_spec n 32).
  { assert ((n - 24 <? 8) = true) as -> by lia.
    assert ((n - 16 <? 8) = false) as -> by lia.
    assert ((n - 8 <? 8) = false) as -> by lia.
    assert ((n <? 8) = false) as -> by lia.
    replace (n - 24 + 24) with n by lia.
    rewrite andb_true_r, !andb_false_r, !orb_false_r. reflexivity. }
  assert ((n - 24 <? 8) = false) as -> by lia.
  assert ((n - 16 <? 8) = false) as -> by lia.
  assert ((n - 8 <? 8) = false) as -> by lia.
  assert ((n <? 8) = false) as -> by lia.
  rewrite !andb_false_r. cbn [orb]. symmetry. apply testbit_high; lia.
Qed.

Lemma to_LONG_small (x : Z) : 0 <= x < 2 ^ 31 -> to_LONG x = x.
Proof.
  intro Hx. unfold to_LONG, wrap32. rewrite Z.mod_small by lia.
  assert ((x <? 2 ^ 31) = true) as -> by lia. reflexivity.
Qed.

Lemma Zlen_bytes_of_ULONG (x : Z) : Zlen (bytes_of_ULONG x) = 4.
Proof. reflexivity. Qed.

(** ** Windows of a list *)

Lemma skipn_prefix (a b : list Z) (off : Z) :
  Zlen a = off -> skipn (Z.to_nat off) (a ++ b) = b.
Proof.
  intro H. unfold Zlen in H.
  replace (Z.to_nat off) with (List.length a) by lia.
  rewrite skipn_app, skipn_all, Nat.sub_diag. reflexivity.
Qed.

Lemma firstn_prefix (a b : list Z) (n : Z) :
  Zlen a = n -> firstn (Z.to_nat n) (a ++ b) = a.
Proof.
  intro H. unfold Zlen in H.
  replace (Z.to_nat n) with (List.length a + 0)%nat by lia.
  rewrite firstn_app_2, firstn_O, app_nil_r. reflexivity.
Qed.

Lemma firstn_short (l : list Z) (n : Z) :
  Zlen l <= n -> firstn (Z.to_nat n) l = l.
Proof. intro H. apply firstn_all2. unfold Zlen in H. lia. Qed.

Lemma Zlen_repeat (x : Z) (n : nat) : Zlen (repeat x n) = Z.of_nat n.
Proof. unfold Zlen. rewrite repeat_length. reflexivity. Qed.

Lemma Zlen_chunk (id : Z) (p : list Z) :
  Zlen (chunk id p) = 8 + Zlen p + pad (Zlen p).
Proof.
  unfold chunk. rewrite !Zlen_app, !Zlen_bytes_of_ULONG, Zlen_repeat.
  pose proof (pad_nonneg (Zlen p)). lia.
Qed.

Lemma chunks_app (a b : list (Z * list Z)) :
  chunks (a ++ b) = chunks a ++ chunks b.
Proof. unfold chunks. rewrite map_app, concat_app. reflexivity. Qed.

Lemma chunks_cons (c : Z * list Z) (rest : list (Z * list Z)) :
  chunks (c :: rest) = chunk (fst c) (snd c) ++ chunks rest.
Proof. reflexivity. Qed.

Lemma Zlen_chunks_lower (rest : list (Z * list Z)) :
  8 * Zlen rest <= Zlen (chunks rest).
Proof.
  induction rest as [ | c rest IH].
  - unfold Zlen. cbn. lia.
  - rewrite chunks_cons, Zlen_app, Zlen_chunk.
    pose proof (pad_nonneg (Zlen (snd c))). pose proof (Zlen_nonneg _ (snd c)).
    unfold Zlen in *. cbn [List.length]. lia.
Qed.

Lemma ULONG_at_0 (a : Z) (l : list Z) :
  ULONG_at (bytes_of_ULONG a ++ l) 0 = be32 (bytes_of_ULONG a).
Proof. reflexivity. Qed.

Lemma ULONG_at_4 (a b : Z) (l : list Z) :
  ULONG_at (bytes_of_ULONG a ++ bytes_of_ULONG b ++ l) 4
  = be32 (bytes_of_ULONG b).
Proof. reflexivity. Qed.

Lemma ULONG_at_8 (a b c : Z) (l : list Z) :
  ULONG_at (bytes_of_ULONG a ++ bytes_of_ULONG b ++ bytes_of_ULONG c ++ l) 8
  = be32 (bytes_of_ULONG c).
Proof. reflexivity. Qed.

Lemma ID_range :
  0 <= ID_FORM < 2 ^ 32 /\ 0 <= ID_FTXT < 2 ^ 32 /\ 0 <= ID_CHRS < 2 ^ 32.
Proof. cbv. repeat split; congruence. Qed.

(** ** Pasting a text clip in a cooperative environment *)

(** A leaf chunk of the wire format: its identifier is a 32-bit word that
    is no group identifier, and its size fits a [LONG]. *)
Definition wf_chunk (c : Z * list Z) : Prop :=
  is_group (fst c) = false /\ 0 <= fst c < 2 ^ 32 /\ Zlen (snd c) < 2 ^ 31.

Section PasteText.

Variable w0 : World.
Variable name : string.
Variable u : Z.
Variable cs : list (Z * list Z).

Hypothesis coop : forall n, w_faults w0 n = NoFault.
Hypothesis Hclip : cu_clip (w_units w0 u) = form ID_FTXT (chunks cs).
Hypothesis Hwf : Forall wf_chunk cs.
Hypothesis Hsize : 4 + Zlen (chunks cs) < 2 ^ 31.

(** The state of the world while the text is extracted: the clips and the
    environment are those of [w0], and the destination holds [acc]. *)
Definition pst (acc : list Z) (w : World) : Prop :=
  (forall v, cu_clip (w_units w v) = cu_clip (w_units w0 v)) /\
  w_faults w = w_faults w0 /\
  w_files w name = Some acc /\
  w_diverged w = w_diverged w0.

(** The state of the reader: its unit, the offset of its stream, its stack,
    and the one chunk it stops on. *)
Definition hstate (i : IFFHandle) (off : Z) (st : list ContextNode) : Prop :=
  cbh_Unit (iff_Stream i) = u /\ stream_offset i = off /\ iff_Stack i = st /\
  iff_Stop i = [(ID_FTXT, ID_CHRS)] /\ iff_Write i = false.

Lemma pst_fault (acc : list Z) :
  hoare (pst acc) fault (fun f w => pst acc w /\ f = NoFault).
Proof.
  intros w (Hc & Hf & Hfile & Hd). split.
  - repeat split; assumption.
  - cbn. rewrite Hf. apply coop.
Qed.

Lemma pst_log (acc : list Z) (e : DevEvent) :
  hoare (pst acc) (log e) (fun _ w => pst acc w).
Proof. intros w (Hc & Hf & Hfile & Hd). repeat split; assumption. Qed.

Lemma pst_get (B : Type) (acc : list Z) (k : World -> M B)
  (Q : B -> World -> Prop) :
  (forall w1, pst acc w1 -> hoare (pst acc) (k w1) Q) ->
  hoare (pst acc) (bind get_world k) Q.
Proof.
  intros H w Hw. rewrite bind_run. cbn. apply (H w Hw), Hw.
Qed.

Lemma pst_DoIO_read (acc : list Z) (r : IOClipReq) :
  hoare (pst acc) (DoIO_read u r)
        (fun r' w =>
           pst acc w /\ io_Error r' = 0 /\
           io_Data r' = firstn (Z.to_nat (io_Length r))
                          (skipn (Z.to_nat (io_Offset r))
                             (form ID_FTXT (chunks cs))) /\
           io_Offset r' = io_Offset r + Zlen (io_Data r')).
Proof.
  unfold DoIO_read. hbind pst_fault. intro f. apply hoare_pure. intros ->.
  apply pst_get. intros w1 (Hc1 & _).
  hbind pst_log. intros []. apply hoare_ret. intros w Hw.
  split; [exact Hw | ]. cbn [complete io_Error io_Data io_Offset].
  rewrite (Hc1 u), Hclip. auto.
Qed.

Lemma pst_stream_read (acc : list Z) (n : Z) (i : IFFHandle) (off : Z)
  (st : list ContextNode) :
  hstate i off st ->
  hoare (pst acc) (stream_read n i)
        (fun x w =>
           pst acc w /\ snd (fst x) = 0 /\
           fst (fst x) = firstn (Z.to_nat n)
                           (skipn (Z.to_nat off) (form ID_FTXT (chunks cs))) /\
           hstate (snd x) (off + Zlen (fst (fst x))) st).
Proof.
  intros (Hu & Ho & Hst & Hstop & Hwr). unfold stream_read.
  rewrite DoIO_is_read by reflexivity. rewrite Hu.
  hbind pst_DoIO_read. intro r. apply hoare_pure.
  cbn [io_Length io_Offset set_Length set_Data set_Command].
  unfold stream_offset in Ho. rewrite Ho.
  intros (He & Hd & Hoff). apply hoare_ret. intros w Hw.
  split; [exact Hw | ]. cbn [fst snd]. split; [exact He | ].
  split; [exact Hd | ].
  unfold hstate, stream_offset. cbn. auto.
Qed.

(** Where the chunks lie in the clip. *)
Lemma clip_at (pre rest : list (Z * list Z)) :
  cs = pre ++ rest ->
  skipn (Z.to_nat (12 + Zlen (chunks pre))) (form ID_FTXT (chunks cs))
  = chunks rest.
Proof.
  intros ->. unfold form. rewrite chunks_app.
  rewrite !app_assoc. apply skipn_prefix.
  rewrite !Zlen_app, !Zlen_bytes_of_ULONG. lia.
Qed.

Lemma Zlen_form (type : Z) (body : list Z) :
  Zlen (form type body) = 12 + Zlen body.
Proof. unfold form. rewrite !Zlen_app, !Zlen_bytes_of_ULONG. lia. Qed.

Lemma clip_beyond (off : Z) :
  12 + Zlen (chunks cs) <= off ->
  skipn (Z.to_nat off) (form ID_FTXT (chunks cs)) = [].
Proof.
  intro H. apply skipn_all2. pose proof (Zlen_form ID_FTXT (chunks cs)).
  unfold Zlen in *. lia.
Qed.

Lemma wf_in (pre rest : list (Z * list Z)) (c : Z * list Z) :
  cs = pre ++ c :: rest -> wf_chunk c.
Proof.
  intro H. rewrite Forall_forall in Hwf. apply Hwf. rewrite H.
  apply in_or_app. right. left. reflexivity.
Qed.

(** Comparisons of integers that [lia] decides. *)
Ltac zbool :=
  repeat match goal with
  | |- context [?a <? ?b] =>
      first [ assert ((a <? b) = true) as -> by lia
            | assert ((a <? b) = false) as -> by lia ]
  | |- context [?a <=? ?b] =>
      first [ assert ((a <=? b) = true) as -> by lia
            | assert ((a <=? b) = false) as -> by lia ]
  | |- context [?a =? ?b] =>
      first [ assert ((a =? b) = true) as -> by lia
            | assert ((a =? b) = false) as -> by lia ]
  end.

Definition form_node (scan : Z) : ContextNode :=
  mkCN ID_FORM ID_FTXT (4 + Zlen (chunks cs)) scan 0.

Definition leaf_node (c : Z * list Z) (k start : Z) : ContextNode :=
  mkCN (fst c) ID_FTXT (Zlen (snd c)) k start.

Lemma form_head8 (type : Z) (body : list Z) :
  firstn 8 (form type body)
  = bytes_of_ULONG ID_FORM ++ bytes_of_ULONG (4 + Zlen body).
Proof. reflexivity. Qed.

Lemma form_type4 (type : Z) (body : list Z) :
  firstn 4 (skipn 8 (form type body)) = bytes_of_ULONG type.
Proof. reflexivity. Qed.

Lemma chunk_head8 (id : Z) (p l : list Z) :
  firstn 8 (chunk id p ++ l) = bytes_of_ULONG id ++ bytes_of_ULONG (Zlen p).
Proof. reflexivity. Qed.

Lemma Zlen_two_words (a b : Z) :
  Zlen (bytes_of_ULONG a ++ bytes_of_ULONG b) = 8.
Proof. reflexivity. Qed.

Lemma ULONG_at_4' (a b : Z) :
  ULONG_at (bytes_of_ULONG a ++ bytes_of_ULONG b) 4 = be32 (bytes_of_ULONG b).
Proof. reflexivity. Qed.

(** The first header of the clip: the FORM is entered. *)
Lemma next_chunk_FORM (acc : list Z) (i : IFFHandle) :
  hstate i 0 [] ->
  hoare (pst acc) (next_chunk i)
        (fun x w => pst acc w /\ fst x = 0 /\
                    hstate (snd x) 12 [form_node 4]).
Proof.
  intro Hst. unfold next_chunk.
  eapply hoare_bind; [apply pst_stream_read; exact Hst | ].
  intros [[d1 e1] i1]. apply hoare_pure. cbn [fst snd].
  intros (-> & Hd & Hs1).
  change (Z.to_nat 8) with 8%nat in Hd. change (Z.to_nat 0) with 0%nat in Hd.
  cbn [skipn] in Hd. rewrite form_head8 in Hd. subst d1.
  rewrite Zlen_two_words in *. rewrite ULONG_at_0, ULONG_at_4'.
  pose proof ID_range as (HF & HT & _).
  pose proof (Zlen_nonneg _ (chunks cs)) as Hnn.
  rewrite !be32_bytes_of_ULONG by lia. rewrite to_LONG_small by lia.
  change (negb (0 =? 0)) with false. change (8 =? 0) with false.
  change (8 <? 8) with false. change (is_group ID_FORM) with true.
  cbv iota. zbool.
  eapply hoare_bind; [apply pst_stream_read; exact Hs1 | ].
  intros [[d2 e2] i2]. apply hoare_pure. cbn [fst snd].
  intros (-> & Hd2 & Hs2).
  change (Z.to_nat 4) with 4%nat in Hd2.
  change (Z.to_nat (0 + 8)) with 8%nat in Hd2.
  rewrite form_type4 in Hd2. subst d2.
  rewrite Zlen_bytes_of_ULONG in *.
  change (negb (0 =? 0)) with false. change (4 <? 4) with false. cbv iota.
  apply hoare_ret. intros w Hw. split; [exact Hw | ]. cbn [fst snd].
  split; [reflexivity | ].
  destruct Hs2 as (Hu2 & Ho2 & Hst2 & Hstop2 & Hwr2).
  destruct Hst as (_ & Ho & _).
  unfold hstate, form_node. cbn [iff_Stream iff_Stack iff_Stop iff_Write
                                 set_stack].
  rewrite be32_bytes_of_ULONG by lia. rewrite Hst2.
  unfold stream_offset in *. cbn [iff_Stream set_stack].
  rewrite Ho. repeat split; assumption.
Qed.

(** The header of a leaf chunk: the chunk is entered. *)
Lemma next_chunk_leaf (acc : list Z) (i : IFFHandle)
  (pre rest : list (Z * list Z)) (c : Z * list Z) (scan : Z) :
  cs = pre ++ c :: rest ->
  hstate i (12 + Zlen (chunks pre)) [form_node scan] ->
  hoare (pst acc) (next_chunk i)
        (fun x w => pst acc w /\ fst x = 0 /\
                    hstate (snd x) (12 + Zlen (chunks pre) + 8)
                           [leaf_node c 0 (12 + Zlen (chunks pre));
                            form_node scan]).
Proof.
  intros Hcs Hst. unfold next_chunk.
  destruct (wf_in _ _ _ Hcs) as (Hng & Hid & Hlen).
  eapply hoare_bind; [apply pst_stream_read; exact Hst | ].
  intros [[d1 e1] i1]. apply hoare_pure. cbn [fst snd].
  intros (-> & Hd & Hs1).
  rewrite (clip_at pre (c :: rest) Hcs) in Hd. rewrite chunks_cons in Hd.
  change (Z.to_nat 8) with 8%nat in Hd. rewrite chunk_head8 in Hd. subst d1.
  rewrite Zlen_two_words in *. rewrite ULONG_at_0, ULONG_at_4'.
  pose proof (Zlen_nonneg _ (snd c)) as Hnn.
  rewrite !be32_bytes_of_ULONG by lia. rewrite to_LONG_small by lia.
  change (negb (0 =? 0)) with false. change (8 =? 0) with false.
  change (8 <? 8) with false. rewrite Hng. cbv iota. zbool.
  apply hoare_ret. intros w Hw. split; [exact Hw | ]. cbn [fst snd].
  split; [reflexivity | ].
  destruct Hs1 as (Hu1 & Ho1 & Hst1 & Hstop1 & Hwr1).
  destruct Hst as (_ & Ho & _).
  unfold hstate, leaf_node. cbn [iff_Stream iff_Stack iff_Stop iff_Write
                                 set_stack].
  rewrite Hst1. cbn [parent_type form_node cn_Type].
  unfold stream_offset in *. cbn [iff_Stream set_stack].
  rewrite Ho. repeat split; assumption.
Qed.

(** Beyond the end of the clip, at the outermost level: end of stream. *)
Lemma next_chunk_end (acc : list Z) (i : IFFHandle) (off : Z) :
  12 + Zlen (chunks cs) <= off ->
  hstate i off [] ->
  hoare (pst acc) (next_chunk i)
        (fun x w => pst acc w /\ fst x = IFFERR_EOF /\ hstate (snd x) off []).
Proof.
  intros Hoff Hst. unfold next_chunk.
  eapply hoare_bind; [apply pst_stream_read; exact Hst | ].
  intros [[d1 e1] i1]. apply hoare_pure. cbn [fst snd].
  intros (-> & Hd & Hs1).
  rewrite clip_beyond in Hd by exact Hoff. rewrite firstn_nil in Hd. subst d1.
  change (negb (0 =? 0)) with false. change (Zlen [] =? 0) with true.
  cbv iota.
  change (Zlen []) with 0 in Hs1. rewrite Z.add_0_r in Hs1.
  destruct Hs1 as (Hu1 & Ho1 & Hst1 & Hstop1 & Hwr1). rewrite Hst1.
  apply hoare_ret. intros w Hw. split; [exact Hw | ].
  split; [reflexivity | ]. cbn [snd]. repeat split; assumption.
Qed.

(** The reader between two chunks of the FORM, inside a leaf of which [k]
    bytes were read, and beyond the end of the clip. *)
Definition stA (i : IFFHandle) (pre : list (Z * list Z)) : Prop :=
  hstate i (12 + Zlen (chunks pre)) [form_node (4 + Zlen (chunks pre))].

Definition stB (i : IFFHandle) (pre : list (Z * list Z)) (c : Z * list Z)
  (k : Z) : Prop :=
  hstate i (12 + Zlen (chunks pre) + 8 + k)
         [leaf_node c k (12 + Zlen (chunks pre));
          form_node (4 + Zlen (chunks pre))].

Definition stE (i : IFFHandle) : Prop :=
  exists off, 12 + Zlen (chunks cs) <= off /\ hstate i off [].

Lemma pop_leaf (i : IFFHandle) (pre : list (Z * list Z)) (c : Z * list Z)
  (k : Z) :
  0 <= k <= Zlen (snd c) -> stB i pre c k -> stA (pop_read i) (pre ++ [c]).
Proof.
  intros Hk (Hu & Ho & Hst & Hstop & Hwr).
  unfold stA, hstate, pop_read, stream_offset in *. rewrite Hst.
  cbn [iff_Stream iff_Stack iff_Stop iff_Write set_stack stream_seek set_stream
       with_req cbh_Unit cbh_Req io_Offset set_Offset add_scan leaf_node
       form_node cn_Size cn_Scan cn_ID cn_Type cn_Start].
  rewrite chunks_app, Zlen_app, chunks_cons. cbn [chunks map List.concat].
  rewrite app_nil_r, Zlen_chunk.
  repeat split; try assumption.
  - rewrite Ho. lia.
  - unfold form_node. do 2 f_equal. lia.
Qed.

Lemma pop_form (i : IFFHandle) : stA i cs -> stE (pop_read i).
Proof.
  intros (Hu & Ho & Hst & Hstop & Hwr).
  unfold stE, hstate, pop_read, stream_offset in *. rewrite Hst.
  cbn [iff_Stream iff_Stack iff_Stop iff_Write set_stack stream_seek set_stream
       with_req cbh_Unit cbh_Req io_Offset set_Offset add_scan
       form_node cn_Size cn_Scan cn_ID cn_Type cn_Start].
  eexists. split; [ | repeat split; try eassumption; reflexivity].
  rewrite Ho. pose proof (pad_nonneg (4 + Zlen (chunks cs))). lia.
Qed.

(** The first CHRS chunk of a list of chunks: the chunks before it, its
    payload, and the chunks after it. *)
Fixpoint next_CHRS (rest : list (Z * list Z))
  : option (list (Z * list Z) * list Z * list (Z * list Z)) :=
  match rest with
  | [] => None
  | c :: rest' =>
      if fst c =? ID_CHRS then Some ([], snd c, rest')
      else match next_CHRS rest' with
           | Some (skipped, p, after) => Some (c :: skipped, p, after)
           | None => None
           end
  end.

Lemma next_CHRS_None (rest : list (Z * list Z)) :
  next_CHRS rest = None -> payloads_of ID_CHRS rest = [].
Proof.
  induction rest as [ | c rest IH]; [reflexivity | ].
  cbn [next_CHRS]. unfold payloads_of. cbn [map List.concat].
  destruct (fst c =? ID_CHRS); [discriminate | ].
  destruct (next_CHRS rest) as [[[s p] a] | ]; [discriminate | ].
  intros _. apply (IH eq_refl).
Qed.

Lemma next_CHRS_Some (rest skipped after : list (Z * list Z)) (p : list Z) :
  next_CHRS rest = Some (skipped, p, after) ->
  payloads_of ID_CHRS rest = p ++ payloads_of ID_CHRS after /\
  rest = skipped ++ (ID_CHRS, p) :: after.
Proof.
  revert skipped. induction rest as [ | c rest IH]; intros skipped;
    [discriminate | ].
  cbn [next_CHRS]. unfold payloads_of. cbn [map List.concat].
  destruct (fst c =? ID_CHRS) eqn:E.
  - intro H. inversion H; subst. apply Z.eqb_eq in E.
    split; [reflexivity | ]. destruct c as [id q]. cbn in *. subst.
    reflexivity.
  - destruct (next_CHRS rest) as [[[s q] a] | ]; [ | discriminate].
    intro H. inversion H; subst.
    destruct (IH s eq_refl) as (Hp & Hr). split.
    + exact Hp.
    + cbn [app]. f_equal. exact Hr.
Qed.

(** What a scan yields when it starts before the chunks [rest], the chunks
    [pre] being behind it. *)
Definition scan_post (pre rest : list (Z * list Z)) (x : Z * IFFHandle)
  : Prop :=
  match next_CHRS rest with
  | None => fst x = IFFERR_EOC /\ stE (snd x)
  | Some (skipped, p, after) =>
      fst x = 0 /\ stB (snd x) (pre ++ skipped) (ID_CHRS, p) 0 /\
      cs = (pre ++ skipped) ++ (ID_CHRS, p) :: after
  end.

Lemma is_stop_leaf (i : IFFHandle) (c : Z * list Z) (k start : Z) :
  iff_Stop i = [(ID_FTXT, ID_CHRS)] ->
  is_stop i (leaf_node c k start) = (fst c =? ID_CHRS).
Proof.
  intro H. unfold is_stop. rewrite H.
  cbn [existsb fst snd leaf_node cn_Type cn_ID].
  rewrite Z.eqb_refl, orb_false_r. cbn [andb]. apply Z.eqb_sym.
Qed.

Lemma stB_zero (i : IFFHandle) (pre : list (Z * list Z)) (c : Z * list Z) :
  hstate i (12 + Zlen (chunks pre) + 8)
         [leaf_node c 0 (12 + Zlen (chunks pre));
          form_node (4 + Zlen (chunks pre))] ->
  stB i pre c 0.
Proof. unfold stB. rewrite Z.add_0_r. auto. Qed.

Lemma scan_A (rest : list (Z * list Z)) :
  forall (pre : list (Z * list Z)) (fuel : nat) (i : IFFHandle)
         (acc : list Z),
    cs = pre ++ rest -> stA i pre ->
    (2 * List.length rest + 1 <= fuel)%nat ->
    hoare (pst acc) (ParseIFF_scan fuel i)
          (fun x w => pst acc w /\ scan_post pre rest x).
Proof.
  induction rest as [ | c rest IH]; intros pre fuel i acc Hcs HA Hfuel.
  - rewrite app_nil_r in Hcs. subst pre.
    destruct fuel as [ | fuel]; [cbn in Hfuel; lia | ].
    cbn [ParseIFF_scan]. pose proof HA as (_ & _ & Hst & _). rewrite Hst.
    cbn [form_node cn_ID cn_Size cn_Scan].
    change (is_group ID_FORM) with true. cbv iota. zbool.
    apply hoare_ret. intros w Hw. split; [exact Hw | ].
    unfold scan_post. cbn [next_CHRS fst snd].
    split; [reflexivity | apply pop_form, HA].
  - destruct fuel as [ | fuel]; [cbn in Hfuel; lia | ].
    cbn [ParseIFF_scan]. pose proof HA as (_ & _ & Hst & _). rewrite Hst.
    cbn [form_node cn_ID cn_Size cn_Scan].
    change (is_group ID_FORM) with true. cbv iota.
    assert (Zlen (chunks cs) = Zlen (chunks pre) + Zlen (chunk (fst c) (snd c))
                               + Zlen (chunks rest)) as Hlen.
    { rewrite Hcs, chunks_app, chunks_cons, !Zlen_app. lia. }
    pose proof (Zlen_chunk (fst c) (snd c)) as Hck.
    pose proof (Zlen_nonneg _ (snd c)). pose proof (pad_nonneg (Zlen (snd c))).
    pose proof (Zlen_nonneg _ (chunks rest)).
    zbool.
    eapply hoare_bind; [apply (next_chunk_leaf acc i pre rest c _ Hcs HA) | ].
    intros [e i1]. apply hoare_pure. cbn [fst snd]. intros (-> & HB).
    change (negb (0 =? 0)) with false. cbv iota.
    pose proof HB as (_ & _ & Hst1 & Hstop1 & _). rewrite Hst1.
    apply stB_zero in HB.
    rewrite (is_stop_leaf i1 c 0 _ Hstop1).
    destruct (wf_in _ _ _ Hcs) as (Hng & _).
    destruct (fst c =? ID_CHRS) eqn:Ec.
    + apply hoare_ret. intros w Hw. split; [exact Hw | ].
      unfold scan_post. cbn [next_CHRS]. rewrite Ec. cbn [fst snd].
      apply Z.eqb_eq in Ec. rewrite app_nil_r.
      destruct c as [id p]. cbn [fst snd] in *. subst id.
      split; [reflexivity | ]. split; [exact HB | exact Hcs].
    + destruct fuel as [ | fuel]; [cbn in Hfuel; lia | ].
      cbn [ParseIFF_scan]. rewrite Hst1.
      cbn [leaf_node cn_ID]. rewrite Hng. cbv iota.
      assert (stA (pop_read i1) (pre ++ [c])) as HA'.
      { apply (pop_leaf i1 pre c 0); [lia | exact HB]. }
      assert (cs = (pre ++ [c]) ++ rest) as Hcs'.
      { rewrite <- app_assoc. exact Hcs. }
      eapply hoare_post;
        [apply (IH (pre ++ [c]) fuel (pop_read i1) acc Hcs' HA');
         cbn [List.length] in Hfuel; lia | ].
      intros x w (Hw & Hpost). split; [exact Hw | ].
      unfold scan_post in *. cbn [next_CHRS]. rewrite Ec.
      destruct (next_CHRS rest) as [[[s p] a] | ]; [ | exact Hpost].
      destruct Hpost as (He & HB' & Hcs'').
      rewrite <- (app_assoc pre [c] s) in HB', Hcs''.
      split; [exact He | ]. split; [exact HB' | exact Hcs''].
Qed.

(** Where the reader stands when the chunks [rest] are still to come:
    before the FORM, between two chunks, or inside the chunk before
    [rest]. *)
Inductive position (i : IFFHandle) (rest : list (Z * list Z)) : Prop :=
| pos_init : rest = cs -> hstate i 0 [] -> position i rest
| pos_A (pre : list (Z * list Z)) :
    cs = pre ++ rest -> stA i pre -> position i rest
| pos_B (pre : list (Z * list Z)) (c : Z * list Z) (k : Z) :
    cs = pre ++ c :: rest -> 0 <= k <= Zlen (snd c) -> stB i pre c k ->
    position i rest.

Definition found (rest : list (Z * list Z)) (x : Z * IFFHandle) : Prop :=
  match next_CHRS rest with
  | None => fst x = IFFERR_EOC /\ stE (snd x)
  | Some (skipped, p, after) =>
      fst x = 0 /\
      exists pre, stB (snd x) pre (ID_CHRS, p) 0 /\
                  cs = pre ++ (ID_CHRS, p) :: after
  end.

Lemma scan_post_found (pre rest : list (Z * list Z)) (x : Z * IFFHandle) :
  scan_post pre rest x -> found rest x.
Proof.
  unfold scan_post, found.
  destruct (next_CHRS rest) as [[[s p] a] | ]; [ | auto].
  intros (He & HB & Hcs). split; [exact He | ].
  exists (pre ++ s). auto.
Qed.

(** The steps a scan needs from a position. *)
Definition steps (rest : list (Z * list Z)) (i : IFFHandle) : nat :=
  (2 * List.length rest + 1
   + (if Nat.eqb (List.length (iff_Stack i)) 1 then 0 else 1))%nat.

Lemma scan_position (rest : list (Z * list Z)) (i : IFFHandle)
  (fuel : nat) (acc : list Z) :
  position i rest ->
  (steps rest i <= fuel)%nat ->
  hoare (pst acc) (ParseIFF_scan fuel i)
        (fun x w => pst acc w /\ found rest x).
Proof.
  unfold steps.
  intros [Hrest Hst | pre Hcs HA | pre c k Hcs Hk HB] Hfuel.
  - subst rest. pose proof Hst as (_ & _ & Hs & _). rewrite Hs in *.
    cbn [List.length Nat.eqb] in Hfuel.
    destruct fuel as [ | fuel]; [lia | ].
    cbn [ParseIFF_scan]. rewrite Hs.
    eapply hoare_bind; [apply (next_chunk_FORM acc i Hst) | ].
    intros [e i1]. apply hoare_pure. cbn [fst snd]. intros (-> & H1).
    change (negb (0 =? 0)) with false. cbv iota.
    pose proof H1 as (_ & _ & Hs1 & Hstop1 & _). rewrite Hs1.
    assert (is_stop i1 (form_node 4) = false) as ->.
    { unfold is_stop. rewrite Hstop1. reflexivity. }
    eapply hoare_post; [apply (scan_A cs [] fuel i1 acc eq_refl); [ | lia] | ].
    + exact H1.
    + intros x w (Hw & Hp). split; [exact Hw | ].
      apply (scan_post_found [] cs x Hp).
  - pose proof HA as (_ & _ & Hs & _). rewrite Hs in Hfuel.
    cbn [List.length Nat.eqb] in Hfuel.
    eapply hoare_post; [apply (scan_A rest pre fuel i acc Hcs HA); lia | ].
    intros x w (Hw & Hp). split; [exact Hw | ].
    apply (scan_post_found pre rest x Hp).
  - pose proof HB as (_ & _ & Hs & _). rewrite Hs in Hfuel.
    cbn [List.length Nat.eqb] in Hfuel.
    destruct fuel as [ | fuel]; [lia | ].
    cbn [ParseIFF_scan]. rewrite Hs.
    cbn [leaf_node cn_ID]. destruct (wf_in _ _ _ Hcs) as (Hng & _).
    rewrite Hng. cbv iota.
    assert (cs = (pre ++ [c]) ++ rest) as Hcs'
        by (rewrite <- app_assoc; exact Hcs).
    eapply hoare_post;
      [apply (scan_A rest (pre ++ [c]) fuel (pop_read i) acc Hcs'); [ | lia] | ].
    + apply (pop_leaf i pre c k Hk HB).
    + intros x w (Hw & Hp). split; [exact Hw | ].
      apply (scan_post_found (pre ++ [c]) rest x Hp).
Qed.

Lemma scan_E (i : IFFHandle) (fuel : nat) (acc : list Z) :
  stE i -> (1 <= fuel)%nat ->
  hoare (pst acc) (ParseIFF_scan fuel i)
        (fun x w => pst acc w /\ fst x = IFFERR_EOF /\ stE (snd x)).
Proof.
  intros (off & Hoff & Hst) Hfuel. destruct fuel as [ | fuel]; [lia | ].
  cbn [ParseIFF_scan]. pose proof Hst as (_ & _ & Hs & _). rewrite Hs.
  eapply hoare_bind; [apply (next_chunk_end acc i off Hoff Hst) | ].
  intros [e i1]. apply hoare_pure. cbn [fst snd]. intros (-> & H1).
  change (negb (IFFERR_EOF =? 0)) with true. cbv iota.
  apply hoare_ret. intros w Hw. split; [exact Hw | ].
  split; [reflexivity | ]. exists off. auto.
Qed.

(** The bound [ParseIFF] computes is enough at every position. *)
Lemma position_bound (rest : list (Z * list Z)) (i : IFFHandle) (w : World)
  (acc : list Z) :
  position i rest -> pst acc w ->
  (steps rest i <= scan_bound w i)%nat.
Proof.
  intros Hpos (Hc & _). unfold scan_bound, steps.
  assert (8 * Zlen rest <= Zlen (chunks rest)) as Hlow
      by apply Zlen_chunks_lower.
  unfold Zlen in Hlow at 1.
  destruct Hpos as [Hrest Hst | pre Hcs HA | pre c k Hcs Hk HB].
  - destruct Hst as (Hu & Ho & Hs & _). rewrite Hu, Hc, Hclip, Ho, Hs.
    rewrite Zlen_form. subst rest. cbn [List.length Nat.eqb]. lia.
  - destruct HA as (Hu & Ho & Hs & _). rewrite Hu, Hc, Hclip, Ho, Hs.
    rewrite Zlen_form. rewrite Hcs at 1. rewrite chunks_app, Zlen_app.
    cbn [List.length Nat.eqb]. lia.
  - destruct HB as (Hu & Ho & Hs & _). rewrite Hu, Hc, Hclip, Ho, Hs.
    rewrite Zlen_form. rewrite Hcs at 1.
    rewrite chunks_app, chunks_cons, !Zlen_app, Zlen_chunk.
    pose proof (pad_nonneg (Zlen (snd c))).
    cbn [List.length Nat.eqb]. lia.
Qed.

Lemma ParseIFF_position (rest : list (Z * list Z)) (i : IFFHandle)
  (acc : list Z) :
  position i rest ->
  hoare (pst acc) (ParseIFF i) (fun x w => pst acc w /\ found rest x).
Proof.
  intro Hpos. unfold ParseIFF. apply pst_get. intros w1 Hw1.
  apply scan_position; [exact Hpos | ].
  apply (position_bound rest i w1 acc Hpos Hw1).
Qed.

Lemma ParseIFF_E (i : IFFHandle) (acc : list Z) :
  stE i ->
  hoare (pst acc) (ParseIFF i)
        (fun x w => pst acc w /\ fst x = IFFERR_EOF /\ stE (snd x)).
Proof.
  intro HE. unfold ParseIFF. apply pst_get. intros w1 Hw1.
  apply scan_E; [exact HE | ]. unfold scan_bound. lia.
Qed.

Lemma chunk_skip8 (id : Z) (p l : list Z) :
  skipn 8 (chunk id p ++ l)
  = (p ++ repeat 0 (Z.to_nat (pad (Zlen p)))) ++ l.
Proof. reflexivity. Qed.

(** What lies in the clip at the [k]-th byte of the payload of a chunk. *)
Lemma clip_in_leaf (pre rest : list (Z * list Z)) (c : Z * list Z) (k : Z) :
  cs = pre ++ c :: rest -> 0 <= k <= Zlen (snd c) ->
  skipn (Z.to_nat (12 + Zlen (chunks pre) + 8 + k)) (form ID_FTXT (chunks cs))
  = skipn (Z.to_nat k) (snd c) ++
    repeat 0 (Z.to_nat (pad (Zlen (snd c)))) ++ chunks rest.
Proof.
  intros Hcs Hk. pose proof (Zlen_nonneg _ (chunks pre)).
  replace (Z.to_nat (12 + Zlen (chunks pre) + 8 + k))
    with (Z.to_nat k + (8 + Z.to_nat (12 + Zlen (chunks pre))))%nat by lia.
  rewrite <- !skipn_skipn. rewrite (clip_at pre (c :: rest) Hcs).
  rewrite chunks_cons, chunk_skip8, <- app_assoc.
  rewrite skipn_app.
  replace (Z.to_nat k - List.length (snd c))%nat with 0%nat
    by (unfold Zlen in Hk; lia).
  reflexivity.
Qed.

Lemma ReadChunkBytes_leaf (acc : list Z) (i : IFFHandle)
  (pre rest : list (Z * list Z)) (c : Z * list Z) (k : Z) :
  cs = pre ++ c :: rest -> 0 <= k < Zlen (snd c) -> stB i pre c k ->
  hoare (pst acc) (ReadChunkBytes i 4096)
        (fun x w =>
           pst acc w /\
           fst (fst x) = Z.min 4096 (Zlen (snd c) - k) /\
           snd (fst x) = firstn (Z.to_nat (Z.min 4096 (Zlen (snd c) - k)))
                                (skipn (Z.to_nat k) (snd c)) /\
           stB (snd x) pre c (k + Z.min 4096 (Zlen (snd c) - k))).
Proof.
  intros Hcs Hk HB. unfold ReadChunkBytes.
  pose proof HB as (Hu & Ho & Hs & Hstop & Hwr). rewrite Hs.
  cbn [leaf_node cn_Size cn_Scan cn_ID cn_Type cn_Start].
  set (m := Z.min 4096 (Zlen (snd c) - k)).
  assert (0 < m <= Zlen (snd c) - k) as Hm by (unfold m; lia).
  zbool.
  eapply hoare_bind; [apply pst_stream_read; exact HB | ].
  intros [[d e] i1]. apply hoare_pure. cbn [fst snd].
  intros (-> & Hd & H1).
  rewrite (clip_in_leaf pre rest c k Hcs) in Hd by lia.
  rewrite firstn_app in Hd.
  replace (Z.to_nat m - List.length (skipn (Z.to_nat k) (snd c)))%nat
    with 0%nat in Hd
    by (rewrite length_skipn; unfold Zlen in Hm; lia).
  rewrite firstn_O, app_nil_r in Hd.
  assert (Zlen d = m) as Hdl.
  { rewrite Hd. unfold Zlen. rewrite length_firstn, length_skipn.
    unfold Zlen in Hm. lia. }
  change (negb (0 =? 0)) with false. cbv iota. rewrite Hdl. zbool.
  apply hoare_ret. intros w Hw. split; [exact Hw | ]. cbn [fst snd].
  split; [reflexivity | ]. split; [exact Hd | ].
  destruct H1 as (Hu1 & Ho1 & Hs1 & Hstop1 & Hwr1).
  unfold stB, hstate, stream_offset in *.
  cbn [iff_Stream iff_Stack iff_Stop iff_Write set_stack].
  rewrite Hdl in Ho1. unfold leaf_node.
  repeat split; try assumption. rewrite Ho1. lia.
Qed.

Lemma ReadChunkBytes_done (i : IFFHandle) (pre : list (Z * list Z))
  (c : Z * list Z) :
  stB i pre c (Zlen (snd c)) ->
  ReadChunkBytes i 4096 = ret (0, [], i).
Proof.
  intros (_ & _ & Hs & _). unfold ReadChunkBytes. rewrite Hs.
  cbn [leaf_node cn_Size cn_Scan]. rewrite Z.sub_diag.
  reflexivity.
Qed.

Lemma pst_Write (acc data : list Z) :
  hoare (pst acc) (Write name data)
        (fun n w => pst (acc ++ data) w /\ n = Zlen data).
Proof.
  unfold Write. hbind pst_fault. intro f. apply hoare_pure. intros ->.
  apply pst_get. intros w1 (_ & _ & Hfile1 & _).
  rewrite Hfile1.
  intros w (Hc & Hf & Hfile & Hd). rewrite bind_run.
  split; [ | reflexivity].
  unfold pst.
  cbn [snd ret set_files w_units w_faults w_files w_diverged].
  unfold upd_file. rewrite String.eqb_refl. repeat split; assumption.
Qed.

(** The inner loop writes what is left of the payload of the chunk. *)
Lemma read_chunk_loop_leaf (fuel : nat) :
  forall (i : IFFHandle) (pre rest : list (Z * list Z)) (p : list Z) (k : Z)
         (acc : list Z) (result : Z),
    cs = pre ++ (ID_CHRS, p) :: rest -> 0 <= k <= Zlen p ->
    stB i pre (ID_CHRS, p) k ->
    (Z.to_nat (Zlen p - k) < fuel)%nat ->
    hoare (pst acc) (read_chunk_loop fuel i name result)
          (fun x w =>
             pst (acc ++ skipn (Z.to_nat k) p) w /\
             fst (fst x) = 0 /\ snd (fst x) = result /\
             stB (snd x) pre (ID_CHRS, p) (Zlen p)).
Proof.
  induction fuel as [ | fuel IH]; intros i pre rest p k acc result Hcs Hk HB Hf;
    [lia | ].
  cbn [read_chunk_loop].
  destruct (Z.eq_dec k (Zlen p)) as [-> | Hne].
  - rewrite (ReadChunkBytes_done i pre (ID_CHRS, p) HB).
    intros w Hw. rewrite bind_run. cbn [ret fst snd].
    change (0 <? 0) with false. cbv iota. cbn [ret fst snd].
    rewrite skipn_all2 by (unfold Zlen; lia). rewrite app_nil_r.
    split; [exact Hw | ]. split; [reflexivity | ].
    split; [reflexivity | exact HB].
  - eapply hoare_bind;
      [apply (ReadChunkBytes_leaf acc i pre rest (ID_CHRS, p) k Hcs);
       [cbn [snd]; lia | exact HB] | ].
    intros [[bytesRead readBuffer] i1]. apply hoare_pure. cbn [fst snd].
    set (m := Z.min 4096 (Zlen p - k)).
    assert (0 < m <= Zlen p - k) as Hm by (unfold m; lia).
    intros (-> & Hbuf & HB1). zbool.
    eapply hoare_bind; [apply pst_Write | ].
    intro n. apply hoare_pure. intros ->.
    assert (Zlen readBuffer = m) as Hbl.
    { rewrite Hbuf. unfold Zlen. rewrite length_firstn, length_skipn.
      unfold Zlen in Hm. lia. }
    rewrite Hbl, Z.eqb_refl. cbn [negb].
    eapply hoare_post;
      [apply (IH i1 pre rest p (k + m) (acc ++ readBuffer) result Hcs);
       [lia | exact HB1 | lia] | ].
    intros x w (Hw & Hrest). split; [ | exact Hrest].
    replace (acc ++ skipn (Z.to_nat k) p)
      with ((acc ++ readBuffer) ++ skipn (Z.to_nat (k + m)) p); [exact Hw | ].
    rewrite <- app_assoc. f_equal. rewrite Hbuf.
    replace (Z.to_nat (k + m)) with (Z.to_nat m + Z.to_nat k)%nat by lia.
    rewrite <- skipn_skipn. apply firstn_skipn.
Qed.

(** The outer loop writes the payloads of the CHRS chunks still to come and
    ends with [RETURN_OK] at the end of the stream. *)
Lemma paste_loop_position (n : nat) :
  forall (rest : list (Z * list Z)) (i : IFFHandle) (acc : list Z)
         (fuel : nat) (result : Z),
    (List.length rest <= n)%nat -> position i rest ->
    (List.length rest + 2 <= fuel)%nat ->
    hoare (pst acc) (paste_loop fuel i name result)
          (fun x w =>
             pst (acc ++ payloads_of ID_CHRS rest) w /\
             fst x = RETURN_OK /\ iff_Write (snd x) = false).
Proof.
  induction n as [ | n IH]; intros rest i acc fuel result Hn Hpos Hfuel.
  - destruct rest; [ | cbn in Hn; lia].
    destruct fuel as [ | fuel]; [lia | ]. cbn [paste_loop].
    eapply hoare_bind; [apply (ParseIFF_position [] i acc Hpos) | ].
    intros [e i1]. apply hoare_pure. unfold found. cbn [next_CHRS fst snd].
    intros (-> & HE).
    change (IFFERR_EOC =? IFFERR_EOC) with true. cbv iota.
    destruct fuel as [ | fuel]; [cbn in Hfuel; lia | ]. cbn [paste_loop].
    eapply hoare_bind; [apply (ParseIFF_E i1 acc HE) | ].
    intros [e2 i2]. apply hoare_pure. cbn [fst snd].
    intros (-> & (off & _ & (_ & _ & _ & _ & Hwr))).
    change (IFFERR_EOF =? IFFERR_EOC) with false.
    change (negb (IFFERR_EOF =? 0)) with true.
    change (negb (IFFERR_EOF =? IFFERR_EOF)) with false. cbv iota.
    apply hoare_ret. intros w Hw. unfold payloads_of. cbn [map List.concat].
    rewrite app_nil_r. auto.
  - destruct fuel as [ | fuel]; [lia | ]. cbn [paste_loop].
    eapply hoare_bind; [apply (ParseIFF_position rest i acc Hpos) | ].
    intros [e i1]. apply hoare_pure. unfold found. cbn [fst snd].
    destruct (next_CHRS rest) as [[[sk p] after] | ] eqn:En.
    + intros (-> & pre & HB & Hcs).
      destruct (next_CHRS_Some rest sk after p En) as (Hpay & Hrest).
      change (0 =? IFFERR_EOC) with false.
      change (negb (0 =? 0)) with false. cbv iota.
      pose proof HB as (_ & _ & Hs & _). unfold CurrentChunk, chunk_bound.
      rewrite Hs. cbn [leaf_node cn_Type cn_ID cn_Size cn_Scan fst snd].
      rewrite !Z.eqb_refl. cbn [andb].
      pose proof (Zlen_nonneg _ p) as Hp.
      eapply hoare_bind;
        [apply (read_chunk_loop_leaf _ i1 pre after p 0 acc result Hcs);
         [lia | exact HB | lia] | ].
      intros [[bytesRead res] i2]. apply hoare_pure. cbn [fst snd].
      intros (-> & -> & HB2).
      change (0 <? 0) with false. cbv iota.
      change (Z.to_nat 0) with 0%nat. cbn [skipn].
      assert (List.length after < List.length rest)%nat as Hlt.
      { rewrite Hrest, length_app. cbn [List.length]. lia. }
      eapply hoare_post;
        [apply (IH after i2 (acc ++ p) fuel result); [lia | | lia] | ].
      * apply (pos_B i2 after pre (ID_CHRS, p) (Zlen p) Hcs);
          [cbn [snd]; lia | exact HB2].
      * intros x w (Hw & Hres). split; [ | exact Hres].
        rewrite Hpay, app_assoc. exact Hw.
    + intros (-> & HE).
      change (IFFERR_EOC =? IFFERR_EOC) with true. cbv iota.
      destruct fuel as [ | fuel]; [lia | ]. cbn [paste_loop].
      eapply hoare_bind; [apply (ParseIFF_E i1 acc HE) | ].
      intros [e2 i2]. apply hoare_pure. cbn [fst snd].
      intros (-> & (off & _ & (_ & _ & _ & _ & Hwr))).
      change (IFFERR_EOF =? IFFERR_EOC) with false.
      change (negb (IFFERR_EOF =? 0)) with true.
      change (negb (IFFERR_EOF =? IFFERR_EOF)) with false. cbv iota.
      apply hoare_ret. intros w Hw. rewrite (next_CHRS_None rest En).
      rewrite app_nil_r. auto.
Qed.

(** Before the destination is opened the world is framed by [w0]; the
    environment grants every request. *)
Lemma frame_fault :
  hoare (frame w0) fault (fun f w => frame w0 w /\ f = NoFault).
Proof.
  intros w Hw. split; [apply framed_fault; exact Hw | ].
  cbn. rewrite (fr_faults _ _ Hw). apply coop.
Qed.

Lemma frame_fallible :
  hoare (frame w0) fallible (fun e w => frame w0 w /\ e = 0).
Proof.
  unfold fallible. hbind frame_fault. intro f. apply hoare_pure. intros ->.
  apply hoare_ret. auto.
Qed.

Lemma frame_OpenClipboard :
  hoare (frame w0) (OpenClipboard u)
        (fun o w => frame w0 w /\ o = Some (mkHandle u req0)).
Proof.
  unfold OpenClipboard. hbind frame_fault. intro f. apply hoare_pure.
  intros ->. eapply hoare_bind; [apply framed_log; exact I | ].
  intros []. apply hoare_ret. auto.
Qed.

Lemma frame_DoIO_read (r : IOClipReq) :
  hoare (frame w0) (DoIO_read u r)
        (fun r' w =>
           frame w0 w /\ io_Actual r' = Zlen (io_Data r') /\
           io_Data r' = firstn (Z.to_nat (io_Length r))
                          (skipn (Z.to_nat (io_Offset r))
                             (form ID_FTXT (chunks cs)))).
Proof.
  unfold DoIO_read. hbind frame_fault. intro f. apply hoare_pure. intros ->.
  apply frame_get. intros w1 Hw1.
  eapply hoare_bind; [apply framed_log; exact I | ]. intros [].
  apply hoare_ret. intros w Hw. split; [exact Hw | ].
  cbn [complete io_Actual io_Data]. rewrite (fr_clip _ _ Hw1 u), Hclip. auto.
Qed.

Lemma frame_AllocIFF :
  hoare (frame w0) AllocIFF
        (fun o w => frame w0 w /\
                    o = Some (mkIFF (mkHandle 0 req0) false [] [])).
Proof.
  unfold AllocIFF. hbind frame_fallible. intro e. apply hoare_pure.
  intros ->. apply hoare_ret. auto.
Qed.

Lemma frame_Open_NEWFILE :
  hoare (frame w0) (Open_NEWFILE name)
        (fun o w => pst [] w /\ o = Some name).
Proof.
  unfold Open_NEWFILE. hbind frame_fault. intro f. apply hoare_pure.
  intros ->. apply frame_get. intros w1 Hw1.
  intros w Hw. rewrite bind_run. split; [ | reflexivity].
  unfold pst. cbn [snd ret set_files w_units w_faults w_files w_diverged].
  unfold upd_file. rewrite String.eqb_refl.
  split; [exact (fr_clip _ _ Hw) | ].
  split; [exact (fr_faults _ _ Hw) | ].
  split; [reflexivity | exact (fr_div _ _ Hw)].
Qed.

Lemma pst_fallible (acc : list Z) :
  hoare (pst acc) fallible (fun e w => pst acc w /\ e = 0).
Proof.
  unfold fallible. hbind pst_fault. intro f. apply hoare_pure. intros ->.
  apply hoare_ret. auto.
Qed.

Lemma pst_AllocMem (acc : list Z) :
  hoare (pst acc) AllocMem (fun ok w => pst acc w /\ ok = true).
Proof.
  unfold AllocMem. hbind pst_fallible. intro e. apply hoare_pure.
  intros ->. apply hoare_ret. auto.
Qed.

Lemma pst_CloseClipboard (acc : list Z) (h : ClipboardHandle) :
  hoare (pst acc) (CloseClipboard h) (fun _ w => pst acc w).
Proof.
  intros w (Hc & Hf & Hfile & Hd). unfold CloseClipboard.
  rewrite !bind_run. unfold pst.
  cbn [snd fst get_world set_units log w_units w_faults w_files w_diverged].
  repeat split; try assumption.
  intro v. unfold upd. destruct (v =? cbh_Unit h) eqn:E.
  - apply Z.eqb_eq in E. subst v. cbn [cu_clip]. apply Hc.
  - apply Hc.
Qed.

Lemma form_head12 (type : Z) (body : list Z) :
  firstn 12 (form type body)
  = bytes_of_ULONG ID_FORM ++ bytes_of_ULONG (4 + Zlen body) ++
    bytes_of_ULONG type.
Proof. reflexivity. Qed.

Lemma header_of_text (r : IOClipReq) (junk : list Z) :
  io_Actual r = Zlen (io_Data r) ->
  io_Data r = firstn 12 (form ID_FTXT (chunks cs)) ->
  header_is_text r (overlay (io_Data r) junk) = true.
Proof.
  intros Ha Hd. rewrite form_head12 in Hd.
  rewrite header_is_text_full.
  - rewrite Hd. rewrite ULONG_at_0.
    change (ULONG_at (bytes_of_ULONG ID_FORM ++
                      bytes_of_ULONG (4 + Zlen (chunks cs)) ++
                      bytes_of_ULONG ID_FTXT) 8)
      with (be32 (bytes_of_ULONG ID_FTXT)).
    pose proof ID_range as (HF & HT & _).
    rewrite !be32_bytes_of_ULONG by lia. rewrite !Z.eqb_refl. reflexivity.
  - rewrite Ha, Hd. reflexivity.
  - rewrite Hd. reflexivity.
Qed.

Lemma frame_OpenIFF (i : IFFHandle) (wr : bool) :
  hoare (frame w0) (OpenIFF i wr)
        (fun x w =>
           frame w0 w /\
           x = (0, mkIFF (with_req (set_ClipID 0
                                      (set_Offset 0 (cbh_Req (iff_Stream i))))
                                   (iff_Stream i))
                         wr [] (iff_Stop i))).
Proof.
  unfold OpenIFF. hbind frame_fallible. intro e. apply hoare_pure.
  intros ->. apply hoare_ret. auto.
Qed.

Lemma frame_StopChunk (i : IFFHandle) (type id : Z) :
  hoare (frame w0) (StopChunk i type id)
        (fun x w =>
           frame w0 w /\
           x = (0, mkIFF (iff_Stream i) (iff_Write i) (iff_Stack i)
                         ((type, id) :: iff_Stop i))).
Proof.
  unfold StopChunk. hbind frame_fallible. intro e. apply hoare_pure.
  intros ->. apply hoare_ret. auto.
Qed.

(** The text branch of the paste. *)
Lemma paste_text_ok (h : ClipboardHandle) :
  cbh_Unit h = u ->
  hoare (frame w0) (paste_text name h)
        (fun r w => pst (payloads_of ID_CHRS cs) w /\ r = RETURN_OK).
Proof.
  intro Hu. unfold paste_text.
  hbind CBReadDone_spec. intro h1. apply hoare_pure. intro Hu1.
  hbind frame_AllocIFF. intro oi. apply hoare_pure. intros ->. cbv zeta.
  hbind frame_OpenIFF. intros x. apply hoare_pure. intros ->.
  change (negb (0 =? 0)) with false. cbv iota.
  hbind frame_StopChunk. intros x. apply hoare_pure. intros ->.
  change (negb (0 =? 0)) with false. cbv iota.
  cbn [InitIFFasClip iff_Stream iff_Write iff_Stack iff_Stop].
  set (i := mkIFF (with_req (set_ClipID 0 (set_Offset 0 (cbh_Req h1))) h1)
                  false [] [(ID_FTXT, ID_CHRS)]).
  assert (hstate i 0 []) as Hst.
  { unfold hstate, stream_offset, i. cbn. repeat split. congruence. }
  hbind frame_Open_NEWFILE. intro ofh. apply hoare_pure. intros ->.
  hbind pst_AllocMem. intro ok. apply hoare_pure. intros ->.
  cbn [negb]. apply pst_get. intros w1 Hw1.
  eapply hoare_bind.
  - apply (paste_loop_position (List.length cs) cs i [] (scan_bound w1 i)
             RETURN_FAIL (le_n _) (pos_init i cs eq_refl Hst)).
    pose proof (position_bound cs i w1 [] (pos_init i cs eq_refl Hst) Hw1)
      as Hb.
    unfold steps in Hb. destruct Hst as (_ & _ & Hs & _). rewrite Hs in Hb.
    cbn [List.length Nat.eqb] in Hb.
    destruct Hw1 as (Hc & _). unfold scan_bound in *.
    destruct cs as [ | c0 cs0]; [cbn [List.length]; lia | ].
    pose proof (Zlen_chunks_lower (c0 :: cs0)) as Hlow.
    unfold Zlen in Hlow at 1. cbn [List.length] in *. lia.
  - intros [result i2]. apply hoare_pure. cbn [fst snd app].
    intros (-> & Hwr).
    eapply hoare_bind with (Q := fun _ w => pst (payloads_of ID_CHRS cs) w).
    { apply hoare_ret. auto. }
    intros []. unfold CloseIFF. rewrite Hwr.
    eapply hoare_bind with (Q := fun _ w => pst (payloads_of ID_CHRS cs) w).
    { apply hoare_ret. auto. }
    intro i3.
    eapply hoare_bind with (Q := fun _ w => pst (payloads_of ID_CHRS cs) w).
    { apply hoare_ret. auto. }
    intros [].
    eapply hoare_bind; [apply pst_CloseClipboard | ]. intros [].
    apply hoare_ret. auto.
Qed.

(** The existence test that precedes the paste: without FORCE the file is
    probed, and a file that is not there lets the paste go on. *)
Lemma frame_probe (force : bool) :
  force = true \/ w_files w0 name = None ->
  hoare (frame w0) (if force then ret None else Open_OLDFILE name)
        (fun o w => frame w0 w /\ o = None).
Proof.
  intro Hf. destruct force.
  - apply hoare_ret. auto.
  - destruct Hf as [Hf | Hf]; [discriminate | ].
    unfold Open_OLDFILE. hbind frame_fault. intro f. apply hoare_pure.
    intros ->. apply frame_get. intros w1 Hw1.
    rewrite (fr_files _ _ Hw1), Hf.
    eapply hoare_bind; [apply framed_SetIoErr | ]. intros [].
    apply hoare_ret. auto.
Qed.

Lemma PasteFromClipboard_text (force : bool) :
  is_empty name = false ->
  force = true \/ w_files w0 name = None ->
  hoare (frame w0) (PasteFromClipboard name u force)
        (fun r w => pst (payloads_of ID_CHRS cs) w /\ r = RETURN_OK).
Proof.
  intros Hn Hf. unfold PasteFromClipboard.
  eapply hoare_bind; [apply framed_uninitialised | ]. intro junk.
  rewrite Hn. hbind (frame_probe force Hf). intro o. apply hoare_pure.
  intros ->. hbind frame_OpenClipboard. intro oc. apply hoare_pure.
  intros ->. cbv zeta. rewrite DoIO_is_read by reflexivity.
  eapply hoare_bind; [apply frame_DoIO_read | ]. intro r.
  apply hoare_pure. intros (Ha & Hd).
  rewrite header_of_text; [ | exact Ha | exact Hd].
  apply paste_text_ok. reflexivity.
Qed.

End PasteText.

(** A stream made of CHRS chunks only: the wanted payloads are all the
    payloads. *)
Lemma payloads_of_all (id : Z) (cs : list (Z * list Z)) :
  Forall (fun c => fst c = id) cs ->
  payloads_of id cs = List.concat (map snd cs).
Proof.
  unfold payloads_of. induction 1 as [ | c rest Hc _ IH]; [reflexivity | ].
  cbn [map List.concat]. rewrite IH, Hc, Z.eqb_refl. reflexivity.
Qed.

(** The clip of the example: a FORM FTXT with the leaves "Hello, " (seven
    bytes, followed by a pad byte) and "World!". *)
Definition hello_chunks : list (Z * list Z) :=
  [(ID_CHRS, bytes_of_string "Hello, "); (ID_CHRS, bytes_of_string "World!")].

Definition world_hello : World :=
  with_clip 0 (form ID_FTXT (chunks hello_chunks)) world0.

(** C1: in an environment that reports no failure, the paste of a unit that
    holds a FORM FTXT container of leaf chunks, to a destination that does
    not exist or with FORCE, returns RETURN_OK within the bounds of its loops
    and leaves in the destination file exactly the payloads of the CHRS
    chunks, concatenated in stream order; neither the pad bytes nor the
    payload of any other chunk is written.  When every leaf is a CHRS chunk
    the file is the concatenation of all the payloads. *)
Theorem C1_paste_writes_CHRS_payloads_in_order
  (w : World) (fileName : string) (unit : Z) (forceOverwrite : bool)
  (cs : list (Z * list Z)) :
  (forall n, w_faults w n = NoFault) ->
  cu_clip (w_units w unit) = form ID_FTXT (chunks cs) ->
  Forall wf_chunk cs ->
  4 + Zlen (chunks cs) < 2 ^ 31 ->
  is_empty fileName = false ->
  forceOverwrite = true \/ w_files w fileName = None ->
  fst (PasteFromClipboard fileName unit forceOverwrite w) = RETURN_OK /\
  w_files (snd (PasteFromClipboard fileName unit forceOverwrite w)) fileName
  = Some (payloads_of ID_CHRS cs) /\
  w_diverged (snd (PasteFromClipboard fileName unit forceOverwrite w))
  = w_diverged w /\
  (Forall (fun c => fst c = ID_CHRS) cs ->
   payloads_of ID_CHRS cs = List.concat (map snd cs)).
Proof.
  intros Hcoop Hclip Hwf Hsize Hn Hf.
  destruct (PasteFromClipboard_text w fileName unit cs Hcoop Hclip Hwf Hsize
              forceOverwrite Hn Hf w (frame_refl w))
    as ((_ & _ & Hfile & Hdiv) & Hr).
  split; [exact Hr | ]. split; [exact Hfile | ]. split; [exact Hdiv | ].
  apply payloads_of_all.
Qed.

Lemma C1_witness :
  fst (PasteFromClipboard "out" 0 false world_hello) = RETURN_OK /\
  w_files (snd (PasteFromClipboard "out" 0 false world_hello)) "out"
  = Some (bytes_of_string "Hello, World!").
Proof.
  assert (forall n, w_faults world_hello n = NoFault) as H1
    by (intro n; reflexivity).
  assert (Forall wf_chunk hello_chunks) as H2.
  { repeat constructor; vm_compute; congruence. }
  assert (4 + Zlen (chunks hello_chunks) < 2 ^ 31) as H3
    by (vm_compute; reflexivity).
  destruct (C1_paste_writes_CHRS_payloads_in_order world_hello "out" 0 false
              hello_chunks H1 eq_refl H2 H3 eq_refl (or_intror eq_refl))
    as (Hr & Hfile & _).
  split; [exact Hr | exact Hfile].
Defined.

(** The same paste, run: thirteen bytes, no pad byte. *)
Example paste_hello_world :
  w_files (snd (PasteFromClipboard "out" 0 false world_hello)) "out"
  = Some (bytes_of_string "Hello, World!") /\
  Zlen (bytes_of_string "Hello, World!") = 13.
Proof. vm_compute. split; reflexivity. Qed.
(** * Further properties of the program *)

(** ** What an operation leaves alone *)

(** [keeps f m]: running [m] does not change the part [f] of the world. *)
Definition keeps (X A : Type) (f : World -> X) (m : M A) : Prop :=
  forall w, f (snd (m w)) = f w.

Arguments keeps {X A} f m.

Lemma keeps_ret (X A : Type) (f : World -> X) (a : A) : keeps f (ret a).
Proof. intro w. reflexivity. Qed.

Lemma keeps_bind (X A B : Type) (f : World -> X) (m : M A) (k : A -> M B) :
  keeps f m -> (forall a, keeps f (k a)) -> keeps f (bind m k).
Proof.
  intros Hm Hk w. rewrite bind_run, Hk. apply Hm.
Qed.

Create HintDb keeps.

Ltac keeps_step :=
  match goal with
  | |- keeps _ (bind _ _) => apply keeps_bind; [ | intro ]
  | |- keeps _ (ret _) => apply keeps_ret
  | |- keeps _ (if ?b then _ else _) => destruct b
  | |- keeps _ (match ?x with _ => _ end) => destruct x
  | |- keeps _ _ => solve [auto with keeps]
  | |- keeps _ _ => solve [intro; reflexivity]
  end.

Ltac keeps_tac := cbv zeta; repeat keeps_step.

(** A property that depends on the part [f] only survives an operation
    that keeps [f]. *)
Lemma hoare_keeps (X A : Type) (f : World -> X) (m : M A)
  (P : World -> Prop) :
  keeps f m -> (forall w w', f w' = f w -> P w -> P w') ->
  hoare P m (fun _ w => P w).
Proof. intros Hk Hs w Hw. exact (Hs w _ (Hk w) Hw). Qed.

Lemma hoare_case (A : Type) (P1 P2 : World -> Prop) (m : M A)
  (Q : A -> World -> Prop) :
  hoare P1 m Q -> hoare P2 m Q -> hoare (fun w => P1 w \/ P2 w) m Q.
Proof. intros H1 H2 w [Hw | Hw]; [apply H1 | apply H2]; exact Hw. Qed.

Lemma hoare_ex (A X : Type) (P : X -> World -> Prop) (m : M A)
  (Q : A -> World -> Prop) :
  (forall x, hoare (P x) m Q) -> hoare (fun w => exists x, P x w) m Q.
Proof. intros H w [x Hw]. exact (H x w Hw). Qed.

Lemma hoare_pure_l (A : Type) (P : World -> Prop) (F : Prop) (m : M A)
  (Q : A -> World -> Prop) :
  (F -> hoare P m Q) -> hoare (fun w => F /\ P w) m Q.
Proof. intros H w [HF Hw]. apply (H HF), Hw. Qed.

Lemma hoare_false (A : Type) (m : M A) (Q : A -> World -> Prop) :
  hoare (fun _ => False) m Q.
Proof. intros w []. Qed.

(** The files and the device, as parts of the world. *)
Definition device (w : World) : (Z -> ClipUnit) * (nat -> Fault) :=
  (w_units w, w_faults w).

Definition store (w : World)
  : (Z -> ClipUnit) * (nat -> Fault) * (string -> option (list Z)) :=
  (w_units w, w_faults w, w_files w).

Lemma keeps_files_DoIO (u : Z) (r : IOClipReq) : keeps w_files (DoIO u r).
Proof. unfold DoIO, DoIO_read, DoIO_write, DoIO_update. keeps_tac. Qed.

Lemma keeps_files_OpenClipboard (u : Z) : keeps w_files (OpenClipboard u).
Proof. unfold OpenClipboard. keeps_tac. Qed.

Lemma keeps_files_CloseClipboard (h : ClipboardHandle) :
  keeps w_files (CloseClipboard h).
Proof. unfold CloseClipboard. keeps_tac. Qed.

Lemma keeps_files_IoErr_or (d : Z) : keeps w_files (IoErr_or d).
Proof. unfold IoErr_or. keeps_tac. Qed.

Lemma keeps_files_PrintFault (e : Z) (s : string) :
  keeps w_files (PrintFault e s).
Proof. intro w. reflexivity. Qed.

Lemma keeps_files_fallible : keeps w_files fallible.
Proof. unfold fallible. keeps_tac. Qed.

#[export] Hint Resolve keeps_files_DoIO keeps_files_OpenClipboard
  keeps_files_CloseClipboard keeps_files_IoErr_or keeps_files_PrintFault
  keeps_files_fallible : keeps.

Lemma keeps_files_FlushClipboard (u : Z) : keeps w_files (FlushClipboard u).
Proof. unfold FlushClipboard. keeps_tac. Qed.

Lemma keeps_device_PrintFault (e : Z) (s : string) :
  keeps device (PrintFault e s).
Proof. intro w. reflexivity. Qed.

Lemma keeps_device_IoErr_or (d : Z) : keeps device (IoErr_or d).
Proof. unfold IoErr_or. keeps_tac. Qed.

Lemma keeps_device_fallible : keeps device fallible.
Proof. unfold fallible. keeps_tac. Qed.

Lemma keeps_device_OpenClipboard (u : Z) : keeps device (OpenClipboard u).
Proof. unfold OpenClipboard. keeps_tac. Qed.

#[export] Hint Resolve keeps_device_PrintFault keeps_device_IoErr_or
  keeps_device_fallible keeps_device_OpenClipboard : keeps.

(** ** The device when it writes *)

(** An error the environment reports carries a code that is not 0. *)
Definition sane (w : World) : Prop :=
  forall n e, w_faults w n = Err e -> e <> 0.

Lemma upd_same (A : Type) (f : Z -> A) (k : Z) (v : A) : upd f k v k = v.
Proof. unfold upd. rewrite Z.eqb_refl. reflexivity. Qed.

Lemma upd_other (A : Type) (f : Z -> A) (k x : Z) (v : A) :
  x <> k -> upd f k v x = f x.
Proof. intro H. unfold upd. apply Z.eqb_neq in H. rewrite H. reflexivity. Qed.

Lemma write_at_start (data : list Z) : write_at 0 data [] = data.
Proof.
  unfold write_at. cbn [firstn app]. rewrite skipn_nil. apply app_nil_r.
Qed.

Lemma DoIO_is_write (u : Z) (r : IOClipReq) :
  io_Command r = CMD_WRITE -> DoIO u r = DoIO_write u r.
Proof. intro H. unfold DoIO. rewrite H. reflexivity. Qed.

Lemma DoIO_is_update (u : Z) (r : IOClipReq) :
  io_Command r = CMD_UPDATE -> DoIO u r = DoIO_update u r.
Proof. intro H. unfold DoIO. rewrite H. reflexivity. Qed.

Section Writing.

Variable w0 : World.
Variable u : Z.
Hypothesis Hsane : sane w0.

(** The state of a write session on unit [u]: the clip its readers see
    is [c], the bytes written and not yet committed are [p]; the clips of
    the other units and the decisions of the environment are those of
    [w0]. *)
Definition wr (c p : list Z) (w : World) : Prop :=
  (forall v, v <> u -> cu_clip (w_units w v) = cu_clip (w_units w0 v)) /\
  w_faults w = w_faults w0 /\
  cu_clip (w_units w u) = c /\ cu_pending (w_units w u) = p.

Lemma wr_stable (c p : list Z) (w w' : World) :
  device w' = device w -> wr c p w -> wr c p w'.
Proof.
  unfold device, wr. intros H. injection H as Hu Hf. rewrite Hu, Hf. auto.
Qed.

Lemma wr_keeps (A : Type) (m : M A) (c p : list Z) :
  keeps device m -> hoare (wr c p) m (fun _ w => wr c p w).
Proof. intro H. eapply hoare_keeps; [exact H | apply wr_stable]. Qed.

Lemma wr_fault (c p : list Z) :
  hoare (wr c p) fault
        (fun f w => wr c p w /\ forall e, f = Err e -> e <> 0).
Proof.
  intros w Hw. split.
  - eapply wr_stable; [ | exact Hw]. reflexivity.
  - cbn. destruct Hw as (_ & Hf & _). rewrite Hf. intros e He.
    exact (Hsane _ _ He).
Qed.

Lemma wr_get (B : Type) (c p : list Z) (k : World -> M B)
  (Q : B -> World -> Prop) :
  (forall w1, wr c p w1 -> hoare (wr c p) (k w1) Q) ->
  hoare (wr c p) (bind get_world k) Q.
Proof. intros H w Hw. rewrite bind_run. cbn. apply (H w Hw), Hw. Qed.

Lemma wr_set_units (c p c' p' : list Z) (w1 : World) (id : Z) :
  wr c p w1 ->
  hoare (wr c p)
        (set_units (upd (w_units w1) u (mkUnit c' p' id)))
        (fun _ w => wr c' p' w).
Proof.
  intros H1 w Hw. unfold wr in *. cbn.
  rewrite upd_same. cbn.
  destruct H1 as (Ho1 & _). destruct Hw as (_ & Hf & _).
  split; [ | auto]. intros v Hv. rewrite upd_other by exact Hv. auto.
Qed.

Lemma wr_log (c p : list Z) (e : DevEvent) :
  hoare (wr c p) (log e) (fun _ w => wr c p w).
Proof. apply wr_keeps. intro w. reflexivity. Qed.

(** A write that fails leaves the session as it was; one that the device
    accepts, in full or in part, extends it.  The clip is not touched. *)
Lemma wr_DoIO_write (c p : list Z) (r : IOClipReq) :
  hoare (wr c p) (DoIO_write u r)
        (fun r' w =>
           (io_Error r' <> 0 /\ wr c p w) \/
           (io_Error r' = 0 /\
            exists acc n,
              acc = firstn n (io_Data r) /\ io_Actual r' = Zlen acc /\
              wr c (write_at (Z.to_nat (io_Offset r)) acc
                      (if io_ClipID r =? 0 then [] else p)) w)).
Proof.
  unfold DoIO_write. eapply hoare_bind; [apply wr_fault | ].
  intro f. apply hoare_pure. intro Hf.
  destruct f as [ | e | n].
  - apply wr_get. intros w1 Hw1.
    eapply hoare_bind; [apply (wr_set_units _ _ _ _ _ _ Hw1) | ]. intros [].
    eapply hoare_bind; [apply wr_log | ]. intros [].
    apply hoare_ret. intros w Hw. right. split; [reflexivity | ].
    exists (firstn (Z.to_nat (io_Length r)) (io_Data r)),
      (Z.to_nat (io_Length r)).
    split; [reflexivity | ]. split; [reflexivity | ].
    destruct Hw1 as (_ & _ & Hc & Hp). rewrite Hc, Hp in Hw. exact Hw.
  - eapply hoare_bind; [apply wr_log | ]. intros [].
    apply hoare_ret. intros w Hw. left. split; [ | exact Hw].
    cbn. exact (Hf e eq_refl).
  - apply wr_get. intros w1 Hw1.
    eapply hoare_bind; [apply (wr_set_units _ _ _ _ _ _ Hw1) | ]. intros [].
    eapply hoare_bind; [apply wr_log | ]. intros [].
    apply hoare_ret. intros w Hw. right. split; [reflexivity | ].
    exists (firstn (Z.to_nat n) (firstn (Z.to_nat (io_Length r)) (io_Data r))),
      (Nat.min (Z.to_nat n) (Z.to_nat (io_Length r))).
    split; [apply firstn_firstn | ]. split; [reflexivity | ].
    destruct Hw1 as (_ & _ & Hc & Hp). rewrite Hc, Hp in Hw. exact Hw.
Qed.

(** The commit: the bytes of the session become the clip, or, when the
    device reports an error, nothing changes. *)
Lemma wr_DoIO_update (c p : list Z) (r : IOClipReq) :
  hoare (wr c p) (DoIO_update u r)
        (fun r' w =>
           (io_Error r' <> 0 /\ wr c p w) \/ (io_Error r' = 0 /\ wr p [] w)).
Proof.
  unfold DoIO_update. eapply hoare_bind; [apply wr_fault | ].
  intro f. apply hoare_pure. intro Hf.
  assert (hoare (wr c p)
            (w <- get_world ;;
             set_units (upd (w_units w) u
                          (mkUnit (cu_pending (w_units w u)) [] 
                                  (cu_id (w_units w u) + 1))) ;;;
             log (EvUpdate u 0) ;;;
             ret (complete 0 0 (io_Offset r) (io_ClipID r) (io_Data r) r))
            (fun r' w => (io_Error r' <> 0 /\ wr c p w) \/
                         (io_Error r' = 0 /\ wr p [] w))) as Hok.
  { apply wr_get. intros w1 Hw1.
    eapply hoare_bind; [apply (wr_set_units _ _ _ _ _ _ Hw1) | ]. intros [].
    eapply hoare_bind; [apply wr_log | ]. intros [].
    apply hoare_ret. intros w Hw. right. split; [reflexivity | ].
    destruct Hw1 as (_ & _ & _ & Hp). rewrite Hp in Hw. exact Hw. }
  destruct f as [ | e | n]; [exact Hok | | exact Hok].
  eapply hoare_bind; [apply wr_log | ]. intros [].
  apply hoare_ret. intros w Hw. left. split; [ | exact Hw].
  cbn. exact (Hf e eq_refl).
Qed.

(** Closing the handle abandons what was not committed. *)
Lemma wr_CloseClipboard (c p : list Z) (h : ClipboardHandle) :
  cbh_Unit h = u ->
  hoare (wr c p) (CloseClipboard h) (fun _ w => wr c [] w).
Proof.
  intro Hu. unfold CloseClipboard. rewrite Hu. apply wr_get. intros w1 Hw1.
  eapply hoare_bind.
  - destruct Hw1 as (Ho & Hf & Hc & Hp). rewrite Hc.
    apply (wr_set_units c p c [] w1 _). unfold wr. auto.
  - intros []. apply wr_log.
Qed.

Lemma wr_OpenClipboard (c p : list Z) :
  hoare (wr c p) (OpenClipboard u)
        (fun o w => wr c p w /\ (o = None \/ o = Some (mkHandle u req0))).
Proof.
  unfold OpenClipboard. eapply hoare_bind; [apply wr_fault | ].
  intro f. apply hoare_pure. intros _.
  destruct f.
  - eapply hoare_bind; [apply wr_log | ]. intros []. apply hoare_ret. auto.
  - eapply hoare_bind; [apply wr_keeps; intro; reflexivity | ]. intros [].
    apply hoare_ret. auto.
  - eapply hoare_bind; [apply wr_log | ]. intros []. apply hoare_ret. auto.
Qed.

(** The outcome of an operation that commits all or nothing: success
    with the clip [new], or failure with the clip [c] it found. *)
Definition all_or_nothing (c new : list Z) (r : Z) (w : World) : Prop :=
  exists p, (r = RETURN_OK /\ wr new p w) \/ (r = RETURN_FAIL /\ wr c p w).

Lemma FlushClipboard_wr (c p : list Z) :
  u <= 255 ->
  hoare (wr c p) (FlushClipboard u) (all_or_nothing c []).
Proof.
  intro Hu. unfold FlushClipboard.
  apply Z.ltb_ge in Hu. rewrite Hu.
  eapply hoare_bind; [apply wr_OpenClipboard | ].
  intro o. apply hoare_pure. intros [-> | ->].
  - eapply hoare_bind; [apply wr_keeps; auto with keeps | ]. intro e.
    eapply hoare_bind; [apply wr_keeps; auto with keeps | ]. intros [].
    apply hoare_ret. intros w Hw. exists p. right. auto.
  - cbv zeta. rewrite DoIO_is_write by reflexivity.
    eapply hoare_bind; [apply wr_DoIO_write | ]. intro r1.
    apply hoare_case; apply hoare_pure_l.
    + intro He. apply Z.eqb_neq in He. rewrite He.
      eapply hoare_bind with (Q := fun r w => r = RETURN_FAIL /\ wr c p w).
      * eapply hoare_bind; [apply wr_keeps; auto with keeps | ]. intros [].
        apply hoare_ret. auto.
      * intro r. apply hoare_pure_l. intros ->.
        eapply hoare_bind; [apply wr_CloseClipboard; reflexivity | ].
        intros []. apply hoare_ret. intros w Hw. exists []. right. auto.
    + intro He. rewrite He. cbn [Z.eqb].
      apply hoare_ex. intro acc. apply hoare_ex. intro n.
      apply hoare_pure_l. intros ->. apply hoare_pure_l. intros _.
      cbn [io_Data io_Offset io_ClipID set_Error set_ClipID set_Offset
           set_Length set_Data set_Command req0 Z.eqb Z.to_nat].
      rewrite firstn_nil, write_at_start.
      eapply hoare_bind with
        (Q := fun r w => all_or_nothing c [] r w).
      * rewrite DoIO_is_update by reflexivity.
        eapply hoare_bind; [apply wr_DoIO_update | ]. intro r2.
        apply hoare_case; apply hoare_pure_l.
        -- intro He2. apply Z.eqb_neq in He2. rewrite He2.
           eapply hoare_bind; [apply wr_keeps; auto with keeps | ]. intros [].
           apply hoare_ret. intros w Hw. exists []. right. auto.
        -- intro He2. rewrite He2. cbn [Z.eqb].
           apply hoare_ret. intros w Hw. exists []. left. auto.
      * intro r. apply hoare_ex. intro p'.
        apply hoare_case; apply hoare_pure_l; intros ->.
        -- eapply hoare_bind; [apply wr_CloseClipboard; reflexivity | ].
           intros []. apply hoare_ret. intros w Hw. exists []. left. auto.
        -- eapply hoare_bind; [apply wr_CloseClipboard; reflexivity | ].
           intros []. apply hoare_ret. intros w Hw. exists []. right. auto.
Qed.

End Writing.

Lemma wr_init (w : World) (u : Z) :
  wr w u (cu_clip (w_units w u)) (cu_pending (w_units w u)) w.
Proof. unfold wr. auto. Qed.

(** X1: in every environment a flush either succeeds and leaves the unit
    with an empty clip, or fails and leaves the clip of the unit as it was;
    it never changes the clip of another unit or a file, and for a unit
    above 255 it fails without sending a command to the device. *)
Theorem FlushClipboard_all_or_nothing (w : World) (unit : Z) :
  sane w ->
  (fst (FlushClipboard unit w) = RETURN_OK /\ unit <= 255 /\
   cu_clip (w_units (snd (FlushClipboard unit w)) unit) = [] \/
   fst (FlushClipboard unit w) = RETURN_FAIL /\
   cu_clip (w_units (snd (FlushClipboard unit w)) unit)
   = cu_clip (w_units w unit)) /\
  (forall v, v <> unit ->
     cu_clip (w_units (snd (FlushClipboard unit w)) v)
     = cu_clip (w_units w v)) /\
  w_files (snd (FlushClipboard unit w)) = w_files w /\
  (255 < unit -> w_trace (snd (FlushClipboard unit w)) = w_trace w).
Proof.
  intro Hs. split; [ | split; [ | split]].
  - destruct (Z.le_gt_cases unit 255) as [Hu | Hu].
    + destruct (FlushClipboard_wr w unit Hs _ _ Hu w (wr_init w unit))
        as (p & [(Hr & _ & _ & Hc & _) | (Hr & _ & _ & Hc & _)]); auto.
    + right. unfold FlushClipboard. apply Z.ltb_lt in Hu. rewrite Hu.
      split; reflexivity.
  - intros v Hv. destruct (Z.le_gt_cases unit 255) as [Hu | Hu].
    + destruct (FlushClipboard_wr w unit Hs _ _ Hu w (wr_init w unit))
        as (p & [(_ & Ho & _) | (_ & Ho & _)]); apply Ho, Hv.
    + unfold FlushClipboard. apply Z.ltb_lt in Hu. rewrite Hu. reflexivity.
  - apply keeps_files_FlushClipboard.
  - intro Hu. unfold FlushClipboard. apply Z.ltb_lt in Hu. rewrite Hu.
    reflexivity.
Qed.

Lemma FlushClipboard_witness :
  fst (FlushClipboard 0 world_hello) = RETURN_OK /\
  cu_clip (w_units (snd (FlushClipboard 0 world_hello)) 0) = [].
Proof.
  assert (sane world_hello) as Hs by (intros n e He; discriminate He).
  destruct (FlushClipboard_all_or_nothing world_hello 0 Hs)
    as ([(Hr & _ & Hc) | (Hr & _)] & _).
  - split; [exact Hr | exact Hc].
  - vm_compute in Hr. discriminate Hr.
Defined.

(** ** The exit status *)

(** [yields S m]: whatever the world, the value [m] returns satisfies
    [S]. *)
Definition yields (A : Type) (S : A -> Prop) (m : M A) : Prop :=
  forall w, S (fst (m w)).

Arguments yields {A} S m.

Lemma yields_ret (A : Type) (S : A -> Prop) (a : A) :
  S a -> yields S (ret a).
Proof. intros H w. exact H. Qed.

Lemma yields_bind (A B : Type) (S : B -> Prop) (m : M A) (k : A -> M B) :
  (forall a, yields S (k a)) -> yields S (bind m k).
Proof. intros Hk w. rewrite bind_run. apply Hk. Qed.

Lemma yields_bind_with (A B : Type) (S1 : A -> Prop) (S : B -> Prop)
  (m : M A) (k : A -> M B) :
  yields S1 m -> (forall a, S1 a -> yields S (k a)) -> yields S (bind m k).
Proof. intros Hm Hk w. rewrite bind_run. apply Hk, Hm. Qed.

Definition status (r : Z) : Prop := r = RETURN_OK \/ r = RETURN_FAIL.

Lemma status_OK : status RETURN_OK.
Proof. left. reflexivity. Qed.

Lemma status_FAIL : status RETURN_FAIL.
Proof. right. reflexivity. Qed.

Create HintDb yields.

#[export] Hint Resolve status_OK status_FAIL : yields.

Ltac yields_step :=
  match goal with
  | |- yields _ (bind _ _) => apply yields_bind; intro
  | |- yields _ (ret _) => apply yields_ret
  | |- yields _ (if ?b then _ else _) => destruct b
  | |- yields _ (match ?x with _ => _ end) => destruct x
  | |- yields _ _ => solve [auto with yields]
  | |- status _ => solve [auto with yields]
  end.

Ltac yields_tac := cbv zeta; repeat yields_step.

Lemma CopyTextToClipboard_status (name : string) (u : Z) (buf : list Z)
  (n : Z) : yields status (CopyTextToClipboard name u buf n).
Proof. unfold CopyTextToClipboard. yields_tac. Qed.

Lemma copy_file_to_unit_status (h : ClipboardHandle) (fh : string) :
  yields status (copy_file_to_unit h fh).
Proof. unfold copy_file_to_unit. yields_tac. Qed.

Lemma copy_object_status (o : DTObject) (u : Z) :
  yields status (copy_object o u).
Proof.
  unfold copy_object. cbv zeta.
  destruct (negb (dto_canWrite o)); [yields_tac | ].
  apply yields_bind. intro uid. apply yields_bind. intro saved.
  destruct (negb saved); [yields_tac | ].
  apply yields_bind. intros [h | ]; [ | yields_tac].
  apply yields_bind. intros [fh | ]; [ | yields_tac].
  eapply yields_bind_with; [apply copy_file_to_unit_status | ].
  intros r Hr. yields_tac; try exact Hr.
Qed.

#[export] Hint Resolve CopyTextToClipboard_status copy_object_status
  : yields.

Lemma CopyToClipboard_status (name : string) (u : Z) :
  yields status (CopyToClipboard name u).
Proof. unfold CopyToClipboard. yields_tac. Qed.

Lemma read_chunk_loop_status (fuel : nat) :
  forall (i : IFFHandle) (fh : string) (result : Z),
    status result ->
    yields (fun x => status (snd (fst x))) (read_chunk_loop fuel i fh result).
Proof.
  induction fuel as [ | fuel IH]; intros i fh result Hr;
    cbn [read_chunk_loop].
  - apply yields_bind. intro. apply yields_ret. exact Hr.
  - apply yields_bind. intros [[n buf] i1].
    destruct (0 <? n); [ | apply yields_ret; exact Hr].
    apply yields_bind. intro k.
    destruct (negb (k =? n)); [ | apply IH; exact Hr].
    apply yields_bind. intro. apply yields_bind. intro.
    apply yields_ret. apply status_FAIL.
Qed.

Lemma paste_loop_status (fuel : nat) :
  forall (i : IFFHandle) (fh : string) (result : Z),
    status result ->
    yields (fun x => status (fst x)) (paste_loop fuel i fh result).
Proof.
  induction fuel as [ | fuel IH]; intros i fh result Hr; cbn [paste_loop].
  - apply yields_bind. intro. apply yields_ret. exact Hr.
  - apply yields_bind. intros [e i1].
    destruct (e =? IFFERR_EOC); [apply IH; exact Hr | ].
    destruct (negb (e =? 0)).
    { destruct (negb (e =? IFFERR_EOF)).
      - apply yields_bind. intro. apply yields_ret. apply status_FAIL.
      - apply yields_ret. apply status_OK. }
    destruct (CurrentChunk i1) as [cn | ]; [ | apply IH; exact Hr].
    destruct ((cn_Type cn =? ID_FTXT) && (cn_ID cn =? ID_CHRS));
      [ | apply IH; exact Hr].
    eapply yields_bind_with;
      [apply (read_chunk_loop_status _ _ _ _ Hr) | ].
    intros [[n r] i2] Hr2. cbn [fst snd] in Hr2.
    destruct (n <? 0); [ | apply IH; exact Hr2].
    apply yields_bind. intro. apply yields_ret. apply status_FAIL.
Qed.

Lemma paste_text_status (name : string) (h : ClipboardHandle) :
  yields status (paste_text name h).
Proof.
  unfold paste_text. cbv zeta.
  apply yields_bind. intro h1.
  apply yields_bind. intros [i | ]; [ | yields_tac].
  apply yields_bind. intros [e i1].
  destruct (negb (e =? 0)); [yields_tac | ].
  apply yields_bind. intros [e2 i2].
  destruct (negb (e2 =? 0)); [yields_tac | ].
  apply yields_bind. intros [fh | ]; [ | yields_tac].
  apply yields_bind. intro ok.
  destruct (negb ok); [yields_tac | ].
  apply yields_bind. intro w1.
  eapply yields_bind_with;
    [apply (paste_loop_status _ _ _ _ status_FAIL) | ].
  intros [r i3] Hr. cbn [fst] in Hr. yields_tac; try exact Hr.
Qed.

Lemma paste_object_status (name : string) (h : ClipboardHandle) :
  yields status (paste_object name h).
Proof.
  unfold paste_object. cbv zeta.
  apply yields_bind. intro h1.
  apply yields_bind. intros [i | ]; [ | yields_tac].
  apply yields_bind. intros [e i1].
  destruct (negb (e =? 0)); [yields_tac | ].
  apply yields_bind. intros [o | ]; [ | yields_tac].
  apply yields_bind. intro saved.
  eapply yields_bind_with with (S1 := status); [destruct saved; yields_tac | ].
  intros r Hr. yields_tac; try exact Hr.
Qed.

#[export] Hint Resolve paste_text_status paste_object_status : yields.

Lemma PasteFromClipboard_status (name : string) (u : Z) (force : bool) :
  yields status (PasteFromClipboard name u force).
Proof. unfold PasteFromClipboard. yields_tac. Qed.

Lemma FlushClipboard_status (u : Z) : yields status (FlushClipboard u).
Proof.
  unfold FlushClipboard. cbv zeta.
  destruct (255 <? u); [yields_tac | ].
  apply yields_bind. intros [h | ]; [ | yields_tac].
  apply yields_bind. intro r.
  eapply yields_bind_with with (S1 := status);
    [destruct (io_Error r =? 0); yields_tac | ].
  intros x Hx. yields_tac; try exact Hx.
Qed.

Lemma ListClipboards_status : yields status ListClipboards.
Proof. unfold ListClipboards. yields_tac. Qed.

Lemma perform_status (c p : option string) (u : Z) (force : bool) :
  yields status (perform c p u force).
Proof.
  unfold perform. cbv zeta.
  eapply yields_bind_with with (S1 := status).
  - destruct c as [name | ]; [ | apply yields_ret, status_FAIL].
    eapply yields_bind_with; [apply CopyToClipboard_status | ].
    intros r Hr. apply yields_ret.
    destruct (negb (r =? RETURN_OK) &&
              match p with Some _ => true | None => false end);
      [apply status_FAIL | exact Hr].
  - intros r Hr. destruct p as [name | ]; [ | apply yields_ret, Hr].
    eapply yields_bind_with; [apply PasteFromClipboard_status | ].
    intros pr Hpr. apply yields_ret.
    destruct (negb (pr =? RETURN_OK)); assumption.
Qed.

(** X2: the exit status of the program is [RETURN_OK] (0) or
    [RETURN_FAIL] (20), whatever the arguments, the units, the files and
    the decisions of the environment. *)
Theorem main_exit_status (argc : Z) (rda : option Args) (w : World) :
  fst (main argc rda w) = RETURN_OK \/ fst (main argc rda w) = RETURN_FAIL.
Proof.
  revert w. change (yields status (main argc rda)).
  unfold main. cbv zeta.
  destruct (argc =? 0); [yields_tac | ].
  apply yields_bind. intro ok.
  destruct (negb ok); [yields_tac | ].
  destruct rda as [args | ]; [ | yields_tac].
  destruct (255 <? _); [yields_tac | ].
  destruct (match arg_copy args with
            | Some _ => _ | None => _ end); [yields_tac | ].
  destruct (arg_list args).
  { eapply yields_bind_with; [apply ListClipboards_status | ].
    intros r Hr. yields_tac; try exact Hr. }
  destruct (arg_flush args).
  { eapply yields_bind_with; [apply FlushClipboard_status | ].
    intros r Hr. yields_tac; try exact Hr. }
  eapply yields_bind_with; [apply perform_status | ].
  intros r Hr. yields_tac; try exact Hr.
Qed.

(** X3: a destination without a source never gives a successful exit
    status.  [result] starts as [RETURN_FAIL], only the copy sets it to
    [RETURN_OK], and the paste only ever lowers it: with PASTE alone (no
    COPY, LIST or FLUSH) the program returns [RETURN_FAIL] whether or not
    the paste succeeded. *)
Theorem main_paste_alone_fails (argc : Z) (args : Args) (w : World) :
  arg_copy args = None -> arg_list args = false -> arg_flush args = false ->
  fst (main argc (Some args) w) = RETURN_FAIL.
Proof.
  intros Hc Hl Hf. unfold main.
  destruct (argc =? 0); [reflexivity | ].
  rewrite bind_run.
  destruct (fst (InitializeLibraries w)); cbn [negb];
    [ | rewrite !bind_run; reflexivity].
  cbv zeta. rewrite Hc, Hl, Hf.
  destruct (255 <? _); [rewrite !bind_run; reflexivity | ].
  destruct (arg_paste args) as [p | ]; cbn [negb andb];
    [ | rewrite !bind_run; reflexivity].
  unfold perform. rewrite !bind_run. cbn [ret fst snd].
  match goal with
  | |- (if negb (fst (PasteFromClipboard ?n ?u ?f ?w1) =? _) then _ else _)
       = _ =>
      destruct (PasteFromClipboard_status n u f w1) as [Hr | Hr]
  end; rewrite Hr; reflexivity.
Qed.

Definition args_paste : Args :=
  mkArgs None (Some "out"%string) None false false false.

Lemma main_paste_alone_witness :
  fst (main 1 (Some args_paste) world_hello) = RETURN_FAIL /\
  fst (PasteFromClipboard "out" 0 false
         (snd (InitializeLibraries world_hello))) = RETURN_OK /\
  w_files (snd (main 1 (Some args_paste) world_hello)) "out"%string
  = Some (bytes_of_string "Hello, World!").
Proof.
  split; [ | vm_compute; split; reflexivity].
  exact (main_paste_alone_fails 1 args_paste world_hello
           eq_refl eq_refl eq_refl).
Defined.

(** ** What [main] does before it acts *)

(** The units, the files and the commands sent to the device. *)
Definition machine (w : World)
  : (Z -> ClipUnit) * (string -> option (list Z)) * list DevEvent :=
  (w_units w, w_files w, w_trace w).

Lemma keeps_machine_InitializeLibraries : keeps machine InitializeLibraries.
Proof. unfold InitializeLibraries, OpenLibrary, fallible. keeps_tac. Qed.

(** The invocations [main] turns down: started from the Workbench, a
    library that does not open, arguments [ReadArgs] rejects, a unit above
    255, or no operation at all. *)
Definition turned_down (argc : Z) (rda : option Args) (w : World) : Prop :=
  argc = 0 \/ fst (InitializeLibraries w) = false \/
  match rda with
  | None => True
  | Some args =>
      255 < unit_of args \/
      (arg_copy args = None /\ arg_paste args = None /\
       arg_list args = false /\ arg_flush args = false)
  end.

(** X4: an invocation that is turned down returns [RETURN_FAIL] and has
    touched nothing: the units, the files and the trace of the device are
    those it found, whatever operations were requested with it. *)
Theorem main_turns_down_untouched (argc : Z) (rda : option Args) (w : World) :
  turned_down argc rda w ->
  fst (main argc rda w) = RETURN_FAIL /\
  w_units (snd (main argc rda w)) = w_units w /\
  w_files (snd (main argc rda w)) = w_files w /\
  w_trace (snd (main argc rda w)) = w_trace w.
Proof.
  intro H.
  assert (fst (main argc rda w) = RETURN_FAIL /\
          machine (snd (main argc rda w)) = machine w) as (Hr & Hm).
  { pose proof (keeps_machine_InitializeLibraries w) as Hk.
    unfold main. destruct (argc =? 0) eqn:Ea; [split; reflexivity | ].
    rewrite bind_run.
    destruct (fst (InitializeLibraries w)) eqn:Ei; cbn [negb];
      [ | rewrite !bind_run; split; [reflexivity | exact Hk]].
    destruct rda as [args | ];
      [ | rewrite !bind_run; split; [reflexivity | exact Hk]].
    cbv zeta. fold (unit_of args).
    destruct (255 <? unit_of args) eqn:Eu;
      [rewrite !bind_run; split; [reflexivity | exact Hk] | ].
    destruct H as [H | [H | [H | (Hc & Hp & Hl & Hf)]]].
    - apply Z.eqb_neq in Ea. contradiction.
    - rewrite Ei in H. discriminate H.
    - apply Z.ltb_ge in Eu. lia.
    - rewrite Hc, Hp, Hl, Hf. cbn [negb andb].
      rewrite !bind_run. split; [reflexivity | exact Hk]. }
  split; [exact Hr | ]. unfold machine in Hm. injection Hm as Hu Hf Ht.
  auto.
Qed.

Definition args_unit_256 : Args :=
  mkArgs (Some "in"%string) (Some "out"%string) (Some 256) true true true.

Lemma main_turns_down_witness :
  fst (main 1 (Some args_unit_256) world_text) = RETURN_FAIL /\
  w_units (snd (main 1 (Some args_unit_256) world_text)) = w_units world_text /\
  w_files (snd (main 1 (Some args_unit_256) world_text)) = w_files world_text /\
  w_trace (snd (main 1 (Some args_unit_256) world_text)) = w_trace world_text.
Proof.
  apply (main_turns_down_untouched 1 (Some args_unit_256) world_text).
  right. right. left. reflexivity.
Defined.

Lemma framed_InitializeLibraries : framed InitializeLibraries.
Proof. unfold InitializeLibraries, OpenLibrary. framed_tac. Qed.

Lemma main_list_frame (argc : Z) (args : Args) (w0 : World) :
  arg_list args = true ->
  hoare (frame w0) (main argc (Some args))
        (fun _ w => exists o, frame (add_out o w0) w).
Proof.
  intro Hl. unfold main.
  assert (forall (e : Z) (s : string) (r : Z),
            hoare (frame w0) (PrintFault e s ;;; Cleanup ;;; ret r)
                  (fun _ w => exists o, frame (add_out o w0) w)) as Hfault.
  { intros e s r. eapply hoare_bind; [apply emit_spec | ].
    intros [] w Hw. unfold Cleanup. rewrite !bind_run. cbn [ret fst snd].
    eauto. }
  destruct (argc =? 0).
  { apply hoare_ret. intros w Hw. exists []. apply add_out_nil, Hw. }
  eapply hoare_bind; [apply framed_InitializeLibraries | ]. intro ok.
  destruct (negb ok).
  { eapply hoare_bind; [apply framed_IoErr_or | ]. intro e.
    eapply hoare_bind; [apply emit_spec | ]. intros [].
    apply hoare_ret. intros w Hw. eauto. }
  cbv zeta. destruct (255 <? _); [apply Hfault | ].
  rewrite Hl. cbn [negb andb].
  replace (match arg_copy args with
           | Some _ => false
           | None => match arg_paste args with
                     | Some _ => false
                     | None => false
                     end
           end) with false
    by (destruct (arg_copy args), (arg_paste args); reflexivity).
  eapply hoare_bind; [apply ListClipboards_spec | ].
  intros r w (_ & o & Hw & _). rewrite !bind_run. cbn. eauto.
Qed.

(** X5: LIST comes before every other operation.  When LIST is given, a
    source, a destination and FLUSH given with it are ignored: in every
    environment the program sends no write and no commit to the device, and
    the clip of every unit and every file are left as they were. *)
Theorem main_LIST_only_reads (argc : Z) (args : Args) (w : World) :
  arg_list args = true ->
  (exists t, w_trace (snd (main argc (Some args) w)) = w_trace w ++ t /\
             Forall read_only t) /\
  (forall u, cu_clip (w_units (snd (main argc (Some args) w)) u)
             = cu_clip (w_units w u)) /\
  w_files (snd (main argc (Some args) w)) = w_files w.
Proof.
  intro Hl.
  destruct (main_list_frame argc args w Hl w (frame_refl w)) as (o & Hf).
  split; [exact (fr_trace _ _ Hf) | ].
  split; [exact (fr_clip _ _ Hf) | exact (fr_files _ _ Hf)].
Qed.

Definition args_all : Args :=
  mkArgs (Some "in"%string) (Some "out"%string) None true true true.

Lemma main_LIST_witness :
  (exists t, w_trace (snd (main 1 (Some args_all) world_text))
             = w_trace world_text ++ t /\ Forall read_only t) /\
  (forall u, cu_clip (w_units (snd (main 1 (Some args_all) world_text)) u)
             = cu_clip (w_units world_text u)) /\
  w_files (snd (main 1 (Some args_all) world_text)) = w_files world_text.
Proof. exact (main_LIST_only_reads 1 args_all world_text eq_refl). Defined.

(** ** Opening the libraries *)

(** One step of [InitializeLibraries]: a library is opened, and the rest
    runs when that worked. *)
Definition open_then (rest : M bool) : M bool :=
  ok <- OpenLibrary ;;
  if negb ok then SetIoErr ERROR_INVALID_RESIDENT_LIBRARY ;;; ret false
  else rest.

Lemma InitializeLibraries_steps :
  InitializeLibraries
  = open_then (open_then (open_then (open_then (ret true)))).
Proof. reflexivity. Qed.

(** [opens n m]: [m] returns [true] exactly when none of the next [n]
    decisions of the environment is an error, and leaves
    [ERROR_INVALID_RESIDENT_LIBRARY] in [IoErr] when it returns [false]. *)
Definition opens (n : nat) (m : M bool) : Prop :=
  forall w, sane w ->
    (fst (m w) = true <->
     forall k e, (k < n)%nat -> w_faults w (w_tick w + k)%nat <> Err e) /\
    (fst (m w) = false ->
     w_ioerr (snd (m w)) = ERROR_INVALID_RESIDENT_LIBRARY).

Lemma opens_ret : opens 0 (ret true).
Proof.
  intros w _. split; [ | discriminate].
  split; [intros _ k e Hk; lia | reflexivity].
Qed.

Lemma opens_open_then (n : nat) (m : M bool) :
  opens n m -> opens (S n) (open_then m).
Proof.
  intros Hm w Hs. unfold open_then, OpenLibrary, fallible.
  rewrite !bind_run.
  change (fst (fault w)) with (w_faults w (w_tick w)).
  set (w1 := snd (fault w)).
  assert (sane w1) as Hs1 by exact Hs.
  destruct (Hm w1 Hs1) as (Hiff & Hfail).
  assert (forall k, w_faults w (w_tick w + S k)%nat
                    = w_faults w1 (w_tick w1 + k)%nat) as Hshift.
  { intro k. cbn. f_equal. lia. }
  assert (forall f, w_faults w (w_tick w) = f ->
            (forall e, f <> Err e) ->
            (forall k e, (k < n)%nat -> w_faults w1 (w_tick w1 + k)%nat <> Err e)
            <-> (forall k e, (k < S n)%nat ->
                   w_faults w (w_tick w + k)%nat <> Err e)) as Hnext.
  { intros f F Hf. split.
    - intros H [ | k] e Hk.
      + rewrite Nat.add_0_r, F. apply Hf.
      + rewrite Hshift. apply H. lia.
    - intros H k e Hk. rewrite <- Hshift. apply H. lia. }
  destruct (w_faults w (w_tick w)) as [ | e | p] eqn:F.
  - cbn [ret fst snd]. change (negb (0 =? 0)) with false. cbv iota.
    split; [ | exact Hfail].
    rewrite Hiff. apply (Hnext NoFault eq_refl). discriminate.
  - assert ((e =? 0) = false) as E0
      by (apply Z.eqb_neq; exact (Hs _ _ F)).
    cbn [ret fst snd]. rewrite E0. cbn [negb]. rewrite !bind_run.
    cbn [ret fst snd SetIoErr w_ioerr]. split; [ | reflexivity].
    split; [discriminate | ]. intro H. exfalso.
    apply (H 0%nat e); [lia | ]. rewrite Nat.add_0_r. exact F.
  - cbn [ret fst snd]. change (negb (0 =? 0)) with false. cbv iota.
    split; [ | exact Hfail].
    rewrite Hiff. apply (Hnext (Partial p) eq_refl). discriminate.
Qed.

Lemma keeps_out_InitializeLibraries : keeps w_out InitializeLibraries.
Proof. unfold InitializeLibraries, OpenLibrary, fallible. keeps_tac. Qed.

(** X6: [InitializeLibraries] succeeds exactly when none of the four
    [OpenLibrary] calls fails.  When one fails, [IoErr] is
    [ERROR_INVALID_RESIDENT_LIBRARY], so that the one fault [main] prints
    is that one: the fallback of [main] for an [IoErr] of 0 is never
    taken. *)
Theorem InitializeLibraries_all_four (argc : Z) (rda : option Args)
  (w : World) :
  sane w ->
  (fst (InitializeLibraries w) = true <->
   forall k e, (k < 4)%nat -> w_faults w (w_tick w + k)%nat <> Err e) /\
  (fst (InitializeLibraries w) = false -> argc <> 0 ->
   w_ioerr (snd (InitializeLibraries w)) = ERROR_INVALID_RESIDENT_LIBRARY /\
   w_out (snd (main argc rda w))
   = w_out w ++ [OutFault ERROR_INVALID_RESIDENT_LIBRARY "Clipboard"]).
Proof.
  intro Hs.
  pose proof (opens_open_then _ _ (opens_open_then _ _
                (opens_open_then _ _ (opens_open_then _ _ opens_ret))))
    as Hopen.
  rewrite <- InitializeLibraries_steps in Hopen.
  destruct (Hopen w Hs) as (Hiff & Hfail).
  split; [exact Hiff | ].
  intros Hf Ha. split; [exact (Hfail Hf) | ].
  unfold main. apply Z.eqb_neq in Ha. rewrite Ha.
  rewrite bind_run, Hf. cbn [negb].
  unfold IoErr_or, IoErr, PrintFault. rewrite !bind_run.
  cbn [ret fst snd emit w_out]. rewrite (Hfail Hf).
  rewrite (keeps_out_InitializeLibraries w). reflexivity.
Qed.

(** The third library does not open. *)
Definition world_no_datatypes : World :=
  with_faults (fault_at 2 (Err 122)) world_text.

Lemma InitializeLibraries_witness :
  fst (InitializeLibraries world_no_datatypes) = false /\
  w_out (snd (main 1 (Some args_copy_paste) world_no_datatypes))
  = [OutFault ERROR_INVALID_RESIDENT_LIBRARY "Clipboard"].
Proof.
  assert (sane world_no_datatypes) as Hs.
  { intros n e. unfold world_no_datatypes, with_faults, fault_at.
    cbn [w_faults]. destruct (Nat.eqb n 2); [ | discriminate].
    intro H. injection H as <-. discriminate. }
  assert (1 <> 0) as H1 by discriminate.
  split; [reflexivity | ].
  exact (proj2 (proj2 (InitializeLibraries_all_four 1 (Some args_copy_paste)
                         world_no_datatypes Hs) eq_refl H1)).
Defined.

(** ** Copying a text *)

Lemma write_at_end (data buf : list Z) (off : Z) :
  Zlen buf = off -> write_at (Z.to_nat off) data buf = buf ++ data.
Proof.
  intro H. unfold write_at, Zlen in *.
  assert (Z.to_nat off = List.length buf) as -> by lia.
  rewrite Nat.sub_diag. cbn [repeat]. rewrite app_nil_r, firstn_all.
  rewrite skipn_all2 by lia. rewrite app_nil_r. reflexivity.
Qed.

(** The size field of a FORM header, patched in place. *)
Lemma write_at_size (tag : Z) (old new : Z) (rest : list Z) :
  write_at 4 (bytes_of_ULONG new)
    (bytes_of_ULONG tag ++ bytes_of_ULONG old ++ rest)
  = bytes_of_ULONG tag ++ bytes_of_ULONG new ++ rest.
Proof. reflexivity. Qed.

Lemma odd_plus_pad (n : Z) : Z.odd (n + pad n) = false.
Proof.
  unfold pad. destruct (Z.odd n) eqn:E.
  - rewrite Z.odd_add, E. reflexivity.
  - rewrite Z.add_0_r. exact E.
Qed.

Section TextCopy.

Variable w0 : World.
Variable u : Z.
Hypothesis coop : forall n, w_faults w0 n = NoFault.
Hypothesis Hid : 0 <= cu_id (w_units w0 u).

(** A write session in a cooperative environment. *)
Definition wt (c p : list Z) (w : World) : Prop :=
  wr w0 u c p w /\ cu_id (w_units w u) = cu_id (w_units w0 u).

Lemma wt_stable (c p : list Z) (w w' : World) :
  device w' = device w -> wt c p w -> wt c p w'.
Proof.
  intros H (Hw & Hi). split; [eapply wr_stable; eassumption | ].
  unfold device in H. injection H as Hu _. rewrite Hu. exact Hi.
Qed.

Lemma wt_keeps (A : Type) (m : M A) (c p : list Z) :
  keeps device m -> hoare (wt c p) m (fun _ w => wt c p w).
Proof. intro H. eapply hoare_keeps; [exact H | apply wt_stable]. Qed.

Lemma wt_fault (c p : list Z) :
  hoare (wt c p) fault (fun f w => wt c p w /\ f = NoFault).
Proof.
  intros w Hw. split.
  - eapply wt_stable; [ | exact Hw]. reflexivity.
  - cbn. destruct Hw as ((_ & Hf & _) & _). rewrite Hf. apply coop.
Qed.

Lemma wt_fallible (c p : list Z) :
  hoare (wt c p) fallible (fun e w => wt c p w /\ e = 0).
Proof.
  unfold fallible. eapply hoare_bind; [apply wt_fault | ].
  intro f. apply hoare_pure. intros ->. apply hoare_ret. auto.
Qed.

Lemma wt_get (B : Type) (c p : list Z) (k : World -> M B)
  (Q : B -> World -> Prop) :
  (forall w1, wt c p w1 -> hoare (wt c p) (k w1) Q) ->
  hoare (wt c p) (bind get_world k) Q.
Proof. intros H w Hw. rewrite bind_run. cbn. apply (H w Hw), Hw. Qed.

Lemma wt_set_units (c p c' p' : list Z) (w1 : World) :
  wt c p w1 ->
  hoare (wt c p)
        (set_units (upd (w_units w1) u
                      (mkUnit c' p' (cu_id (w_units w1 u)))))
        (fun _ w => wt c' p' w).
Proof.
  intros H1 w Hw. split.
  - exact (wr_set_units w0 u c p c' p' w1 _ (proj1 H1) w (proj1 Hw)).
  - cbn. rewrite upd_same. exact (proj2 H1).
Qed.

Lemma wt_DoIO_write (c p : list Z) (r : IOClipReq) :
  hoare (wt c p) (DoIO_write u r)
        (fun r' w =>
           wt c (write_at (Z.to_nat (io_Offset r))
                   (firstn (Z.to_nat (io_Length r)) (io_Data r))
                   (if io_ClipID r =? 0 then [] else p)) w /\
           r' = complete 0
                  (Zlen (firstn (Z.to_nat (io_Length r)) (io_Data r)))
                  (io_Offset r +
                   Zlen (firstn (Z.to_nat (io_Length r)) (io_Data r)))
                  (if io_ClipID r =? 0 then cu_id (w_units w0 u) + 1
                   else io_ClipID r)
                  (io_Data r) r).
Proof.
  unfold DoIO_write.
  eapply hoare_bind; [apply wt_fault | ].
  intro f. apply hoare_pure. intros ->.
  apply wt_get. intros w1 Hw1.
  pose proof Hw1 as ((Ho & Hf & Hc & Hp) & Hi).
  rewrite Hc, Hp.
  eapply hoare_bind; [apply (wt_set_units c p c _ w1 Hw1) | ].
  intros [].
  eapply hoare_bind; [apply wt_keeps; intro; reflexivity | ]. intros [].
  apply hoare_ret. intros w Hw. split; [exact Hw | ].
  rewrite Hi. reflexivity.
Qed.

(** The stream hook for writing: the device takes all the bytes. *)
Lemma wt_stream_write (c p data : list Z) (off : Z) (i : IFFHandle) :
  cbh_Unit (iff_Stream i) = u ->
  hoare (wt c p) (stream_write_at off data i)
        (fun x w =>
           wt c (write_at (Z.to_nat off) data
                   (if io_ClipID (cbh_Req (iff_Stream i)) =? 0 then []
                    else p)) w /\
           x = (Zlen data, 0,
                mkIFF (mkHandle u
                         (mkReq CMD_WRITE 0 (Zlen data) (Zlen data) data
                            (off + Zlen data)
                            (if io_ClipID (cbh_Req (iff_Stream i)) =? 0
                             then cu_id (w_units w0 u) + 1
                             else io_ClipID (cbh_Req (iff_Stream i)))))
                      (iff_Write i) (iff_Stack i) (iff_Stop i))).
Proof.
  intro Hu. unfold stream_write_at. cbv zeta. rewrite Hu.
  rewrite DoIO_is_write by reflexivity.
  eapply hoare_bind; [apply wt_DoIO_write | ].
  intro r'. apply hoare_pure. intros ->.
  cbn [io_Length io_Data io_Offset io_ClipID set_Length set_Data set_Offset
       set_Command].
  assert (firstn (Z.to_nat (Zlen data)) data = data) as ->.
  { unfold Zlen. rewrite Nat2Z.id. apply firstn_all. }
  apply hoare_ret. intros w Hw. split; [exact Hw | ].
  unfold set_stream, with_req, complete. cbn. rewrite Hu. reflexivity.
Qed.

Lemma wt_AllocIFF (c p : list Z) :
  hoare (wt c p) AllocIFF
        (fun o w => wt c p w /\
                    o = Some (mkIFF (mkHandle 0 req0) false [] [])).
Proof.
  unfold AllocIFF. eapply hoare_bind; [apply wt_fallible | ].
  intro e. apply hoare_pure. intros ->. apply hoare_ret. auto.
Qed.

Lemma wt_AllocMem (c p : list Z) :
  hoare (wt c p) AllocMem (fun ok w => wt c p w /\ ok = true).
Proof.
  unfold AllocMem. eapply hoare_bind; [apply wt_fallible | ].
  intro e. apply hoare_pure. intros ->. apply hoare_ret. auto.
Qed.

Lemma wt_OpenClipboard (c p : list Z) :
  hoare (wt c p) (OpenClipboard u)
        (fun o w => wt c p w /\ o = Some (mkHandle u req0)).
Proof.
  unfold OpenClipboard. eapply hoare_bind; [apply wt_fault | ].
  intro f. apply hoare_pure. intros ->.
  eapply hoare_bind; [apply wt_keeps; intro; reflexivity | ]. intros [].
  apply hoare_ret. auto.
Qed.

Lemma wt_OpenIFF (c p : list Z) (i : IFFHandle) (mode : bool) :
  hoare (wt c p) (OpenIFF i mode)
        (fun x w =>
           wt c p w /\
           x = (0, mkIFF (with_req (set_ClipID 0
                                      (set_Offset 0 (cbh_Req (iff_Stream i))))
                                   (iff_Stream i))
                         mode [] (iff_Stop i))).
Proof.
  unfold OpenIFF. eapply hoare_bind; [apply wt_fallible | ].
  intro e. apply hoare_pure. intros ->. apply hoare_ret. auto.
Qed.

(** The state of an IFF handle that writes to unit [u]: the offset of
    its stream, the clip identifier of its request, and its stack. *)
Definition wh (i : IFFHandle) (off cid : Z) (st : list ContextNode) : Prop :=
  cbh_Unit (iff_Stream i) = u /\ stream_offset i = off /\
  io_ClipID (cbh_Req (iff_Stream i)) = cid /\ iff_Write i = true /\
  iff_Stack i = st.

(** The identifier the device gives to the write session. *)
Definition session : Z := cu_id (w_units w0 u) + 1.

Lemma session_nonzero : (session =? 0) = false.
Proof. unfold session. lia. Qed.

Definition next_id (cid : Z) : Z := if cid =? 0 then session else cid.

Lemma next_id_nonzero (cid : Z) : (next_id cid =? 0) = false.
Proof.
  unfold next_id. destruct (cid =? 0) eqn:E; [apply session_nonzero | exact E].
Qed.

(** A write at the end of what the session holds. *)
Lemma wt_append (c p base data : list Z) (i : IFFHandle) (off cid : Z)
  (st : list ContextNode) :
  wh i off cid st ->
  base = (if cid =? 0 then [] else p) -> Zlen base = off ->
  hoare (wt c p) (stream_write_at off data i)
        (fun x w =>
           wt c (base ++ data) w /\
           fst (fst x) = Zlen data /\ snd (fst x) = 0 /\
           wh (snd x) (off + Zlen data) (next_id cid) st).
Proof.
  intros (Hu & Ho & Hc & Hw & Hs) Hb Hl.
  eapply hoare_post; [apply (wt_stream_write c p data off i Hu) | ].
  intros x w (Hwt & ->). rewrite Hc, <- Hb in Hwt.
  rewrite (write_at_end data base off Hl) in Hwt.
  split; [exact Hwt | ]. cbn [fst snd]. split; [reflexivity | ].
  split; [reflexivity | ]. unfold wh, stream_offset, next_id, session.
  cbn. rewrite Hc. auto.
Qed.

Lemma wt_PushChunk (c p base : list Z) (i : IFFHandle) (type id size : Z)
  (off cid : Z) (st : list ContextNode) :
  wh i off cid st ->
  base = (if cid =? 0 then [] else p) -> Zlen base = off ->
  hoare (wt c p) (PushChunk i type id size)
        (fun x w =>
           wt c (base ++
                 bytes_of_ULONG id ++
                 bytes_of_ULONG (if size =? IFFSIZE_UNKNOWN then 0
                                 else size) ++
                 (if is_group id then bytes_of_ULONG type else [])) w /\
           fst x = 0 /\
           wh (snd x) (off + (if is_group id then 12 else 8)) (next_id cid)
              (mkCN id (if is_group id then type else parent_type st)
                    size (if is_group id then 4 else 0) off :: st)).
Proof.
  intros Hh Hb Hl. unfold PushChunk. cbv zeta.
  pose proof Hh as (Hu & Ho & Hc & Hw & Hs). rewrite Ho.
  eapply hoare_bind; [apply (wt_append c p base _ i off cid st Hh Hb Hl) | ].
  intros [[a e] i1]. cbn [fst snd]. intros w (Hwt & -> & -> & Hh1).
  rewrite Z.ltb_irrefl. cbn [Z.eqb negb orb ret fst snd].
  split; [exact Hwt | ]. split; [reflexivity | ].
  destruct Hh1 as (Hu1 & Ho1 & Hc1 & Hw1 & Hs1).
  unfold wh, stream_offset in *. cbn [set_stack iff_Stream iff_Write iff_Stack].
  rewrite Hs1. repeat split; try assumption.
  rewrite Ho1. f_equal. destruct (is_group id); reflexivity.
Qed.

Lemma wt_WriteChunkBytes (c p buf : list Z) (i : IFFHandle)
  (off cid : Z) (top : ContextNode) (rest : list ContextNode) :
  wh i off cid (top :: rest) -> (cid =? 0) = false -> Zlen p = off ->
  cn_Size top = Zlen buf -> cn_Scan top = 0 -> 0 < Zlen buf ->
  hoare (wt c p) (WriteChunkBytes i buf (Zlen buf))
        (fun x w =>
           wt c (p ++ buf) w /\ fst x = Zlen buf /\
           wh (snd x) (off + Zlen buf) cid
              (mkCN (cn_ID top) (cn_Type top) (cn_Size top) (Zlen buf)
                    (cn_Start top) :: rest)).
Proof.
  intros Hh Hc0 Hl Hsz Hsc Hpos. unfold WriteChunkBytes.
  pose proof Hh as (Hu & Ho & Hc & Hw & Hs). rewrite Hs, Ho, Hsz, Hsc.
  assert ((Zlen buf =? IFFSIZE_UNKNOWN) = false) as -> 
    by (unfold IFFSIZE_UNKNOWN; lia).
  rewrite Z.sub_0_r, Z.min_id.
  assert (firstn (Z.to_nat (Zlen buf)) buf = buf) as ->.
  { unfold Zlen. rewrite Nat2Z.id. apply firstn_all. }
  eapply hoare_bind.
  { apply (wt_append c p p buf i off cid (top :: rest) Hh); [ | exact Hl].
    rewrite Hc0. reflexivity. }
  intros [[a e] i1]. cbn [fst snd]. intros w (Hwt & -> & -> & Hh1).
  cbn [Z.eqb negb ret fst snd].
  split; [exact Hwt | ]. split; [reflexivity | ].
  destruct Hh1 as (Hu1 & Ho1 & Hc1 & Hw1 & Hs1).
  unfold wh, stream_offset in *. cbn [set_stack iff_Stream iff_Write iff_Stack].
  unfold next_id in Hc1. rewrite Hc0 in Hc1. rewrite Z.add_0_l.
  repeat split; assumption.
Qed.

(** Leaving a chunk whose declared size was written in full: a pad byte
    follows an odd payload. *)
Lemma wt_PopChunk_leaf (c p : list Z) (i : IFFHandle)
  (off cid : Z) (top : ContextNode) (rest : list ContextNode) :
  wh i off cid (top :: rest) -> (cid =? 0) = false -> Zlen p = off ->
  0 <= cn_Size top -> cn_Scan top = cn_Size top ->
  hoare (wt c p) (PopChunk i)
        (fun x w =>
           wt c (p ++ repeat 0 (Z.to_nat (pad (cn_Size top)))) w /\
           fst x = 0 /\
           wh (snd x) (off + pad (cn_Size top)) cid
              (add_scan (8 + cn_Size top + pad (cn_Size top)) rest)).
Proof.
  intros Hh Hc0 Hl Hsz Hsc. unfold PopChunk.
  pose proof Hh as (Hu & Ho & Hc & Hw & Hs). rewrite Hs. cbv zeta.
  assert ((cn_Size top =? IFFSIZE_UNKNOWN) = false) as -> 
    by (unfold IFFSIZE_UNKNOWN; lia).
  rewrite Hsc, Z.eqb_refl. cbn [negb andb].
  unfold pad. destruct (Z.odd (cn_Size top)) eqn:Eo.
  - rewrite Ho.
    eapply hoare_bind with
      (Q := fun x w =>
              wt c (p ++ [0]) w /\ fst x = 0 /\
              wh (snd x) (off + 1) cid (top :: rest)).
    { eapply hoare_bind.
      { apply (wt_append c p p [0] i off cid (top :: rest) Hh); [ | exact Hl].
        rewrite Hc0. reflexivity. }
      intros [[a e] i1]. cbn [fst snd]. intros w (Hwt & -> & -> & Hh1).
      cbn. split; [exact Hwt | ]. split; [reflexivity | ].
      unfold next_id in Hh1. rewrite Hc0 in Hh1. exact Hh1. }
    intros [e1 i1]. cbn [fst snd]. intros w (Hwt & -> & Hh1).
    cbn [Z.eqb negb ret fst snd].
    split; [exact Hwt | ]. split; [reflexivity | ].
    destruct Hh1 as (Hu1 & Ho1 & Hc1 & Hw1 & Hs1).
    unfold wh, stream_offset in *.
    cbn [set_stack iff_Stream iff_Write iff_Stack]. auto.
  - eapply hoare_bind with (Q := fun x w => wt c p w /\ x = (0, i));
      [apply hoare_ret; auto | ].
    intro x. apply hoare_pure. intros ->. cbn [Z.eqb negb].
    apply hoare_ret. intros w Hwt. cbn [Z.to_nat repeat fst snd].
    rewrite app_nil_r, !Z.add_0_r. split; [exact Hwt | ].
    split; [reflexivity | ].
    unfold wh, stream_offset in *.
    cbn [set_stack iff_Stream iff_Write iff_Stack]. auto.
Qed.

(** Leaving a group whose size was not declared: the size field of its
    header is patched with the number of bytes written into it. *)
Lemma wt_PopChunk_group (c p : list Z) (i : IFFHandle)
  (off cid : Z) (top : ContextNode) (rest : list ContextNode) :
  wh i off cid (top :: rest) -> (cid =? 0) = false ->
  cn_Size top = IFFSIZE_UNKNOWN -> Z.odd (cn_Scan top) = false ->
  hoare (wt c p) (PopChunk i)
        (fun x w =>
           wt c (write_at (Z.to_nat (cn_Start top + 4))
                   (bytes_of_ULONG (cn_Scan top)) p) w /\
           fst x = 0 /\
           wh (snd x) off cid
              (add_scan (8 + cn_Scan top + pad (cn_Scan top)) rest)).
Proof.
  intros Hh Hc0 Hsz Hev. unfold PopChunk.
  pose proof Hh as (Hu & Ho & Hc & Hw & Hs). rewrite Hs. cbv zeta.
  rewrite Hsz. cbn [Z.eqb IFFSIZE_UNKNOWN Pos.eqb negb andb].
  rewrite Hev.
  eapply hoare_bind with (Q := fun x w => wt c p w /\ x = (0, i));
    [apply hoare_ret; auto | ].
  intro x0. apply hoare_pure. intros ->. cbn [Z.eqb negb].
  eapply hoare_bind; [apply (wt_stream_write c p _ _ i Hu) | ].
  intros x. apply hoare_pure. intros ->.
  rewrite Hc, Hc0. rewrite Z.ltb_irrefl. cbn [Z.eqb negb orb].
  apply hoare_ret. intros w Hwt. split; [exact Hwt | ].
  split; [reflexivity | ].
  unfold wh, stream_offset, stream_seek, set_stream, with_req, set_Offset in *.
  cbn [fst snd iff_Stream iff_Write iff_Stack cbh_Unit cbh_Req io_Offset
       io_ClipID set_stack].
  rewrite ?Zlen_bytes_of_ULONG.
  split; [reflexivity | ]. split; [lia | ]. auto.
Qed.

(** Closing a handle that writes commits the session. *)
Lemma wt_CloseIFF (c p : list Z) (i : IFFHandle) (off cid : Z)
  (st : list ContextNode) :
  wh i off cid st ->
  hoare (wt c p) (CloseIFF i) (fun _ w => wr w0 u p [] w).
Proof.
  intros (Hu & Ho & Hc & Hw & Hs). unfold CloseIFF. rewrite Hw, Hu.
  cbv zeta. rewrite DoIO_is_update by reflexivity.
  eapply hoare_bind with (Q := fun _ w => wr w0 u p [] w);
    [ | intro r; apply hoare_ret; auto].
  unfold DoIO_update.
  eapply hoare_bind; [apply wt_fault | ].
  intro f. apply hoare_pure. intros ->.
  apply wt_get. intros w1 Hw1.
  eapply hoare_pre; [ | intros w Hwt; exact (proj1 Hwt)].
  destruct Hw1 as ((Ho1 & Hf1 & Hc1 & Hp1) & Hi1). rewrite Hp1.
  eapply hoare_bind.
  { apply (wr_set_units w0 u c p p [] w1). unfold wr. auto. }
  intros [].
  eapply hoare_bind; [apply wr_log | ]. intros [].
  apply hoare_ret. auto.
Qed.

Variable text : list Z.
Hypothesis Htext : 0 < Zlen text < 2 ^ 31.

Lemma next_id_keep (cid : Z) : (cid =? 0) = false -> next_id cid = cid.
Proof. intro H. unfold next_id. rewrite H. reflexivity. Qed.

Lemma is_group_FORM : is_group ID_FORM = true.
Proof. reflexivity. Qed.

Lemma is_group_CHRS : is_group ID_CHRS = false.
Proof. reflexivity. Qed.

Lemma CopyTextToClipboard_wt (name : string) (c p : list Z) :
  hoare (wt c p) (CopyTextToClipboard name u text (Zlen text))
        (fun r w =>
           wr w0 u (form ID_FTXT (chunk ID_CHRS text)) [] w /\
           r = RETURN_OK).
Proof.
  unfold CopyTextToClipboard.
  assert ((Zlen text =? 0) = false) as -> by lia.
  eapply hoare_bind; [apply wt_AllocIFF | ]. intro o.
  apply hoare_pure. intros ->.
  eapply hoare_bind; [apply wt_OpenClipboard | ]. intro o.
  apply hoare_pure. intros ->. cbv zeta.
  eapply hoare_bind; [apply wt_OpenIFF | ]. intro x.
  apply hoare_pure. intros ->. cbn [Z.eqb negb].
  cbn [InitIFFasClip iff_Stream iff_Write iff_Stack iff_Stop cbh_Req
       cbh_Unit with_req].
  set (cid := next_id 0).
  assert ((cid =? 0) = false) as Hcid by apply next_id_nonzero.
  set (n := Zlen text) in *.
  (* FORM FTXT *)
  eapply hoare_bind.
  { apply (wt_PushChunk c p [] _ ID_FTXT ID_FORM IFFSIZE_UNKNOWN 0 0 []);
      [ | reflexivity | reflexivity].
    unfold wh, stream_offset. cbn. auto. }
  intros [e i1]. cbn [fst snd]. apply hoare_pure. intros (-> & H1).
  cbn [Z.eqb negb]. rewrite is_group_FORM in *.
  change (IFFSIZE_UNKNOWN =? IFFSIZE_UNKNOWN) with true. cbv iota.
  cbn [app] in *. fold cid in H1. change (0 + 12) with 12 in H1.
  set (p1 := bytes_of_ULONG ID_FORM ++ bytes_of_ULONG 0 ++
             bytes_of_ULONG ID_FTXT).
  (* CHRS *)
  eapply hoare_bind.
  { apply (wt_PushChunk c p1 p1 i1 0 ID_CHRS n 12 cid _ H1);
      [rewrite Hcid; reflexivity | reflexivity]. }
  intros [e i2]. cbn [fst snd]. apply hoare_pure. intros (-> & H2).
  cbn [Z.eqb negb]. rewrite is_group_CHRS in *.
  assert ((n =? IFFSIZE_UNKNOWN) = false) as Hn
    by (unfold IFFSIZE_UNKNOWN; lia).
  rewrite Hn. rewrite (next_id_keep cid Hcid) in H2.
  change (12 + 8) with 20 in H2. cbn [parent_type cn_Type] in H2.
  rewrite app_nil_r.
  set (p2 := p1 ++ bytes_of_ULONG ID_CHRS ++ bytes_of_ULONG n).
  (* the text *)
  eapply hoare_bind.
  { apply (wt_WriteChunkBytes c p2 text i2 20 cid _ _ H2 Hcid);
      [reflexivity | reflexivity | reflexivity | lia]. }
  intros [a i3]. cbn [fst snd]. apply hoare_pure. intros (-> & H3).
  fold n. fold n in H3. rewrite Z.eqb_refl. cbn [negb cn_ID cn_Type cn_Size
    cn_Start] in *.
  (* leaving CHRS *)
  eapply hoare_bind.
  { apply (wt_PopChunk_leaf c (p2 ++ text) i3 (20 + n) cid _ _ H3 Hcid);
      [ | cbn [cn_Size]; lia | reflexivity].
    unfold p2, p1. rewrite !Zlen_app, !Zlen_bytes_of_ULONG. fold n. lia. }
  intros [e i4]. cbn [fst snd]. apply hoare_pure. intros (-> & H4).
  cbn [Z.eqb negb cn_Size add_scan cn_ID cn_Type cn_Scan cn_Start] in *.
  (* leaving FORM *)
  eapply hoare_bind.
  { apply (wt_PopChunk_group c _ i4 _ cid _ _ H4 Hcid); [reflexivity | ].
    cbn [cn_Scan].
    replace (4 + (8 + n + pad n)) with (2 * 6 + (n + pad n)) by lia.
    rewrite Z.add_comm, Z.odd_add_mul_2. apply odd_plus_pad. }
  intros [e i5]. cbn [fst snd]. apply hoare_pure. intros (-> & H5).
  cbn [Z.eqb negb cn_Size add_scan cn_ID cn_Type cn_Scan cn_Start] in *.
  (* the commit *)
  eapply hoare_bind; [apply (wt_CloseIFF c _ i5 _ _ _ H5) | ]. intro i6.
  eapply hoare_bind; [apply (wr_CloseClipboard w0 u); reflexivity | ].
  intros [] w Hw. unfold FreeIFF. rewrite bind_run. cbn [ret fst snd].
  split; [ | reflexivity].
  replace (form ID_FTXT (chunk ID_CHRS text))
    with (write_at (Z.to_nat (0 + 4)) (bytes_of_ULONG (4 + (8 + n + pad n)))
            ((p2 ++ text) ++ repeat 0 (Z.to_nat (pad n)))); [exact Hw | ].
  unfold form. rewrite Zlen_chunk. unfold p2, p1, chunk. fold n.
  rewrite <- !app_assoc. apply write_at_size.
Qed.

(** The whole copy of a file that the converter takes for a text. *)
Lemma CopyToClipboard_text_wt (name : string) (c : list Z) (o : DTObject) :
  is_empty name = false ->
  w_files w0 name = Some c -> w_dt_file w0 c = Some o ->
  dto_isText o = true -> dto_text o = Some text ->
  hoare (fun w => store w = store w0 /\ w_dt_file w = w_dt_file w0)
        (CopyToClipboard name u)
        (fun r w =>
           wr w0 u (form ID_FTXT (chunk ID_CHRS text)) [] w /\
           r = RETURN_OK).
Proof.
  intros Hn Hfile Hdt Ht Hb. unfold CopyToClipboard. rewrite Hn.
  assert (forall w, store w = store w0 ->
            wt (cu_clip (w_units w0 u)) (cu_pending (w_units w0 u)) w)
    as Hinit.
  { intros w Hw. unfold store in Hw. injection Hw as Hu Hf _.
    unfold wt, wr. rewrite Hu, Hf. auto. }
  intros w (Hst & Hd). rewrite bind_run.
  assert (NewDTObject_file name w = (Some o, w)) as ->.
  { unfold NewDTObject_file. rewrite bind_run. cbn [get_world fst snd].
    unfold store in Hst. injection Hst as _ _ Hf.
    rewrite Hf, Hfile, Hd, Hdt. reflexivity. }
  cbn [fst snd]. rewrite Ht, Hb.
  assert ((0 <? Zlen text) = true) as -> by lia.
  assert (hoare (wt (cu_clip (w_units w0 u)) (cu_pending (w_units w0 u)))
            (ok <- AllocMem ;;
             if ok : bool
             then CopyTextToClipboard name u text (Zlen text)
             else copy_object o u)
            (fun r w =>
               wr w0 u (form ID_FTXT (chunk ID_CHRS text)) [] w /\
               r = RETURN_OK)) as Hrun.
  { eapply hoare_bind; [apply wt_AllocMem | ].
    intro ok. apply hoare_pure. intros ->.
    apply CopyTextToClipboard_wt. }
  exact (Hrun w (Hinit w Hst)).
Qed.

End TextCopy.

Lemma keeps_files_stream_write_at (off : Z) (data : list Z) (i : IFFHandle) :
  keeps w_files (stream_write_at off data i).
Proof. unfold stream_write_at. keeps_tac. Qed.

#[export] Hint Resolve keeps_files_stream_write_at : keeps.

Lemma keeps_files_PushChunk (i : IFFHandle) (type id size : Z) :
  keeps w_files (PushChunk i type id size).
Proof. unfold PushChunk. keeps_tac. Qed.

Lemma keeps_files_WriteChunkBytes (i : IFFHandle) (buf : list Z) (n : Z) :
  keeps w_files (WriteChunkBytes i buf n).
Proof. unfold WriteChunkBytes. keeps_tac. Qed.

Lemma keeps_files_PopChunk (i : IFFHandle) : keeps w_files (PopChunk i).
Proof. unfold PopChunk. keeps_tac. Qed.

Lemma keeps_files_CloseIFF (i : IFFHandle) : keeps w_files (CloseIFF i).
Proof. unfold CloseIFF. keeps_tac. Qed.

Lemma keeps_files_OpenIFF (i : IFFHandle) (mode : bool) :
  keeps w_files (OpenIFF i mode).
Proof. unfold OpenIFF. keeps_tac. Qed.

Lemma keeps_files_AllocIFF : keeps w_files AllocIFF.
Proof. unfold AllocIFF. keeps_tac. Qed.

Lemma keeps_files_AllocMem : keeps w_files AllocMem.
Proof. unfold AllocMem. keeps_tac. Qed.

#[export] Hint Resolve keeps_files_PushChunk keeps_files_WriteChunkBytes
  keeps_files_PopChunk keeps_files_CloseIFF keeps_files_OpenIFF
  keeps_files_AllocIFF keeps_files_AllocMem : keeps.

(** Whatever the environment decides, the text path writes to the device
    only: no file is created, changed or removed. *)
Lemma keeps_files_CopyTextToClipboard (name : string) (u : Z)
  (buf : list Z) (n : Z) :
  keeps w_files (CopyTextToClipboard name u buf n).
Proof. unfold CopyTextToClipboard, FreeIFF. keeps_tac. Qed.

Definition cooperative (w : World) : Prop :=
  forall n, w_faults w n = NoFault.

(** X7: in an environment that reports no failure, the copy of a text of
    1 to 2^31 - 1 bytes returns [RETURN_OK] and replaces the clip of the
    unit by a well-formed stream: FORM, the size of what follows patched
    into the header, FTXT, and one CHRS chunk with the text and a pad byte
    after an odd length.  Nothing of the write session is left pending,
    the clips of the other units and the files are not touched. *)
Theorem CopyTextToClipboard_encodes (w : World) (name : string) (u : Z)
  (text : list Z) :
  cooperative w -> 0 <= cu_id (w_units w u) -> 0 < Zlen text < 2 ^ 31 ->
  fst (CopyTextToClipboard name u text (Zlen text) w) = RETURN_OK /\
  cu_clip (w_units (snd (CopyTextToClipboard name u text (Zlen text) w)) u)
  = form ID_FTXT (chunk ID_CHRS text) /\
  cu_pending (w_units (snd (CopyTextToClipboard name u text (Zlen text) w)) u)
  = [] /\
  (forall v, v <> u ->
     cu_clip (w_units (snd (CopyTextToClipboard name u text (Zlen text) w)) v)
     = cu_clip (w_units w v)) /\
  w_files (snd (CopyTextToClipboard name u text (Zlen text) w)) = w_files w.
Proof.
  intros Hc Hid Ht.
  destruct (CopyTextToClipboard_wt w u Hc Hid text Ht name _ _ w
              (conj (wr_init w u) eq_refl))
    as ((Ho & _ & Hclip & Hp) & Hr).
  split; [exact Hr | ]. split; [exact Hclip | ]. split; [exact Hp | ].
  split; [exact Ho | ]. apply keeps_files_CopyTextToClipboard.
Qed.

Lemma CopyTextToClipboard_witness :
  fst (CopyTextToClipboard "in" 3 (bytes_of_string "Hello")
         (Zlen (bytes_of_string "Hello")) world_text) = RETURN_OK /\
  cu_clip (w_units (snd (CopyTextToClipboard "in" 3 (bytes_of_string "Hello")
                           (Zlen (bytes_of_string "Hello")) world_text)) 3)
  = bytes_of_string "FORM" ++ [0; 0; 0; 18] ++ bytes_of_string "FTXTCHRS" ++
    [0; 0; 0; 5] ++ bytes_of_string "Hello" ++ [0].
Proof.
  assert (cooperative world_text) as H1 by (intro n; reflexivity).
  assert (0 <= cu_id (w_units world_text 3)) as H2 by (cbn; lia).
  assert (0 < Zlen (bytes_of_string "Hello") < 2 ^ 31) as H3
    by (split; reflexivity).
  destruct (CopyTextToClipboard_encodes world_text "in" 3
              (bytes_of_string "Hello") H1 H2 H3) as (Hr & Hclip & _).
  split; [exact Hr | exact Hclip].
Defined.

(** ** A text, copied and pasted back *)

Lemma wr_init_from (w0 : World) (u : Z) (w : World) :
  store w = store w0 ->
  wr w0 u (cu_clip (w_units w0 u)) (cu_pending (w_units w0 u)) w.
Proof.
  intro H. unfold store in H. injection H as Hu Hf _.
  unfold wr. rewrite Hu, Hf. auto.
Qed.

Lemma cu_id_from (w0 : World) (u : Z) (w : World) :
  store w = store w0 -> cu_id (w_units w u) = cu_id (w_units w0 u).
Proof.
  intro H. unfold store in H. injection H as Hu _ _. rewrite Hu. reflexivity.
Qed.

Lemma InitializeLibraries_opens : opens 4 InitializeLibraries.
Proof.
  rewrite InitializeLibraries_steps.
  repeat apply opens_open_then. apply opens_ret.
Qed.

Lemma cooperative_sane (w : World) : cooperative w -> sane w.
Proof. intros H n e He. rewrite H in He. discriminate. Qed.

Lemma keeps_store_InitializeLibraries :
  keeps (fun w => (store w, w_dt_file w)) InitializeLibraries.
Proof. unfold InitializeLibraries, OpenLibrary, fallible. keeps_tac. Qed.

(** What [main] runs when a source and a destination are given and
    nothing turns the invocation down. *)
Lemma main_copy_paste_run (argc : Z) (args : Args) (c p : string)
  (w : World) :
  argc <> 0 -> fst (InitializeLibraries w) = true ->
  arg_copy args = Some c -> arg_paste args = Some p ->
  unit_of args <= 255 -> arg_list args = false -> arg_flush args = false ->
  main argc (Some args) w
  = (let rc := fst (CopyToClipboard c (unit_of args)
                      (snd (InitializeLibraries w))) in
     let w1 := snd (CopyToClipboard c (unit_of args)
                      (snd (InitializeLibraries w))) in
     let rp := fst (PasteFromClipboard p (unit_of args) (arg_force args) w1) in
     (if negb (rp =? RETURN_OK) then rp
      else if negb (rc =? RETURN_OK) then RETURN_FAIL else rc,
      snd (PasteFromClipboard p (unit_of args) (arg_force args) w1))).
Proof.
  intros Hargc Hinit Hc Hp Hu Hl Hf.
  unfold main. apply Z.eqb_neq in Hargc. rewrite Hargc.
  rewrite bind_run, Hinit. cbn [negb].
  fold (unit_of args). rewrite Hc, Hp, Hl, Hf.
  assert ((255 <? unit_of args) = false) as -> by lia.
  cbn [negb andb]. rewrite bind_run. unfold Cleanup. rewrite bind_run.
  cbn [ret fst snd].
  unfold perform. rewrite !bind_run. cbn [ret fst snd]. cbv zeta.
  rewrite andb_true_r. reflexivity.
Qed.

(** X8: the round trip.  In an environment that reports no failure,
    [COPY=src PASTE=dst] on a unit of at most 255 (the number given for
    CLIPUNIT read as a [ULONG]) for a file that the converter takes for a
    text returns [RETURN_OK] and leaves in [dst] exactly the text buffer of
    the source, provided [dst] does not exist yet or FORCE is given. *)
Theorem main_text_round_trip (argc : Z) (args : Args) (src dst : string)
  (w : World) (c text : list Z) (o : DTObject) :
  cooperative w -> argc <> 0 ->
  arg_copy args = Some src -> arg_paste args = Some dst ->
  arg_list args = false -> arg_flush args = false ->
  unit_of args <= 255 -> 0 <= cu_id (w_units w (unit_of args)) ->
  is_empty src = false -> is_empty dst = false ->
  w_files w src = Some c -> w_dt_file w c = Some o ->
  dto_isText o = true -> dto_text o = Some text ->
  0 < Zlen text < 2 ^ 31 - 13 ->
  arg_force args = true \/ w_files w dst = None ->
  fst (main argc (Some args) w) = RETURN_OK /\
  w_files (snd (main argc (Some args) w)) dst = Some text.
Proof.
  intros Hcoop Hargc Hc Hp Hl Hf Hu Hid Hsrc Hdst Hfile Hdt Hist Hbuf Hlen
    Hforce.
  set (u := unit_of args) in *.
  assert (fst (InitializeLibraries w) = true) as Hinit.
  { apply (InitializeLibraries_opens w (cooperative_sane w Hcoop)).
    intros k e _. rewrite Hcoop. discriminate. }
  rewrite (main_copy_paste_run argc args src dst w Hargc Hinit Hc Hp Hu Hl Hf).
  fold u. cbv zeta.
  pose proof (keeps_store_InitializeLibraries w) as Hk.
  set (w1 := snd (InitializeLibraries w)) in *.
  assert (store w1 = store w /\ w_dt_file w1 = w_dt_file w) as Hpre
    by (split; [exact (f_equal fst Hk) | exact (f_equal snd Hk)]).
  assert (0 < Zlen text < 2 ^ 31) as Hlen' by lia.
  destruct (CopyToClipboard_text_wt w u Hcoop Hid text Hlen' src c o
              Hsrc Hfile Hdt Hist Hbuf w1 Hpre)
    as ((Ho & Hfa & Hclip & Hpend) & Hrc).
  assert (w_files (snd (CopyToClipboard src u w1)) = w_files w) as Hfiles.
  { pose proof (proj1 Hpre) as Hst. unfold store in Hst.
    injection Hst as _ _ Hf1. rewrite <- Hf1.
    unfold CopyToClipboard. rewrite Hsrc, bind_run.
    assert (NewDTObject_file src w1 = (Some o, w1)) as ->.
    { unfold NewDTObject_file. rewrite bind_run. cbn [get_world fst snd].
      rewrite Hf1, Hfile, (proj2 Hpre), Hdt. reflexivity. }
    cbn [fst snd]. rewrite Hist, Hbuf.
    assert ((0 <? Zlen text) = true) as -> by lia.
    rewrite bind_run.
    destruct (fst (AllocMem w1)) eqn:Ea.
    - rewrite keeps_files_CopyTextToClipboard. apply keeps_files_AllocMem.
    - exfalso. destruct (wt_AllocMem w u Hcoop _ _ w1
                           (conj (wr_init_from w u w1 (proj1 Hpre)) 
                                 (cu_id_from w u w1 (proj1 Hpre))))
        as (_ & Hok). congruence. }
  set (w2 := snd (CopyToClipboard src u w1)) in *.
  rewrite Hrc. cbn [Z.eqb RETURN_OK negb].
  assert (cooperative w2) as Hcoop2 by (intro k; rewrite Hfa; apply Hcoop).
  assert (cu_clip (w_units w2 u) = form ID_FTXT (chunks [(ID_CHRS, text)]))
    as Hclip2.
  { rewrite Hclip. unfold chunks. cbn [map List.concat fst snd].
    rewrite app_nil_r. reflexivity. }
  assert (Forall wf_chunk [(ID_CHRS, text)]) as Hwf.
  { constructor; [ | constructor]. unfold wf_chunk. cbn [fst snd].
    split; [reflexivity | ]. split; [ | lia].
    split; [discriminate | reflexivity]. }
  assert (4 + Zlen (chunks [(ID_CHRS, text)]) < 2 ^ 31) as Hsize.
  { unfold chunks. cbn [map List.concat fst snd].
    rewrite app_nil_r, Zlen_chunk. unfold pad.
    destruct (Z.odd (Zlen text)); lia. }
  assert (arg_force args = true \/ w_files w2 dst = None) as Hforce2
    by (rewrite Hfiles; exact Hforce).
  destruct (PasteFromClipboard_text w2 dst u [(ID_CHRS, text)] Hcoop2 Hclip2
              Hwf Hsize (arg_force args) Hdst Hforce2 w2 (frame_refl w2))
    as ((_ & _ & Hout & _) & Hrp).
  rewrite Hrp. cbn [Z.eqb RETURN_OK negb fst snd].
  split; [reflexivity | ]. rewrite Hout.
  unfold payloads_of. cbn [map List.concat fst snd]. rewrite Z.eqb_refl.
  rewrite app_nil_r. reflexivity.
Qed.

Lemma main_text_round_trip_witness :
  fst (main 1 (Some args_copy_paste) world_text) = RETURN_OK /\
  w_files (snd (main 1 (Some args_copy_paste) world_text)) "out"%string
  = Some (bytes_of_string "Hi!").
Proof.
  assert (cooperative world_text) as H1 by (intro n; reflexivity).
  assert (1 <> 0) as H2 by discriminate.
  assert (unit_of args_copy_paste <= 255) as H3 by (cbn; lia).
  assert (0 <= cu_id (w_units world_text (unit_of args_copy_paste))) as H4
    by (cbn; lia).
  assert (0 < Zlen (bytes_of_string "Hi!") < 2 ^ 31 - 13) as H5
    by (split; reflexivity).
  exact (main_text_round_trip 1 args_copy_paste "in" "out" world_text
           (bytes_of_string "Hi!") (bytes_of_string "Hi!")
           (mkDT true (Some (bytes_of_string "Hi!")) true
                 (form ID_FTXT (chunk ID_CHRS (bytes_of_string "Hi!"))))
           H1 H2 eq_refl eq_refl eq_refl eq_refl H3 H4 eq_refl eq_refl
           eq_refl eq_refl eq_refl eq_refl H5 (or_intror eq_refl)).
Defined.

(** ** Copying an object *)

Lemma firstn_full (A : Type) (n : nat) (l : list A) :
  Zlen (firstn n l) = Zlen l -> firstn n l = l.
Proof.
  unfold Zlen. rewrite length_firstn. intro H.
  apply firstn_all2. lia.
Qed.

Lemma keeps_device_AllocMem : keeps device AllocMem.
Proof. unfold AllocMem. keeps_tac. Qed.

Lemma keeps_device_Close (fh : string) : keeps device (Close fh).
Proof. unfold Close. keeps_tac. Qed.

Lemma keeps_device_DeleteFile (name : string) : keeps device (DeleteFile name).
Proof. unfold DeleteFile. keeps_tac. Qed.

Lemma keeps_device_GetUniqueID : keeps device GetUniqueID.
Proof. intro w. reflexivity. Qed.

Lemma keeps_device_SaveDTObjectA (o : DTObject) (name : string) :
  keeps device (SaveDTObjectA o name).
Proof. unfold SaveDTObjectA. keeps_tac. Qed.

Lemma keeps_device_Open_OLDFILE (name : string) :
  keeps device (Open_OLDFILE name).
Proof. unfold Open_OLDFILE. keeps_tac. Qed.

Lemma keeps_device_Read (fh : string) (n : Z) : keeps device (Read fh n).
Proof. unfold Read. keeps_tac. Qed.

Lemma keeps_device_Seek_size (fh : string) : keeps device (Seek_size fh).
Proof. unfold Seek_size. keeps_tac. Qed.

Lemma keeps_device_NewDTObject_file (name : string) :
  keeps device (NewDTObject_file name).
Proof. unfold NewDTObject_file. keeps_tac. Qed.

#[export] Hint Resolve keeps_device_AllocMem keeps_device_Close
  keeps_device_DeleteFile keeps_device_GetUniqueID
  keeps_device_SaveDTObjectA keeps_device_Open_OLDFILE keeps_device_Read
  keeps_device_Seek_size keeps_device_NewDTObject_file : keeps.

Lemma keeps_files_Open_OLDFILE (name : string) :
  keeps w_files (Open_OLDFILE name).
Proof. unfold Open_OLDFILE. keeps_tac. Qed.

Lemma keeps_files_Read (fh : string) (n : Z) : keeps w_files (Read fh n).
Proof. unfold Read. keeps_tac. Qed.

Lemma keeps_files_Seek_size (fh : string) : keeps w_files (Seek_size fh).
Proof. unfold Seek_size. keeps_tac. Qed.

Lemma keeps_files_NewDTObject_file (name : string) :
  keeps w_files (NewDTObject_file name).
Proof. unfold NewDTObject_file. keeps_tac. Qed.

Lemma keeps_files_GetUniqueID : keeps w_files GetUniqueID.
Proof. intro w. reflexivity. Qed.

#[export] Hint Resolve keeps_files_Open_OLDFILE keeps_files_Read
  keeps_files_Seek_size keeps_files_NewDTObject_file keeps_files_GetUniqueID
  : keeps.

(** What one [Read] of a whole file delivers: nothing, or a prefix of the
    file. *)
Lemma Read_prefix (fh : string) (n : Z) (c : list Z) (w : World) :
  w_files w fh = Some c ->
  fst (fst (Read fh n w)) = -1 \/
  (fst (fst (Read fh n w)) = Zlen (snd (fst (Read fh n w))) /\
   exists k, snd (fst (Read fh n w)) = firstn k c).
Proof.
  intro Hf. unfold Read. rewrite bind_run. cbn [fault fst snd].
  destruct (w_faults w (w_tick w)) as [ | e | k].
  - right. rewrite bind_run. cbn [get_world fst snd ret w_files].
    rewrite Hf. split; [reflexivity | ]. eexists. reflexivity.
  - left. rewrite bind_run. reflexivity.
  - right. rewrite bind_run. cbn [get_world fst snd ret w_files].
    rewrite Hf. split; [reflexivity | ].
    exists (Nat.min (Z.to_nat k) (Z.to_nat n)). apply firstn_firstn.
Qed.

Lemma hoare_conj (A : Type) (P : World -> Prop) (m : M A)
  (Q1 Q2 : A -> World -> Prop) :
  hoare P m Q1 -> hoare P m Q2 -> hoare P m (fun a w => Q1 a w /\ Q2 a w).
Proof. intros H1 H2 w Hw. split; [apply H1 | apply H2]; exact Hw. Qed.

Lemma keeps_store_OpenClipboard (u : Z) : keeps store (OpenClipboard u).
Proof. unfold OpenClipboard. keeps_tac. Qed.

Lemma keeps_store_Open_OLDFILE (name : string) :
  keeps store (Open_OLDFILE name).
Proof. unfold Open_OLDFILE. keeps_tac. Qed.

Lemma Open_OLDFILE_result (name : string) (w : World) :
  fst (Open_OLDFILE name w) = None \/ fst (Open_OLDFILE name w) = Some name.
Proof.
  unfold Open_OLDFILE. rewrite bind_run.
  destruct (fst (fault w)); rewrite bind_run; cbn [get_world fst snd];
    try (left; reflexivity);
    destruct (w_files (snd (fault w)) name); rewrite ?bind_run; auto.
Qed.

Section ObjectCopy.

Variable w0 : World.
Variable u : Z.
Hypothesis Hsane : sane w0.


(** The transfer of the temporary file: the unit ends with the bytes of
    the file, or with the clip it had. *)
Lemma copy_file_to_unit_wr (h : ClipboardHandle) (fh : string)
  (iff c p : list Z) :
  cbh_Unit h = u ->
  hoare (fun w => wr w0 u c p w /\ w_files w fh = Some iff)
        (copy_file_to_unit h fh) (all_or_nothing w0 u c iff).
Proof.
  intro Hu. unfold copy_file_to_unit.
  assert (forall (e : Z) (s : string) (p' : list Z),
            hoare (wr w0 u c p') (PrintFault e s ;;; ret RETURN_FAIL)
                  (all_or_nothing w0 u c iff)) as Hfail.
  { intros e s p'.
    eapply hoare_bind; [apply wr_keeps; auto with keeps | ]. intros [].
    apply hoare_ret. intros w Hw. exists p'. right. auto. }
  intros w (Hw & Hf). rewrite bind_run.
  assert (Seek_size fh w = (Zlen iff, w)) as ->.
  { unfold Seek_size. rewrite bind_run. cbn [get_world fst snd ret].
    rewrite Hf. reflexivity. }
  cbn [fst snd].
  destruct (0 <? Zlen iff) eqn:Epos; [ | apply (Hfail _ _ p); exact Hw].
  rewrite bind_run.
  pose proof (keeps_device_AllocMem w) as Hd1.
  pose proof (keeps_files_AllocMem w) as Hf1.
  set (w1 := snd (AllocMem w)) in *.
  assert (wr w0 u c p w1) as Hw1 by (eapply wr_stable; [exact Hd1 | exact Hw]).
  destruct (fst (AllocMem w)); [ | apply (Hfail _ _ p); exact Hw1].
  rewrite bind_run.
  assert (w_files w1 fh = Some iff) as Hf1' by (rewrite Hf1; exact Hf).
  pose proof (Read_prefix fh (Zlen iff) iff w1 Hf1') as Hread.
  pose proof (keeps_device_Read fh (Zlen iff) w1) as Hd2.
  set (w2 := snd (Read fh (Zlen iff) w1)) in *.
  assert (wr w0 u c p w2) as Hw2 by (eapply wr_stable; [exact Hd2 | exact Hw1]).
  clearbody w2.
  destruct (fst (Read fh (Zlen iff) w1)) as [n buf]. cbn [fst snd] in *.
  destruct (n =? Zlen iff) eqn:En.
  2:{ assert (hoare (wr w0 u c p)
                (errorCode <- IoErr_or ERROR_READ_PROTECTED ;;
                 PrintFault errorCode
                   "Clipboard: Could not read temporary file" ;;;
                 ret RETURN_FAIL) (all_or_nothing w0 u c iff)) as H.
      { eapply hoare_bind; [apply wr_keeps; auto with keeps | ]. intro e.
        eapply hoare_bind; [apply wr_keeps; auto with keeps | ]. intros [].
        apply hoare_ret. intros w' Hw'. exists p. right. auto. }
      exact (H w2 Hw2). }
  apply Z.eqb_eq in En. apply Z.ltb_lt in Epos.
  assert (buf = iff) as ->.
  { destruct Hread as [Hm | (Hl & k & Hk)]; [lia | ].
    subst buf. apply firstn_full. lia. }
  clear - Hsane Hu Hfail Hw2 Epos. cbv zeta. rewrite Hu.
  rewrite DoIO_is_write by reflexivity.
  revert w2 Hw2.
  match goal with
  | |- forall w2, _ -> ?Q (fst (?m w2)) (snd (?m w2)) =>
      change (hoare (wr w0 u c p) m Q)
  end.
  eapply hoare_bind; [apply (wr_DoIO_write w0 u Hsane) | ]. intro r1.
  apply hoare_case; apply hoare_pure_l.
  - intro He. apply Z.eqb_neq in He. rewrite He. cbn [andb].
    apply Hfail.
  - intro He. rewrite He. cbn [Z.eqb andb].
    apply hoare_ex. intro acc. apply hoare_ex. intro k.
    apply hoare_pure_l. intro Hacc. apply hoare_pure_l. intro Hact.
    cbn [io_Data io_Offset io_ClipID set_Error set_ClipID set_Offset
         set_Length set_Data set_Command Z.eqb Z.to_nat] in *.
    rewrite write_at_start.
    destruct (io_Actual r1 =? Zlen iff) eqn:Ea; [ | apply Hfail].
    apply Z.eqb_eq in Ea.
    assert (acc = iff) as ->.
    { subst acc. apply firstn_full. lia. }
    rewrite DoIO_is_update by reflexivity.
    eapply hoare_bind; [apply (wr_DoIO_update w0 u Hsane) | ]. intro r2.
    apply hoare_case; apply hoare_pure_l.
    + intro He2. apply Z.eqb_neq in He2. rewrite He2. apply Hfail.
    + intro He2. rewrite He2. cbn [Z.eqb].
      apply hoare_ret. intros w Hw. exists []. left. auto.
Qed.

Lemma SaveDTObjectA_wr (o : DTObject) (name : string) (c p : list Z) :
  hoare (wr w0 u c p) (SaveDTObjectA o name)
        (fun saved w =>
           wr w0 u c p w /\
           (saved = true -> w_files w name = Some (dto_iff o))).
Proof.
  apply hoare_conj; [apply wr_keeps; auto with keeps | ].
  intros w _. unfold SaveDTObjectA. rewrite bind_run.
  destruct (fst (fault w)); rewrite !bind_run; cbn [ret fst snd];
    try discriminate; intros _; cbn; unfold upd_file;
    rewrite String.eqb_refl; reflexivity.
Qed.

(** The object path: the unit ends with the IFF form the converter saved,
    or with the clip it had. *)
Lemma copy_object_wr (o : DTObject) (c p : list Z) :
  hoare (wr w0 u c p) (copy_object o u) (all_or_nothing w0 u c (dto_iff o)).
Proof.
  unfold copy_object.
  assert (forall (A : Type) (m : M A) (p' : list Z),
            keeps device m ->
            hoare (wr w0 u c p') (m ;;; ret RETURN_FAIL)
                  (all_or_nothing w0 u c (dto_iff o))) as Hfail.
  { intros A m p' Hm.
    eapply hoare_bind; [apply wr_keeps; exact Hm | ]. intro.
    apply hoare_ret. intros w Hw. exists p'. right. auto. }
  destruct (negb (dto_canWrite o)); [apply Hfail; auto with keeps | ].
  eapply hoare_bind; [apply wr_keeps; auto with keeps | ]. intro uid.
  cbv zeta. set (tmp := temp_name uid).
  eapply hoare_bind; [apply SaveDTObjectA_wr | ]. intros [ | ]; cbn [negb].
  2:{ eapply hoare_pre; [ | intros w Hw; exact (proj1 Hw)].
      eapply hoare_bind; [apply wr_keeps; auto with keeps | ]. intro e.
      apply Hfail. auto with keeps. }
  eapply hoare_pre with
    (P' := fun w => wr w0 u c p w /\ w_files w tmp = Some (dto_iff o));
    [ | intros w (Hw & Hf); auto].
  assert (forall w w', store w' = store w ->
            wr w0 u c p w /\ w_files w tmp = Some (dto_iff o) ->
            wr w0 u c p w' /\ w_files w' tmp = Some (dto_iff o)) as Hstable.
  { intros w w' H (Hw & Hf). unfold store in H. injection H as Hu Hfa Hfi.
    split; [ | rewrite Hfi; exact Hf].
    eapply wr_stable; [ | exact Hw]. unfold device. congruence. }
  eapply hoare_bind.
  { apply hoare_conj.
    - eapply hoare_keeps; [apply keeps_store_OpenClipboard | exact Hstable].
    - eapply hoare_pre; [ | intros w Hw; exact (proj1 Hw)].
      eapply hoare_post; [apply (wr_OpenClipboard w0 u Hsane) | ].
      intros oc w Hoc. exact (proj2 Hoc). }
  intro oc. cbv beta. apply hoare_pure. intros [-> | ->].
  { eapply hoare_pre; [ | intros w Hw; exact (proj1 Hw)].
    eapply hoare_bind; [apply wr_keeps; auto with keeps | ]. intro e.
    eapply hoare_bind; [apply wr_keeps; auto with keeps | ]. intros [].
    apply Hfail. auto with keeps. }
  eapply hoare_bind.
  { apply hoare_conj with (Q2 := fun x _ => x = None \/ x = Some tmp).
    - eapply hoare_keeps; [apply keeps_store_Open_OLDFILE | exact Hstable].
    - intros w _. apply Open_OLDFILE_result. }
  intro ofh. cbv beta. apply hoare_pure. intros [-> | ->].
  { eapply hoare_pre; [ | intros w Hw; exact (proj1 Hw)].
    eapply hoare_bind; [apply wr_keeps; auto with keeps | ]. intro e.
    eapply hoare_bind; [apply wr_keeps; auto with keeps | ]. intros [].
    eapply hoare_bind; [apply wr_CloseClipboard; reflexivity | ]. intros [].
    apply Hfail. auto with keeps. }
  eapply hoare_bind; [apply copy_file_to_unit_wr; reflexivity | ].
  intro r. apply hoare_ex. intro p'.
  assert (forall c', hoare (wr w0 u c' p')
            (Close tmp ;;; DeleteFile tmp ;;;
             CloseClipboard (mkHandle u req0) ;;; ret r)
            (fun x w => x = r /\ wr w0 u c' [] w)) as Hend.
  { intro c'.
    eapply hoare_bind; [apply wr_keeps; auto with keeps | ]. intros [].
    eapply hoare_bind; [apply wr_keeps; auto with keeps | ]. intros [].
    eapply hoare_bind; [apply wr_CloseClipboard; reflexivity | ]. intros [].
    apply hoare_ret. auto. }
  apply hoare_case; apply hoare_pure_l; intros ->.
  - eapply hoare_post; [apply Hend | ].
    intros x w (-> & Hw). exists []. left. auto.
  - eapply hoare_post; [apply Hend | ].
    intros x w (-> & Hw). exists []. right. auto.
Qed.

End ObjectCopy.

Lemma NewDTObject_file_result (name : string) (w : World) :
  match fst (NewDTObject_file name w) with
  | Some o => exists c, w_files w name = Some c /\ w_dt_file w c = Some o
  | None => True
  end.
Proof.
  unfold NewDTObject_file. rewrite bind_run. cbn [get_world fst snd].
  destruct (w_files w name) as [c | ]; [ | rewrite bind_run; exact I].
  destruct (w_dt_file w c) as [o | ] eqn:E; [ | rewrite bind_run; exact I].
  exists c. auto.
Qed.

Lemma CopyToClipboard_object_wr (w : World) (name : string) (u : Z) :
  sane w ->
  (forall c o, w_files w name = Some c -> w_dt_file w c = Some o ->
               dto_isText o = false) ->
  (fst (CopyToClipboard name u w) = RETURN_OK /\
   exists c o p, w_files w name = Some c /\ w_dt_file w c = Some o /\
                 wr w u (dto_iff o) p (snd (CopyToClipboard name u w))) \/
  (fst (CopyToClipboard name u w) = RETURN_FAIL /\
   exists p, wr w u (cu_clip (w_units w u)) p
               (snd (CopyToClipboard name u w))).
Proof.
  intros Hs Hobj.
  assert (forall (A : Type) (m : M A) (w1 : World),
            keeps device m -> wr w u (cu_clip (w_units w u))
                                 (cu_pending (w_units w u)) w1 ->
            fst ((m ;;; ret RETURN_FAIL) w1) = RETURN_FAIL /\
            exists p, wr w u (cu_clip (w_units w u)) p
               (snd ((m ;;; ret RETURN_FAIL) w1))) as Hfail.
  { intros A m w1 Hm Hw1. rewrite bind_run. split; [reflexivity | ].
    eexists. eapply wr_stable; [apply Hm | exact Hw1]. }
  unfold CopyToClipboard.
  destruct (is_empty name).
  { right. apply Hfail; [auto with keeps | apply wr_init]. }
  rewrite bind_run.
  pose proof (NewDTObject_file_result name w) as Hres.
  pose proof (keeps_device_NewDTObject_file name w) as Hdev.
  set (w1 := snd (NewDTObject_file name w)) in *.
  assert (wr w u (cu_clip (w_units w u)) (cu_pending (w_units w u)) w1)
    as Hw1 by (eapply wr_stable; [exact Hdev | apply wr_init]).
  clearbody w1.
  destruct (fst (NewDTObject_file name w)) as [o | ].
  2:{ right. rewrite bind_run.
      apply Hfail; [auto with keeps | ].
      eapply wr_stable; [apply keeps_device_IoErr_or | exact Hw1]. }
  destruct Hres as (c & Hf & Hd).
  rewrite (Hobj c o Hf Hd).
  destruct (copy_object_wr w u Hs o _ _ w1 Hw1) as (p' & [(Hr & H) | (Hr & H)]).
  - left. split; [exact Hr | ]. exists c, o, p'. auto.
  - right. split; [exact Hr | ]. exists p'. exact H.
Qed.

(** X9: the object path commits all or nothing.  Whatever the environment
    decides (every error it reports having a code), the copy of a file
    that the converter does not take for a text either returns
    [RETURN_OK] with, in the unit, exactly the IFF form that the converter
    saved, or returns [RETURN_FAIL] with the clip of the unit as it was: a
    transport that rejects the write or takes only a part of it, or a
    commit that fails, never leaves a part of the stream in the unit.  The
    clips of the other units are not touched. *)
Theorem CopyToClipboard_object_all_or_nothing (w : World) (name : string)
  (u : Z) :
  sane w ->
  (forall c o, w_files w name = Some c -> w_dt_file w c = Some o ->
               dto_isText o = false) ->
  (fst (CopyToClipboard name u w) = RETURN_OK /\
   (exists c o, w_files w name = Some c /\ w_dt_file w c = Some o /\
                cu_clip (w_units (snd (CopyToClipboard name u w)) u)
                = dto_iff o) \/
   fst (CopyToClipboard name u w) = RETURN_FAIL /\
   cu_clip (w_units (snd (CopyToClipboard name u w)) u)
   = cu_clip (w_units w u)) /\
  (forall v, v <> u ->
     cu_clip (w_units (snd (CopyToClipboard name u w)) v)
     = cu_clip (w_units w v)).
Proof.
  intros Hs Hobj.
  destruct (CopyToClipboard_object_wr w name u Hs Hobj)
    as [(Hr & c & o & p & Hf & Hd & Ho & _ & Hc & _)
       | (Hr & p & Ho & _ & Hc & _)].
  - split; [left | exact Ho]. split; [exact Hr | ]. exists c, o. auto.
  - split; [right | exact Ho]. auto.
Qed.

Lemma CopyToClipboard_object_witness :
  fst (CopyToClipboard "in" 0
         (with_faults (fault_at 5 (Partial 3)) world_blob)) = RETURN_FAIL /\
  cu_clip (w_units (snd (CopyToClipboard "in" 0
                           (with_faults (fault_at 5 (Partial 3))
                              world_blob))) 0)
  = bytes_of_string "OLD".
Proof.
  assert (sane (with_faults (fault_at 5 (Partial 3)) world_blob)) as Hs.
  { intros n e. unfold with_faults, fault_at. cbn [w_faults].
    destruct (Nat.eqb n 5); discriminate. }
  destruct (CopyToClipboard_object_all_or_nothing
              (with_faults (fault_at 5 (Partial 3)) world_blob) "in" 0 Hs)
    as ([(Hr & _) | (Hr & Hc)] & _).
  - intros c o Hf Hd. cbn in Hf. injection Hf as <-.
    cbn in Hd. injection Hd as <-. reflexivity.
  - vm_compute in Hr. discriminate Hr.
  - split; [exact Hr | exact Hc].
Defined.

(** ** The temporary file *)

Lemma keeps_files_copy_file_to_unit (h : ClipboardHandle) (fh : string) :
  keeps w_files (copy_file_to_unit h fh).
Proof. unfold copy_file_to_unit. keeps_tac. Qed.

Lemma keeps_files_Close (fh : string) : keeps w_files (Close fh).
Proof. unfold Close. keeps_tac. Qed.

#[export] Hint Resolve keeps_files_copy_file_to_unit keeps_files_Close
  : keeps.

Section TempFile.

Variable F : string -> option (list Z).
Variable uid : Z.

(** The files are those the copy found, but for the temporary file, which
    is there or not ([saved]), or is not there ([removed]). *)
Definition saved (w : World) : Prop :=
  forall n, n <> temp_name uid -> w_files w n = F n.

Definition removed (w : World) : Prop :=
  saved w /\ w_files w (temp_name uid) = None.

Definition tidy (w : World) : Prop :=
  forall n, w_files w n = F n \/
            (n = temp_name uid /\ w_files w n = None).

Lemma kept_tidy (w : World) : w_files w = F -> tidy w.
Proof. intros H n. left. rewrite H. reflexivity. Qed.

Lemma removed_tidy (w : World) : removed w -> tidy w.
Proof.
  intros (Hs & Hr) n. destruct (string_dec n (temp_name uid)) as [-> | Hn].
  - right. auto.
  - left. apply Hs, Hn.
Qed.

Lemma files_stable (P : World -> Prop) (A : Type) (m : M A) :
  (forall w w', w_files w' = w_files w -> P w -> P w') ->
  keeps w_files m -> hoare P m (fun _ w => P w).
Proof. intros Hs Hk. eapply hoare_keeps; [exact Hk | exact Hs]. Qed.

Lemma saved_stable (w w' : World) :
  w_files w' = w_files w -> saved w -> saved w'.
Proof. intros H Hs n Hn. rewrite H. apply Hs, Hn. Qed.

Lemma removed_stable (w w' : World) :
  w_files w' = w_files w -> removed w -> removed w'.
Proof.
  intros H (Hs & Hr). split; [eapply saved_stable; eassumption | ].
  rewrite H. exact Hr.
Qed.

Lemma kept_stable (w w' : World) :
  w_files w' = w_files w -> w_files w = F -> w_files w' = F.
Proof. congruence. Qed.

Lemma DeleteFile_removes :
  hoare saved (DeleteFile (temp_name uid)) (fun _ w => removed w).
Proof.
  intros w Hs. unfold DeleteFile. rewrite bind_run.
  cbn [get_world fst snd set_files]. unfold removed, saved, upd_file.
  cbn [w_files]. split.
  - intros n Hn. apply String.eqb_neq in Hn. rewrite Hn. apply Hs.
    apply String.eqb_neq. exact Hn.
  - rewrite String.eqb_refl. reflexivity.
Qed.

Lemma SaveDTObjectA_saves (o : DTObject) :
  hoare (fun w => w_files w = F) (SaveDTObjectA o (temp_name uid))
        (fun sv w => saved w /\ (sv = false -> w_files w = F)).
Proof.
  intros w Hw. unfold SaveDTObjectA. rewrite bind_run.
  destruct (fst (fault w)) as [ | e | k]; rewrite !bind_run;
    cbn [get_world ret fst snd set_files SetIoErr fault];
    (split; [ | try discriminate; intros _; exact Hw]).
  - intros n Hn. unfold upd_file. cbn [w_files].
    apply String.eqb_neq in Hn. rewrite Hn, Hw. reflexivity.
  - intros n _. cbn [w_files]. rewrite Hw. reflexivity.
  - intros n Hn. unfold upd_file. cbn [w_files].
    apply String.eqb_neq in Hn. rewrite Hn, Hw. reflexivity.
Qed.

Lemma copy_object_tidy (o : DTObject) (u : Z) :
  hoare (fun w => w_files w = F /\ w_uid w = uid) (copy_object o u)
        (fun _ w => tidy w).
Proof.
  unfold copy_object.
  assert (forall (A : Type) (m : M A) (r : Z),
            keeps w_files m ->
            hoare (fun w => w_files w = F) (m ;;; ret r)
                  (fun _ w => tidy w)) as Hkept.
  { intros A m r Hm.
    eapply hoare_bind; [apply (files_stable _ _ m kept_stable Hm) | ].
    intro. apply hoare_ret. apply kept_tidy. }
  assert (forall (A : Type) (m : M A) (r : Z),
            keeps w_files m ->
            hoare removed (m ;;; ret r) (fun _ w => tidy w)) as Hremoved.
  { intros A m r Hm.
    eapply hoare_bind; [apply (files_stable _ _ m removed_stable Hm) | ].
    intro. apply hoare_ret. apply removed_tidy. }
  destruct (negb (dto_canWrite o)).
  { eapply hoare_pre; [apply Hkept; auto with keeps | ].
    intros w Hw. exact (proj1 Hw). }
  eapply hoare_bind with (Q := fun x w => w_files w = F /\ x = uid).
  { intros w (Hf & Hu). split; [exact Hf | exact Hu]. }
  intro x. apply hoare_pure. intros ->. cbv zeta.
  eapply hoare_bind; [apply SaveDTObjectA_saves | ].
  intros [ | ]; cbn [negb].
  2:{ eapply hoare_pre with (P' := fun w => w_files w = F);
        [ | intros w (_ & H); exact (H eq_refl)].
      eapply hoare_bind;
        [apply (files_stable _ _ _ kept_stable); auto with keeps | ].
      intro e. apply Hkept. auto with keeps. }
  eapply hoare_pre with (P' := saved); [ | intros w (H & _); exact H].
  eapply hoare_bind;
    [apply (files_stable _ _ _ saved_stable); auto with keeps | ].
  intros [h | ].
  2:{ eapply hoare_bind;
        [apply (files_stable _ _ _ saved_stable); auto with keeps | ].
      intro e. eapply hoare_bind; [apply DeleteFile_removes | ]. intros [].
      apply Hremoved. auto with keeps. }
  eapply hoare_bind;
    [apply (files_stable _ _ _ saved_stable); auto with keeps | ].
  intros [fh | ].
  2:{ eapply hoare_bind;
        [apply (files_stable _ _ _ saved_stable); auto with keeps | ].
      intro e. eapply hoare_bind; [apply DeleteFile_removes | ]. intros [].
      eapply hoare_bind;
        [apply (files_stable _ _ _ removed_stable); auto with keeps | ].
      intros []. apply Hremoved. auto with keeps. }
  eapply hoare_bind;
    [apply (files_stable _ _ _ saved_stable); auto with keeps | ].
  intro r.
  eapply hoare_bind;
    [apply (files_stable _ _ _ saved_stable); auto with keeps | ].
  intros []. eapply hoare_bind; [apply DeleteFile_removes | ]. intros [].
  apply Hremoved. auto with keeps.
Qed.

End TempFile.

Lemma keeps_uid_NewDTObject_file (name : string) :
  keeps w_uid (NewDTObject_file name).
Proof. unfold NewDTObject_file. keeps_tac. Qed.

Lemma keeps_uid_AllocMem : keeps w_uid AllocMem.
Proof. unfold AllocMem, fallible. keeps_tac. Qed.

(** The files after a copy. *)
Lemma CopyToClipboard_tidy (w : World) (name : string) (u : Z) :
  tidy (w_files w) (w_uid w) (snd (CopyToClipboard name u w)).
Proof.
  unfold CopyToClipboard.
  destruct (is_empty name).
  { apply kept_tidy. rewrite bind_run. reflexivity. }
  rewrite bind_run.
  pose proof (keeps_files_NewDTObject_file name w) as Hf1.
  pose proof (keeps_uid_NewDTObject_file name w) as Hu1.
  set (w1 := snd (NewDTObject_file name w)) in *. clearbody w1.
  destruct (fst (NewDTObject_file name w)) as [o | ].
  2:{ apply kept_tidy. rewrite !bind_run. exact Hf1. }
  pose proof (copy_object_tidy (w_files w) (w_uid w) o u w1 (conj Hf1 Hu1))
    as Hobj.
  destruct (if dto_isText o then dto_text o else None) as [buf | ];
    [ | exact Hobj].
  destruct (0 <? Zlen buf); [ | exact Hobj].
  rewrite bind_run.
  pose proof (keeps_files_AllocMem w1) as Hf2.
  pose proof (keeps_uid_AllocMem w1) as Hu2.
  set (w2 := snd (AllocMem w1)) in *. clearbody w2.
  destruct (fst (AllocMem w1)).
  - apply kept_tidy. rewrite keeps_files_CopyTextToClipboard. congruence.
  - apply (copy_object_tidy (w_files w) (w_uid w) o u w2). split; congruence.
Qed.


(** ** An object, copied without a failure *)

Section ObjectCopyCoop.

Variable w0 : World.
Variable u : Z.
Hypothesis coop : cooperative w0.

Lemma wt_DoIO_update (c p : list Z) (r : IOClipReq) :
  hoare (wt w0 u c p) (DoIO_update u r)
        (fun r' w => wr w0 u p [] w /\ io_Error r' = 0).
Proof.
  unfold DoIO_update.
  eapply hoare_bind; [apply (wt_fault w0 u coop) | ].
  intro f. apply hoare_pure. intros ->.
  apply wt_get. intros w1 Hw1.
  eapply hoare_pre; [ | intros w Hwt; exact (proj1 Hwt)].
  destruct Hw1 as ((Ho1 & Hf1 & Hc1 & Hp1) & Hi1). rewrite Hp1.
  eapply hoare_bind.
  { apply (wr_set_units w0 u c p p [] w1). unfold wr. auto. }
  intros [].
  eapply hoare_bind; [apply wr_log | ]. intros [].
  apply hoare_ret. auto.
Qed.

Variable tmp : string.
Variable iff : list Z.
Hypothesis Hiff : 0 < Zlen iff < 2 ^ 31.

(** The session and the temporary file that holds the IFF form. *)
Definition wf (c p : list Z) (w : World) : Prop :=
  wt w0 u c p w /\ w_files w tmp = Some iff.

Lemma wf_stable (c p : list Z) (w w' : World) :
  store w' = store w -> wf c p w -> wf c p w'.
Proof.
  intros H (Hw & Hf). unfold store in H. injection H as Hu Hfa Hfi.
  split; [ | rewrite Hfi; exact Hf].
  eapply wt_stable; [ | exact Hw]. unfold device. congruence.
Qed.

Lemma wf_fault (c p : list Z) :
  hoare (wf c p) fault (fun f w => wf c p w /\ f = NoFault).
Proof.
  apply hoare_conj.
  - eapply hoare_keeps; [ | apply wf_stable]. intro w. reflexivity.
  - eapply hoare_pre; [ | intros w Hw; exact (proj1 Hw)].
    eapply hoare_post; [apply (wt_fault w0 u coop) | ].
    intros f w Hf. exact (proj2 Hf).
Qed.

Lemma wf_get (B : Type) (c p : list Z) (k : World -> M B)
  (Q : B -> World -> Prop) :
  (forall w1, wf c p w1 -> hoare (wf c p) (k w1) Q) ->
  hoare (wf c p) (bind get_world k) Q.
Proof. intros H w Hw. rewrite bind_run. cbn. apply (H w Hw), Hw. Qed.

Lemma copy_file_to_unit_coop (h : ClipboardHandle) (c p : list Z) :
  cbh_Unit h = u ->
  hoare (wf c p) (copy_file_to_unit h tmp)
        (fun r w => wr w0 u iff [] w /\ r = RETURN_OK).
Proof.
  intro Hu. unfold copy_file_to_unit, Seek_size.
  eapply hoare_bind with (Q := fun n w => wf c p w /\ n = Zlen iff).
  { apply wf_get. intros w1 (_ & Hf1). rewrite Hf1. apply hoare_ret. auto. }
  intro n. apply hoare_pure. intros ->.
  assert ((0 <? Zlen iff) = true) as -> by lia.
  eapply hoare_bind with (Q := fun ok w => wf c p w /\ ok = true).
  { unfold AllocMem, fallible.
    eapply hoare_bind with (Q := fun e w => wf c p w /\ e = 0).
    - eapply hoare_bind; [apply wf_fault | ]. intro f.
      apply hoare_pure. intros ->. apply hoare_ret. auto.
    - intro e. apply hoare_pure. intros ->. apply hoare_ret. auto. }
  intro ok. apply hoare_pure. intros ->.
  eapply hoare_bind with
    (Q := fun x w => wt w0 u c p w /\ x = (Zlen iff, iff)).
  { unfold Read. eapply hoare_bind; [apply wf_fault | ]. intro f.
    apply hoare_pure. intros ->. apply wf_get. intros w1 (_ & Hf1).
    rewrite Hf1.
    assert (firstn (Z.to_nat (Zlen iff)) iff = iff) as ->.
    { unfold Zlen. rewrite Nat2Z.id. apply firstn_all. }
    apply hoare_ret. intros w (Hw & _). auto. }
  intro x. apply hoare_pure. intros ->. rewrite Z.eqb_refl.
  cbv zeta. rewrite Hu. rewrite DoIO_is_write by reflexivity.
  eapply hoare_bind; [apply (wt_DoIO_write w0 u coop) | ].
  intro r1. apply hoare_pure. intros ->.
  cbn [io_Data io_Offset io_ClipID io_Length io_Error io_Actual complete
       set_Error set_ClipID set_Offset set_Length set_Data set_Command
       Z.eqb Z.to_nat].
  assert (firstn (Z.to_nat (Zlen iff)) iff = iff) as ->.
  { unfold Zlen. rewrite Nat2Z.id. apply firstn_all. }
  rewrite Z.eqb_refl, write_at_start. cbn [andb].
  rewrite DoIO_is_update by reflexivity.
  eapply hoare_bind; [apply wt_DoIO_update | ].
  intro r2. apply hoare_pure. intros ->. cbn [Z.eqb].
  apply hoare_ret. auto.
Qed.

End ObjectCopyCoop.

Lemma keeps_store_GetUniqueID : keeps store GetUniqueID.
Proof. intro w. reflexivity. Qed.

Lemma copy_object_coop (w0 : World) (u : Z) (o : DTObject) (c p : list Z)
  (uid : Z) :
  cooperative w0 -> dto_canWrite o = true ->
  0 < Zlen (dto_iff o) < 2 ^ 31 ->
  hoare (fun w => wt w0 u c p w /\ w_uid w = uid) (copy_object o u)
        (fun r w => wr w0 u (dto_iff o) [] w /\ r = RETURN_OK).
Proof.
  intros coop Hcw Hlen. unfold copy_object. rewrite Hcw. cbn [negb].
  set (tmp := temp_name uid). set (iff := dto_iff o) in *.
  eapply hoare_bind with (Q := fun x w => wt w0 u c p w /\ x = uid).
  { intros w (Hw & Hu). split; [ | exact Hu].
    eapply wt_stable; [ | exact Hw]. reflexivity. }
  intro x. apply hoare_pure. intros ->. cbv zeta. fold tmp.
  eapply hoare_bind with
    (Q := fun sv w => wf w0 u tmp iff c p w /\ sv = true).
  { unfold SaveDTObjectA.
    eapply hoare_bind; [apply (wt_fault w0 u coop) | ]. intro f.
    apply hoare_pure. intros ->. apply wt_get. intros w1 Hw1.
    intros w Hw. rewrite bind_run. cbn [ret fst snd].
    split; [ | reflexivity]. split.
    - eapply wt_stable; [ | exact Hw]. reflexivity.
    - cbn. unfold upd_file. rewrite String.eqb_refl. reflexivity. }
  intro sv. apply hoare_pure. intros ->. cbn [negb].
  eapply hoare_bind with
    (Q := fun oc w => wf w0 u tmp iff c p w /\
                      oc = Some (mkHandle u req0)).
  { apply hoare_conj.
    - eapply hoare_keeps; [apply keeps_store_OpenClipboard | ].
      apply wf_stable.
    - eapply hoare_pre; [ | intros w Hw; exact (proj1 Hw)].
      eapply hoare_post; [apply (wt_OpenClipboard w0 u coop) | ].
      intros oc w Hoc. exact (proj2 Hoc). }
  intro oc. apply hoare_pure. intros ->.
  eapply hoare_bind with
    (Q := fun ofh w => wf w0 u tmp iff c p w /\ ofh = Some tmp).
  { unfold Open_OLDFILE.
    eapply hoare_bind; [apply (wf_fault w0 u coop) | ]. intro f.
    apply hoare_pure. intros ->. apply wf_get. intros w1 (_ & Hf1).
    rewrite Hf1. apply hoare_ret. auto. }
  intro ofh. apply hoare_pure. intros ->.
  eapply hoare_bind;
    [apply (copy_file_to_unit_coop w0 u coop tmp iff Hlen); reflexivity | ].
  intro r. apply hoare_pure. intros ->.
  eapply hoare_bind; [apply wr_keeps; auto with keeps | ]. intros [].
  eapply hoare_bind; [apply wr_keeps; auto with keeps | ]. intros [].
  eapply hoare_bind; [apply wr_CloseClipboard; reflexivity | ]. intros [].
  apply hoare_ret. auto.
Qed.

(** X11: in an environment that reports no failure, the copy of a file
    that the converter takes for a writable object (no text) with a
    non-empty IFF form returns [RETURN_OK], and the unit holds exactly
    that IFF form, all of it committed. *)
Theorem CopyToClipboard_object_succeeds (w : World) (name : string) (u : Z)
  (c : list Z) (o : DTObject) :
  cooperative w -> is_empty name = false ->
  w_files w name = Some c -> w_dt_file w c = Some o ->
  dto_isText o = false -> dto_canWrite o = true ->
  0 < Zlen (dto_iff o) < 2 ^ 31 ->
  fst (CopyToClipboard name u w) = RETURN_OK /\
  cu_clip (w_units (snd (CopyToClipboard name u w)) u) = dto_iff o /\
  cu_pending (w_units (snd (CopyToClipboard name u w)) u) = [].
Proof.
  intros Hcoop Hn Hf Hd Ht Hcw Hlen.
  unfold CopyToClipboard. rewrite Hn, bind_run.
  assert (NewDTObject_file name w = (Some o, w)) as ->.
  { unfold NewDTObject_file. rewrite bind_run. cbn [get_world fst snd].
    rewrite Hf, Hd. reflexivity. }
  cbn [fst snd]. rewrite Ht.
  destruct (copy_object_coop w u o _ _ (w_uid w) Hcoop Hcw Hlen w
              (conj (conj (wr_init w u) eq_refl) eq_refl))
    as ((_ & _ & Hclip & Hp) & Hr).
  auto.
Qed.

Lemma CopyToClipboard_object_succeeds_witness :
  fst (CopyToClipboard "in" 0 world_blob) = RETURN_OK /\
  cu_clip (w_units (snd (CopyToClipboard "in" 0 world_blob)) 0)
  = form ID_FTXT (chunk ID_CHRS (bytes_of_string "Hi!")).
Proof.
  assert (cooperative world_blob) as H1 by (intro n; reflexivity).
  assert (0 < Zlen (form ID_FTXT (chunk ID_CHRS (bytes_of_string "Hi!")))
          < 2 ^ 31) as H2 by (split; reflexivity).
  destruct (CopyToClipboard_object_succeeds world_blob "in" 0
              (form ID_FTXT (chunk ID_CHRS (bytes_of_string "Hi!")))
              (mkDT false None true
                    (form ID_FTXT (chunk ID_CHRS (bytes_of_string "Hi!"))))
              H1 eq_refl eq_refl eq_refl eq_refl eq_refl H2)
    as (Hr & Hc & _).
  split; [exact Hr | exact Hc].
Defined.

(** ** What the paste does to the clipboard *)

(** [reads w0 w]: between [w0] and [w] the device was only read: the clip
    of every unit is the same and the trace grew by events that are no
    writes and no commits.  Files and output may have changed. *)
Record reads (w0 w : World) : Prop := mkReads {
  rd_clip : forall u, cu_clip (w_units w u) = cu_clip (w_units w0 u);
  rd_trace : exists t, w_trace w = w_trace w0 ++ t /\ Forall read_only t
}.

Lemma reads_refl (w : World) : reads w w.
Proof.
  constructor; [reflexivity | ]. exists []. split.
  - now rewrite app_nil_r.
  - constructor.
Qed.

Lemma reads_trans (w0 w1 w2 : World) :
  reads w0 w1 -> reads w1 w2 -> reads w0 w2.
Proof.
  intros [c1 [t1 [e1 r1]]] [c2 [t2 [e2 r2]]]. constructor.
  - intro u. rewrite c2. apply c1.
  - exists (t1 ++ t2). split.
    + rewrite e2, e1, app_assoc. reflexivity.
    + apply Forall_app. split; assumption.
Qed.

Lemma frame_reads (w0 w : World) : frame w0 w -> reads w0 w.
Proof.
  intro H. constructor; [exact (fr_clip _ _ H) | exact (fr_trace _ _ H)].
Qed.

Definition reading (A : Type) (m : M A) : Prop :=
  forall w0, hoare (reads w0) m (fun _ w => reads w0 w).

Arguments reading {A} m.

Lemma reading_step (A : Type) (m : M A) :
  (forall w, reads w (snd (m w))) -> reading m.
Proof. intros H w0 w Hw. eapply reads_trans; [exact Hw | apply H]. Qed.

Lemma framed_reading (A : Type) (m : M A) : framed m -> reading m.
Proof.
  intro H. apply reading_step. intro w.
  apply frame_reads. apply (H w w (frame_refl w)).
Qed.

(** The units and the trace of the device. *)
Definition wire (w : World) : (Z -> ClipUnit) * list DevEvent :=
  (w_units w, w_trace w).

Lemma keeps_reading (A : Type) (m : M A) : keeps wire m -> reading m.
Proof.
  intro H. apply reading_step. intro w. specialize (H w).
  unfold wire in H. injection H as Hu Ht. constructor.
  - intro u. rewrite Hu. reflexivity.
  - exists []. rewrite Ht, app_nil_r. split; [reflexivity | constructor].
Qed.

Lemma reading_ret (A : Type) (a : A) : reading (ret a).
Proof. intros w0 w Hw. exact Hw. Qed.

Lemma reading_bind (A B : Type) (m : M A) (k : A -> M B) :
  reading m -> (forall a, reading (k a)) -> reading (bind m k).
Proof.
  intros Hm Hk w0. eapply hoare_bind; [apply Hm | intro a; apply Hk].
Qed.

Lemma reading_post (A : Type) (m : M A) (Q : A -> Prop) (w0 : World) :
  reading m -> (forall w, Q (fst (m w))) ->
  hoare (reads w0) m (fun a w => reads w0 w /\ Q a).
Proof. intros Hm HQ w Hw. split; [apply Hm, Hw | apply HQ]. Qed.

Create HintDb reading.

Lemma reading_PrintFault (e : Z) (s : string) : reading (PrintFault e s).
Proof. apply keeps_reading. intro w. reflexivity. Qed.

Lemma reading_diverge : reading diverge.
Proof. apply keeps_reading. intro w. reflexivity. Qed.

Lemma reading_Write (fh : string) (data : list Z) : reading (Write fh data).
Proof. apply keeps_reading. unfold Write. keeps_tac. Qed.

Lemma reading_Open_NEWFILE (name : string) : reading (Open_NEWFILE name).
Proof. apply keeps_reading. unfold Open_NEWFILE. keeps_tac. Qed.

Lemma reading_SaveDTObjectA (o : DTObject) (name : string) :
  reading (SaveDTObjectA o name).
Proof. apply keeps_reading. unfold SaveDTObjectA. keeps_tac. Qed.

Lemma reading_NewDTObject_clip (u : Z) : reading (NewDTObject_clip u).
Proof. apply keeps_reading. unfold NewDTObject_clip. keeps_tac. Qed.

Lemma reading_ParseIFF (i : IFFHandle) : reading (ParseIFF i).
Proof.
  apply framed_reading. intro w0.
  eapply hoare_post; [apply ParseIFF_spec | ]. intros x w Hx. exact (proj1 Hx).
Qed.

Lemma reading_ReadChunkBytes (i : IFFHandle) (n : Z) :
  reading (ReadChunkBytes i n).
Proof.
  apply framed_reading. intro w0.
  eapply hoare_post; [apply ReadChunkBytes_spec | ].
  intros x w Hx. exact (proj1 Hx).
Qed.

Lemma reading_OpenIFF (i : IFFHandle) (mode : bool) : reading (OpenIFF i mode).
Proof.
  apply framed_reading. intro w0.
  eapply hoare_post; [apply OpenIFF_spec | ]. intros x w Hx. exact (proj1 Hx).
Qed.

Lemma reading_StopChunk (i : IFFHandle) (type id : Z) :
  reading (StopChunk i type id).
Proof.
  apply framed_reading. intro w0.
  eapply hoare_post; [apply StopChunk_spec | ]. intros x w Hx. exact (proj1 Hx).
Qed.

Lemma reading_CBReadDone (h : ClipboardHandle) : reading (CBReadDone h).
Proof. apply framed_reading. auto with framed. Qed.

Lemma reading_AllocIFF : reading AllocIFF.
Proof. apply framed_reading. auto with framed. Qed.

Lemma reading_AllocMem : reading AllocMem.
Proof. apply framed_reading. auto with framed. Qed.

Lemma reading_CloseClipboard (h : ClipboardHandle) :
  reading (CloseClipboard h).
Proof. apply framed_reading. auto with framed. Qed.

Lemma reading_OpenClipboard (u : Z) : reading (OpenClipboard u).
Proof. apply framed_reading. auto with framed. Qed.

Lemma reading_IoErr_or (d : Z) : reading (IoErr_or d).
Proof. apply framed_reading. auto with framed. Qed.

Lemma reading_Open_OLDFILE (name : string) : reading (Open_OLDFILE name).
Proof. apply framed_reading. auto with framed. Qed.

Lemma reading_uninitialised (n : nat) : reading (uninitialised n).
Proof. apply framed_reading. auto with framed. Qed.

Lemma reading_IoErr : reading IoErr.
Proof. apply framed_reading. auto with framed. Qed.

Lemma reading_DoIO_read (u : Z) (r : IOClipReq) : reading (DoIO_read u r).
Proof. apply framed_reading. auto with framed. Qed.

Lemma reading_get_world : reading get_world.
Proof. apply framed_reading. auto with framed. Qed.

#[export] Hint Resolve reading_ret reading_PrintFault reading_diverge
  reading_Write reading_Open_NEWFILE reading_SaveDTObjectA
  reading_NewDTObject_clip reading_ParseIFF reading_ReadChunkBytes
  reading_OpenIFF reading_StopChunk reading_CBReadDone reading_AllocIFF
  reading_AllocMem reading_CloseClipboard reading_OpenClipboard
  reading_IoErr_or reading_Open_OLDFILE reading_uninitialised reading_IoErr
  reading_DoIO_read reading_get_world : reading.

Ltac reading_step_tac :=
  match goal with
  | |- reading (bind _ _) => apply reading_bind; [ | intro ]
  | |- reading (ret _) => apply reading_ret
  | |- reading (if ?b then _ else _) => destruct b
  | |- reading (match ?x with _ => _ end) => destruct x
  | |- reading _ => solve [auto with reading]
  end.

Ltac reading_tac := cbv zeta; repeat reading_step_tac.

Lemma reading_CloseIFF (i : IFFHandle) :
  iff_Write i = false -> reading (CloseIFF i).
Proof. intro H. unfold CloseIFF. rewrite H. apply reading_ret. Qed.

Lemma frame_to_reads (A : Type) (m : M A) (Q : A -> Prop) :
  (forall w0, hoare (frame w0) m (fun a w => frame w0 w /\ Q a)) ->
  forall w0, hoare (reads w0) m (fun a w => reads w0 w /\ Q a).
Proof.
  intros H w0 w Hw. destruct (H w w (frame_refl w)) as (Hf & HQ).
  split; [ | exact HQ].
  eapply reads_trans; [exact Hw | apply frame_reads, Hf].
Qed.

Lemma reads_ParseIFF (i : IFFHandle) (w0 : World) :
  hoare (reads w0) (ParseIFF i)
        (fun x w => reads w0 w /\ iff_Write (snd x) = iff_Write i).
Proof.
  apply (frame_to_reads _ _ (fun x => iff_Write (snd x) = iff_Write i)).
  intro w1. eapply hoare_post; [apply ParseIFF_spec | ].
  intros x w (Hf & _ & _ & Hw). auto.
Qed.

Lemma reads_ReadChunkBytes (i : IFFHandle) (n : Z) (w0 : World) :
  hoare (reads w0) (ReadChunkBytes i n)
        (fun x w => reads w0 w /\ iff_Write (snd x) = iff_Write i).
Proof.
  apply (frame_to_reads _ _ (fun x => iff_Write (snd x) = iff_Write i)).
  intro w1. eapply hoare_post; [apply ReadChunkBytes_spec | ].
  intros x w (Hf & (_ & _ & Hw) & _). auto.
Qed.

Lemma reads_OpenIFF (i : IFFHandle) (w0 : World) :
  hoare (reads w0) (OpenIFF i false)
        (fun x w => reads w0 w /\
                    (fst x = 0 -> iff_Write (snd x) = false) /\
                    cbh_Unit (iff_Stream (snd x)) = cbh_Unit (iff_Stream i)).
Proof.
  apply (frame_to_reads _ _
           (fun x => (fst x = 0 -> iff_Write (snd x) = false) /\
                     cbh_Unit (iff_Stream (snd x)) = cbh_Unit (iff_Stream i))).
  intro w1. eapply hoare_post; [apply OpenIFF_spec | ].
  intros x w (Hf & Hu & Hw). auto.
Qed.

Lemma reads_StopChunk (i : IFFHandle) (type id : Z) (w0 : World) :
  hoare (reads w0) (StopChunk i type id)
        (fun x w => reads w0 w /\ iff_Write (snd x) = iff_Write i).
Proof.
  apply (frame_to_reads _ _ (fun x => iff_Write (snd x) = iff_Write i)).
  intro w1. eapply hoare_post; [apply StopChunk_spec | ].
  intros x w (Hf & _ & Hw). auto.
Qed.

Ltac rbind L := eapply hoare_bind; [apply L | ].

Lemma read_chunk_loop_reads (fuel : nat) :
  forall (i : IFFHandle) (fh : string) (r : Z) (w0 : World),
    iff_Write i = false ->
    hoare (reads w0) (read_chunk_loop fuel i fh r)
          (fun x w => reads w0 w /\ iff_Write (snd x) = false).
Proof.
  induction fuel as [ | fuel IH]; intros i fh r w0 Hi;
    cbn [read_chunk_loop].
  - rbind reading_diverge. intros []. apply hoare_ret. auto.
  - rbind reads_ReadChunkBytes. intros [[n buf] i1]. cbn [snd].
    apply hoare_pure. intro Hi1. rewrite Hi in Hi1.
    destruct (0 <? n); [ | apply hoare_ret; auto].
    rbind reading_Write. intro k.
    destruct (negb (k =? n)); [ | apply IH; exact Hi1].
    rbind reading_IoErr. intro e.
    rbind reading_PrintFault. intros []. apply hoare_ret. auto.
Qed.

Lemma paste_loop_reads (fuel : nat) :
  forall (i : IFFHandle) (fh : string) (r : Z) (w0 : World),
    iff_Write i = false ->
    hoare (reads w0) (paste_loop fuel i fh r)
          (fun x w => reads w0 w /\ iff_Write (snd x) = false).
Proof.
  induction fuel as [ | fuel IH]; intros i fh r w0 Hi; cbn [paste_loop].
  - rbind reading_diverge. intros []. apply hoare_ret. auto.
  - rbind reads_ParseIFF. intros [e i1]. cbn [snd].
    apply hoare_pure. intro Hi1. rewrite Hi in Hi1.
    destruct (e =? IFFERR_EOC); [apply IH; exact Hi1 | ].
    destruct (negb (e =? 0)).
    { destruct (negb (e =? IFFERR_EOF)).
      - rbind reading_PrintFault. intros []. apply hoare_ret. auto.
      - apply hoare_ret. auto. }
    destruct (CurrentChunk i1) as [cn | ]; [ | apply IH; exact Hi1].
    destruct ((cn_Type cn =? ID_FTXT) && (cn_ID cn =? ID_CHRS));
      [ | apply IH; exact Hi1].
    eapply hoare_bind; [apply read_chunk_loop_reads; exact Hi1 | ].
    intros [[n r2] i2]. cbn [snd]. apply hoare_pure. intro Hi2.
    destruct (n <? 0); [ | apply IH; exact Hi2].
    rbind reading_PrintFault. intros []. apply hoare_ret. auto.
Qed.

(** The end of a branch that only reads. *)
Lemma reading_hoare (A : Type) (m : M A) (w0 : World) :
  reading m -> hoare (reads w0) m (fun _ w => reads w0 w).
Proof. intro H. apply H. Qed.

Lemma paste_text_reads (name : string) (h : ClipboardHandle) :
  reading (paste_text name h).
Proof.
  intro w0. unfold paste_text.
  rbind reading_CBReadDone. intro h1.
  rbind reading_AllocIFF. intros [i | ];
    [ | apply reading_hoare; reading_tac].
  cbv zeta. rbind reads_OpenIFF. intros [e i1]. cbn [fst snd].
  apply hoare_pure. intros (Hi1 & _).
  destruct (negb (e =? 0)) eqn:Ee; [apply reading_hoare; reading_tac | ].
  apply negb_false_iff, Z.eqb_eq in Ee. specialize (Hi1 Ee).
  rbind reads_StopChunk. intros [e2 i2]. cbn [snd].
  apply hoare_pure. intro Hi2. rewrite Hi1 in Hi2.
  assert (reading (CloseIFF i2)) as Hclose by (apply reading_CloseIFF, Hi2).
  destruct (negb (e2 =? 0)).
  { apply reading_hoare. reading_tac; try exact Hclose. }
  rbind reading_Open_NEWFILE. intros [fh | ].
  2:{ apply reading_hoare. reading_tac; try exact Hclose. }
  rbind reading_AllocMem. intro ok.
  destruct (negb ok).
  { apply reading_hoare. reading_tac; try exact Hclose. }
  rbind reading_get_world. intro w1.
  eapply hoare_bind; [apply paste_loop_reads; exact Hi2 | ].
  intros [r i3]. cbn [snd]. apply hoare_pure. intro Hi3.
  apply reading_hoare. reading_tac; try (apply reading_CloseIFF, Hi3).
Qed.

Lemma paste_object_reads (name : string) (h : ClipboardHandle) :
  reading (paste_object name h).
Proof.
  intro w0. unfold paste_object.
  rbind reading_CBReadDone. intro h1.
  rbind reading_AllocIFF. intros [i | ];
    [ | apply reading_hoare; reading_tac].
  cbv zeta. rbind reads_OpenIFF. intros [e i1]. cbn [fst snd].
  apply hoare_pure. intros (Hi1 & _).
  destruct (negb (e =? 0)) eqn:Ee; [apply reading_hoare; reading_tac | ].
  apply negb_false_iff, Z.eqb_eq in Ee. specialize (Hi1 Ee).
  assert (reading (CloseIFF i1)) as Hclose by (apply reading_CloseIFF, Hi1).
  apply reading_hoare. reading_tac; try exact Hclose.
Qed.

#[export] Hint Resolve paste_text_reads paste_object_reads : reading.

Lemma reading_DoIO_header (u : Z) (r : IOClipReq) :
  io_Command r = CMD_READ -> reading (DoIO u r).
Proof. intro H. rewrite (DoIO_is_read u r H). apply reading_DoIO_read. Qed.

Lemma PasteFromClipboard_reads (name : string) (u : Z) (force : bool) :
  reading (PasteFromClipboard name u force).
Proof.
  unfold PasteFromClipboard. reading_tac;
    try (apply reading_DoIO_header; reflexivity).
Qed.

(** X12: the paste never writes to the clipboard.  Whatever the unit
    holds, whatever the destination and whatever the environment decides,
    [PasteFromClipboard] sends no write and no commit to the device, and
    the clip of every unit is after the paste what it was before. *)
Theorem PasteFromClipboard_only_reads (name : string) (u : Z) (force : bool)
  (w : World) :
  (exists t, w_trace (snd (PasteFromClipboard name u force w))
             = w_trace w ++ t /\ Forall read_only t) /\
  (forall v, cu_clip (w_units (snd (PasteFromClipboard name u force w)) v)
             = cu_clip (w_units w v)).
Proof.
  destruct (PasteFromClipboard_reads name u force w w (reads_refl w))
    as [Hc Ht].
  split; [exact Ht | exact Hc].
Qed.

(** ** The destination of the paste *)

(** X13: without FORCE an existing destination is never overwritten.  When
    the file is there and can be opened, [PasteFromClipboard] returns
    [RETURN_FAIL], prints the fault [ERROR_OBJECT_EXISTS], leaves every
    file as it was and does not even open the clipboard. *)
Theorem PasteFromClipboard_keeps_existing_file (name : string) (u : Z)
  (w : World) (c : list Z) :
  is_empty name = false -> w_files w name = Some c ->
  (forall e, w_faults w (w_tick w) <> Err e) ->
  fst (PasteFromClipboard name u false w) = RETURN_FAIL /\
  w_files (snd (PasteFromClipboard name u false w)) = w_files w /\
  w_trace (snd (PasteFromClipboard name u false w)) = w_trace w /\
  w_out (snd (PasteFromClipboard name u false w))
  = w_out w ++ [OutFault ERROR_OBJECT_EXISTS
                  "Clipboard: File already exists (use FORCE to overwrite)"].
Proof.
  intros Hn Hf Hopen.
  assert (PasteFromClipboard name u false w
          = (RETURN_FAIL,
             add_out [OutFault ERROR_OBJECT_EXISTS
                        "Clipboard: File already exists (use FORCE to overwrite)"]
               (snd (fault w)))) as ->.
  { unfold PasteFromClipboard, uninitialised. rewrite Hn.
    rewrite !bind_run. cbn [get_world ret fst snd].
    unfold Open_OLDFILE. rewrite !bind_run. cbn [fault fst snd].
    destruct (w_faults w (w_tick w)) as [ | e | k] eqn:F;
      [ | exfalso; exact (Hopen e eq_refl) | ];
      rewrite !bind_run; cbn [get_world fst snd w_files]; rewrite Hf;
      reflexivity. }
  cbn [fst snd]. auto.
Qed.

(** The file "out" is there already. *)
Definition world_taken : World := with_file "out" [1; 2; 3] world_hello.

Lemma PasteFromClipboard_keeps_witness :
  fst (PasteFromClipboard "out" 0 false world_taken) = RETURN_FAIL /\
  w_files (snd (PasteFromClipboard "out" 0 false world_taken))
  = w_files world_taken.
Proof.
  assert (forall e, w_faults world_taken (w_tick world_taken) <> Err e) as H
    by (intros e He; discriminate He).
  destruct (PasteFromClipboard_keeps_existing_file "out" 0 world_taken
              [1; 2; 3] eq_refl eq_refl H) as (Hr & Hf & _).
  split; [exact Hr | exact Hf].
Defined.

(** ** The drain *)

Lemma CBReadDone_loop_ends (fuel : nat) :
  forall (u : Z) (r : IOClipReq) (w : World),
    io_Command r = CMD_READ ->
    (Z.to_nat (Zlen (cu_clip (w_units w u)) - io_Offset r) < fuel)%nat ->
    io_Actual (fst (CBReadDone_loop fuel u r w)) = 0 \/
    io_Error (fst (CBReadDone_loop fuel u r w)) <> 0.
Proof.
  induction fuel as [ | fuel IH]; intros u r w Hc Hm; [lia | ].
  cbn [CBReadDone_loop]. rewrite bind_run. rewrite (DoIO_is_read u r Hc).
  destruct (DoIO_read_spec u r w w (frame_refl w)) as (Hf & Hr).
  set (r' := fst (DoIO_read u r w)) in *.
  set (w' := snd (DoIO_read u r w)) in *.
  destruct ((io_Actual r' =? 0) || negb (io_Error r' =? 0)) eqn:E.
  - cbn [ret fst]. apply orb_true_iff in E. destruct E as [E | E].
    + left. lia.
    + right. apply negb_true_iff in E. lia.
  - apply orb_false_iff in E. destruct E as [E _]. apply Z.eqb_neq in E.
    apply IH.
    + destruct Hr as (Hc' & _). congruence.
    + rewrite (fr_clip _ _ Hf).
      pose proof (read_progress _ _ _ Hr E). lia.
Qed.

(** X14: the drain always comes to its end.  For every clip, every
    position of the request and every decision of the environment,
    [CBReadDone] returns after a read that delivered no byte or reported
    an error, within the bound of its loop, having sent nothing but reads:
    the clips and the files are untouched. *)
Theorem CBReadDone_drains (h : ClipboardHandle) (w : World) :
  (io_Actual (cbh_Req (fst (CBReadDone h w))) = 0 \/
   io_Error (cbh_Req (fst (CBReadDone h w))) <> 0) /\
  cbh_Unit (fst (CBReadDone h w)) = cbh_Unit h /\
  w_diverged (snd (CBReadDone h w)) = w_diverged w /\
  (exists t, w_trace (snd (CBReadDone h w)) = w_trace w ++ t /\
             Forall read_only t) /\
  (forall v, cu_clip (w_units (snd (CBReadDone h w)) v)
             = cu_clip (w_units w v)) /\
  w_files (snd (CBReadDone h w)) = w_files w.
Proof.
  pose proof (framed_CBReadDone h w w (frame_refl w)) as Hf.
  split; [ | split; [ | split; [ | split; [ | split]]]].
  - unfold CBReadDone. rewrite !bind_run. cbn [get_world ret fst snd cbh_Req
      with_req].
    apply CBReadDone_loop_ends; [reflexivity | ].
    unfold drain_bound. lia.
  - unfold CBReadDone. rewrite !bind_run. reflexivity.
  - exact (fr_div _ _ Hf).
  - exact (fr_trace _ _ Hf).
  - exact (fr_clip _ _ Hf).
  - exact (fr_files _ _ Hf).
Qed.

(** ** The rows of the listing and its total *)

From Stdlib Require Import Sorted.

Definition by_unit (a b : ListRow) : Prop := row_unit a < row_unit b.

Lemma ListClipboards_loop_sorted (n : nat) :
  forall (u c : Z) (w0 : World),
    hoare (frame w0) (ListClipboards_loop n u c)
          (fun c' w =>
             exists rows,
               frame (add_out (map OutRow rows) w0) w /\
               c' = c + Zlen rows /\
               Forall (fun r => u <= row_unit r < u + Z.of_nat n) rows /\
               StronglySorted by_unit rows).
Proof.
  induction n as [ | n IH]; intros u c w0.
  - apply hoare_ret. intros w Hw. exists []. split; [ | split; [ | split]].
    + apply add_out_nil, Hw.
    + unfold Zlen. cbn. lia.
    + constructor.
    + constructor.
  - cbn [ListClipboards_loop].
    eapply hoare_bind; [apply ListClipboards_unit_spec | ].
    intros has w [(-> & Hw) | (-> & row & Hw & Hrep & Hrow)].
    + destruct (IH (u + 1) c w0 w Hw) as (rows & Hf & Hc & Hall & Hs).
      exists rows. split; [exact Hf | ]. split; [exact Hc | ].
      split; [ | exact Hs].
      eapply Forall_impl; [ | exact Hall]. intros r Hr. cbv beta in *. lia.
    + destruct (IH (u + 1) (c + 1) (add_out [OutRow row] w0) w Hw)
        as (rows & Hf & Hc & Hall & Hs).
      destruct Hrow as (Hru & _).
      exists (row :: rows). split; [ | split; [ | split]].
      * rewrite add_out_add_out in Hf. exact Hf.
      * rewrite Hc. unfold Zlen. cbn [List.length]. lia.
      * constructor; [lia | ].
        eapply Forall_impl; [ | exact Hall]. intros r Hr. cbv beta in *. lia.
      * constructor; [exact Hs | ].
        eapply Forall_impl; [ | exact Hall]. intros r Hr.
        unfold by_unit. cbv beta in *. lia.
Qed.

(** The last line of the listing for [n] rows. *)
Definition total_line (n : Z) : Output :=
  if n =? 0 then OutText "No clipboard units contain data." else OutTotal n.

(** X15: what the listing prints.  In every environment the output of
    [ListClipboards] is its three header lines, one row for each unit it
    reports, and one last line: the total, which is the number of rows
    printed, or the sentence that no unit contains data when there is no
    row.  The rows come in increasing order of their units, which lie
    between 0 and 255, so that no unit is reported twice. *)
Theorem ListClipboards_output (w : World) :
  exists rows,
    w_out (snd (ListClipboards w))
    = w_out w ++
      [OutText "Current clipboard contents:";
       OutText "Unit  Type    Size    Preview (FTXT only)";
       OutText "----  ----    ----    -------------------"] ++
      map OutRow rows ++ [total_line (Zlen rows)] /\
    StronglySorted by_unit rows /\
    Forall (fun r => 0 <= row_unit r <= 255) rows.
Proof.
  assert (hoare (frame w) ListClipboards
            (fun _ w' =>
               exists rows,
                 w_out w'
                 = w_out w ++
                   [OutText "Current clipboard contents:";
                    OutText "Unit  Type    Size    Preview (FTXT only)";
                    OutText "----  ----    ----    -------------------"] ++
                   map OutRow rows ++ [total_line (Zlen rows)] /\
                 StronglySorted by_unit rows /\
                 Forall (fun r => 0 <= row_unit r <= 255) rows)) as H.
  { unfold ListClipboards, Printf.
    eapply hoare_bind; [apply emit_spec | ]. intros [].
    eapply hoare_bind; [apply emit_spec | ]. intros [].
    eapply hoare_bind; [apply emit_spec | ]. intros [].
    rewrite !add_out_add_out.
    eapply hoare_bind; [apply ListClipboards_loop_sorted | ].
    intros c w1 (rows & Hw & Hc & Hall & Hs).
    rewrite add_out_add_out in Hw. cbn [Z.add] in Hc. subst c.
    rewrite !bind_run. cbn [ret snd]. exists rows.
    split; [ | split; [exact Hs | ]].
    - unfold total_line.
      destruct (Zlen rows =? 0); cbn [emit snd w_out];
        rewrite (fr_out _ _ Hw); cbn [add_out w_out];
        rewrite <- !app_assoc; reflexivity.
    - eapply Forall_impl; [ | exact Hall]. intros r Hr. cbv beta in *.
      change (Z.of_nat 256) with 256 in Hr. lia. }
  exact (H w (frame_refl w)).
Qed.

(** ** The name of the temporary file *)

Lemma hex_digit_inj (x y : Z) :
  hex_digit x = hex_digit y -> Z.land x 15 = Z.land y 15.
Proof.
  unfold hex_digit.
  assert (forall z, 0 <= Z.land z 15 < 16) as Hr.
  { intro z. change 15 with (Z.ones 4). rewrite Z.land_ones by lia.
    apply Z.mod_pos_bound. lia. }
  pose proof (Hr x) as Hx. pose proof (Hr y) as Hy.
  set (a := Z.land x 15) in *. set (b := Z.land y 15) in *.
  clearbody a b. intro H.
  assert (a = 0 \/ a = 1 \/ a = 2 \/ a = 3 \/ a = 4 \/ a = 5 \/ a = 6 \/
          a = 7 \/ a = 8 \/ a = 9 \/ a = 10 \/ a = 11 \/ a = 12 \/ a = 13 \/
          a = 14 \/ a = 15) as Ha by lia.
  assert (b = 0 \/ b = 1 \/ b = 2 \/ b = 3 \/ b = 4 \/ b = 5 \/ b = 6 \/
          b = 7 \/ b = 8 \/ b = 9 \/ b = 10 \/ b = 11 \/ b = 12 \/ b = 13 \/
          b = 14 \/ b = 15) as Hb by lia.
  clear Hx Hy Hr.
  repeat (destruct Ha as [Ha | Ha]; [ | ]); subst a;
    repeat (destruct Hb as [Hb | Hb]; [ | ]); subst b;
    first [reflexivity | discriminate H].
Qed.

Lemma nibble_bits (a b k : Z) :
  0 <= k -> Z.land (Z.shiftr a k) 15 = Z.land (Z.shiftr b k) 15 ->
  forall j, 0 <= j < 4 -> Z.testbit a (j + k) = Z.testbit b (j + k).
Proof.
  intros Hk H j Hj.
  apply (f_equal (fun z => Z.testbit z j)) in H.
  rewrite !Z.land_spec, !Z.shiftr_spec in H by lia.
  assert (Z.testbit 15 j = true) as Hb.
  { assert (j = 0 \/ j = 1 \/ j = 2 \/ j = 3) as [-> | [-> | [-> | ->]]]
      by lia; reflexivity. }
  rewrite Hb, !andb_true_r in H. exact H.
Qed.

(** X16: the name of the temporary file.  [SNPrintf] with the format
    [T:clip%08lX] gives 14 characters, which fit the buffer of 31 bytes
    with their terminator, and two unique identifiers that differ give
    names that differ. *)
Theorem temp_name_injective (a b : Z) :
  0 <= a < 2 ^ 32 -> 0 <= b < 2 ^ 32 ->
  String.length (temp_name a) = 14%nat /\
  (temp_name a = temp_name b -> a = b).
Proof.
  intros Ha Hb. split; [reflexivity | ].
  unfold temp_name. intro H. cbn [String.append] in H.
  injection H as H7 H6 H5 H4 H3 H2 H1 H0.
  apply hex_digit_inj in H0, H1, H2, H3, H4, H5, H6, H7.
  change (Z.land a 15) with (Z.land (Z.shiftr a 0) 15) in H0.
  change (Z.land b 15) with (Z.land (Z.shiftr b 0) 15) in H0.
  apply Z.bits_inj'. intros n Hn.
  destruct (Z_lt_le_dec n 32) as [Hlt | Hge].
  - assert (n / 4 = 0 \/ n / 4 = 1 \/ n / 4 = 2 \/ n / 4 = 3 \/ n / 4 = 4 \/
            n / 4 = 5 \/ n / 4 = 6 \/ n / 4 = 7) as Hq.
    { assert (0 <= n / 4 < 8) by (split; [apply Z.div_pos; lia
                                        | apply Z.div_lt_upper_bound; lia]).
      lia. }
    pose proof (Z.mod_pos_bound n 4 ltac:(lia)) as Hm.
    pose proof (Z.div_mod n 4 ltac:(lia)) as Hd.
    replace n with (n mod 4 + 4 * (n / 4)) by lia.
    destruct Hq as [Hq | [Hq | [Hq | [Hq | [Hq | [Hq | [Hq | Hq]]]]]]];
      rewrite Hq; apply nibble_bits; try lia; assumption.
  - rewrite !testbit_high by lia. reflexivity.
Qed.

Lemma temp_name_witness :
  String.length (temp_name 48879) = 14%nat /\
  temp_name 48879 = "T:clip0000BEEF"%string.
Proof.
  assert (0 <= 48879 < 2 ^ 32) as H by (split; [discriminate | reflexivity]).
  split; [exact (proj1 (temp_name_injective 48879 48879 H H)) | reflexivity].
Defined.

(** ** The listing in a cooperative environment *)

(** The clips the listing reports: at least 12 bytes, of which the first
    four are the tag FORM. *)
Definition reportable_b (clip : list Z) : bool :=
  (12 <=? Zlen clip) && (ULONG_at clip 0 =? ID_FORM).

(** The units [u], [u + 1], ..., [u + n - 1]. *)
Fixpoint units_from (u : Z) (n : nat) : list Z :=
  match n with
  | O => []
  | S n' => u :: units_from (u + 1) n'
  end.

Lemma header_read_cooperative (u : Z) (w : World) :
  cooperative w ->
  exists r, fst (header_read u w) = Some r /\
            io_Error r = 0 /\
            io_Data r = firstn 12 (cu_clip (w_units w u)) /\
            io_Actual r = Zlen (io_Data r).
Proof.
  intro Hc. unfold header_read, OpenClipboard.
  rewrite !bind_run.
  change (fst (fault w)) with (w_faults w (w_tick w)). rewrite Hc.
  rewrite !bind_run. cbn [ret fst snd]. cbv zeta.
  rewrite DoIO_is_read by reflexivity. unfold DoIO_read.
  rewrite !bind_run.
  match goal with
  | |- context [fst (fault ?w1)] =>
      change (fst (fault w1)) with (w_faults w (S (w_tick w)))
  end.
  rewrite Hc. rewrite !bind_run. cbn [ret fst snd].
  eexists. split; [reflexivity | ].
  cbn. repeat split; reflexivity.
Qed.

Lemma ListClipboards_unit_cooperative (u : Z) (w : World) :
  cooperative w ->
  fst (ListClipboards_unit u w) = reportable_b (cu_clip (w_units w u)).
Proof.
  intro Hc. rewrite ListClipboards_unit_decision.
  destruct (header_read_cooperative u w Hc) as (r & -> & He & Hd & Ha).
  rewrite Ha, He, Hd. unfold reportable_b.
  set (clip := cu_clip (w_units w u)).
  change (0 =? 0) with true. rewrite andb_true_r.
  unfold Zlen. rewrite length_firstn.
  destruct (Z.leb_spec 12 (Z.of_nat (List.length clip))) as [Hl | Hl].
  - replace (Z.of_nat (Nat.min 12 (List.length clip)) =? 12) with true
      by (symmetry; apply Z.eqb_eq; lia).
    rewrite ULONG_at_firstn by lia. reflexivity.
  - replace (Z.of_nat (Nat.min 12 (List.length clip)) =? 12) with false
      by (symmetry; apply Z.eqb_neq; lia).
    reflexivity.
Qed.

Lemma ListClipboards_loop_complete (n : nat) :
  forall (u c : Z) (w0 : World),
    cooperative w0 ->
    hoare (frame w0) (ListClipboards_loop n u c)
          (fun c' w =>
             exists rows,
               frame (add_out (map OutRow rows) w0) w /\
               c' = c + Zlen rows /\
               map row_unit rows =
               filter (fun v => reportable_b (cu_clip (w_units w0 v)))
                      (units_from u n)).
Proof.
  induction n as [ | n IH]; intros u c w0 Hc.
  - apply hoare_ret. intros w Hw. exists []. split; [ | split].
    + apply add_out_nil, Hw.
    + unfold Zlen. cbn. lia.
    + reflexivity.
  - intros w Hw. cbn [ListClipboards_loop]. rewrite bind_run.
    assert (cooperative w) as Hcw
        by (intro k; rewrite (fr_faults _ _ Hw); apply Hc).
    pose proof (ListClipboards_unit_cooperative u w Hcw) as Hval.
    rewrite (fr_clip _ _ Hw) in Hval.
    pose proof (ListClipboards_unit_spec u w0 w Hw) as Hspec.
    cbv beta in Hspec. cbn [units_from filter].
    destruct Hspec as [(Hhas & Hf) | (Hhas & row & Hf & _ & Hrow)];
      rewrite Hhas in *; rewrite <- Hval.
    + exact (IH (u + 1) c w0 Hc _ Hf).
    + destruct (IH (u + 1) (c + 1) (add_out [OutRow row] w0) Hc _ Hf)
        as (rows & Hf' & Hc' & Hrows).
      exists (row :: rows). split; [ | split].
      * rewrite add_out_add_out in Hf'. exact Hf'.
      * rewrite Hc'. unfold Zlen. cbn [List.length]. lia.
      * cbn [map]. rewrite (proj1 Hrow). f_equal. exact Hrows.
Qed.

(** X17: the listing misses nothing.  In an environment that reports no
    failure the rows of the listing are, in this order, those of the units
    between 0 and 255 whose clip has at least 12 bytes and begins with
    FORM: one row for each of them and no other row; the last line counts
    them. *)
Theorem ListClipboards_complete (w : World) :
  cooperative w ->
  exists rows,
    w_out (snd (ListClipboards w))
    = w_out w ++
      [OutText "Current clipboard contents:";
       OutText "Unit  Type    Size    Preview (FTXT only)";
       OutText "----  ----    ----    -------------------"] ++
      map OutRow rows ++ [total_line (Zlen rows)] /\
    map row_unit rows =
    filter (fun u => reportable_b (cu_clip (w_units w u))) (units_from 0 256).
Proof.
  intro Hc.
  assert (hoare (frame w) ListClipboards
            (fun _ w' =>
               exists rows,
                 w_out w'
                 = w_out w ++
                   [OutText "Current clipboard contents:";
                    OutText "Unit  Type    Size    Preview (FTXT only)";
                    OutText "----  ----    ----    -------------------"] ++
                   map OutRow rows ++ [total_line (Zlen rows)] /\
                 map row_unit rows =
                 filter (fun u => reportable_b (cu_clip (w_units w u)))
                        (units_from 0 256))) as H.
  { unfold ListClipboards, Printf.
    eapply hoare_bind; [apply emit_spec | ]. intros [].
    eapply hoare_bind; [apply emit_spec | ]. intros [].
    eapply hoare_bind; [apply emit_spec | ]. intros [].
    rewrite !add_out_add_out.
    eapply hoare_bind; [apply ListClipboards_loop_complete; exact Hc | ].
    intros c w1 (rows & Hw & Hcnt & Hrows).
    rewrite add_out_add_out in Hw. cbn [Z.add] in Hcnt. subst c.
    rewrite !bind_run. cbn [ret snd]. exists rows.
    split; [ | exact Hrows].
    unfold total_line.
    destruct (Zlen rows =? 0); cbn [emit snd w_out];
      rewrite (fr_out _ _ Hw); cbn [add_out w_out];
      rewrite <- !app_assoc; reflexivity. }
  exact (H w (frame_refl w)).
Qed.

Lemma ListClipboards_complete_witness :
  cooperative world_listing /\
  exists rows,
    w_out (snd (ListClipboards world_listing))
    = w_out world_listing ++
      [OutText "Current clipboard contents:";
       OutText "Unit  Type    Size    Preview (FTXT only)";
       OutText "----  ----    ----    -------------------"] ++
      map OutRow rows ++ [total_line (Zlen rows)] /\
    map row_unit rows =
    filter (fun u => reportable_b (cu_clip (w_units world_listing u)))
           (units_from 0 256).
Proof.
  assert (cooperative world_listing) as Hc by (intro n; reflexivity).
  split; [exact Hc | ].
  exact (ListClipboards_complete world_listing Hc).
Defined.

(** ** Pasting a clip that is no text *)

(** The test of the paste on the first twelve bytes of a clip. *)
Definition text_header (clip : list Z) : bool :=
  (ULONG_at clip 0 =? ID_FORM) && (ULONG_at clip 8 =? ID_FTXT).

Section PasteObject.

Variable w0 : World.
Variable name : string.
Variable u : Z.
Variable o : DTObject.

Hypothesis coop : cooperative w0.
Hypothesis Hdt : w_dt_clip w0 (cu_clip (w_units w0 u)) = Some o.
Hypothesis Hhdr :
  Zlen (cu_clip (w_units w0 u)) < 8 \/
  (12 <= Zlen (cu_clip (w_units w0 u)) /\
   text_header (cu_clip (w_units w0 u)) = false).

(** The world after the object was saved: the clips and the output are
    those of [w0], the destination holds the IFF form of the object and
    the other files are as they were. *)
Definition pasted (w : World) : Prop :=
  (forall v, cu_clip (w_units w v) = cu_clip (w_units w0 v)) /\
  w_files w = upd_file (w_files w0) name (Some (dto_iff o)) /\
  w_out w = w_out w0.

Lemma pasted_stable (w w' : World) :
  (w_units w', w_files w', w_out w') = (w_units w, w_files w, w_out w) ->
  pasted w -> pasted w'.
Proof.
  intros H (Hc & Hf & Ho). injection H as Hu Hfi Hou.
  unfold pasted. rewrite Hu, Hfi, Hou. auto.
Qed.

Lemma frame_header_read (r : IOClipReq) :
  io_Offset r = 0 -> io_Length r = 12 ->
  hoare (frame w0) (DoIO_read u r)
        (fun r' w =>
           frame w0 w /\ io_Actual r' = Zlen (io_Data r') /\
           io_Data r' = firstn 12 (cu_clip (w_units w0 u))).
Proof.
  intros Ho Hl. unfold DoIO_read.
  eapply hoare_bind; [apply (frame_fault w0 coop) | ].
  intro f. apply hoare_pure. intros ->.
  apply frame_get. intros w1 Hw1.
  eapply hoare_bind; [apply framed_log; exact I | ]. intros [].
  apply hoare_ret. intros w Hw. split; [exact Hw | ].
  cbn [complete io_Actual io_Data]. rewrite (fr_clip _ _ Hw1 u), Ho, Hl.
  auto.
Qed.

Lemma header_of_object (r : IOClipReq) (junk : list Z) :
  io_Actual r = Zlen (io_Data r) ->
  io_Data r = firstn 12 (cu_clip (w_units w0 u)) ->
  header_is_text r (overlay (io_Data r) junk) = false.
Proof.
  intros Ha Hd. set (clip := cu_clip (w_units w0 u)) in *.
  assert (Zlen (io_Data r) = Z.min 12 (Zlen clip)) as Hlen.
  { rewrite Hd. unfold Zlen. rewrite length_firstn. lia. }
  destruct Hhdr as [Hs | (Hl & Hn)].
  - apply header_is_text_short. lia.
  - rewrite header_is_text_full by lia.
    rewrite Hd, !ULONG_at_firstn by lia. exact Hn.
Qed.

Lemma frame_NewDTObject_clip :
  hoare (frame w0) (NewDTObject_clip u)
        (fun od w => frame w0 w /\ od = Some o).
Proof.
  unfold NewDTObject_clip. apply frame_get. intros w1 Hw1.
  rewrite (fr_dt_clip _ _ Hw1), (fr_clip _ _ Hw1 u), Hdt.
  apply hoare_ret. auto.
Qed.

Lemma frame_SaveDTObjectA :
  hoare (frame w0) (SaveDTObjectA o name)
        (fun sv w => pasted w /\ sv = true).
Proof.
  unfold SaveDTObjectA.
  eapply hoare_bind; [apply (frame_fault w0 coop) | ].
  intro f. apply hoare_pure. intros ->.
  apply frame_get. intros w1 Hw1.
  intros w Hw. rewrite bind_run. split; [ | reflexivity].
  unfold pasted. cbn [snd ret set_files w_units w_files w_out].
  split; [exact (fr_clip _ _ Hw) | ].
  split; [rewrite (fr_files _ _ Hw1); reflexivity | exact (fr_out _ _ Hw)].
Qed.

Lemma pasted_CloseClipboard (h : ClipboardHandle) :
  hoare pasted (CloseClipboard h) (fun _ w => pasted w).
Proof.
  intros w (Hc & Hf & Ho). unfold CloseClipboard.
  rewrite !bind_run. unfold pasted.
  cbn [snd fst get_world set_units log w_units w_files w_out].
  split; [ | split; assumption].
  intro v. unfold upd. destruct (v =? cbh_Unit h) eqn:E.
  - apply Z.eqb_eq in E. subst v. cbn [cu_clip]. apply Hc.
  - apply Hc.
Qed.

Lemma paste_object_ok (h : ClipboardHandle) :
  cbh_Unit h = u ->
  hoare (frame w0) (paste_object name h)
        (fun r w => pasted w /\ r = RETURN_OK).
Proof.
  intro Hu. unfold paste_object.
  eapply hoare_bind; [apply CBReadDone_spec | ].
  intro h1. apply hoare_pure. intro Hu1.
  eapply hoare_bind; [apply (frame_AllocIFF w0 coop) | ].
  intro oi. apply hoare_pure. intros ->. cbv zeta.
  eapply hoare_bind; [apply (frame_OpenIFF w0 coop) | ].
  intros x. apply hoare_pure. intros ->.
  change (negb (0 =? 0)) with false. cbv iota.
  rewrite Hu1, Hu.
  eapply hoare_bind; [apply frame_NewDTObject_clip | ].
  intro od. apply hoare_pure. intros ->.
  eapply hoare_bind; [apply frame_SaveDTObjectA | ].
  intro sv. apply hoare_pure. intros ->.
  eapply hoare_bind with (Q := fun r w => pasted w /\ r = RETURN_OK).
  { apply hoare_ret. auto. }
  intro r. apply hoare_pure. intros ->.
  unfold CloseIFF. cbn [InitIFFasClip iff_Write].
  eapply hoare_bind with (Q := fun _ w => pasted w).
  { apply hoare_ret. auto. }
  intro i3.
  eapply hoare_bind; [apply pasted_CloseClipboard | ]. intros [].
  apply hoare_ret. auto.
Qed.

Lemma PasteFromClipboard_object (force : bool) :
  is_empty name = false ->
  force = true \/ w_files w0 name = None ->
  hoare (frame w0) (PasteFromClipboard name u force)
        (fun r w => pasted w /\ r = RETURN_OK).
Proof.
  intros Hn Hf. unfold PasteFromClipboard.
  eapply hoare_bind; [apply framed_uninitialised | ]. intro junk.
  rewrite Hn.
  eapply hoare_bind; [apply (frame_probe w0 name coop force Hf) | ].
  intro t. apply hoare_pure. intros ->.
  eapply hoare_bind; [apply (frame_OpenClipboard w0 u coop) | ].
  intro oc. apply hoare_pure. intros ->. cbv zeta.
  rewrite DoIO_is_read by reflexivity.
  eapply hoare_bind; [apply frame_header_read; reflexivity | ]. intro r.
  apply hoare_pure. intros (Ha & Hd).
  rewrite header_of_object; [ | exact Ha | exact Hd].
  apply paste_object_ok. reflexivity.
Qed.

End PasteObject.


Definition with_dt_clip (f : list Z -> option DTObject) (w : World) : World :=
  mkWorld (w_units w) (w_files w) (w_trace w) (w_out w) (w_faults w)
          (w_tick w) (w_ioerr w) (w_uid w) (w_dt_file w) f (w_diverged w)
          (w_junk w).

(** An IFF picture of 40 bytes. *)
Definition picture : list Z :=
  form (MAKE_ID (chr "I") (chr "L") (chr "B") (chr "M")) (repeat 0 28).

(** Unit 0 holds "OLD", the file "in" is the picture, and the converter
    takes every file and every clip for an object that is its own IFF
    form. *)
Definition world_picture : World :=
  with_dt_clip dt_blob
    (with_dt_file dt_blob
       (with_file "in" picture
          (with_clip 0 (bytes_of_string "OLD") world0))).


(** ** An object, copied and pasted back *)

Definition converter (w : World)
  : (list Z -> option DTObject) * (list Z -> option DTObject) :=
  (w_dt_file w, w_dt_clip w).

Lemma keeps_converter_InitializeLibraries :
  keeps (fun w => (store w, converter w)) InitializeLibraries.
Proof. unfold InitializeLibraries, OpenLibrary, fallible. keeps_tac. Qed.

Lemma keeps_converter_copy_object (o : DTObject) (u : Z) :
  keeps converter (copy_object o u).
Proof.
  unfold copy_object, copy_file_to_unit, SaveDTObjectA, OpenClipboard,
    Open_OLDFILE, IoErr_or, DeleteFile, CloseClipboard, Seek_size, AllocMem,
    fallible, Read, DoIO, DoIO_read, DoIO_write, DoIO_update, PrintFault,
    Close.
  keeps_tac.
Qed.

(** The copy of a file that the converter takes for an object that is no
    text is the copy of that object. *)
Lemma CopyToClipboard_object_run (w : World) (name : string) (u : Z)
  (c : list Z) (o : DTObject) :
  is_empty name = false -> w_files w name = Some c ->
  w_dt_file w c = Some o -> dto_isText o = false ->
  CopyToClipboard name u w = copy_object o u w.
Proof.
  intros Hn Hf Hd Ht. unfold CopyToClipboard. rewrite Hn.
  unfold bind at 1.
  assert (NewDTObject_file name w = (Some o, w)) as ->.
  { unfold NewDTObject_file. rewrite bind_run. cbn [get_world fst snd].
    rewrite Hf, Hd. reflexivity. }
  rewrite Ht. reflexivity.
Qed.



(** ** The files the program touches *)

(** The content of the file [n]. *)
Definition file_at (n : string) (w : World) : option (list Z) := w_files w n.

Lemma keeps_file_files (A : Type) (n : string) (m : M A) :
  keeps w_files m -> keeps (file_at n) m.
Proof. intros H w. unfold file_at. rewrite H. reflexivity. Qed.

Lemma framed_keeps_file (A : Type) (n : string) (m : M A) :
  framed m -> keeps (file_at n) m.
Proof.
  intros H w. unfold file_at.
  rewrite (fr_files _ _ (H w w (frame_refl w))). reflexivity.
Qed.

Lemma spec_keeps_file (A : Type) (n : string) (m : M A)
  (Q : World -> A -> World -> Prop) :
  (forall w0, hoare (frame w0) m (fun x w => frame w0 w /\ Q w0 x w)) ->
  keeps (file_at n) m.
Proof.
  intros H w. unfold file_at.
  rewrite (fr_files _ _ (proj1 (H w w (frame_refl w)))). reflexivity.
Qed.

Lemma keeps_file_ParseIFF (n : string) (i : IFFHandle) :
  keeps (file_at n) (ParseIFF i).
Proof.
  eapply spec_keeps_file with (Q := fun w0 x w => _). intro w0.
  apply ParseIFF_spec.
Qed.

Lemma keeps_file_ReadChunkBytes (n : string) (i : IFFHandle) (k : Z) :
  keeps (file_at n) (ReadChunkBytes i k).
Proof.
  eapply spec_keeps_file with (Q := fun w0 x w => _). intro w0.
  apply ReadChunkBytes_spec.
Qed.

Lemma keeps_file_CBReadDone (n : string) (h : ClipboardHandle) :
  keeps (file_at n) (CBReadDone h).
Proof. apply framed_keeps_file, framed_CBReadDone. Qed.

Lemma keeps_file_StopChunk (n : string) (i : IFFHandle) (type id : Z) :
  keeps (file_at n) (StopChunk i type id).
Proof.
  eapply spec_keeps_file with (Q := fun w0 x w => _). intro w0.
  apply StopChunk_spec.
Qed.

Lemma keeps_file_NewDTObject_clip (n : string) (u : Z) :
  keeps (file_at n) (NewDTObject_clip u).
Proof. unfold NewDTObject_clip. keeps_tac. Qed.

Lemma keeps_file_uninitialised (n : string) (k : nat) :
  keeps (file_at n) (uninitialised k).
Proof. intro w. reflexivity. Qed.

Lemma keeps_file_FreeIFF (n : string) (i : IFFHandle) :
  keeps (file_at n) (FreeIFF i).
Proof. intro w. reflexivity. Qed.

Lemma keeps_bind_yields (X A B : Type) (f : World -> X) (S : A -> Prop)
  (m : M A) (k : A -> M B) :
  keeps f m -> yields S m -> (forall a, S a -> keeps f (k a)) ->
  keeps f (bind m k).
Proof.
  intros Hm Hs Hk w. rewrite bind_run, (Hk _ (Hs w)). apply Hm.
Qed.

Section Destination.

Variable name n : string.
Hypothesis Hn : n <> name.

Lemma upd_file_other (F : string -> option (list Z)) (v : option (list Z)) :
  upd_file F name v n = F n.
Proof.
  unfold upd_file. apply String.eqb_neq in Hn. rewrite Hn. reflexivity.
Qed.

Lemma keeps_file_Open_NEWFILE : keeps (file_at n) (Open_NEWFILE name).
Proof.
  intro w. unfold Open_NEWFILE. rewrite bind_run.
  destruct (fst (fault w)); rewrite !bind_run; try reflexivity;
    unfold file_at; cbn [ret fst snd get_world set_files w_files fault];
    apply upd_file_other.
Qed.

Lemma keeps_file_Write (data : list Z) : keeps (file_at n) (Write name data).
Proof.
  intro w. unfold Write. rewrite bind_run.
  destruct (fst (fault w)); rewrite !bind_run; try reflexivity;
    unfold file_at; cbn [ret fst snd get_world set_files w_files fault];
    apply upd_file_other.
Qed.

Lemma keeps_file_SaveDTObjectA (o : DTObject) :
  keeps (file_at n) (SaveDTObjectA o name).
Proof.
  intro w. unfold SaveDTObjectA. rewrite bind_run.
  destruct (fst (fault w)); rewrite !bind_run; try reflexivity;
    unfold file_at; cbn [ret fst snd get_world set_files w_files fault];
    apply upd_file_other.
Qed.

Lemma keeps_file_read_chunk_loop (fuel : nat) :
  forall (i : IFFHandle) (r : Z),
    keeps (file_at n) (read_chunk_loop fuel i name r).
Proof.
  induction fuel as [ | fuel IH]; intros i r; cbn [read_chunk_loop].
  - keeps_tac.
  - apply keeps_bind; [apply keeps_file_ReadChunkBytes | ].
    intros [[k buf] i1]. destruct (0 <? k); [ | apply keeps_ret].
    apply keeps_bind; [apply keeps_file_Write | ]. intro k'.
    destruct (negb (k' =? k)); [keeps_tac | apply IH].
Qed.

Lemma keeps_file_paste_loop (fuel : nat) :
  forall (i : IFFHandle) (r : Z),
    keeps (file_at n) (paste_loop fuel i name r).
Proof.
  induction fuel as [ | fuel IH]; intros i r; cbn [paste_loop].
  - keeps_tac.
  - apply keeps_bind; [apply keeps_file_ParseIFF | ].
    intros [e i1]. destruct (e =? IFFERR_EOC); [apply IH | ].
    destruct (negb (e =? 0)); [keeps_tac | ].
    destruct (CurrentChunk i1) as [cn | ]; [ | apply IH].
    destruct ((cn_Type cn =? ID_FTXT) && (cn_ID cn =? ID_CHRS));
      [ | apply IH].
    apply keeps_bind; [apply keeps_file_read_chunk_loop | ].
    intros [[k r2] i2]. destruct (k <? 0); [keeps_tac | apply IH].
Qed.

Lemma Open_NEWFILE_handle :
  yields (fun o => o = Some name \/ o = None) (Open_NEWFILE name).
Proof.
  intro w. unfold Open_NEWFILE. rewrite bind_run.
  destruct (fst (fault w)); rewrite !bind_run; cbn [ret fst]; auto.
Qed.

Lemma keeps_file_paste_text (h : ClipboardHandle) :
  keeps (file_at n) (paste_text name h).
Proof.
  pose proof keeps_file_CBReadDone. pose proof keeps_file_StopChunk.
  pose proof keeps_file_Open_NEWFILE. pose proof keeps_file_paste_loop.
  pose proof keeps_file_FreeIFF.
  pose proof (fun A => @keeps_file_files A n) as Hf.
  unfold paste_text.
  apply keeps_bind; [auto | intro h1].
  apply keeps_bind; [auto with keeps | intros [i | ]]; [ | keeps_tac].
  cbv zeta. apply keeps_bind; [auto with keeps | intros [e i1]].
  destruct (negb (e =? 0)); [keeps_tac | ].
  apply keeps_bind; [auto | intros [e2 i2]].
  destruct (negb (e2 =? 0)); [keeps_tac | ].
  apply keeps_bind_yields with (S := fun o => o = Some name \/ o = None);
    [auto | apply Open_NEWFILE_handle | ].
  intros o [-> | ->]; keeps_tac.
Qed.

Lemma keeps_file_paste_object (h : ClipboardHandle) :
  keeps (file_at n) (paste_object name h).
Proof.
  pose proof keeps_file_CBReadDone. pose proof keeps_file_NewDTObject_clip.
  pose proof keeps_file_SaveDTObjectA. pose proof keeps_file_FreeIFF.
  pose proof (fun A => @keeps_file_files A n) as Hf.
  unfold paste_object. keeps_tac.
Qed.

Lemma keeps_file_PasteFromClipboard (u : Z) (force : bool) :
  keeps (file_at n) (PasteFromClipboard name u force).
Proof.
  pose proof keeps_file_paste_text. pose proof keeps_file_paste_object.
  pose proof keeps_file_uninitialised.
  pose proof (fun A => @keeps_file_files A n) as Hf.
  unfold PasteFromClipboard. keeps_tac.
Qed.

End Destination.

(** X20: the paste touches one file only.  Whatever the unit holds and
    whatever the environment decides, every file other than the
    destination is after [PasteFromClipboard] what it was before. *)
Theorem PasteFromClipboard_touches_only_destination (w : World)
  (name : string) (u : Z) (force : bool) (n : string) :
  n <> name ->
  w_files (snd (PasteFromClipboard name u force w)) n = w_files w n.
Proof.
  intro Hn. exact (keeps_file_PasteFromClipboard name n Hn u force w).
Qed.

Lemma PasteFromClipboard_touches_witness :
  w_files (snd (PasteFromClipboard "new" 0 true world_taken)) "out"%string
  = w_files world_taken "out"%string.
Proof.
  assert ("out"%string <> "new"%string) as H by discriminate.
  exact (PasteFromClipboard_touches_only_destination world_taken "new" 0
           true "out" H).
Defined.

Lemma keeps_file_ListClipboards (n : string) :
  keeps (file_at n) ListClipboards.
Proof.
  intro w. unfold file_at.
  destruct (ListClipboards_spec w w (frame_refl w)) as (_ & o & Hf & _).
  rewrite (fr_files _ _ Hf). reflexivity.
Qed.

Lemma keeps_uid_InitializeLibraries : keeps w_uid InitializeLibraries.
Proof. unfold InitializeLibraries, OpenLibrary, fallible. keeps_tac. Qed.

(** The destination named on the command line. *)
Definition destination (rda : option Args) : option string :=
  match rda with
  | Some args => arg_paste args
  | None => None
  end.

Lemma perform_file (c p : option string) (u : Z) (force : bool)
  (n : string) (w : World) :
  n <> temp_name (w_uid w) -> p <> Some n ->
  file_at n (snd (perform c p u force w)) = file_at n w.
Proof.
  intros Ht Hp. unfold perform. cbv zeta. rewrite bind_run.
  assert (file_at n (snd ((match c with
                           | Some name =>
                               result <- CopyToClipboard name u ;;
                               ret (if negb (result =? RETURN_OK) &&
                                       match p with
                                       | Some _ => true
                                       | None => false
                                       end
                                    then RETURN_FAIL else result)
                           | None => ret RETURN_FAIL
                           end) w)) = file_at n w) as Hc.
  { destruct c as [name | ]; [ | reflexivity].
    rewrite bind_run. cbn [ret snd]. unfold file_at.
    destruct (CopyToClipboard_tidy w name u n) as [H | (H & _)];
      [exact H | contradiction]. }
  rewrite <- Hc.
  destruct p as [dst | ]; [ | reflexivity].
  rewrite bind_run. cbn [ret snd].
  apply keeps_file_PasteFromClipboard. congruence.
Qed.

(** X21: the files of the user are safe.  Whatever the command line, the
    clipboard and the decisions of the environment, a run of the program
    changes no file other than the destination of PASTE and the temporary
    file of the copy. *)
Theorem main_touches_only_its_files (argc : Z) (rda : option Args)
  (w : World) (n : string) :
  n <> temp_name (w_uid w) -> destination rda <> Some n ->
  w_files (snd (main argc rda w)) n = w_files w n.
Proof.
  intros Ht Hd. change (file_at n (snd (main argc rda w)) = file_at n w).
  unfold main. destruct (argc =? 0); [reflexivity | ].
  rewrite bind_run.
  pose proof (framed_keeps_file _ n _ framed_InitializeLibraries w) as H1.
  pose proof (keeps_uid_InitializeLibraries w) as Hu.
  set (w1 := snd (InitializeLibraries w)) in *. clearbody w1.
  assert (forall (A : Type) (m : M A),
            keeps (file_at n) m -> file_at n (snd (m w1)) = file_at n w)
    as Hk by (intros A m Hm; rewrite Hm; exact H1).
  pose proof (fun A => @keeps_file_files A n) as Hf.
  pose proof keeps_file_ListClipboards as Hl.
  pose proof keeps_files_FlushClipboard as Hfl.
  destruct (fst (InitializeLibraries w)); cbn [negb];
    [ | apply Hk; keeps_tac].
  destruct rda as [args | ]; [ | apply Hk; unfold ShowUsage, Cleanup; keeps_tac].
  cbv zeta. cbn [destination] in Hd.
  destruct (255 <? _); [apply Hk; unfold Cleanup; keeps_tac | ].
  match goal with
  | |- context [if ?b then _ else _] => destruct b
  end; [apply Hk; unfold ShowUsage, Cleanup; keeps_tac | ].
  destruct (arg_list args); [apply Hk; unfold Cleanup; keeps_tac | ].
  destruct (arg_flush args); [apply Hk; unfold Cleanup; keeps_tac | ].
  rewrite !bind_run. cbn [Cleanup ret snd].
  rewrite perform_file; [exact H1 | rewrite Hu; exact Ht | exact Hd].
Qed.

Lemma main_touches_witness :
  w_files (snd (main 1 (Some args_copy_paste) world_text)) "in"%string
  = w_files world_text "in"%string.
Proof.
  assert ("in"%string <> temp_name (w_uid world_text)) as H1
      by discriminate.
  assert (destination (Some args_copy_paste) <> Some "in"%string) as H2
      by discriminate.
  exact (main_touches_only_its_files 1 (Some args_copy_paste) world_text
           "in" H1 H2).
Defined.

(** * The text extraction

    [ExtractTextFromClipboard] is the text path of the paste as a function
    of its own; it takes no FORCE and, without a file name, writes to the
    console. *)

Fixpoint string_of_bytes (l : list Z) : string :=
  match l with
  | [] => EmptyString
  | b :: rest => String (ascii_of_N (Z.to_N b)) (string_of_bytes rest)
  end.

(** [Write(Output(), buffer, len)]: the bytes go to the console. *)
Definition Write_Output (data : list Z) : M Z :=
  f <- fault ;;
  match f with
  | Err e => SetIoErr e ;;; ret (-1)
  | _ =>
      let acc := match f with
                 | Partial n => firstn (Z.to_nat n) data
                 | _ => data
                 end in
      emit (OutText (string_of_bytes acc)) ;;;
      ret (Zlen acc)
  end.

(** The output handle of the extraction: a file it opened, or [None] for
    [Output()]. *)
Definition Write_handle (outputFile : option string) (data : list Z) : M Z :=
  match outputFile with
  | Some fh => Write fh data
  | None => Write_Output data
  end.

(** [if (outputFile && outputFile != Output()) Close(outputFile);] *)
Definition Close_handle (outputFile : option string) : M unit :=
  match outputFile with
  | Some fh => Close fh
  | None => ret tt
  end.

(** [while ((len = ReadChunkBytes(iffh, buffer, bufferSize)) > 0)] *)
Fixpoint extract_chunk_loop (fuel : nat) (iffh : IFFHandle)
  (outputFile : option string) (result : Z) : M (Z * Z * IFFHandle) :=
  match fuel with
  | O => diverge ;;; ret (0, result, iffh)
  | S fuel' =>
      ' (len, buffer, iffh) <- ReadChunkBytes iffh 4096 ;;
      if 0 <? len then
        n <- Write_handle outputFile buffer ;;
        if negb (n =? len) then
          e <- IoErr ;;
          PrintFault e "Clipboard: Could not write to file" ;;;
          ret (len, RETURN_FAIL, iffh)
        else extract_chunk_loop fuel' iffh outputFile result
      else ret (len, result, iffh)
  end.

(** The loop "Parse IFF and extract all CHRS chunks" of
    [ExtractTextFromClipboard]. *)
Fixpoint extract_loop (fuel : nat) (iffh : IFFHandle)
  (outputFile : option string) (result : Z) : M (Z * IFFHandle) :=
  match fuel with
  | O => diverge ;;; ret (result, iffh)
  | S fuel' =>
      ' (error, iffh) <- ParseIFF iffh ;;
      if error =? IFFERR_EOC then extract_loop fuel' iffh outputFile result
      else if negb (error =? 0) then
        if negb (error =? IFFERR_EOF) then
          PrintFault error "Clipboard: Error parsing clipboard" ;;;
          ret (RETURN_FAIL, iffh)
        else ret (RETURN_OK, iffh)
      else
        match CurrentChunk iffh with
        | Some cn =>
            if (cn_Type cn =? ID_FTXT) && (cn_ID cn =? ID_CHRS) then
              ' (len, result, iffh) <-
                extract_chunk_loop (chunk_bound iffh) iffh outputFile result ;;
              if len <? 0 then
                PrintFault len "Clipboard: Error reading chunk" ;;;
                ret (RETURN_FAIL, iffh)
              else extract_loop fuel' iffh outputFile result
            else extract_loop fuel' iffh outputFile result
        | None => extract_loop fuel' iffh outputFile result
        end
  end.

(** [LONG ExtractTextFromClipboard(STRPTR fileName, ULONG unit)] *)
Definition ExtractTextFromClipboard (fileName : string) (unit : Z) : M Z :=
  oi <- AllocIFF ;;
  match oi with
  | None =>
      PrintFault ERROR_NO_FREE_STORE "Clipboard: Could not allocate IFF handle" ;;;
      ret RETURN_FAIL
  | Some iffh =>
  oc <- OpenClipboard unit ;;
  match oc with
  | None =>
      PrintFault ERROR_OBJECT_NOT_FOUND "Clipboard: Could not open clipboard" ;;;
      FreeIFF iffh ;;;
      ret RETURN_FAIL
  | Some clipHandle =>
  let iffh := InitIFFasClip clipHandle iffh in
  ' (error, iffh) <- OpenIFF iffh false ;;
  if negb (error =? 0) then
    PrintFault error "Clipboard: Could not open clipboard for reading" ;;;
    CloseClipboard clipHandle ;;;
    FreeIFF iffh ;;;
    ret RETURN_FAIL
  else
  ' (error, iffh) <- StopChunk iffh ID_FTXT ID_CHRS ;;
  if negb (error =? 0) then
    PrintFault error "Clipboard: Could not register IFF chunk" ;;;
    iffh <- CloseIFF iffh ;;
    CloseClipboard clipHandle ;;;
    FreeIFF iffh ;;;
    ret RETURN_FAIL
  else
  opened <-
    (if negb (is_empty fileName) then
       ofh <- Open_NEWFILE fileName ;;
       ret (match ofh with
            | Some fh => Some (Some fh)
            | None => None
            end)
     else ret (Some None)) ;;
  match opened with
  | None =>
      errorCode <- IoErr ;;
      iffh <- CloseIFF iffh ;;
      CloseClipboard clipHandle ;;;
      FreeIFF iffh ;;;
      PrintFault errorCode "Clipboard: Could not open output file" ;;;
      ret RETURN_FAIL
  | Some outputFile =>
  ok <- AllocMem ;;
  if negb ok then
    PrintFault ERROR_NO_FREE_STORE "Clipboard: Could not allocate memory" ;;;
    Close_handle outputFile ;;;
    iffh <- CloseIFF iffh ;;
    CloseClipboard clipHandle ;;;
    FreeIFF iffh ;;;
    ret RETURN_FAIL
  else
  w <- get_world ;;
  ' (result, iffh) <-
    extract_loop (scan_bound w iffh) iffh outputFile RETURN_FAIL ;;
  Close_handle outputFile ;;;
  iffh <- CloseIFF iffh ;;
  CloseClipboard clipHandle ;;;
  FreeIFF iffh ;;;
  ret result
  end
  end
  end.

(** ** The extraction of a text clip in a cooperative environment *)

Section ExtractText.

Variable w0 : World.
Variable name : string.
Variable u : Z.
Variable cs : list (Z * list Z).

Hypothesis coop : forall n, w_faults w0 n = NoFault.
Hypothesis Hclip : cu_clip (w_units w0 u) = form ID_FTXT (chunks cs).
Hypothesis Hwf : Forall wf_chunk cs.
Hypothesis Hsize : 4 + Zlen (chunks cs) < 2 ^ 31.

Lemma extract_chunk_loop_leaf (fuel : nat) :
  forall (i : IFFHandle) (pre rest : list (Z * list Z)) (p : list Z) (k : Z)
         (acc : list Z) (result : Z),
    cs = pre ++ (ID_CHRS, p) :: rest -> 0 <= k <= Zlen p ->
    stB u cs i pre (ID_CHRS, p) k ->
    (Z.to_nat (Zlen p - k) < fuel)%nat ->
    hoare (pst w0 name acc) (extract_chunk_loop fuel i (Some name) result)
          (fun x w =>
             pst w0 name (acc ++ skipn (Z.to_nat k) p) w /\
             fst (fst x) = 0 /\ snd (fst x) = result /\
             stB u cs (snd x) pre (ID_CHRS, p) (Zlen p)).
Proof.
  induction fuel as [ | fuel IH]; intros i pre rest p k acc result Hcs Hk HB Hf;
    [lia | ].
  cbn [extract_chunk_loop].
  destruct (Z.eq_dec k (Zlen p)) as [-> | Hne].
  - rewrite (ReadChunkBytes_done u cs i pre (ID_CHRS, p) HB).
    intros w Hw. rewrite bind_run. cbn [ret fst snd].
    change (0 <? 0) with false. cbv iota. cbn [ret fst snd].
    rewrite skipn_all2 by (unfold Zlen; lia). rewrite app_nil_r.
    split; [exact Hw | ]. split; [reflexivity | ].
    split; [reflexivity | exact HB].
  - eapply hoare_bind;
      [apply (ReadChunkBytes_leaf w0 name u cs coop Hclip Hwf Hsize
                acc i pre rest (ID_CHRS, p) k Hcs);
       [cbn [snd]; lia | exact HB] | ].
    intros [[bytesRead readBuffer] i1]. apply hoare_pure. cbn [fst snd].
    set (m := Z.min 4096 (Zlen p - k)).
    assert (0 < m <= Zlen p - k) as Hm by (unfold m; lia).
    intros (-> & Hbuf & HB1).
    assert ((0 <? m) = true) as -> by lia.
    cbn [Write_handle].
    eapply hoare_bind; [apply (pst_Write w0 name coop) | ].
    intro n. apply hoare_pure. intros ->.
    assert (Zlen readBuffer = m) as Hbl.
    { rewrite Hbuf. unfold Zlen. rewrite length_firstn, length_skipn.
      unfold Zlen in Hm. lia. }
    rewrite Hbl, Z.eqb_refl. cbn [negb].
    eapply hoare_post;
      [apply (IH i1 pre rest p (k + m) (acc ++ readBuffer) result Hcs);
       [lia | exact HB1 | lia] | ].
    intros x w (Hw & Hrest). split; [ | exact Hrest].
    replace (acc ++ skipn (Z.to_nat k) p)
      with ((acc ++ readBuffer) ++ skipn (Z.to_nat (k + m)) p); [exact Hw | ].
    rewrite <- app_assoc. f_equal. rewrite Hbuf.
    replace (Z.to_nat (k + m)) with (Z.to_nat m + Z.to_nat k)%nat by lia.
    rewrite <- skipn_skipn. apply firstn_skipn.
Qed.

Lemma extract_loop_position (n : nat) :
  forall (rest : list (Z * list Z)) (i : IFFHandle) (acc : list Z)
         (fuel : nat) (result : Z),
    (List.length rest <= n)%nat -> position u cs i rest ->
    (List.length rest + 2 <= fuel)%nat ->
    hoare (pst w0 name acc) (extract_loop fuel i (Some name) result)
          (fun x w =>
             pst w0 name (acc ++ payloads_of ID_CHRS rest) w /\
             fst x = RETURN_OK /\ iff_Write (snd x) = false).
Proof.
  induction n as [ | n IH]; intros rest i acc fuel result Hn Hpos Hfuel.
  - destruct rest; [ | cbn in Hn; lia].
    destruct fuel as [ | fuel]; [lia | ]. cbn [extract_loop].
    eapply hoare_bind;
      [apply (ParseIFF_position w0 name u cs coop Hclip Hwf Hsize
                [] i acc Hpos) | ].
    intros [e i1]. apply hoare_pure. unfold found. cbn [next_CHRS fst snd].
    intros (-> & HE).
    change (IFFERR_EOC =? IFFERR_EOC) with true. cbv iota.
    destruct fuel as [ | fuel]; [cbn in Hfuel; lia | ]. cbn [extract_loop].
    eapply hoare_bind; [apply (ParseIFF_E w0 name u cs coop Hclip i1 acc HE) | ].
    intros [e2 i2]. apply hoare_pure. cbn [fst snd].
    intros (-> & (off & _ & (_ & _ & _ & _ & Hwr))).
    change (IFFERR_EOF =? IFFERR_EOC) with false.
    change (negb (IFFERR_EOF =? 0)) with true.
    change (negb (IFFERR_EOF =? IFFERR_EOF)) with false. cbv iota.
    apply hoare_ret. intros w Hw. unfold payloads_of. cbn [map List.concat].
    rewrite app_nil_r. auto.
  - destruct fuel as [ | fuel]; [lia | ]. cbn [extract_loop].
    eapply hoare_bind;
      [apply (ParseIFF_position w0 name u cs coop Hclip Hwf Hsize
                rest i acc Hpos) | ].
    intros [e i1]. apply hoare_pure. unfold found. cbn [fst snd].
    destruct (next_CHRS rest) as [[[sk p] after] | ] eqn:En.
    + intros (-> & pre & HB & Hcs).
      destruct (next_CHRS_Some rest sk after p En) as (Hpay & Hrest).
      change (0 =? IFFERR_EOC) with false.
      change (negb (0 =? 0)) with false. cbv iota.
      pose proof HB as (_ & _ & Hs & _). unfold CurrentChunk, chunk_bound.
      rewrite Hs. cbn [leaf_node cn_Type cn_ID cn_Size cn_Scan fst snd].
      rewrite !Z.eqb_refl. cbn [andb].
      pose proof (Zlen_nonneg _ p) as Hp.
      eapply hoare_bind;
        [apply (extract_chunk_loop_leaf _ i1 pre after p 0 acc result Hcs);
         [lia | exact HB | lia] | ].
      intros [[bytesRead res] i2]. apply hoare_pure. cbn [fst snd].
      intros (-> & -> & HB2).
      change (0 <? 0) with false. cbv iota.
      change (Z.to_nat 0) with 0%nat. cbn [skipn].
      assert (List.length after < List.length rest)%nat as Hlt.
      { rewrite Hrest, length_app. cbn [List.length]. lia. }
      eapply hoare_post;
        [apply (IH after i2 (acc ++ p) fuel result); [lia | | lia] | ].
      * apply (pos_B u cs i2 after pre (ID_CHRS, p) (Zlen p) Hcs);
          [cbn [snd]; lia | exact HB2].
      * intros x w (Hw & Hres). split; [ | exact Hres].
        rewrite Hpay, app_assoc. exact Hw.
    + intros (-> & HE).
      change (IFFERR_EOC =? IFFERR_EOC) with true. cbv iota.
      destruct fuel as [ | fuel]; [lia | ]. cbn [extract_loop].
      eapply hoare_bind;
        [apply (ParseIFF_E w0 name u cs coop Hclip i1 acc HE) | ].
      intros [e2 i2]. apply hoare_pure. cbn [fst snd].
      intros (-> & (off & _ & (_ & _ & _ & _ & Hwr))).
      change (IFFERR_EOF =? IFFERR_EOC) with false.
      change (negb (IFFERR_EOF =? 0)) with true.
      change (negb (IFFERR_EOF =? IFFERR_EOF)) with false. cbv iota.
      apply hoare_ret. intros w Hw. rewrite (next_CHRS_None rest En).
      rewrite app_nil_r. auto.
Qed.

Lemma ExtractTextFromClipboard_text :
  is_empty name = false ->
  hoare (frame w0) (ExtractTextFromClipboard name u)
        (fun r w => pst w0 name (payloads_of ID_CHRS cs) w /\ r = RETURN_OK).
Proof.
  intro Hn. unfold ExtractTextFromClipboard.
  eapply hoare_bind; [apply (frame_AllocIFF w0 coop) | ].
  intro oi. apply hoare_pure. intros ->.
  eapply hoare_bind; [apply (frame_OpenClipboard w0 u coop) | ].
  intro oc. apply hoare_pure. intros ->. cbv zeta.
  eapply hoare_bind; [apply (frame_OpenIFF w0 coop) | ].
  intros x. apply hoare_pure. intros ->.
  change (negb (0 =? 0)) with false. cbv iota.
  eapply hoare_bind; [apply (frame_StopChunk w0 coop) | ].
  intros x. apply hoare_pure. intros ->.
  change (negb (0 =? 0)) with false. cbv iota.
  cbn [InitIFFasClip iff_Stream iff_Write iff_Stack iff_Stop].
  set (i := mkIFF _ false [] [(ID_FTXT, ID_CHRS)]).
  assert (hstate u i 0 []) as Hst.
  { unfold hstate, stream_offset, i. cbn. repeat split. }
  rewrite Hn. cbn [negb].
  eapply hoare_bind with
    (Q := fun o w => pst w0 name [] w /\ o = Some (Some name)).
  { eapply hoare_bind; [apply (frame_Open_NEWFILE w0 name coop) | ].
    intro ofh. apply hoare_pure. intros ->. apply hoare_ret. auto. }
  intro o. apply hoare_pure. intros ->.
  eapply hoare_bind; [apply (pst_AllocMem w0 name coop) | ].
  intro ok. apply hoare_pure. intros ->.
  cbn [negb]. apply pst_get. intros w1 Hw1.
  eapply hoare_bind.
  - apply (extract_loop_position (List.length cs) cs i [] (scan_bound w1 i)
             RETURN_FAIL (le_n _) (pos_init u cs i cs eq_refl Hst)).
    pose proof (position_bound w0 name u cs Hclip cs i w1 []
                  (pos_init u cs i cs eq_refl Hst) Hw1) as Hb.
    unfold steps in Hb. destruct Hst as (_ & _ & Hs & _). rewrite Hs in Hb.
    cbn [List.length Nat.eqb] in Hb.
    destruct Hw1 as (Hc & _). unfold scan_bound in *.
    destruct cs as [ | c0 cs0]; [cbn [List.length]; lia | ].
    pose proof (Zlen_chunks_lower (c0 :: cs0)) as Hlow.
    unfold Zlen in Hlow at 1. cbn [List.length] in *. lia.
  - intros [result i2]. apply hoare_pure. cbn [fst snd app].
    intros (-> & Hwr).
    eapply hoare_bind with
      (Q := fun _ w => pst w0 name (payloads_of ID_CHRS cs) w).
    { apply hoare_ret. auto. }
    intros []. unfold CloseIFF. rewrite Hwr.
    eapply hoare_bind with
      (Q := fun _ w => pst w0 name (payloads_of ID_CHRS cs) w).
    { apply hoare_ret. auto. }
    intro i3.
    eapply hoare_bind; [apply pst_CloseClipboard | ]. intros [].
    eapply hoare_bind with
      (Q := fun _ w => pst w0 name (payloads_of ID_CHRS cs) w).
    { apply hoare_ret. auto. }
    intros []. apply hoare_ret. auto.
Qed.

End ExtractText.

(** X22: the extraction asks no question.  In an environment that reports
    no failure, [ExtractTextFromClipboard] of a unit that holds a FORM
    FTXT container of leaf chunks returns [RETURN_OK] within the bounds of
    its loops and leaves in the named file the payloads of the CHRS
    chunks, in their order and nothing else, whether the file existed
    before or not: what it held is lost.  The clips are as they were. *)
Theorem ExtractTextFromClipboard_replaces_file (w : World) (name : string)
  (u : Z) (cs : list (Z * list Z)) :
  cooperative w -> is_empty name = false ->
  cu_clip (w_units w u) = form ID_FTXT (chunks cs) ->
  Forall wf_chunk cs -> 4 + Zlen (chunks cs) < 2 ^ 31 ->
  fst (ExtractTextFromClipboard name u w) = RETURN_OK /\
  w_files (snd (ExtractTextFromClipboard name u w)) name
  = Some (payloads_of ID_CHRS cs) /\
  (forall v, cu_clip (w_units (snd (ExtractTextFromClipboard name u w)) v)
             = cu_clip (w_units w v)) /\
  w_diverged (snd (ExtractTextFromClipboard name u w)) = w_diverged w.
Proof.
  intros Hcoop Hn Hclip Hwf Hsize.
  destruct (ExtractTextFromClipboard_text w name u cs Hcoop Hclip Hwf Hsize
              Hn w (frame_refl w)) as ((Hc & _ & Hf & Hd) & Hr).
  auto.
Qed.

Lemma ExtractTextFromClipboard_witness :
  w_files world_taken "out"%string = Some [1; 2; 3] /\
  fst (ExtractTextFromClipboard "out" 0 world_taken) = RETURN_OK /\
  w_files (snd (ExtractTextFromClipboard "out" 0 world_taken)) "out"%string
  = Some (payloads_of ID_CHRS hello_chunks).
Proof.
  assert (cooperative world_taken) as H1 by (intro n; reflexivity).
  assert (Forall wf_chunk hello_chunks) as H2
      by (repeat constructor; discriminate).
  assert (4 + Zlen (chunks hello_chunks) < 2 ^ 31) as H3 by reflexivity.
  destruct (ExtractTextFromClipboard_replaces_file world_taken "out" 0
              hello_chunks H1 eq_refl eq_refl H2 H3) as (Hr & Hf & _).
  split; [reflexivity | ]. split; [exact Hr | exact Hf].
Defined.

(** ** What the extraction leaves alone *)

Lemma reading_Write_handle (h : option string) (data : list Z) :
  reading (Write_handle h data).
Proof.
  destruct h as [fh | ]; [apply reading_Write | ].
  apply keeps_reading. unfold Write_handle, Write_Output. keeps_tac.
Qed.

Lemma extract_chunk_loop_reads (fuel : nat) :
  forall (i : IFFHandle) (h : option string) (r : Z) (w0 : World),
    iff_Write i = false ->
    hoare (reads w0) (extract_chunk_loop fuel i h r)
          (fun x w => reads w0 w /\ iff_Write (snd x) = false).
Proof.
  induction fuel as [ | fuel IH]; intros i h r w0 Hi;
    cbn [extract_chunk_loop].
  - rbind reading_diverge. intros []. apply hoare_ret. auto.
  - rbind reads_ReadChunkBytes. intros [[n buf] i1]. cbn [snd].
    apply hoare_pure. intro Hi1. rewrite Hi in Hi1.
    destruct (0 <? n); [ | apply hoare_ret; auto].
    rbind reading_Write_handle. intro k.
    destruct (negb (k =? n)); [ | apply IH; exact Hi1].
    rbind reading_IoErr. intro e.
    rbind reading_PrintFault. intros []. apply hoare_ret. auto.
Qed.

Lemma extract_loop_reads (fuel : nat) :
  forall (i : IFFHandle) (h : option string) (r : Z) (w0 : World),
    iff_Write i = false ->
    hoare (reads w0) (extract_loop fuel i h r)
          (fun x w => reads w0 w /\ iff_Write (snd x) = false).
Proof.
  induction fuel as [ | fuel IH]; intros i h r w0 Hi; cbn [extract_loop].
  - rbind reading_diverge. intros []. apply hoare_ret. auto.
  - rbind reads_ParseIFF. intros [e i1]. cbn [snd].
    apply hoare_pure. intro Hi1. rewrite Hi in Hi1.
    destruct (e =? IFFERR_EOC); [apply IH; exact Hi1 | ].
    destruct (negb (e =? 0)).
    { destruct (negb (e =? IFFERR_EOF)).
      - rbind reading_PrintFault. intros []. apply hoare_ret. auto.
      - apply hoare_ret. auto. }
    destruct (CurrentChunk i1) as [cn | ]; [ | apply IH; exact Hi1].
    destruct ((cn_Type cn =? ID_FTXT) && (cn_ID cn =? ID_CHRS));
      [ | apply IH; exact Hi1].
    eapply hoare_bind; [apply extract_chunk_loop_reads; exact Hi1 | ].
    intros [[n r2] i2]. cbn [snd]. apply hoare_pure. intro Hi2.
    destruct (n <? 0); [ | apply IH; exact Hi2].
    rbind reading_PrintFault. intros []. apply hoare_ret. auto.
Qed.

Lemma reading_Close_handle (h : option string) : reading (Close_handle h).
Proof. destruct h; apply reading_ret. Qed.

Lemma reading_FreeIFF (i : IFFHandle) : reading (FreeIFF i).
Proof. apply reading_ret. Qed.

Lemma ExtractTextFromClipboard_reads (name : string) (u : Z) :
  reading (ExtractTextFromClipboard name u).
Proof.
  pose proof reading_Close_handle as Hch. pose proof reading_FreeIFF as Hfi.
  intro w0. unfold ExtractTextFromClipboard.
  rbind reading_AllocIFF. intros [i | ];
    [ | apply reading_hoare; reading_tac].
  rbind reading_OpenClipboard. intros [h | ];
    [ | apply reading_hoare; reading_tac].
  cbv zeta. rbind reads_OpenIFF. intros [e i1]. cbn [fst snd].
  apply hoare_pure. intros (Hi1 & _).
  destruct (negb (e =? 0)) eqn:Ee; [apply reading_hoare; reading_tac | ].
  apply negb_false_iff, Z.eqb_eq in Ee. specialize (Hi1 Ee).
  rbind reads_StopChunk. intros [e2 i2]. cbn [snd].
  apply hoare_pure. intro Hi2. rewrite Hi1 in Hi2.
  assert (reading (CloseIFF i2)) as Hclose by (apply reading_CloseIFF, Hi2).
  destruct (negb (e2 =? 0)).
  { apply reading_hoare. reading_tac; try exact Hclose. }
  eapply hoare_bind with (Q := fun _ w => reads w0 w).
  { apply reading_hoare. reading_tac. }
  intros [outputFile | ].
  2:{ apply reading_hoare. reading_tac; try exact Hclose. }
  rbind reading_AllocMem. intro ok.
  destruct (negb ok).
  { apply reading_hoare. reading_tac; try exact Hclose. }
  rbind reading_get_world. intro w1.
  eapply hoare_bind; [apply extract_loop_reads; exact Hi2 | ].
  intros [r i3]. cbn [snd]. apply hoare_pure. intro Hi3.
  apply reading_hoare. reading_tac; try (apply reading_CloseIFF, Hi3).
Qed.

Section ExtractFiles.

Variable n : string.

Lemma keeps_file_Write_handle (h : option string) (data : list Z) :
  h <> Some n -> keeps (file_at n) (Write_handle h data).
Proof.
  intro Hh. destruct h as [fh | ].
  - apply keeps_file_Write. congruence.
  - unfold Write_handle, Write_Output. keeps_tac.
Qed.

Lemma keeps_file_extract_chunk_loop (fuel : nat) :
  forall (i : IFFHandle) (h : option string) (r : Z),
    h <> Some n -> keeps (file_at n) (extract_chunk_loop fuel i h r).
Proof.
  induction fuel as [ | fuel IH]; intros i h r Hh; cbn [extract_chunk_loop].
  - keeps_tac.
  - apply keeps_bind; [apply keeps_file_ReadChunkBytes | ].
    intros [[k buf] i1]. destruct (0 <? k); [ | apply keeps_ret].
    apply keeps_bind; [apply keeps_file_Write_handle, Hh | ]. intro k'.
    destruct (negb (k' =? k)); [keeps_tac | apply IH, Hh].
Qed.

Lemma keeps_file_extract_loop (fuel : nat) :
  forall (i : IFFHandle) (h : option string) (r : Z),
    h <> Some n -> keeps (file_at n) (extract_loop fuel i h r).
Proof.
  induction fuel as [ | fuel IH]; intros i h r Hh; cbn [extract_loop].
  - keeps_tac.
  - apply keeps_bind; [apply keeps_file_ParseIFF | ].
    intros [e i1]. destruct (e =? IFFERR_EOC); [apply IH, Hh | ].
    destruct (negb (e =? 0)); [keeps_tac | ].
    destruct (CurrentChunk i1) as [cn | ]; [ | apply IH, Hh].
    destruct ((cn_Type cn =? ID_FTXT) && (cn_ID cn =? ID_CHRS));
      [ | apply IH, Hh].
    apply keeps_bind; [apply keeps_file_extract_chunk_loop, Hh | ].
    intros [[k r2] i2]. destruct (k <? 0); [keeps_tac | apply IH, Hh].
Qed.

Variable name : string.
Hypothesis Hn : n <> name \/ is_empty name = true.

(** The output handle of the extraction is the named file, or the
    console when no file is named. *)
Lemma extract_handle :
  yields (fun o => forall h, o = Some h -> h <> Some n)
         (if negb (is_empty name)
          then ofh <- Open_NEWFILE name ;;
               ret (match ofh with
                    | Some fh => Some (Some fh)
                    | None => None
                    end)
          else ret (Some None)).
Proof.
  intro w. destruct (is_empty name) eqn:E; cbn [negb].
  - cbn [ret fst]. intros h Hh. injection Hh as <-. discriminate.
  - destruct Hn as [Hne | He]; [ | discriminate].
    rewrite bind_run. cbn [ret fst].
    destruct (Open_NEWFILE_handle name w) as [-> | ->];
      intros h Hh; [ | discriminate].
    injection Hh as <-. congruence.
Qed.

Lemma keeps_file_extract_open :
  keeps (file_at n)
        (if negb (is_empty name)
         then ofh <- Open_NEWFILE name ;;
              ret (match ofh with
                   | Some fh => Some (Some fh)
                   | None => None
                   end)
         else ret (Some None)).
Proof.
  destruct (is_empty name) eqn:E; cbn [negb]; [apply keeps_ret | ].
  destruct Hn as [Hne | He]; [ | discriminate].
  apply keeps_bind; [apply keeps_file_Open_NEWFILE, Hne | ].
  intro. apply keeps_ret.
Qed.

Lemma keeps_file_ExtractTextFromClipboard (u : Z) :
  keeps (file_at n) (ExtractTextFromClipboard name u).
Proof.
  pose proof keeps_file_StopChunk. pose proof keeps_file_FreeIFF.
  pose proof (fun A => @keeps_file_files A n) as Hf.
  unfold ExtractTextFromClipboard.
  apply keeps_bind; [auto with keeps | intros [i | ]]; [ | keeps_tac].
  apply keeps_bind; [auto with keeps | intros [h | ]]; [ | keeps_tac].
  cbv zeta. apply keeps_bind; [auto with keeps | intros [e i1]].
  destruct (negb (e =? 0)); [keeps_tac | ].
  apply keeps_bind; [auto | intros [e2 i2]].
  destruct (negb (e2 =? 0)); [keeps_tac | ].
  apply keeps_bind_yields with
    (S := fun o => forall h, o = Some h -> h <> Some n);
    [apply keeps_file_extract_open | apply extract_handle | ].
  intros [outputFile | ] Ho; [ | keeps_tac].
  specialize (Ho outputFile eq_refl).
  pose proof (fun fuel i r => keeps_file_extract_loop fuel i outputFile r Ho).
  assert (keeps (file_at n) (Close_handle outputFile))
    by (destruct outputFile; apply keeps_ret).
  keeps_tac.
Qed.

End ExtractFiles.

(** X23: the extraction never writes to the clipboard, and it touches no
    file but the one it is given.  Whatever the unit holds and whatever
    the environment decides, [ExtractTextFromClipboard] sends no write and
    no commit to the device and leaves the clip of every unit as it was;
    every file other than the named one is as it was, and when no file is
    named, where the text goes to the console, so is every file. *)
Theorem ExtractTextFromClipboard_only_reads (name : string) (u : Z)
  (w : World) :
  (exists t, w_trace (snd (ExtractTextFromClipboard name u w))
             = w_trace w ++ t /\ Forall read_only t) /\
  (forall v, cu_clip (w_units (snd (ExtractTextFromClipboard name u w)) v)
             = cu_clip (w_units w v)) /\
  (forall n, n <> name \/ is_empty name = true ->
             w_files (snd (ExtractTextFromClipboard name u w)) n
             = w_files w n).
Proof.
  destruct (ExtractTextFromClipboard_reads name u w w (reads_refl w))
    as [Hc Ht].
  split; [exact Ht | ]. split; [exact Hc | ].
  intros n Hn. exact (keeps_file_ExtractTextFromClipboard n name Hn u w).
Qed.

(** ** The units the program touches *)

(** The clip of the unit [v]. *)
Definition unit_clip (v : Z) (w : World) : list Z := cu_clip (w_units w v).

(** The unit a reader or writer of IFF works on. *)
Definition unit_of_iff (i : IFFHandle) : Z := cbh_Unit (iff_Stream i).

Lemma framed_keeps_clip (A : Type) (v : Z) (m : M A) :
  framed m -> keeps (unit_clip v) m.
Proof.
  intros H w. unfold unit_clip.
  rewrite (fr_clip _ _ (H w w (frame_refl w))). reflexivity.
Qed.

Lemma reading_keeps_clip (A : Type) (v : Z) (m : M A) :
  reading m -> keeps (unit_clip v) m.
Proof.
  intros H w. unfold unit_clip.
  rewrite (rd_clip _ _ (H w w (reads_refl w))). reflexivity.
Qed.

Section OtherUnits.

Variable u v : Z.
Hypothesis Hv : v <> u.

Lemma upd_other_unit (A : Type) (f : Z -> A) (x : A) : upd f u x v = f v.
Proof.
  unfold upd. apply Z.eqb_neq in Hv. rewrite Hv. reflexivity.
Qed.

Lemma keeps_clip_DoIO (r : IOClipReq) : keeps (unit_clip v) (DoIO u r).
Proof.
  intro w. unfold DoIO.
  destruct (io_Command r =? CMD_READ).
  { apply framed_keeps_clip, framed_DoIO_read. }
  destruct (io_Command r =? CMD_WRITE).
  { unfold DoIO_write. rewrite bind_run.
    destruct (fst (fault w)); rewrite !bind_run; try reflexivity;
      unfold unit_clip;
      cbn [ret fst snd get_world set_units log w_units fault];
      rewrite upd_other_unit; reflexivity. }
  destruct (io_Command r =? CMD_UPDATE); [ | reflexivity].
  unfold DoIO_update. rewrite bind_run.
  destruct (fst (fault w)); rewrite !bind_run; try reflexivity;
    unfold unit_clip;
    cbn [ret fst snd get_world set_units log w_units fault];
    rewrite upd_other_unit; reflexivity.
Qed.

Lemma keeps_clip_CloseClipboard (h : ClipboardHandle) :
  cbh_Unit h = u -> keeps (unit_clip v) (CloseClipboard h).
Proof.
  intros Hh w. unfold CloseClipboard. rewrite !bind_run. unfold unit_clip.
  cbn [ret fst snd get_world set_units log w_units]. rewrite Hh.
  rewrite upd_other_unit. reflexivity.
Qed.

Lemma OpenClipboard_unit :
  yields (fun o => forall h, o = Some h -> cbh_Unit h = u) (OpenClipboard u).
Proof.
  intro w. unfold OpenClipboard. rewrite bind_run.
  destruct (fst (fault w)); rewrite !bind_run; cbn [ret fst];
    intros h Hh; inversion Hh; reflexivity.
Qed.

(** An operation of iffparse on a handle of the unit [u] leaves the other
    units alone and returns a handle of the unit [u]. *)
Definition on_unit (A : Type) (m : M (A * IFFHandle)) : Prop :=
  keeps (unit_clip v) m /\ yields (fun x => unit_of_iff (snd x) = u) m.

Arguments on_unit {A} m.

Lemma on_unit_stream_write_at (off : Z) (data : list Z) (i : IFFHandle) :
  unit_of_iff i = u -> on_unit (stream_write_at off data i).
Proof.
  intro Hi. unfold stream_write_at. cbv zeta. fold (unit_of_iff i).
  rewrite Hi. split.
  - apply keeps_bind; [apply keeps_clip_DoIO | intro; apply keeps_ret].
  - intro w. rewrite bind_run. cbn [ret fst snd]. exact Hi.
Qed.

Lemma on_unit_ret (A : Type) (a : A) (i : IFFHandle) :
  unit_of_iff i = u -> on_unit (ret (a, i)).
Proof. intro Hi. split; [apply keeps_ret | intro w; exact Hi]. Qed.

Lemma on_unit_bind (A B : Type) (m : M (A * IFFHandle))
  (k : A * IFFHandle -> M (B * IFFHandle)) :
  on_unit m -> (forall x, unit_of_iff (snd x) = u -> on_unit (k x)) ->
  on_unit (bind m k).
Proof.
  intros (Hk & Hy) Hx. split.
  - eapply keeps_bind_yields; [exact Hk | exact Hy | ].
    intros x Hu. apply Hx, Hu.
  - intro w. rewrite bind_run. apply Hx, Hy.
Qed.

Lemma on_unit_PushChunk (i : IFFHandle) (type id size : Z) :
  unit_of_iff i = u -> on_unit (PushChunk i type id size).
Proof.
  intro Hi. unfold PushChunk. cbv zeta.
  apply on_unit_bind; [apply on_unit_stream_write_at, Hi | ].
  intros [[a e] i1] Hi1. cbn [snd] in Hi1.
  destruct (negb (e =? 0) || (a <? _)); apply on_unit_ret; exact Hi1.
Qed.

Lemma on_unit_WriteChunkBytes (i : IFFHandle) (buf : list Z) (n : Z) :
  unit_of_iff i = u -> on_unit (WriteChunkBytes i buf n).
Proof.
  intro Hi. unfold WriteChunkBytes.
  destruct (iff_Stack i) as [ | top rest]; [apply on_unit_ret, Hi | ].
  cbv zeta.
  apply on_unit_bind; [apply on_unit_stream_write_at, Hi | ].
  intros [[a e] i1] Hi1. cbn [snd] in Hi1.
  destruct (negb (e =? 0)); apply on_unit_ret; exact Hi1.
Qed.

Lemma on_unit_PopChunk (i : IFFHandle) :
  unit_of_iff i = u -> on_unit (PopChunk i).
Proof.
  intro Hi. unfold PopChunk.
  destruct (iff_Stack i) as [ | top rest]; [apply on_unit_ret, Hi | ].
  cbv zeta.
  destruct (negb (cn_Size top =? IFFSIZE_UNKNOWN) &&
            negb (cn_Scan top =? cn_Size top)); [apply on_unit_ret, Hi | ].
  apply on_unit_bind.
  { destruct (Z.odd _); [ | apply on_unit_ret, Hi].
    apply on_unit_bind; [apply on_unit_stream_write_at, Hi | ].
    intros [[a e] i1] Hi1. apply on_unit_ret, Hi1. }
  intros [e1 i1] Hi1. cbn [snd] in Hi1.
  destruct (negb (e1 =? 0)); [apply on_unit_ret, Hi1 | ].
  destruct (cn_Size top =? IFFSIZE_UNKNOWN); [ | apply on_unit_ret, Hi1].
  apply on_unit_bind; [apply on_unit_stream_write_at, Hi1 | ].
  intros [[a e] i2] Hi2. apply on_unit_ret, Hi2.
Qed.

Lemma keeps_clip_CloseIFF (i : IFFHandle) :
  unit_of_iff i = u -> keeps (unit_clip v) (CloseIFF i).
Proof.
  intro Hi. unfold CloseIFF. destruct (iff_Write i); [ | apply keeps_ret].
  cbv zeta. fold (unit_of_iff i). rewrite Hi.
  apply keeps_bind; [apply keeps_clip_DoIO | intro; apply keeps_ret].
Qed.

Lemma on_unit_OpenIFF (i : IFFHandle) (mode : bool) :
  unit_of_iff i = u -> on_unit (OpenIFF i mode).
Proof.
  intro Hi. unfold OpenIFF. split.
  - apply framed_keeps_clip. apply framed_bind; [apply framed_fallible | ].
    intro e. destruct (e =? 0); apply framed_ret.
  - intro w. rewrite bind_run. destruct (fst (fallible w) =? 0); exact Hi.
Qed.


Lemma keeps_clip_device (A : Type) (m : M A) :
  keeps device m -> keeps (unit_clip v) m.
Proof.
  intros H w. specialize (H w). unfold device in H. injection H as Hu _.
  unfold unit_clip. rewrite Hu. reflexivity.
Qed.

Lemma keeps_on_unit_bind (A B : Type) (m : M (A * IFFHandle))
  (k : A * IFFHandle -> M B) :
  on_unit m -> (forall x, unit_of_iff (snd x) = u -> keeps (unit_clip v) (k x)) ->
  keeps (unit_clip v) (bind m k).
Proof.
  intros (Hk & Hy) Hx.
  eapply keeps_bind_yields; [exact Hk | exact Hy | exact Hx].
Qed.

(** One step through a program that works on the unit [u]. *)
Ltac unit_step :=
  match goal with
  | |- keeps _ (bind (PushChunk _ _ _ _) _) =>
      apply keeps_on_unit_bind;
      [apply on_unit_PushChunk; assumption | intros [? ?] ?]
  | |- keeps _ (bind (WriteChunkBytes _ _ _) _) =>
      apply keeps_on_unit_bind;
      [apply on_unit_WriteChunkBytes; assumption | intros [? ?] ?]
  | |- keeps _ (bind (PopChunk _) _) =>
      apply keeps_on_unit_bind;
      [apply on_unit_PopChunk; assumption | intros [? ?] ?]
  | |- keeps _ (bind (OpenIFF _ _) _) =>
      apply keeps_on_unit_bind;
      [apply on_unit_OpenIFF; assumption | intros [? ?] ?]
  | |- keeps _ (bind (CloseIFF _) _) =>
      apply keeps_bind; [apply keeps_clip_CloseIFF; assumption | intro]
  | |- keeps _ (bind (CloseClipboard _) _) =>
      apply keeps_bind; [apply keeps_clip_CloseClipboard; assumption | intro]
  | |- keeps _ (bind (DoIO _ _) _) =>
      apply keeps_bind; [apply keeps_clip_DoIO | intro]
  | |- keeps _ (bind _ _) =>
      apply keeps_bind;
      [try first [solve [intro; reflexivity]
                 | solve [apply keeps_clip_device; auto with keeps]]
      | intro]
  | |- keeps _ (ret _) => apply keeps_ret
  | |- keeps _ (if ?b then _ else _) => destruct b
  | |- keeps _ (match ?x with _ => _ end) => destruct x
  | H : unit_of_iff (snd (_, _)) = _ |- _ => cbn [snd] in H
  end.

Lemma keeps_clip_CopyTextToClipboard (name : string) (buf : list Z) (n : Z) :
  keeps (unit_clip v) (CopyTextToClipboard name u buf n).
Proof.
  unfold CopyTextToClipboard. destruct (n =? 0); [repeat unit_step | ].
  apply keeps_bind; [apply framed_keeps_clip, framed_AllocIFF | ].
  intros [i | ]; [ | repeat unit_step].
  eapply keeps_bind_yields;
    [apply framed_keeps_clip, framed_OpenClipboard
    | apply OpenClipboard_unit | ].
  intros [h | ] Hh; [ | repeat unit_step].
  specialize (Hh h eq_refl). cbv zeta.
  assert (unit_of_iff (InitIFFasClip h i) = u) as Hi by exact Hh.
  repeat unit_step.
Qed.

Lemma keeps_clip_copy_file_to_unit (h : ClipboardHandle) (fh : string) :
  cbh_Unit h = u -> keeps (unit_clip v) (copy_file_to_unit h fh).
Proof.
  intro Hh. unfold copy_file_to_unit. rewrite Hh. cbv zeta.
  repeat unit_step.
Qed.

Lemma keeps_clip_copy_object (o : DTObject) :
  keeps (unit_clip v) (copy_object o u).
Proof.
  unfold copy_object. destruct (negb (dto_canWrite o)); [repeat unit_step | ].
  apply keeps_bind; [intro; reflexivity | intro uid]. cbv zeta.
  apply keeps_bind; [apply keeps_clip_device; auto with keeps | intro sv].
  destruct (negb sv); [repeat unit_step | ].
  eapply keeps_bind_yields;
    [apply framed_keeps_clip, framed_OpenClipboard
    | apply OpenClipboard_unit | ].
  intros [h | ] Hh; [ | repeat unit_step].
  specialize (Hh h eq_refl).
  apply keeps_bind; [apply keeps_clip_device; auto with keeps | ].
  intros [fh | ]; [ | repeat unit_step].
  apply keeps_bind; [apply keeps_clip_copy_file_to_unit, Hh | intro r].
  repeat unit_step.
Qed.

Lemma keeps_clip_CopyToClipboard (name : string) :
  keeps (unit_clip v) (CopyToClipboard name u).
Proof.
  unfold CopyToClipboard. destruct (is_empty name); [repeat unit_step | ].
  apply keeps_bind; [apply keeps_clip_device; auto with keeps | ].
  intros [o | ]; [ | repeat unit_step].
  destruct (if dto_isText o then dto_text o else None) as [buf | ];
    [ | apply keeps_clip_copy_object].
  destruct (0 <? Zlen buf); [ | apply keeps_clip_copy_object].
  apply keeps_bind; [apply keeps_clip_device; auto with keeps | ].
  intros [ | ];
    [apply keeps_clip_CopyTextToClipboard | apply keeps_clip_copy_object].
Qed.

Lemma keeps_clip_FlushClipboard : keeps (unit_clip v) (FlushClipboard u).
Proof.
  unfold FlushClipboard. destruct (255 <? u); [repeat unit_step | ].
  eapply keeps_bind_yields;
    [apply framed_keeps_clip, framed_OpenClipboard
    | apply OpenClipboard_unit | ].
  intros [h | ] Hh; [ | repeat unit_step].
  specialize (Hh h eq_refl). cbv zeta.
  repeat unit_step.
Qed.

End OtherUnits.

(** X24: the copy touches one unit only.  Whatever the file, the converter
    and the decisions of the environment, the clip of every unit other
    than the one given to [CopyToClipboard] is after the copy what it was
    before, on the text path and on the object path alike. *)
Theorem CopyToClipboard_touches_only_its_unit (w : World) (name : string)
  (u v : Z) :
  v <> u ->
  cu_clip (w_units (snd (CopyToClipboard name u w)) v)
  = cu_clip (w_units w v).
Proof.
  intro Hv. exact (keeps_clip_CopyToClipboard u v Hv name w).
Qed.

Lemma CopyToClipboard_touches_witness :
  fst (CopyToClipboard "in" 0
         (with_clip 5 (bytes_of_string "HELLO") world_text)) = RETURN_OK /\
  cu_clip (w_units (snd (CopyToClipboard "in" 0
                           (with_clip 5 (bytes_of_string "HELLO")
                              world_text))) 5)
  = bytes_of_string "HELLO".
Proof.
  assert (5 <> 0) as H by discriminate.
  split; [reflexivity | ].
  exact (CopyToClipboard_touches_only_its_unit
           (with_clip 5 (bytes_of_string "HELLO") world_text) "in" 0 5 H).
Defined.

(** The unit named on the command line. *)
Definition target (rda : option Args) : option Z :=
  match rda with
  | Some args => Some (unit_of args)
  | None => None
  end.

Lemma keeps_clip_ListClipboards (v : Z) : keeps (unit_clip v) ListClipboards.
Proof.
  intro w. unfold unit_clip.
  destruct (ListClipboards_spec w w (frame_refl w)) as (_ & o & Hf & _).
  rewrite (fr_clip _ _ Hf). reflexivity.
Qed.

Lemma keeps_clip_perform (c p : option string) (u v : Z) (force : bool) :
  v <> u -> keeps (unit_clip v) (perform c p u force).
Proof.
  intro Hv. unfold perform. cbv zeta.
  apply keeps_bind.
  - destruct c as [name | ]; [ | apply keeps_ret].
    apply keeps_bind; [apply keeps_clip_CopyToClipboard, Hv | ].
    intro. apply keeps_ret.
  - intro r. destruct p as [name | ]; [ | apply keeps_ret].
    apply keeps_bind;
      [apply reading_keeps_clip, PasteFromClipboard_reads | ].
    intro. apply keeps_ret.
Qed.

(** X25: the other units are safe.  Whatever the command line, the files
    and the decisions of the environment, a run of the program leaves the
    clip of every unit other than the one named by CLIPUNIT (unit 0 when
    none is named) as it was. *)
Theorem main_touches_only_its_unit (argc : Z) (rda : option Args)
  (w : World) (v : Z) :
  target rda <> Some v ->
  cu_clip (w_units (snd (main argc rda w)) v) = cu_clip (w_units w v).
Proof.
  intro Ht. change (unit_clip v (snd (main argc rda w)) = unit_clip v w).
  revert w. change (keeps (unit_clip v) (main argc rda)).
  unfold main. destruct (argc =? 0); [apply keeps_ret | ].
  apply keeps_bind;
    [apply framed_keeps_clip, framed_InitializeLibraries | intro ok].
  pose proof (fun A => @framed_keeps_clip A v) as Hf.
  destruct (negb ok).
  { apply keeps_bind; [apply Hf, framed_IoErr_or | intro].
    apply keeps_bind; [intro; reflexivity | intro]. apply keeps_ret. }
  destruct rda as [args | ].
  2:{ unfold ShowUsage, Cleanup. keeps_tac. }
  cbv zeta. fold (unit_of args). cbn [target] in Ht.
  assert (v <> unit_of args) as Hv by congruence.
  destruct (255 <? unit_of args); [unfold Cleanup; keeps_tac | ].
  match goal with
  | |- context [if ?b then _ else _] => destruct b
  end; [unfold ShowUsage, Cleanup; keeps_tac | ].
  destruct (arg_list args).
  { apply keeps_bind; [apply keeps_clip_ListClipboards | intro].
    unfold Cleanup. keeps_tac. }
  destruct (arg_flush args).
  { apply keeps_bind; [apply keeps_clip_FlushClipboard, Hv | intro].
    unfold Cleanup. keeps_tac. }
  apply keeps_bind; [apply keeps_clip_perform, Hv | intro].
  unfold Cleanup. keeps_tac.
Qed.

Lemma main_touches_unit_witness :
  fst (main 1 (Some args_copy_paste)
         (with_clip 5 (bytes_of_string "HELLO") world_text)) = RETURN_OK /\
  cu_clip (w_units (snd (main 1 (Some args_copy_paste)
                           (with_clip 5 (bytes_of_string "HELLO")
                              world_text))) 5)
  = bytes_of_string "HELLO".
Proof.
  assert (target (Some args_copy_paste) <> Some 5) as H by discriminate.
  split; [reflexivity | ].
  exact (main_touches_only_its_unit 1 (Some args_copy_paste)
           (with_clip 5 (bytes_of_string "HELLO") world_text) 5 H).
Defined.

(** * The exit status of the paste *)

(** ** The loops of the paste end *)

Lemma next_chunk_not_EOC (i : IFFHandle) :
  yields (fun x => fst x <> IFFERR_EOC) (next_chunk i).
Proof.
  unfold next_chunk. yields_tac; cbn [fst];
    try match goal with
        | |- context [match ?s with _ => _ end] => destruct s
        end; cbv; congruence.
Qed.

(** A scan that stops on a chunk or at the end of a group has moved on. *)
Definition progress (w0 : World) (i : IFFHandle) (x : Z * IFFHandle) : Prop :=
  same_handle i (snd x) /\
  (fst x = 0 \/ fst x = IFFERR_EOC -> (mu w0 (snd x) < mu w0 i)%nat).

Lemma mu_same_unit (w0 : World) (i i' : IFFHandle) :
  same_handle i i' -> clip_of w0 i' = clip_of w0 i.
Proof. intros (Hu & _). unfold clip_of. rewrite Hu. reflexivity. Qed.

Lemma progress_after (w0 : World) (i i1 : IFFHandle) (x : Z * IFFHandle) :
  same_handle i i1 -> (mu w0 i1 <= mu w0 i)%nat ->
  progress w0 i1 x -> progress w0 i x.
Proof.
  intros Hs Hle (Hs1 & Hmu). split.
  - eapply same_handle_trans; eassumption.
  - intro He. specialize (Hmu He). lia.
Qed.

Lemma ParseIFF_scan_progress (fuel : nat) :
  forall (i : IFFHandle) (w0 : World),
    (mu w0 i < fuel)%nat ->
    hoare (frame w0) (ParseIFF_scan fuel i)
          (fun x w => frame w0 w /\ progress w0 i x).
Proof.
  induction fuel as [ | fuel IH]; intros i w0 Hm; [lia | ].
  cbn [ParseIFF_scan].
  assert (hoare (frame w0)
            (bind (next_chunk i) (fun x =>
               match x with
               | (e, iffh1) =>
                   if negb (e =? 0) then ret (e, iffh1)
                   else match iff_Stack iffh1 with
                        | cn :: _ =>
                            if is_stop iffh1 cn then ret (0, iffh1)
                            else ParseIFF_scan fuel iffh1
                        | [] => ret (0, iffh1)
                        end
               end))
            (fun x w => frame w0 w /\ progress w0 i x)) as Henter.
  { eapply hoare_bind with
      (Q := fun x w => frame w0 w /\ entered w0 i x /\ fst x <> IFFERR_EOC).
    { intros w Hw. destruct (next_chunk_spec i w0 w Hw) as (Hf & He).
      split; [exact Hf | ]. split; [exact He | apply next_chunk_not_EOC]. }
    intros [e i1]. apply hoare_pure. intros ((Hs & Hmu) & Hne). cbn in *.
    destruct (negb (e =? 0)) eqn:E.
    { apply hoare_ret. intros w Hw. split; [exact Hw | ].
      split; [exact Hs | ]. cbn [fst snd]. intros [H0 | H0].
      - subst e. discriminate.
      - contradiction. }
    apply negb_false_iff, Z.eqb_eq in E. specialize (Hmu E).
    assert (forall w, frame w0 w -> frame w0 w /\ progress w0 i (0, i1))
      as Hstop.
    { intros w Hw. split; [exact Hw | ]. split; [exact Hs | ].
      cbn [fst snd]. intros _. exact Hmu. }
    destruct (iff_Stack i1) as [ | cn st] eqn:Est; [apply hoare_ret, Hstop | ].
    destruct (is_stop i1 cn); [apply hoare_ret, Hstop | ].
    eapply hoare_post; [apply IH; lia | ].
    intros x w (Hw & Hp). split; [exact Hw | ].
    apply (progress_after w0 i i1 x Hs); [lia | exact Hp]. }
  destruct (iff_Stack i) as [ | top rest] eqn:Est; [exact Henter | ].
  assert (mu w0 (pop_read i) < mu w0 i)%nat as Hpop
      by (apply mu_pop; rewrite Est; discriminate).
  destruct (is_group (cn_ID top)).
  - destruct (cn_Size top <=? cn_Scan top); [ | exact Henter].
    apply hoare_ret. intros w Hw. split; [exact Hw | ].
    split; [apply pop_read_same | ]. cbn [fst snd]. intros _. exact Hpop.
  - eapply hoare_post; [apply IH; lia | ].
    intros x w (Hw & Hp). split; [exact Hw | ].
    apply (progress_after w0 i (pop_read i) x (pop_read_same i));
      [lia | exact Hp].
Qed.

Lemma ParseIFF_progress (i : IFFHandle) (w0 : World) :
  hoare (frame w0) (ParseIFF i)
        (fun x w => frame w0 w /\ progress w0 i x).
Proof.
  unfold ParseIFF. apply frame_get. intros w1 Hw1.
  apply ParseIFF_scan_progress. unfold scan_bound, mu, clip_of.
  rewrite (fr_clip _ _ Hw1). lia.
Qed.

(** What is left of the chunk on top of the stack. *)
Definition chunk_rem (i : IFFHandle) : nat :=
  match iff_Stack i with
  | [] => 0%nat
  | cn :: _ => Z.to_nat (cn_Size cn - cn_Scan cn)
  end.

Lemma chunk_bound_rem (i : IFFHandle) : chunk_bound i = S (chunk_rem i).
Proof. unfold chunk_bound, chunk_rem. destruct (iff_Stack i); reflexivity. Qed.

Definition consumed (w0 : World) (i : IFFHandle)
  (x : Z * list Z * IFFHandle) : Prop :=
  same_handle i (snd x) /\ (mu w0 (snd x) <= mu w0 i)%nat /\
  (0 < fst (fst x) -> (chunk_rem (snd x) < chunk_rem i)%nat).

Lemma ReadChunkBytes_progress (i : IFFHandle) (n : Z) (w0 : World) :
  hoare (frame w0) (ReadChunkBytes i n)
        (fun x w => frame w0 w /\ consumed w0 i x).
Proof.
  unfold ReadChunkBytes.
  assert (forall e, e <= 0 -> forall w, frame w0 w ->
            frame w0 w /\ consumed w0 i (e, [], i)) as Hnone.
  { intros e He w Hw. split; [exact Hw | ].
    split; [apply same_handle_refl | ]. split; [cbn [snd]; lia | ].
    cbn [fst]. lia. }
  destruct (iff_Stack i) as [ | top rest] eqn:Est.
  { apply hoare_ret, Hnone. unfold IFFERR_EOC. lia. }
  destruct (Z.min n (cn_Size top - cn_Scan top) <=? 0) eqn:Ek.
  { apply hoare_ret, Hnone. lia. }
  apply Z.leb_gt in Ek.
  eapply hoare_bind; [apply stream_read_spec | ].
  intros [[d e] i1]. apply hoare_pure. intros (Hs & Hst & Hr).
  cbn [fst snd] in Hs, Hst, Hr. cbn beta iota.
  assert (stream_offset i <= stream_offset i1) as Hoff.
  { pose proof (Zlen_nonneg _ d).
    destruct Hr as [(_ & Ho) | (_ & _ & Ho)]; lia. }
  assert (forall e', e' <= 0 -> forall w, frame w0 w ->
            frame w0 w /\ consumed w0 i (e', [], i1)) as Hfail.
  { intros e' He w Hw. split; [exact Hw | ].
    split; [exact Hs | ]. split; [ | cbn [fst]; lia].
    cbn [snd]. unfold mu. rewrite (mu_same_unit w0 i i1 Hs), Hst. lia. }
  destruct (negb (e =? 0)).
  { apply hoare_ret, Hfail. unfold IFFERR_READ. lia. }
  destruct (Zlen d <? Z.min n (cn_Size top - cn_Scan top)).
  { apply hoare_ret, Hfail. unfold IFFERR_READ. lia. }
  apply hoare_ret. intros w Hw. split; [exact Hw | ].
  split; [exact Hs | ]. cbn [fst snd]. split.
  - unfold mu, clip_of, stream_offset in *.
    cbn [set_stack iff_Stream iff_Stack List.length].
    destruct Hs as (Hu & _). rewrite Hu, Est. cbn [List.length]. lia.
  - intros _. unfold chunk_rem. rewrite Est.
    cbn [set_stack iff_Stack cn_Size cn_Scan]. lia.
Qed.

(** ** What the paste prints and what it returns *)

(** The fault that the paste prints for a failed write to its
    destination. *)
Definition write_fault (o : Output) : bool :=
  match o with
  | OutFault _ msg => String.eqb msg "Clipboard: Error writing file"
  | _ => false
  end.

(** What the user sees of a run, and whether its loops stayed within
    their bounds. *)
Definition surface (w : World) : list Output * bool :=
  (w_out w, w_diverged w).

(** [said b w0 w]: since [w0] the loops stayed within their bounds, and
    [b] tells whether everything printed since was a fault for a failed
    write. *)
Definition said (b : bool) (w0 w : World) : Prop :=
  w_diverged w = w_diverged w0 /\
  exists o, w_out w = w_out w0 ++ o /\ forallb write_fault o = b.

Definition quiet (w0 w : World) : Prop :=
  (forall u, cu_clip (w_units w u) = cu_clip (w_units w0 u)) /\
  said true w0 w.

Definition verdict (w0 : World) (r : Z) (w : World) : Prop :=
  (r = RETURN_OK /\ said true w0 w) \/ (r = RETURN_FAIL /\ said false w0 w).

Lemma said_refl (w : World) : said true w w.
Proof. split; [reflexivity | ]. exists []. rewrite app_nil_r. auto. Qed.

Lemma said_stable (b : bool) (w0 w w' : World) :
  surface w' = surface w -> said b w0 w -> said b w0 w'.
Proof.
  intros H (Hd & o & Ho & Hb). unfold surface in H. injection H as Hout Hdiv.
  split; [congruence | ]. exists o. split; [congruence | exact Hb].
Qed.

Lemma verdict_stable (w0 : World) (r : Z) (w w' : World) :
  surface w' = surface w -> verdict w0 r w -> verdict w0 r w'.
Proof.
  intros H [(Hr & Hs) | (Hr & Hs)]; [left | right];
    (split; [exact Hr | eapply said_stable; eassumption]).
Qed.

Lemma said_trans (b1 b2 : bool) (w0 w1 w2 : World) :
  said b1 w0 w1 -> said b2 w1 w2 -> said (b1 && b2) w0 w2.
Proof.
  intros (Hd1 & o1 & Ho1 & Hb1) (Hd2 & o2 & Ho2 & Hb2).
  split; [congruence | ]. exists (o1 ++ o2). split.
  - rewrite Ho2, Ho1, app_assoc. reflexivity.
  - rewrite forallb_app, Hb1, Hb2. reflexivity.
Qed.

Lemma said_emit (b : bool) (w0 w : World) (o : Output) :
  said b w0 w -> said (b && write_fault o) w0 (snd (emit o w)).
Proof.
  intro H. apply (said_trans b (write_fault o) w0 w); [exact H | ].
  split; [reflexivity | ]. exists [o]. split; [reflexivity | ].
  cbn [forallb]. apply andb_true_r.
Qed.

Lemma said_frame (b : bool) (w0 w w' : World) :
  said b w0 w -> frame w w' -> said b w0 w'.
Proof.
  intros H Hf. apply (said_stable b w0 w); [ | exact H].
  unfold surface. rewrite (fr_out _ _ Hf), (fr_div _ _ Hf). reflexivity.
Qed.

Lemma quiet_frame (w0 w w' : World) :
  quiet w0 w -> frame w w' -> quiet w0 w'.
Proof.
  intros (Hc & Hs) Hf. split.
  - intro u. rewrite (fr_clip _ _ Hf). apply Hc.
  - eapply said_frame; eassumption.
Qed.

Lemma mu_quiet (w0 w : World) (i : IFFHandle) :
  quiet w0 w -> mu w i = mu w0 i.
Proof. intros (Hc & _). unfold mu, clip_of. rewrite Hc. reflexivity. Qed.

Lemma quiet_Write (w0 w : World) (fh : string) (data : list Z) :
  quiet w0 w -> quiet w0 (snd (Write fh data w)).
Proof.
  intros (Hc & Hs).
  assert (w_units (snd (Write fh data w)) = w_units w /\
          surface (snd (Write fh data w)) = surface w) as (Hu & Hsf).
  { unfold Write. rewrite bind_run.
    destruct (fst (fault w)); rewrite !bind_run; split; reflexivity. }
  split.
  - intro u. rewrite Hu. apply Hc.
  - eapply said_stable; eassumption.
Qed.

Lemma quiet_write_fault (w0 w : World) (e : Z) :
  quiet w0 w ->
  quiet w0 (snd (PrintFault e "Clipboard: Error writing file" w)).
Proof.
  intros (Hc & Hs). split; [exact Hc | ].
  exact (said_emit true w0 w _ Hs).
Qed.

(** The inner loop stays within its bound, whatever it reads and whatever
    becomes of the writes. *)
Lemma read_chunk_loop_quiet (fuel : nat) :
  forall (i : IFFHandle) (fh : string) (r : Z) (w0 w : World),
    quiet w0 w -> (chunk_rem i < fuel)%nat ->
    quiet w0 (snd (read_chunk_loop fuel i fh r w)) /\
    same_handle i (snd (fst (read_chunk_loop fuel i fh r w))) /\
    (mu w0 (snd (fst (read_chunk_loop fuel i fh r w))) <= mu w0 i)%nat.
Proof.
  induction fuel as [ | fuel IH]; intros i fh r w0 w Hq Hf; [lia | ].
  cbn [read_chunk_loop]. rewrite bind_run.
  destruct (ReadChunkBytes_progress i 4096 w w (frame_refl w))
    as (Hfr & Hs & Hmu & Hrem).
  rewrite (mu_quiet w0 w) in Hmu by exact Hq.
  rewrite (mu_quiet w0 w) in Hmu by exact Hq.
  pose proof (quiet_frame w0 w _ Hq Hfr) as Hq1.
  destruct (ReadChunkBytes i 4096 w) as [[[n buf] i1] w1].
  cbn [fst snd] in *.
  destruct (0 <? n) eqn:En; [ | cbn [ret fst snd]; auto].
  apply Z.ltb_lt in En. specialize (Hrem En).
  rewrite bind_run.
  pose proof (quiet_Write w0 w1 fh buf Hq1) as Hq2.
  destruct (Write fh buf w1) as [k w2]. cbn [fst snd] in *.
  destruct (negb (k =? n)).
  - rewrite !bind_run. cbn [IoErr ret fst snd].
    split; [apply quiet_write_fault, Hq2 | auto].
  - destruct (IH i1 fh r w0 w2 Hq2) as (Hq3 & Hs3 & Hmu3); [lia | ].
    split; [exact Hq3 | ].
    split; [eapply same_handle_trans; eassumption | lia].
Qed.

Lemma verdict_OK (w0 w : World) : quiet w0 w -> verdict w0 RETURN_OK w.
Proof. intros (_ & Hs). left. auto. Qed.

Lemma verdict_FAIL (w0 w : World) (e : Z) (msg : string) :
  write_fault (OutFault e msg) = false -> quiet w0 w ->
  verdict w0 RETURN_FAIL (snd (PrintFault e msg w)).
Proof.
  intros Hm (_ & Hs). right. split; [reflexivity | ].
  pose proof (said_emit true w0 w (OutFault e msg) Hs) as H.
  rewrite Hm in H. exact H.
Qed.

(** The outer loop stays within its bound too, and its status tells how
    the scan ended: a failed write does not count. *)
Lemma paste_loop_verdict (fuel : nat) :
  forall (i : IFFHandle) (fh : string) (r : Z) (w0 w : World),
    quiet w0 w -> (mu w0 i < fuel)%nat ->
    verdict w0 (fst (fst (paste_loop fuel i fh r w)))
            (snd (paste_loop fuel i fh r w)).
Proof.
  induction fuel as [ | fuel IH]; intros i fh r w0 w Hq Hf; [lia | ].
  cbn [paste_loop]. rewrite bind_run.
  destruct (ParseIFF_progress i w w (frame_refl w)) as (Hfr & Hs & Hmu).
  rewrite !(mu_quiet w0 w) in Hmu by exact Hq.
  pose proof (quiet_frame w0 w _ Hq Hfr) as Hq1.
  destruct (ParseIFF i w) as [[e i1] w1]. cbn [fst snd] in *.
  destruct (e =? IFFERR_EOC) eqn:Eoc.
  { apply Z.eqb_eq in Eoc. apply IH; [exact Hq1 | ].
    specialize (Hmu (or_intror Eoc)). lia. }
  destruct (negb (e =? 0)) eqn:E0.
  { destruct (negb (e =? IFFERR_EOF)).
    - rewrite bind_run. cbn [ret fst snd].
      apply verdict_FAIL; [reflexivity | exact Hq1].
    - cbn [ret fst snd]. apply verdict_OK, Hq1. }
  apply negb_false_iff, Z.eqb_eq in E0. specialize (Hmu (or_introl E0)).
  destruct (CurrentChunk i1) as [cn | ]; [ | apply IH; [exact Hq1 | lia]].
  destruct ((cn_Type cn =? ID_FTXT) && (cn_ID cn =? ID_CHRS));
    [ | apply IH; [exact Hq1 | lia]].
  rewrite bind_run.
  destruct (read_chunk_loop_quiet (chunk_bound i1) i1 fh r w0 w1 Hq1)
    as (Hq2 & Hs2 & Hmu2); [rewrite chunk_bound_rem; lia | ].
  destruct (read_chunk_loop (chunk_bound i1) i1 fh r w1)
    as [[[n r2] i2] w2]. cbn [fst snd] in *.
  destruct (n <? 0).
  - rewrite bind_run. cbn [ret fst snd].
    apply verdict_FAIL; [reflexivity | exact Hq2].
  - apply IH; [exact Hq2 | lia].
Qed.

Lemma framed_keeps_surface (A : Type) (m : M A) :
  framed m -> keeps surface m.
Proof.
  intros H w. unfold surface.
  pose proof (H w w (frame_refl w)) as Hf.
  rewrite (fr_out _ _ Hf), (fr_div _ _ Hf). reflexivity.
Qed.

Lemma keeps_surface_DoIO (u : Z) (r : IOClipReq) : keeps surface (DoIO u r).
Proof. unfold DoIO, DoIO_read, DoIO_write, DoIO_update. keeps_tac. Qed.

Lemma keeps_surface_fallible : keeps surface fallible.
Proof. apply framed_keeps_surface, framed_fallible. Qed.

Lemma keeps_surface_OpenIFF (i : IFFHandle) (mode : bool) :
  keeps surface (OpenIFF i mode).
Proof.
  pose proof keeps_surface_fallible. unfold OpenIFF. keeps_tac.
Qed.

Lemma keeps_surface_StopChunk (i : IFFHandle) (type id : Z) :
  keeps surface (StopChunk i type id).
Proof.
  pose proof keeps_surface_fallible. unfold StopChunk. keeps_tac.
Qed.

Lemma keeps_surface_CloseIFF (i : IFFHandle) : keeps surface (CloseIFF i).
Proof.
  pose proof keeps_surface_DoIO. unfold CloseIFF. keeps_tac.
Qed.

Lemma keeps_surface_Open_NEWFILE (name : string) :
  keeps surface (Open_NEWFILE name).
Proof. unfold Open_NEWFILE. keeps_tac. Qed.

Lemma keeps_surface_SaveDTObjectA (o : DTObject) (name : string) :
  keeps surface (SaveDTObjectA o name).
Proof. unfold SaveDTObjectA. keeps_tac. Qed.

Lemma keeps_surface_NewDTObject_clip (u : Z) :
  keeps surface (NewDTObject_clip u).
Proof. unfold NewDTObject_clip. keeps_tac. Qed.

Lemma keeps_surface_CBReadDone (h : ClipboardHandle) :
  keeps surface (CBReadDone h).
Proof. apply framed_keeps_surface, framed_CBReadDone. Qed.

Lemma keeps_surface_AllocIFF : keeps surface AllocIFF.
Proof. apply framed_keeps_surface, framed_AllocIFF. Qed.

Lemma keeps_surface_AllocMem : keeps surface AllocMem.
Proof. apply framed_keeps_surface, framed_AllocMem. Qed.

Lemma keeps_surface_FreeIFF (i : IFFHandle) : keeps surface (FreeIFF i).
Proof. intro w. reflexivity. Qed.

Lemma keeps_surface_Close (fh : string) : keeps surface (Close fh).
Proof. intro w. reflexivity. Qed.

Lemma keeps_surface_CloseClipboard (h : ClipboardHandle) :
  keeps surface (CloseClipboard h).
Proof. apply framed_keeps_surface, framed_CloseClipboard. Qed.

Lemma keeps_surface_OpenClipboard (u : Z) : keeps surface (OpenClipboard u).
Proof. apply framed_keeps_surface, framed_OpenClipboard. Qed.

Lemma keeps_surface_Open_OLDFILE (name : string) :
  keeps surface (Open_OLDFILE name).
Proof. apply framed_keeps_surface, framed_Open_OLDFILE. Qed.

Lemma keeps_surface_IoErr_or (d : Z) : keeps surface (IoErr_or d).
Proof. apply framed_keeps_surface, framed_IoErr_or. Qed.

Lemma keeps_surface_IoErr : keeps surface IoErr.
Proof. intro w. reflexivity. Qed.

Lemma keeps_surface_uninitialised (n : nat) :
  keeps surface (uninitialised n).
Proof. intro w. reflexivity. Qed.

Create HintDb surface.

#[export] Hint Resolve keeps_ret keeps_surface_DoIO keeps_surface_OpenIFF
  keeps_surface_StopChunk keeps_surface_CloseIFF keeps_surface_Open_NEWFILE
  keeps_surface_SaveDTObjectA keeps_surface_NewDTObject_clip
  keeps_surface_CBReadDone keeps_surface_AllocIFF keeps_surface_AllocMem
  keeps_surface_FreeIFF keeps_surface_Close keeps_surface_CloseClipboard
  keeps_surface_OpenClipboard keeps_surface_Open_OLDFILE
  keeps_surface_IoErr_or keeps_surface_IoErr keeps_surface_uninitialised
  : surface.

(** Steps of a run, as the user sees them. *)
Lemma step_silent (A B : Type) (P : World -> Prop) (m : M A)
  (k : A -> M B) (Q : B -> World -> Prop) :
  keeps surface m ->
  (forall w w', surface w' = surface w -> P w -> P w') ->
  (forall a, hoare P (k a) Q) -> hoare P (bind m k) Q.
Proof.
  intros Hm Hs Hk. eapply hoare_bind; [ | exact Hk].
  apply hoare_keeps with (f := surface); assumption.
Qed.

Lemma step_fault (B : Type) (b : bool) (w0 : World) (e : Z) (msg : string)
  (k : unit -> M B) (Q : B -> World -> Prop) :
  write_fault (OutFault e msg) = false ->
  hoare (said false w0) (k tt) Q ->
  hoare (said b w0) (bind (PrintFault e msg) k) Q.
Proof.
  intros Hm Hk w Hw. rewrite bind_run. apply Hk.
  pose proof (said_emit b w0 w (OutFault e msg) Hw) as H.
  rewrite Hm, andb_false_r in H. exact H.
Qed.

Lemma step_assoc (A B C : Type) (P : World -> Prop) (m : M A)
  (f : A -> M B) (g : B -> M C) (Q : C -> World -> Prop) :
  hoare P (bind m (fun x => bind (f x) g)) Q ->
  hoare P (bind (bind m f) g) Q.
Proof.
  intros H w Hw. specialize (H w Hw). rewrite !bind_run in *. exact H.
Qed.

Lemma step_ret (A B : Type) (P : World -> Prop) (a : A) (k : A -> M B)
  (Q : B -> World -> Prop) :
  hoare P (k a) Q -> hoare P (bind (ret a) k) Q.
Proof. intros H w Hw. rewrite bind_run. apply H, Hw. Qed.

Lemma ret_FAIL (w0 : World) :
  hoare (said false w0) (ret RETURN_FAIL) (verdict w0).
Proof. intros w Hw. right. auto. Qed.

Lemma ret_OK (w0 : World) :
  hoare (said true w0) (ret RETURN_OK) (verdict w0).
Proof. intros w Hw. left. auto. Qed.

Lemma ret_verdict (w0 : World) (r : Z) :
  hoare (fun w => verdict w0 r w) (ret r) (verdict w0).
Proof. intros w Hw. exact Hw. Qed.

Lemma verdict_trans (w0 w1 w2 : World) (r : Z) :
  said true w0 w1 -> verdict w1 r w2 -> verdict w0 r w2.
Proof.
  intros H1 [(Hr & H2) | (Hr & H2)]; [left | right];
    (split; [exact Hr | ]);
    [exact (said_trans true true w0 w1 w2 H1 H2)
    | exact (said_trans true false w0 w1 w2 H1 H2)].
Qed.

Lemma step_paste_loop (w0 : World) (i : IFFHandle) (fh : string) (r : Z)
  (k : Z * IFFHandle -> M Z) :
  (forall x, hoare (fun w => verdict w0 (fst x) w) (k x) (verdict w0)) ->
  hoare (said true w0)
        (bind get_world
           (fun w => bind (paste_loop (scan_bound w i) i fh r) k))
        (verdict w0).
Proof.
  intros Hk w Hs. rewrite bind_run. cbn [get_world fst snd].
  rewrite bind_run. apply Hk.
  apply (verdict_trans w0 w); [exact Hs | ].
  apply paste_loop_verdict.
  - split; [reflexivity | apply said_refl].
  - unfold scan_bound, mu, clip_of. lia.
Qed.

Ltac stable_tac :=
  intros ? ? ? ?;
  first [eapply said_stable; eassumption
        | eapply verdict_stable; eassumption].

Ltac walk_step :=
  match goal with
  | |- hoare (said _ _) (bind (PrintFault _ _) _) _ =>
      apply step_fault; [reflexivity | ]
  | |- hoare _ (bind get_world (fun w => bind (paste_loop _ _ _ _) _)) _ =>
      apply step_paste_loop; intros [? ?]; cbn [fst]
  | |- hoare _ (bind (bind _ _) _) _ => apply step_assoc
  | |- hoare _ (bind (ret _) _) _ => apply step_ret
  | |- hoare _ (bind (if ?b then _ else _) _) _ => destruct b
  | |- hoare _ (bind _ _) _ =>
      apply step_silent; [solve [auto with surface] | stable_tac | intro]
  | |- hoare _ (ret RETURN_FAIL) _ => apply ret_FAIL
  | |- hoare _ (ret RETURN_OK) _ => apply ret_OK
  | |- hoare _ (ret _) _ => apply ret_verdict
  | |- hoare _ (if ?b then _ else _) _ => destruct b
  | |- hoare _ (match ?x with _ => _ end) _ => destruct x
  end.

Ltac walk := cbv zeta; repeat walk_step.

Lemma paste_text_verdict (name : string) (h : ClipboardHandle)
  (w0 : World) :
  hoare (said true w0) (paste_text name h) (verdict w0).
Proof. unfold paste_text. walk. Qed.

Lemma paste_object_verdict (name : string) (h : ClipboardHandle)
  (w0 : World) :
  hoare (said true w0) (paste_object name h) (verdict w0).
Proof. unfold paste_object. walk. Qed.

Lemma PasteFromClipboard_verdict (name : string) (u : Z) (force : bool)
  (w0 : World) :
  hoare (said true w0) (PasteFromClipboard name u force) (verdict w0).
Proof.
  pose proof paste_text_verdict. pose proof paste_object_verdict.
  unfold PasteFromClipboard. walk; auto.
Qed.

(** X26: what the exit status of the paste tells.  Whatever the unit
    holds, whatever the destination and whatever the environment decides,
    the loops of [PasteFromClipboard] end within their bounds, and the
    paste returns [RETURN_FAIL] exactly when it printed a fault other than
    "Clipboard: Error writing file", and [RETURN_OK] otherwise.  So every
    failure is reported by a fault; but a write to the destination that
    failed, though it is reported, does not make the paste fail. *)
Theorem PasteFromClipboard_status_and_faults (name : string) (u : Z)
  (force : bool) (w : World) :
  w_diverged (snd (PasteFromClipboard name u force w)) = w_diverged w /\
  exists o,
    w_out (snd (PasteFromClipboard name u force w)) = w_out w ++ o /\
    ((fst (PasteFromClipboard name u force w) = RETURN_OK /\
      forallb write_fault o = true) \/
     (fst (PasteFromClipboard name u force w) = RETURN_FAIL /\
      forallb write_fault o = false)).
Proof.
  destruct (PasteFromClipboard_verdict name u force w w (said_refl w))
    as [(Hr & Hd & o & Ho & Hb) | (Hr & Hd & o & Ho & Hb)];
    (split; [exact Hd | ]); exists o; (split; [exact Ho | ]);
    [left | right]; auto.
Qed.

(** A paste whose first write fails: the fault is printed, the text of the
    first chunk is lost, and the paste returns [RETURN_OK]. *)
Example paste_after_failed_write :
  fst (PasteFromClipboard "out" 0 true
         (with_faults (fault_at 13 (Err 221)) world_hello)) = RETURN_OK /\
  w_out (snd (PasteFromClipboard "out" 0 true
                (with_faults (fault_at 13 (Err 221)) world_hello)))
  = [OutFault 221 "Clipboard: Error writing file"] /\
  w_files (snd (PasteFromClipboard "out" 0 true
                  (with_faults (fault_at 13 (Err 221)) world_hello)))
          "out"%string
  = Some (bytes_of_string "World!").
Proof. vm_compute. repeat split; reflexivity. Qed.

(** ** What the copy and the flush print and what they return *)

Lemma keeps_surface_stream_write_at (off : Z) (data : list Z)
  (i : IFFHandle) : keeps surface (stream_write_at off data i).
Proof. pose proof keeps_surface_DoIO. unfold stream_write_at. keeps_tac. Qed.

Lemma keeps_surface_PushChunk (i : IFFHandle) (type id size : Z) :
  keeps surface (PushChunk i type id size).
Proof.
  pose proof keeps_surface_stream_write_at. unfold PushChunk. keeps_tac.
Qed.

Lemma keeps_surface_WriteChunkBytes (i : IFFHandle) (buf : list Z) (n : Z) :
  keeps surface (WriteChunkBytes i buf n).
Proof.
  pose proof keeps_surface_stream_write_at. unfold WriteChunkBytes.
  keeps_tac.
Qed.

Lemma keeps_surface_PopChunk (i : IFFHandle) : keeps surface (PopChunk i).
Proof.
  pose proof keeps_surface_stream_write_at. unfold PopChunk. keeps_tac.
Qed.

Lemma keeps_surface_NewDTObject_file (name : string) :
  keeps surface (NewDTObject_file name).
Proof. unfold NewDTObject_file. keeps_tac. Qed.

Lemma keeps_surface_GetUniqueID : keeps surface GetUniqueID.
Proof. intro w. reflexivity. Qed.

Lemma keeps_surface_DeleteFile (name : string) :
  keeps surface (DeleteFile name).
Proof. unfold DeleteFile. keeps_tac. Qed.

Lemma keeps_surface_Seek_size (fh : string) : keeps surface (Seek_size fh).
Proof. unfold Seek_size. keeps_tac. Qed.

Lemma keeps_surface_Read (fh : string) (n : Z) : keeps surface (Read fh n).
Proof. unfold Read. keeps_tac. Qed.

#[export] Hint Resolve keeps_surface_PushChunk keeps_surface_WriteChunkBytes
  keeps_surface_PopChunk keeps_surface_NewDTObject_file
  keeps_surface_GetUniqueID keeps_surface_DeleteFile keeps_surface_Seek_size
  keeps_surface_Read : surface.

(** Nothing was printed since [w0]; one fault was. *)
Definition silent (w0 w : World) : Prop := w_out w = w_out w0.

Definition once (w0 w : World) : Prop :=
  exists e msg, w_out w = w_out w0 ++ [OutFault e msg].

(** A status that is told: success in silence, failure with one fault. *)
Definition reported (w0 : World) (r : Z) (w : World) : Prop :=
  (r = RETURN_OK /\ silent w0 w) \/ (r = RETURN_FAIL /\ once w0 w).

Lemma silent_stable (w0 w w' : World) :
  surface w' = surface w -> silent w0 w -> silent w0 w'.
Proof.
  intros H Hs. unfold surface in H. injection H as Ho _.
  unfold silent. congruence.
Qed.

Lemma once_stable (w0 w w' : World) :
  surface w' = surface w -> once w0 w -> once w0 w'.
Proof.
  intros H (e & msg & Hs). unfold surface in H. injection H as Ho _.
  exists e, msg. congruence.
Qed.

Lemma reported_stable (w0 : World) (r : Z) (w w' : World) :
  surface w' = surface w -> reported w0 r w -> reported w0 r w'.
Proof.
  intros H [(Hr & Hs) | (Hr & Hs)]; [left | right];
    (split; [exact Hr | ]);
    [eapply silent_stable | eapply once_stable]; eassumption.
Qed.

Lemma step_report (B : Type) (w0 : World) (e : Z) (msg : string)
  (k : unit -> M B) (Q : B -> World -> Prop) :
  hoare (once w0) (k tt) Q ->
  hoare (silent w0) (bind (PrintFault e msg) k) Q.
Proof.
  intros Hk w Hw. rewrite bind_run. apply Hk. exists e, msg.
  unfold silent in Hw. cbn. rewrite Hw. reflexivity.
Qed.

Lemma told_FAIL (w0 : World) :
  hoare (once w0) (ret RETURN_FAIL) (reported w0).
Proof. intros w Hw. right. auto. Qed.

Lemma told_OK (w0 : World) :
  hoare (silent w0) (ret RETURN_OK) (reported w0).
Proof. intros w Hw. left. auto. Qed.

Lemma told_result (w0 : World) (r : Z) :
  hoare (fun w => reported w0 r w) (ret r) (reported w0).
Proof. intros w Hw. exact Hw. Qed.

Ltac told_stable :=
  intros ? ? ? ?;
  first [eapply silent_stable; eassumption
        | eapply once_stable; eassumption
        | eapply reported_stable; eassumption].

Ltac tell_step :=
  match goal with
  | |- hoare (silent _) (bind (PrintFault _ _) _) _ => apply step_report
  | |- hoare _ (bind (bind _ _) _) _ => apply step_assoc
  | |- hoare _ (bind (ret _) _) _ => apply step_ret
  | |- hoare _ (bind (if ?b then _ else _) _) _ => destruct b
  | |- hoare _ (bind _ _) _ =>
      apply step_silent; [solve [auto with surface] | told_stable | intro]
  | |- hoare _ (ret RETURN_FAIL) _ => apply told_FAIL
  | |- hoare _ (ret RETURN_OK) _ => apply told_OK
  | |- hoare _ (ret _) _ => apply told_result
  | |- hoare _ (if ?b then _ else _) _ => destruct b
  | |- hoare _ (match ?x with _ => _ end) _ => destruct x
  end.

Ltac tell := cbv zeta; repeat tell_step.

Lemma CopyTextToClipboard_reported (name : string) (u : Z) (buf : list Z)
  (n : Z) (w0 : World) :
  hoare (silent w0) (CopyTextToClipboard name u buf n) (reported w0).
Proof. unfold CopyTextToClipboard. tell. Qed.

Lemma copy_file_to_unit_reported (h : ClipboardHandle) (fh : string)
  (w0 : World) :
  hoare (silent w0) (copy_file_to_unit h fh) (reported w0).
Proof. unfold copy_file_to_unit. tell. Qed.

Lemma copy_object_reported (o : DTObject) (u : Z) (w0 : World) :
  hoare (silent w0) (copy_object o u) (reported w0).
Proof.
  unfold copy_object. tell.
  eapply hoare_bind; [apply copy_file_to_unit_reported | ].
  intro r. tell.
Qed.

Lemma CopyToClipboard_reported (name : string) (u : Z) (w0 : World) :
  hoare (silent w0) (CopyToClipboard name u) (reported w0).
Proof.
  pose proof CopyTextToClipboard_reported. pose proof copy_object_reported.
  unfold CopyToClipboard. tell; auto.
Qed.

Lemma FlushClipboard_reported (u : Z) (w0 : World) :
  hoare (silent w0) (FlushClipboard u) (reported w0).
Proof. unfold FlushClipboard. tell. Qed.

(** X27: the return code of the copy and of the flush goes with what they
    print.  Whatever the file, the unit and the decisions of the
    environment, [CopyToClipboard] and [FlushClipboard] either return
    [RETURN_OK] and print nothing, or return [RETURN_FAIL] and print
    exactly one fault.  The return code does not tell whether the unit
    changed: [CopyTextToClipboard] ignores the result of [CloseIFF], so
    when the device refuses the [CMD_UPDATE] (here the 10th decision of the
    environment) nothing is printed, [RETURN_OK] is returned, and the unit
    keeps its old clip. *)
Theorem copy_and_flush_status_and_faults (name : string) (u : Z)
  (w : World) :
  ((fst (CopyToClipboard name u w) = RETURN_OK /\
    w_out (snd (CopyToClipboard name u w)) = w_out w) \/
   (fst (CopyToClipboard name u w) = RETURN_FAIL /\
    exists e msg,
      w_out (snd (CopyToClipboard name u w)) = w_out w ++ [OutFault e msg]))
  /\
  ((fst (FlushClipboard u w) = RETURN_OK /\
    w_out (snd (FlushClipboard u w)) = w_out w) \/
   (fst (FlushClipboard u w) = RETURN_FAIL /\
    exists e msg,
      w_out (snd (FlushClipboard u w)) = w_out w ++ [OutFault e msg]))
  /\
  (fst (CopyToClipboard "in" 0 (with_faults (fault_at 9 (Err 28)) world_text))
   = RETURN_OK /\
   w_out (snd (CopyToClipboard "in" 0
                 (with_faults (fault_at 9 (Err 28)) world_text))) = [] /\
   w_trace (snd (CopyToClipboard "in" 0
                   (with_faults (fault_at 9 (Err 28)) world_text))) =
   [EvOpen 0; EvWrite 0 0 12 12 0; EvWrite 0 12 8 8 0; EvWrite 0 20 3 3 0;
    EvWrite 0 23 1 1 0; EvWrite 0 4 4 4 0; EvUpdate 0 28; EvClose 0] /\
   cu_clip (w_units (snd (CopyToClipboard "in" 0
                            (with_faults (fault_at 9 (Err 28)) world_text))) 0)
   = bytes_of_string "OLD").
Proof.
  split; [ | split].
  - exact (CopyToClipboard_reported name u w w eq_refl).
  - exact (FlushClipboard_reported u w w eq_refl).
  - vm_compute. repeat split; reflexivity.
Qed.

(** * The operations, one after the other *)

(** X28: a flushed unit is gone from the listing.  Whatever the
    environment decides, short of reporting an error with the code 0,
    after a flush of a unit that returned [RETURN_OK] the listing has no
    row for that unit. *)
Theorem flushed_unit_is_not_listed (w : World) (u : Z) :
  sane w -> fst (FlushClipboard u w) = RETURN_OK ->
  exists o,
    w_out (snd (ListClipboards (snd (FlushClipboard u w))))
    = w_out (snd (FlushClipboard u w)) ++ o /\
    Forall (fun row => row_unit row <> u) (rows_of o).
Proof.
  intros Hs Hr.
  assert (cu_clip (w_units (snd (FlushClipboard u w)) u) = []) as Hclip.
  { destruct (Z.le_gt_cases u 255) as [Hu | Hu].
    - destruct (FlushClipboard_wr w u Hs _ _ Hu w (wr_init w u))
        as (p & [(_ & _ & _ & Hc & _) | (Hf & _)]); [exact Hc | ].
      rewrite Hf in Hr. discriminate Hr.
    - unfold FlushClipboard in Hr. apply Z.ltb_lt in Hu. rewrite Hu in Hr.
      discriminate Hr. }
  set (w1 := snd (FlushClipboard u w)) in *.
  destruct (ListClipboards_spec w1 w1 (frame_refl w1))
    as (_ & o & Hf & _ & Hall).
  exists o. split; [exact (fr_out _ _ Hf) | ].
  eapply Forall_impl; [ | exact Hall].
  intros row (_ & (Hlen & _) & _) Hu. rewrite Hu, Hclip in Hlen.
  unfold Zlen in Hlen. cbn in Hlen. lia.
Qed.

Lemma flushed_unit_witness :
  fst (FlushClipboard 0 world_listing) = RETURN_OK /\
  exists o,
    w_out (snd (ListClipboards (snd (FlushClipboard 0 world_listing))))
    = w_out (snd (FlushClipboard 0 world_listing)) ++ o /\
    Forall (fun row => row_unit row <> 0) (rows_of o).
Proof.
  assert (sane world_listing) as Hs by (intros n e He; discriminate He).
  assert (fst (FlushClipboard 0 world_listing) = RETURN_OK) as Hr
      by reflexivity.
  split; [exact Hr | ].
  exact (flushed_unit_is_not_listed world_listing 0 Hs Hr).
Defined.

Lemma In_units_from (n : nat) :
  forall a u : Z, In u (units_from a n) <-> a <= u < a + Z.of_nat n.
Proof.
  induction n as [ | n IH]; intros a u; cbn [units_from In].
  - lia.
  - rewrite IH. lia.
Qed.

Lemma ListClipboards_loop_rows (n : nat) :
  forall (u c : Z) (w0 : World),
    cooperative w0 ->
    hoare (frame w0) (ListClipboards_loop n u c)
          (fun c' w =>
             exists rows,
               frame (add_out (map OutRow rows) w0) w /\
               map row_unit rows =
               filter (fun v => reportable_b (cu_clip (w_units w0 v)))
                      (units_from u n) /\
               Forall (fun r => row_ok (cu_clip (w_units w0 (row_unit r)))
                                       (row_unit r) r) rows).
Proof.
  induction n as [ | n IH]; intros u c w0 Hc.
  - apply hoare_ret. intros w Hw. exists []. split; [ | split].
    + apply add_out_nil, Hw.
    + reflexivity.
    + constructor.
  - intros w Hw. cbn [ListClipboards_loop]. rewrite bind_run.
    assert (cooperative w) as Hcw
        by (intro k; rewrite (fr_faults _ _ Hw); apply Hc).
    pose proof (ListClipboards_unit_cooperative u w Hcw) as Hval.
    rewrite (fr_clip _ _ Hw) in Hval.
    pose proof (ListClipboards_unit_spec u w0 w Hw) as Hspec.
    cbv beta in Hspec. cbn [units_from filter].
    destruct Hspec as [(Hhas & Hf) | (Hhas & row & Hf & _ & Hrow)];
      rewrite Hhas in *; rewrite <- Hval.
    + exact (IH (u + 1) c w0 Hc _ Hf).
    + destruct (IH (u + 1) (c + 1) (add_out [OutRow row] w0) Hc _ Hf)
        as (rows & Hf' & Hrows & Hok).
      exists (row :: rows). split; [ | split].
      * rewrite add_out_add_out in Hf'. exact Hf'.
      * cbn [map]. rewrite (proj1 Hrow). f_equal. exact Hrows.
      * constructor; [rewrite (proj1 Hrow); exact Hrow | exact Hok].
Qed.

Lemma rows_of_listing (rows : list ListRow) (last : Output) :
  rows_of [last] = [] ->
  rows_of ([OutText "Current clipboard contents:";
            OutText "Unit  Type    Size    Preview (FTXT only)";
            OutText "----  ----    ----    -------------------"] ++
           map OutRow rows ++ [last]) = rows.
Proof.
  intro Hl. rewrite !rows_of_app, rows_of_rows, Hl. cbn. apply app_nil_r.
Qed.

(** The listing in a cooperative environment, row by row. *)
Lemma ListClipboards_rows (w : World) :
  cooperative w ->
  exists o,
    w_out (snd (ListClipboards w)) = w_out w ++ o /\
    map row_unit (rows_of o) =
    filter (fun u => reportable_b (cu_clip (w_units w u)))
           (units_from 0 256) /\
    Forall (fun r => row_ok (cu_clip (w_units w (row_unit r)))
                            (row_unit r) r) (rows_of o).
Proof.
  intro Hc.
  assert (hoare (frame w) ListClipboards
            (fun _ w' =>
               exists o,
                 w_out w' = w_out w ++ o /\
                 map row_unit (rows_of o) =
                 filter (fun u => reportable_b (cu_clip (w_units w u)))
                        (units_from 0 256) /\
                 Forall (fun r => row_ok (cu_clip (w_units w (row_unit r)))
                                         (row_unit r) r) (rows_of o))) as H.
  { unfold ListClipboards, Printf.
    eapply hoare_bind; [apply emit_spec | ]. intros [].
    eapply hoare_bind; [apply emit_spec | ]. intros [].
    eapply hoare_bind; [apply emit_spec | ]. intros [].
    rewrite !add_out_add_out.
    eapply hoare_bind; [apply ListClipboards_loop_rows; exact Hc | ].
    intros c w1 (rows & Hw & Hrows & Hok).
    rewrite add_out_add_out in Hw.
    rewrite !bind_run. cbn [ret snd].
    exists ([OutText "Current clipboard contents:";
             OutText "Unit  Type    Size    Preview (FTXT only)";
             OutText "----  ----    ----    -------------------"] ++
            map OutRow rows ++
            [if c =? 0 then OutText "No clipboard units contain data."
             else OutTotal c]).
    rewrite rows_of_listing by (destruct (c =? 0); reflexivity).
    split; [ | split; [exact Hrows | exact Hok]].
    destruct (c =? 0); cbn [emit Printf snd w_out];
      rewrite (fr_out _ _ Hw); cbn [add_out w_out];
      rewrite <- !app_assoc; reflexivity. }
  exact (H w (frame_refl w)).
Qed.

(** X29: a copied text shows in the listing.  In an environment that
    reports no failure, after the copy of a text of 1 to 2^31 - 1 bytes to
    a unit between 0 and 255 the listing has a row for that unit, with the
    type FTXT, the size of the FORM (12 bytes and the text, padded to an
    even length) and the unit that [FormIDToUnit] gives for FTXT. *)
Theorem copied_text_is_listed (w : World) (name : string) (u : Z)
  (text : list Z) :
  cooperative w -> 0 <= cu_id (w_units w u) -> 0 < Zlen text < 2 ^ 31 ->
  0 <= u <= 255 ->
  exists o row,
    w_out (snd (ListClipboards
                  (snd (CopyTextToClipboard name u text (Zlen text) w))))
    = w_out (snd (CopyTextToClipboard name u text (Zlen text) w)) ++ o /\
    In row (rows_of o) /\ row_unit row = u /\
    row_type row = bytes_of_string "FTXT" /\
    row_size row = 12 + Zlen text + pad (Zlen text) /\
    row_mapped row = FormIDToUnit ID_FTXT.
Proof.
  intros Hc Hid Ht Hu.
  destruct (CopyTextToClipboard_wt w u Hc Hid text Ht name _ _ w
              (conj (wr_init w u) eq_refl))
    as ((_ & Hfa & Hclip & _) & _).
  set (w1 := snd (CopyTextToClipboard name u text (Zlen text) w)) in *.
  assert (cooperative w1) as Hc1 by (intro k; rewrite Hfa; apply Hc).
  destruct (ListClipboards_rows w1 Hc1) as (o & Ho & Hunits & Hok).
  assert (In u (map row_unit (rows_of o))) as Hin.
  { rewrite Hunits. apply filter_In. split.
    - apply In_units_from. lia.
    - rewrite Hclip. unfold reportable_b. rewrite Zlen_form.
      unfold form. rewrite ULONG_at_0, be32_bytes_of_ULONG by apply ID_range.
      rewrite Z.eqb_refl, andb_true_r. apply Z.leb_le.
      pose proof (Zlen_nonneg _ (chunk ID_CHRS text)). lia. }
  apply in_map_iff in Hin. destruct Hin as (row & Hru & Hrow).
  exists o, row. split; [exact Ho | ]. split; [exact Hrow | ].
  split; [exact Hru | ].
  rewrite Forall_forall in Hok. specialize (Hok row Hrow).
  rewrite Hru, Hclip in Hok.
  destruct Hok as (_ & Hty & Hsz & Hmap & _).
  rewrite Hty, Hsz, Hmap.
  unfold form. rewrite ULONG_at_8, ULONG_at_4.
  pose proof ID_range as (_ & HT & _).
  assert (0 <= 4 + Zlen (chunk ID_CHRS text) < 2 ^ 32) as Hrange.
  { rewrite Zlen_chunk. unfold pad. destruct (Z.odd (Zlen text)); lia. }
  rewrite (be32_bytes_of_ULONG ID_FTXT HT).
  rewrite (be32_bytes_of_ULONG _ Hrange).
  rewrite Zlen_chunk. repeat split; try reflexivity. lia.
Qed.

Lemma copied_text_witness :
  exists o row,
    w_out (snd (ListClipboards
                  (snd (CopyTextToClipboard "in" 3 (bytes_of_string "Hello")
                          (Zlen (bytes_of_string "Hello")) world_text))))
    = w_out (snd (CopyTextToClipboard "in" 3 (bytes_of_string "Hello")
                    (Zlen (bytes_of_string "Hello")) world_text)) ++ o /\
    In row (rows_of o) /\ row_unit row = 3 /\
    row_type row = bytes_of_string "FTXT" /\
    row_size row = 12 + Zlen (bytes_of_string "Hello")
                   + pad (Zlen (bytes_of_string "Hello")) /\
    row_mapped row = FormIDToUnit ID_FTXT.
Proof.
  assert (cooperative world_text) as H1 by (intro n; reflexivity).
  assert (0 <= cu_id (w_units world_text 3)) as H2 by (cbn; lia).
  assert (0 < Zlen (bytes_of_string "Hello") < 2 ^ 31) as H3
      by (split; reflexivity).
  assert (0 <= 3 <= 255) as H4 by lia.
  exact (copied_text_is_listed world_text "in" 3 (bytes_of_string "Hello")
           H1 H2 H3 H4).
Defined.

(** ** FLUSH on the command line *)

Lemma keeps_device_InitializeLibraries : keeps device InitializeLibraries.
Proof. unfold InitializeLibraries, OpenLibrary, fallible. keeps_tac. Qed.

Lemma keeps_files_InitializeLibraries : keeps w_files InitializeLibraries.
Proof. unfold InitializeLibraries, OpenLibrary, fallible. keeps_tac. Qed.

(** With FLUSH and without LIST, [main] is about the flush alone. *)
Lemma main_flush_branch (argc : Z) (args : Args) :
  arg_list args = false -> arg_flush args = true ->
  main argc (Some args)
  = (if argc =? 0 then ret RETURN_FAIL else
     ok <- InitializeLibraries ;;
     if negb ok then
       errorCode <- IoErr_or ERROR_INVALID_RESIDENT_LIBRARY ;;
       PrintFault errorCode "Clipboard" ;;;
       ret RETURN_FAIL
     else if 255 <? unit_of args then
       PrintFault ERROR_BAD_NUMBER "Clipboard" ;;;
       Cleanup ;;; ret RETURN_FAIL
     else
       result <- FlushClipboard (unit_of args) ;; Cleanup ;;; ret result).
Proof.
  intros Hl Hf. unfold main. cbv zeta. fold (unit_of args).
  rewrite Hl, Hf. cbn [negb andb].
  replace (match arg_copy args with
           | Some _ => false
           | None => match arg_paste args with
                     | Some _ => false
                     | None => false
                     end
           end) with false
    by (destruct (arg_copy args), (arg_paste args); reflexivity).
  reflexivity.
Qed.

Lemma main_flush_wr (argc : Z) (args : Args) (w0 : World) (c p : list Z) :
  sane w0 -> arg_list args = false -> arg_flush args = true ->
  hoare (wr w0 (unit_of args) c p) (main argc (Some args))
        (all_or_nothing w0 (unit_of args) c []).
Proof.
  intros Hs Hl Hf. rewrite (main_flush_branch argc args Hl Hf).
  set (u := unit_of args).
  assert (forall w, wr w0 u c p w -> all_or_nothing w0 u c [] RETURN_FAIL w)
    as Hfail by (intros w Hw; exists p; right; auto).
  destruct (argc =? 0); [apply hoare_ret, Hfail | ].
  eapply hoare_bind;
    [apply wr_keeps, keeps_device_InitializeLibraries | ]. intro ok.
  destruct (negb ok).
  { eapply hoare_bind; [apply wr_keeps; auto with keeps | ]. intro e.
    eapply hoare_bind; [apply wr_keeps; auto with keeps | ]. intros [].
    apply hoare_ret, Hfail. }
  destruct (255 <? u) eqn:Eu.
  { eapply hoare_bind; [apply wr_keeps; auto with keeps | ]. intros [].
    unfold Cleanup. intros w Hw. rewrite bind_run. apply Hfail, Hw. }
  apply Z.ltb_ge in Eu.
  eapply hoare_bind; [apply (FlushClipboard_wr w0 u Hs c p Eu) | ].
  intros r w Hw. unfold Cleanup. rewrite bind_run. exact Hw.
Qed.

(** X30: FLUSH comes before COPY and PASTE.  When FLUSH is given without
    LIST, a source and a destination given with it are ignored: in every
    environment whose error codes are not 0 the program either exits with
    [RETURN_OK] and leaves the unit with an empty clip, or exits with
    [RETURN_FAIL] and leaves the clip of the unit as it was, so that the
    unit never receives the source; and no file is touched. *)
Theorem main_FLUSH_ignores_COPY_and_PASTE (argc : Z) (args : Args)
  (w : World) :
  sane w -> arg_list args = false -> arg_flush args = true ->
  ((fst (main argc (Some args) w) = RETURN_OK /\
    cu_clip (w_units (snd (main argc (Some args) w)) (unit_of args)) = []) \/
   (fst (main argc (Some args) w) = RETURN_FAIL /\
    cu_clip (w_units (snd (main argc (Some args) w)) (unit_of args))
    = cu_clip (w_units w (unit_of args)))) /\
  w_files (snd (main argc (Some args) w)) = w_files w.
Proof.
  intros Hs Hl Hf. split.
  - destruct (main_flush_wr argc args w _ _ Hs Hl Hf w
                (wr_init w (unit_of args)))
      as (p & [(Hr & _ & _ & Hc & _) | (Hr & _ & _ & Hc & _)]); auto.
  - revert w Hs. rewrite (main_flush_branch argc args Hl Hf). intros w _.
    pose proof keeps_files_InitializeLibraries.
    pose proof keeps_files_FlushClipboard.
    assert (keeps w_files
              (if argc =? 0 then ret RETURN_FAIL else
               ok <- InitializeLibraries ;;
               if negb ok then
                 errorCode <- IoErr_or ERROR_INVALID_RESIDENT_LIBRARY ;;
                 PrintFault errorCode "Clipboard" ;;;
                 ret RETURN_FAIL
               else if 255 <? unit_of args then
                 PrintFault ERROR_BAD_NUMBER "Clipboard" ;;;
                 Cleanup ;;; ret RETURN_FAIL
               else
                 result <- FlushClipboard (unit_of args) ;;
                 Cleanup ;;; ret result)) as Hk
      by (unfold Cleanup; keeps_tac).
    apply Hk.
Qed.

(** FLUSH with a source and a destination. *)
Definition args_flush_copy : Args :=
  mkArgs (Some "in"%string) (Some "out"%string) None false true false.

Lemma main_FLUSH_witness :
  fst (main 1 (Some args_flush_copy) world_text) = RETURN_OK /\
  cu_clip (w_units (snd (main 1 (Some args_flush_copy) world_text)) 0) = [] /\
  w_files (snd (main 1 (Some args_flush_copy) world_text))
  = w_files world_text.
Proof.
  assert (sane world_text) as Hs by (intros n e He; discriminate He).
  destruct (main_FLUSH_ignores_COPY_and_PASTE 1 args_flush_copy world_text
              Hs eq_refl eq_refl) as ([(Hr & Hc) | (Hr & _)] & Hfiles).
  - split; [exact Hr | ]. split; [exact Hc | exact Hfiles].
  - vm_compute in Hr. discriminate Hr.
Defined.

(** * The fault of an empty paste and the preview of the listing *)

(** ** The fault of a paste from an empty unit *)

(** The faults of [PasteFromClipboard] by what they report: the unit could
    not be opened, or not be opened for reading; what the unit holds is
    nothing that the converter makes an object of; the handle of the
    reader could not be allocated. *)
Definition unit_unavailable (o : Output) : Prop :=
  exists code,
    o = OutFault code "Clipboard: Could not open clipboard" \/
    o = OutFault code "Clipboard: Could not open clipboard for reading".

Definition unsupported_content (o : Output) : Prop :=
  exists code,
    o = OutFault code
          "Clipboard: Could not create datatype object from clipboard".

Definition no_memory (o : Output) : Prop :=
  o = OutFault ERROR_NO_FREE_STORE "Clipboard: Could not allocate IFF handle".

(** A path that returns [RETURN_FAIL] after it printed one fault, which is
    of one of the kinds [K]. *)
Definition failed_with (K : Output -> Prop) (w0 : World) (r : Z) (w : World)
  : Prop :=
  r = RETURN_FAIL /\ exists o, frame (add_out [o] w0) w /\ K o.

Ltac hfail_with :=
  apply hoare_ret; intros ? ?; split;
  [reflexivity | eexists; split; [eassumption | ]].

Lemma paste_object_empty_fault (fileName : string) (h : ClipboardHandle)
  (w0 : World) :
  w_dt_clip w0 (cu_clip (w_units w0 (cbh_Unit h))) = None ->
  hoare (frame w0) (paste_object fileName h)
        (failed_with (fun o => unit_unavailable o \/ unsupported_content o \/
                               no_memory o) w0).
Proof.
  intro Hnone. unfold paste_object, failed_with, PrintFault.
  hbind CBReadDone_spec. intro h1. apply hoare_pure. intro Hu1.
  hbind AllocIFF_spec. intros [i | ]; apply hoare_pure; intro Hi.
  - cbv zeta. hbind OpenIFF_spec. intros [e i1]. apply hoare_pure.
    cbn [fst snd]. intros (_ & Hwr).
    destruct (negb (e =? 0)) eqn:E.
    + hbind emit_spec. intros []. hbind framed_FreeIFF. intros [].
      hbind framed_CloseClipboard. intros []. hfail_with.
      left. eexists. right. reflexivity.
    + apply negb_false_iff, Z.eqb_eq in E. specialize (Hwr E).
      rewrite Hu1. hbind NewDTObject_clip_none; [exact Hnone | ].
      intro od. apply hoare_pure. intros ->.
      hbind framed_IoErr_or. intro errorCode.
      hbind emit_spec. intros [].
      hbind CloseIFF_reader_spec; [exact Hwr | ].
      intro i2. apply hoare_pure. intros _.
      hbind framed_FreeIFF. intros [].
      hbind framed_CloseClipboard. intros []. hfail_with.
      right. left. eexists. reflexivity.
  - hbind emit_spec. intros []. hbind framed_CloseClipboard. intros [].
    hfail_with. right. right. reflexivity.
Qed.

(** The test for an existing destination finds none when there is none or
    FORCE is given, whatever the environment decides. *)
Lemma probe_absent (name : string) (force : bool) (w0 : World) :
  force = true \/ w_files w0 name = None ->
  hoare (frame w0) (if force then ret None else Open_OLDFILE name)
        (fun o w => frame w0 w /\ o = None).
Proof.
  intro Hf. destruct force.
  - apply hoare_ret. auto.
  - destruct Hf as [Hf | Hf]; [discriminate | ].
    unfold Open_OLDFILE. hbind framed_fault. intro f.
    destruct f as [ | e | n].
    + apply frame_get. intros w1 Hw1. rewrite (fr_files _ _ Hw1), Hf.
      hbind framed_SetIoErr. intros []. apply hoare_ret. auto.
    + hbind framed_SetIoErr. intros []. apply hoare_ret. auto.
    + apply frame_get. intros w1 Hw1. rewrite (fr_files _ _ Hw1), Hf.
      hbind framed_SetIoErr. intros []. apply hoare_ret. auto.
Qed.

Lemma PasteFromClipboard_empty_fault (fileName : string) (unit : Z)
  (force : bool) (w0 : World) :
  cu_clip (w_units w0 unit) = [] ->
  w_dt_clip w0 [] = None ->
  is_empty fileName = false ->
  force = true \/ w_files w0 fileName = None ->
  hoare (frame w0) (PasteFromClipboard fileName unit force)
        (failed_with (fun o => unit_unavailable o \/ unsupported_content o \/
                               no_memory o) w0).
Proof.
  intros Hempty Hnone Hn Hf. unfold PasteFromClipboard.
  hbind framed_uninitialised. intro iffHeader. rewrite Hn.
  hbind (probe_absent fileName force w0 Hf). intro t. apply hoare_pure.
  intros ->.
  hbind OpenClipboard_spec. intros [h | ]; apply hoare_pure; intro Hh.
  - destruct (Hh h eq_refl) as (Hu & _). clear Hh. cbv zeta.
    rewrite DoIO_is_read by reflexivity.
    hbind DoIO_read_spec. intro r. apply hoare_pure. rewrite Hempty.
    intros (_ & _ & Hr).
    assert (io_Actual r = 0) as Ha.
    { destruct Hr as [(Ha & _) | (_ & Hd & Ha & _)]; [exact Ha | ].
      rewrite Ha, Hd, skipn_nil, firstn_nil. reflexivity. }
    rewrite header_is_text_short by lia.
    apply paste_object_empty_fault. cbn [cbh_Unit with_req].
    rewrite Hu, Hempty. exact Hnone.
  - unfold PrintFault, failed_with. hbind framed_IoErr_or. intro e.
    hbind emit_spec. intros []. hfail_with.
    left. eexists. left. reflexivity.
Qed.

(** In an environment that reports no failure the unit is opened and read,
    and the fault is that of the converter. *)
Lemma PasteFromClipboard_empty_coop (fileName : string) (unit : Z)
  (force : bool) (w0 : World) :
  cooperative w0 ->
  cu_clip (w_units w0 unit) = [] ->
  w_dt_clip w0 [] = None ->
  is_empty fileName = false ->
  force = true \/ w_files w0 fileName = None ->
  hoare (frame w0) (PasteFromClipboard fileName unit force)
        (failed_with unsupported_content w0).
Proof.
  intros Hcoop Hempty Hnone Hn Hf. unfold PasteFromClipboard.
  hbind framed_uninitialised. intro iffHeader. rewrite Hn.
  hbind (probe_absent fileName force w0 Hf). intro t. apply hoare_pure.
  intros ->.
  hbind (frame_OpenClipboard w0 unit Hcoop). intro oc. apply hoare_pure.
  intros ->. cbv zeta. rewrite DoIO_is_read by reflexivity.
  hbind (frame_header_read w0 unit Hcoop); [reflexivity | reflexivity | ].
  intro r. apply hoare_pure. rewrite Hempty, firstn_nil. intros (Ha & Hd).
  rewrite Hd in Ha. change (Zlen []) with 0 in Ha.
  rewrite header_is_text_short by lia.
  unfold paste_object, failed_with, PrintFault.
  hbind CBReadDone_spec. intro h1. apply hoare_pure. intro Hu1.
  hbind (frame_AllocIFF w0 Hcoop). intro oi. apply hoare_pure. intros ->.
  cbv zeta. hbind (frame_OpenIFF w0 Hcoop). intro x. apply hoare_pure.
  intros ->. change (negb (0 =? 0)) with false. cbv iota.
  rewrite Hu1. cbn [cbh_Unit with_req].
  hbind NewDTObject_clip_none; [rewrite Hempty; exact Hnone | ].
  intro od. apply hoare_pure. intros ->.
  hbind framed_IoErr_or. intro errorCode.
  hbind emit_spec. intros [].
  hbind CloseIFF_reader_spec; [reflexivity | ].
  intro i2. apply hoare_pure. intros _.
  hbind framed_FreeIFF. intros [].
  hbind framed_CloseClipboard. intros []. hfail_with.
  eexists. reflexivity.
Qed.




(** The fault of the paste from the empty unit 0 of [world0]. *)
Example paste_of_empty_unit_example :
  w_out (snd (PasteFromClipboard "out" 0 false world0))
  = [OutFault ERROR_OBJECT_NOT_FOUND
       "Clipboard: Could not create datatype object from clipboard"] /\
  w_files (snd (PasteFromClipboard "out" 0 false world0)) "out"%string = None.
Proof. vm_compute. split; reflexivity. Qed.

(** ** The preview that the listing prints *)

(** Two worlds with the same device: the units, the decisions of the
    environment and the number of decisions taken. *)
Definition same_device (w w' : World) : Prop :=
  w_units w = w_units w' /\ w_faults w = w_faults w' /\ w_tick w = w_tick w'.

(** An operation whose result depends on the device only. *)
Definition device_only (A : Type) (m : M A) : Prop :=
  forall w w', same_device w w' ->
               fst (m w) = fst (m w') /\ same_device (snd (m w)) (snd (m w')).

Arguments device_only {A} m.

Lemma device_ret (A : Type) (a : A) : device_only (ret a).
Proof. intros w w' H. split; [reflexivity | exact H]. Qed.

Lemma device_bind (A B : Type) (m : M A) (k : A -> M B) :
  device_only m -> (forall a, device_only (k a)) -> device_only (bind m k).
Proof.
  intros Hm Hk w w' H. rewrite !bind_run.
  destruct (Hm w w' H) as (E & H1). rewrite E. apply Hk, H1.
Qed.

Lemma device_get (B : Type) (k : World -> M B) :
  (forall w w', same_device w w' -> k w = k w') ->
  (forall w, device_only (k w)) -> device_only (bind get_world k).
Proof.
  intros Hk Hd w w' H. rewrite !bind_run. cbn [get_world fst snd].
  rewrite (Hk w w' H). apply Hd, H.
Qed.

Lemma device_fault : device_only fault.
Proof.
  intros w w' (Hu & Hf & Ht). unfold fault, same_device. cbn.
  rewrite Hf, Ht. auto.
Qed.

Lemma device_log (e : DevEvent) : device_only (log e).
Proof. intros w w' H. split; [reflexivity | exact H]. Qed.

Lemma device_diverge : device_only diverge.
Proof. intros w w' H. split; [reflexivity | exact H]. Qed.

Create HintDb device.

#[local] Hint Resolve device_ret device_fault device_log device_diverge
  : device.

Ltac device_step :=
  match goal with
  | |- device_only (bind _ _) => apply device_bind; [ | intro ]
  | |- device_only (ret _) => apply device_ret
  | |- device_only (if ?b then _ else _) => destruct b
  | |- device_only (match ?x with _ => _ end) => destruct x
  | |- device_only _ => solve [auto with device]
  end.

Ltac device_tac := repeat device_step.

Lemma device_fallible : device_only fallible.
Proof. unfold fallible. device_tac. Qed.

Lemma device_AllocMem : device_only AllocMem.
Proof. unfold AllocMem. apply device_bind; [apply device_fallible | ].
  intro e. apply device_ret. Qed.

Lemma device_DoIO_read (u : Z) (r : IOClipReq) : device_only (DoIO_read u r).
Proof.
  unfold DoIO_read. apply device_bind; [apply device_fault | ].
  intros [ | e | n].
  - apply device_get; [ | intro w; device_tac].
    intros w w' (Hu & _). rewrite Hu. reflexivity.
  - device_tac.
  - apply device_get; [ | intro w; device_tac].
    intros w w' (Hu & _). rewrite Hu. reflexivity.
Qed.

Lemma device_stream_read (n : Z) (i : IFFHandle) :
  device_only (stream_read n i).
Proof.
  unfold stream_read. rewrite DoIO_is_read by reflexivity.
  apply device_bind; [apply device_DoIO_read | ]. intro r. apply device_ret.
Qed.

#[local] Hint Resolve device_fallible device_AllocMem device_DoIO_read
  device_stream_read : device.

Lemma device_next_chunk (i : IFFHandle) : device_only (next_chunk i).
Proof. unfold next_chunk. device_tac. Qed.

#[local] Hint Resolve device_next_chunk : device.

Lemma device_ParseIFF_scan (fuel : nat) :
  forall i, device_only (ParseIFF_scan fuel i).
Proof.
  induction fuel as [ | fuel IH]; intro i; cbn [ParseIFF_scan].
  - device_tac.
  - cbv zeta. device_tac; apply IH.
Qed.

Lemma device_ParseIFF (i : IFFHandle) : device_only (ParseIFF i).
Proof.
  unfold ParseIFF. apply device_get.
  - intros w w' (Hu & _). unfold scan_bound. rewrite Hu. reflexivity.
  - intro w. apply device_ParseIFF_scan.
Qed.

Lemma device_ReadChunkBytes (i : IFFHandle) (n : Z) :
  device_only (ReadChunkBytes i n).
Proof. unfold ReadChunkBytes. device_tac. Qed.

#[local] Hint Resolve device_ParseIFF device_ReadChunkBytes : device.

Lemma device_preview_chunk (i : IFFHandle) : device_only (preview_chunk i).
Proof. unfold preview_chunk. device_tac. Qed.

(** The preview of a text: its first 40 bytes, sanitised. *)
Definition preview_of (p : list Z) : list Z :=
  map sanitize_byte (firstn 40 p).

(** The buffer of the preview after the read and the replacement of its
    bytes, and what [Printf] prints of it. *)
Lemma preview_buffer (p : list Z) :
  0 < Zlen p ->
  sanitize_buffer (Z.min 40 (Zlen p))
    (overlay (firstn (Z.to_nat (Z.min 40 (Zlen p))) p)
             (repeat 0 (Z.to_nat (Z.min 40 (Zlen p) + 1))))
  = preview_of p ++ [0].
Proof.
  intro Hp. set (k := Z.min 40 (Zlen p)).
  assert (firstn (Z.to_nat k) p = firstn 40 p) as Hq.
  { unfold k, Zlen in *. destruct (Z.le_ge_cases 40 (Z.of_nat (List.length p))).
    - rewrite Z.min_l by lia. reflexivity.
    - rewrite Z.min_r by lia. rewrite Nat2Z.id.
      rewrite !firstn_all2 by lia. reflexivity. }
  assert (List.length (firstn 40 p) = Z.to_nat k) as Hl.
  { rewrite length_firstn. unfold k, Zlen in *. lia. }
  assert (0 < k) as Hk by (unfold k; lia).
  unfold sanitize_buffer, overlay, preview_of. rewrite Hq, Hl.
  replace (Z.to_nat (k + 1)) with (Z.to_nat k + 1)%nat by lia.
  rewrite repeat_app, skipn_app, repeat_length, Nat.sub_diag.
  rewrite (skipn_all2 (n := Z.to_nat k) (repeat 0 (Z.to_nat k)))
    by (rewrite repeat_length; lia).
  rewrite skipn_O. cbn [repeat app].
  rewrite firstn_app, Hl, Nat.sub_diag, firstn_O, app_nil_r.
  rewrite firstn_all2 by lia.
  rewrite (skipn_all2 (n := S (Z.to_nat k)))
    by (rewrite length_app; cbn [List.length]; lia).
  reflexivity.
Qed.

Lemma printed_preview (p : list Z) :
  printed 40 (preview_of p ++ [0]) = preview_of p.
Proof.
  unfold printed, preview_of. rewrite until_NUL_sanitized.
  apply firstn_all2. rewrite length_map, length_firstn. lia.
Qed.

Section ListPreview.

Variable w0 : World.
Variable name : string.
Variable u : Z.
Variable cs : list (Z * list Z).

Hypothesis coop : forall n, w_faults w0 n = NoFault.
Hypothesis Hclip : cu_clip (w_units w0 u) = form ID_FTXT (chunks cs).
Hypothesis Hwf : Forall wf_chunk cs.
Hypothesis Hsize : 4 + Zlen (chunks cs) < 2 ^ 31.

(** A read of at most [n] bytes inside a leaf chunk. *)
Lemma ReadChunkBytes_in_leaf (acc : list Z) (n : Z) (i : IFFHandle)
  (pre rest : list (Z * list Z)) (c : Z * list Z) (k : Z) :
  cs = pre ++ c :: rest -> 0 <= k < Zlen (snd c) -> 0 < n ->
  stB u cs i pre c k ->
  hoare (pst w0 name acc) (ReadChunkBytes i n)
        (fun x w =>
           pst w0 name acc w /\
           fst (fst x) = Z.min n (Zlen (snd c) - k) /\
           snd (fst x) = firstn (Z.to_nat (Z.min n (Zlen (snd c) - k)))
                                (skipn (Z.to_nat k) (snd c))).
Proof.
  intros Hcs Hk Hn HB. unfold ReadChunkBytes.
  pose proof HB as (Hu & Ho & Hs & Hstop & Hwr). rewrite Hs.
  cbn [leaf_node cn_Size cn_Scan cn_ID cn_Type cn_Start].
  set (m := Z.min n (Zlen (snd c) - k)).
  assert (0 < m <= Zlen (snd c) - k) as Hm by (unfold m; lia).
  assert ((m <=? 0) = false) as -> by lia.
  eapply hoare_bind;
    [apply (pst_stream_read w0 name u cs coop Hclip acc m i _ _ HB) | ].
  intros [[d e] i1]. apply hoare_pure. cbn [fst snd].
  intros (-> & Hd & H1).
  rewrite (clip_in_leaf w0 u cs Hclip Hwf Hsize pre rest c k Hcs) in Hd by lia.
  rewrite firstn_app in Hd.
  replace (Z.to_nat m - List.length (skipn (Z.to_nat k) (snd c)))%nat
    with 0%nat in Hd
    by (rewrite length_skipn; unfold Zlen in Hm; lia).
  rewrite firstn_O, app_nil_r in Hd.
  assert (Zlen d = m) as Hdl.
  { rewrite Hd. unfold Zlen. rewrite length_firstn, length_skipn.
    unfold Zlen in Hm. lia. }
  change (negb (0 =? 0)) with false. cbv iota. rewrite Hdl.
  assert ((m <? m) = false) as -> by lia.
  apply hoare_ret. intros w Hw. split; [exact Hw | ]. cbn [fst snd].
  split; [reflexivity | exact Hd].
Qed.

(** The scan for the preview stops in the first CHRS chunk, and the buffer
    holds the sanitised first 40 bytes of its payload and a NUL. *)
Lemma preview_chunk_text (acc : list Z) (i : IFFHandle)
  (skipped after : list (Z * list Z)) (p : list Z) :
  hstate u i 0 [] ->
  next_CHRS cs = Some (skipped, p, after) -> 0 < Zlen p ->
  hoare (pst w0 name acc) (preview_chunk i)
        (fun x _ => fst (fst x) = Some (preview_of p ++ [0]) /\
                    snd (fst x) = Z.min 40 (Zlen p)).
Proof.
  intros Hst En Hp. unfold preview_chunk.
  eapply hoare_bind;
    [apply (ParseIFF_position w0 name u cs coop Hclip Hwf Hsize cs i acc
              (pos_init u cs i cs eq_refl Hst)) | ].
  intros [e i1]. apply hoare_pure. unfold found. rewrite En. cbn [fst snd].
  intros (-> & pre & HB & Hcs).
  change (0 =? 0) with true. cbv iota.
  pose proof HB as (_ & _ & Hs & _). unfold CurrentChunk. rewrite Hs.
  cbn [leaf_node cn_Type cn_ID cn_Size cn_Scan fst snd].
  rewrite !Z.eqb_refl. cbn [andb]. cbv zeta.
  assert ((if 40 <? Zlen p then 40 else Zlen p) = Z.min 40 (Zlen p)) as ->.
  { destruct (Z.ltb_spec 40 (Zlen p)); lia. }
  set (k := Z.min 40 (Zlen p)).
  assert (0 < k) as Hk by (unfold k; lia).
  assert ((0 <? k) = true) as -> by lia.
  eapply hoare_bind; [apply (pst_AllocMem w0 name coop) | ].
  intro ok. apply hoare_pure. intros ->.
  eapply hoare_bind;
    [apply (ReadChunkBytes_in_leaf acc k i1 pre after (ID_CHRS, p) 0 Hcs);
     [cbn [snd]; lia | exact Hk | exact HB] | ].
  intros [[textLen data] i2]. apply hoare_pure. cbn [fst snd].
  rewrite Z.sub_0_r. change (Z.to_nat 0) with 0%nat. cbn [skipn].
  replace (Z.min k (Zlen p)) with k by (unfold k; lia).
  intros (-> & ->).
  assert ((0 <? k) = true) as -> by lia.
  apply hoare_ret. intros w _. cbn [fst snd]. split; [ | reflexivity].
  unfold k. rewrite (preview_buffer p Hp). reflexivity.
Qed.

End ListPreview.

Lemma same_device_with_file (name : string) (c : list Z) (w : World) :
  same_device w (with_file name c w).
Proof. repeat split. Qed.

Section ListText.

Variable w0 : World.
Variable u : Z.
Variable cs : list (Z * list Z).
Variable skipped after : list (Z * list Z).
Variable p : list Z.

Hypothesis coop : cooperative w0.
Hypothesis Hclip : cu_clip (w_units w0 u) = form ID_FTXT (chunks cs).
Hypothesis Hwf : Forall wf_chunk cs.
Hypothesis Hsize : 4 + Zlen (chunks cs) < 2 ^ 31.
Hypothesis Hnext : next_CHRS cs = Some (skipped, p, after).
Hypothesis Hp : 0 < Zlen p.

(** The result of the scan does not depend on the files, so it is the one
    found while a text is pasted. *)
Lemma frame_preview_chunk (i : IFFHandle) :
  hstate u i 0 [] ->
  hoare (frame w0) (preview_chunk i)
        (fun x w => frame w0 w /\ iff_Write (snd x) = false /\
                    fst (fst x) = Some (preview_of p ++ [0]) /\
                    snd (fst x) = Z.min 40 (Zlen p)).
Proof.
  intros Hst w Hw.
  destruct (preview_chunk_spec i w0 w Hw) as (Hf & (_ & _ & Hwr) & _).
  split; [exact Hf | ].
  split; [rewrite Hwr; apply Hst | ].
  set (w' := with_file "preview" [] w).
  destruct (device_preview_chunk i w w' (same_device_with_file _ _ w))
    as (-> & _).
  assert (forall n, w_faults w' n = NoFault) as Hc'.
  { intro n. change (w_faults w') with (w_faults w).
    rewrite (fr_faults _ _ Hw). apply coop. }
  assert (cu_clip (w_units w' u) = form ID_FTXT (chunks cs)) as Hclip'.
  { change (w_units w') with (w_units w). rewrite (fr_clip _ _ Hw).
    exact Hclip. }
  apply (preview_chunk_text w' "preview" u cs Hc' Hclip' Hwf Hsize [] i
           skipped after p Hst Hnext Hp w').
  repeat split.
Qed.

Lemma frame_list_preview (h : ClipboardHandle) :
  cbh_Unit h = u ->
  hoare (frame w0) (list_preview h)
        (fun x w => frame w0 w /\
                    fst (fst x) = Some (preview_of p ++ [0]) /\
                    snd (fst x) = Z.min 40 (Zlen p)).
Proof.
  intro Hu. unfold list_preview.
  eapply hoare_bind; [apply (frame_AllocIFF w0 coop) | ].
  intro oi. apply hoare_pure. intros ->. cbv zeta.
  eapply hoare_bind; [apply (frame_OpenIFF w0 coop) | ].
  intro x. apply hoare_pure. intros ->.
  change (0 =? 0) with true. cbv iota.
  eapply hoare_bind; [apply (frame_StopChunk w0 coop) | ].
  intro x. apply hoare_pure. intros ->.
  change (0 =? 0) with true. cbv iota.
  cbn [InitIFFasClip iff_Stream iff_Write iff_Stack iff_Stop].
  eapply hoare_bind.
  - apply frame_preview_chunk.
    unfold hstate, stream_offset. cbn. repeat split. exact Hu.
  - intros [[buf tl] i1]. apply hoare_pure. cbn [fst snd].
    intros (Hwr & -> & ->).
    eapply hoare_bind; [apply CloseIFF_reader_spec; exact Hwr | ].
    intro i2. apply hoare_pure. intros _.
    eapply hoare_bind; [apply framed_FreeIFF | ]. intros [].
    apply hoare_ret. auto.
Qed.

(** The header read of the listing. *)
Lemma frame_list_header (r : IOClipReq) :
  io_Offset r = 0 -> io_Length r = 12 ->
  hoare (frame w0) (DoIO_read u r)
        (fun r' w =>
           frame w0 w /\ io_Actual r' = 12 /\ io_Error r' = 0 /\
           io_Data r' = firstn 12 (form ID_FTXT (chunks cs))).
Proof.
  intros Ho Hl. unfold DoIO_read.
  eapply hoare_bind; [apply (frame_fault w0 coop) | ].
  intro f. apply hoare_pure. intros ->.
  apply frame_get. intros w1 Hw1.
  eapply hoare_bind; [apply framed_log; exact I | ]. intros [].
  apply hoare_ret. intros w Hw. split; [exact Hw | ].
  cbn [complete io_Actual io_Data io_Error].
  rewrite (fr_clip _ _ Hw1 u), Ho, Hl, Hclip.
  change (Z.to_nat 12) with 12%nat. change (Z.to_nat 0) with 0%nat.
  cbn [skipn]. split; [ | split; reflexivity].
  rewrite form_head12. reflexivity.
Qed.

(** The row of the listing for the unit that holds the text. *)
Lemma ListClipboards_unit_text :
  hoare (frame w0) (ListClipboards_unit u)
        (fun has w =>
           has = true /\
           exists row, frame (add_out [OutRow row] w0) w /\
                       row_unit row = u /\
                       row_preview row = Some (preview_of p)).
Proof.
  unfold ListClipboards_unit.
  eapply hoare_bind; [apply framed_uninitialised | ]. intro cbuff.
  eapply hoare_bind; [apply (frame_OpenClipboard w0 u coop) | ].
  intro oc. apply hoare_pure. intros ->. cbv zeta.
  rewrite DoIO_is_read by reflexivity.
  eapply hoare_bind; [apply frame_list_header; reflexivity | ].
  intro r. apply hoare_pure. intros (Ha & He & Hd).
  rewrite Ha, He. change ((12 =? 12) && (0 =? 0)) with true. cbv iota.
  rewrite form_head12 in Hd.
  assert (ULONG_at (overlay (io_Data r) cbuff) 0 = ID_FORM) as ->.
  { rewrite ULONG_at_overlay by (rewrite Hd; cbn; lia).
    rewrite Hd, ULONG_at_0. apply be32_bytes_of_ULONG, ID_range. }
  assert (ULONG_at (overlay (io_Data r) cbuff) 8 = ID_FTXT) as ->.
  { rewrite ULONG_at_overlay by (rewrite Hd; cbn; lia).
    rewrite Hd.
    change (ULONG_at (bytes_of_ULONG ID_FORM ++
                      bytes_of_ULONG (4 + Zlen (chunks cs)) ++
                      bytes_of_ULONG ID_FTXT) 8)
      with (be32 (bytes_of_ULONG ID_FTXT)).
    apply be32_bytes_of_ULONG, ID_range. }
  rewrite !Z.eqb_refl.
  eapply hoare_bind with
    (Q := fun x w => frame w0 w /\
                     fst (fst (fst (fst (fst x)))) = true /\
                     snd (fst (fst x)) = Some (preview_of p ++ [0]) /\
                     snd (fst x) = Z.min 40 (Zlen p)).
  - eapply hoare_bind; [apply frame_list_preview; reflexivity | ].
    intros [[tp tl] h1]. apply hoare_pure. cbn [fst snd].
    intros (-> & ->).
    eapply hoare_bind; [apply CBReadDone_spec | ].
    intro h2. apply hoare_pure. intros _.
    apply hoare_ret. intros w Hw. cbn [fst snd]. auto.
  - intros [[[[[has ft] fs] tp] tl] h1]. apply hoare_pure. cbn [fst snd].
    intros (-> & -> & ->).
    assert ((0 <? Z.min 40 (Zlen p)) = true) as -> by lia.
    eapply hoare_bind; [apply emit_spec | ]. intros [].
    eapply hoare_bind; [apply framed_CloseClipboard | ]. intros [].
    apply hoare_ret. intros w Hw. split; [reflexivity | ].
    eexists. split; [exact Hw | ]. cbn [row_unit row_preview].
    split; [reflexivity | ]. rewrite printed_preview. reflexivity.
Qed.

End ListText.

Section ListingPreview.

Variable u : Z.
Variable cs : list (Z * list Z).
Variable skipped after : list (Z * list Z).
Variable p : list Z.

Hypothesis Hwf : Forall wf_chunk cs.
Hypothesis Hsize : 4 + Zlen (chunks cs) < 2 ^ 31.
Hypothesis Hnext : next_CHRS cs = Some (skipped, p, after).
Hypothesis Hp : 0 < Zlen p.

(** The rows of the loop of the listing: the unit that holds the text has
    a row when the loop passes it, and every row of that unit shows the
    preview of the text. *)
Lemma ListClipboards_loop_preview (n : nat) :
  forall (a c : Z) (w0 : World),
    cooperative w0 ->
    cu_clip (w_units w0 u) = form ID_FTXT (chunks cs) ->
    hoare (frame w0) (ListClipboards_loop n a c)
          (fun _ w =>
             exists rows,
               frame (add_out (map OutRow rows) w0) w /\
               Forall (fun row => row_unit row = u ->
                                  row_preview row = Some (preview_of p))
                      rows /\
               (In u (units_from a n) ->
                exists row, In row rows /\ row_unit row = u)).
Proof.
  induction n as [ | n IH]; intros a c w0 Hc Hclip.
  - apply hoare_ret. intros w Hw. exists []. split; [ | split].
    + apply add_out_nil, Hw.
    + constructor.
    + intros [].
  - intros w Hw. cbn [ListClipboards_loop]. rewrite bind_run.
    cbn [units_from In].
    destruct (Z.eq_dec a u) as [-> | Hau].
    + destruct (ListClipboards_unit_text w0 u cs skipped after p Hc Hclip
                  Hwf Hsize Hnext Hp w Hw) as (-> & row & Hf & Hru & Hrp).
      destruct (IH (u + 1) (c + 1) (add_out [OutRow row] w0) Hc Hclip _ Hf)
        as (rows & Hf' & Hall & _).
      exists (row :: rows). split; [ | split].
      * rewrite add_out_add_out in Hf'. exact Hf'.
      * constructor; [intros _; exact Hrp | exact Hall].
      * intros _. exists row. split; [left; reflexivity | exact Hru].
    + destruct (ListClipboards_unit_spec a w0 w Hw)
        as [(-> & Hf) | (-> & row & Hf & _ & Hrow)].
      * destruct (IH (a + 1) c w0 Hc Hclip _ Hf) as (rows & Hf' & Hall & Hin).
        exists rows. split; [exact Hf' | ]. split; [exact Hall | ].
        intros [He | Hi]; [contradiction | exact (Hin Hi)].
      * destruct (IH (a + 1) (c + 1) (add_out [OutRow row] w0) Hc Hclip _ Hf)
          as (rows & Hf' & Hall & Hin).
        exists (row :: rows). split; [ | split].
        -- rewrite add_out_add_out in Hf'. exact Hf'.
        -- constructor; [ | exact Hall].
           intro Hru. exfalso. apply Hau. rewrite <- Hru.
           symmetry. exact (proj1 Hrow).
        -- intros [He | Hi]; [contradiction | ].
           destruct (Hin Hi) as (row' & Hr' & Hu').
           exists row'. split; [right; exact Hr' | exact Hu'].
Qed.

Lemma ListClipboards_preview (w : World) :
  cooperative w -> 0 <= u <= 255 ->
  cu_clip (w_units w u) = form ID_FTXT (chunks cs) ->
  exists o,
    w_out (snd (ListClipboards w)) = w_out w ++ o /\
    (exists row, In row (rows_of o) /\ row_unit row = u) /\
    Forall (fun row => row_unit row = u ->
                       row_preview row = Some (preview_of p)) (rows_of o).
Proof.
  intros Hc Hu Hclip.
  assert (hoare (frame w) ListClipboards
            (fun _ w' =>
               exists o,
                 w_out w' = w_out w ++ o /\
                 (exists row, In row (rows_of o) /\ row_unit row = u) /\
                 Forall (fun row => row_unit row = u ->
                                    row_preview row = Some (preview_of p))
                        (rows_of o))) as H.
  { unfold ListClipboards, Printf.
    eapply hoare_bind; [apply emit_spec | ]. intros [].
    eapply hoare_bind; [apply emit_spec | ]. intros [].
    eapply hoare_bind; [apply emit_spec | ]. intros [].
    rewrite !add_out_add_out.
    eapply hoare_bind; [apply ListClipboards_loop_preview; assumption | ].
    intros c w1 (rows & Hw & Hall & Hin).
    rewrite add_out_add_out in Hw.
    rewrite !bind_run. cbn [ret snd].
    exists ([OutText "Current clipboard contents:";
             OutText "Unit  Type    Size    Preview (FTXT only)";
             OutText "----  ----    ----    -------------------"] ++
            map OutRow rows ++
            [if c =? 0 then OutText "No clipboard units contain data."
             else OutTotal c]).
    rewrite rows_of_listing by (destruct (c =? 0); reflexivity).
    split; [ | split; [ | exact Hall]].
    - destruct (c =? 0); cbn [emit Printf snd w_out];
        rewrite (fr_out _ _ Hw); cbn [add_out w_out];
        rewrite <- !app_assoc; reflexivity.
    - apply Hin. apply In_units_from. lia. }
  exact (H w (frame_refl w)).
Qed.

End ListingPreview.

(** C7.  The preview the listing prints for a textual clip has at most 40
    characters and is the image, byte by byte and in order, of bytes of the
    clip under the sanitising map: newline (10), carriage return (13) and
    tab (9) become a space (32); every other byte below 32 or from 127 on
    becomes a period (46); the printable bytes 32 to 126 are unchanged.
    And the preview is printed: in an environment that reports no failure,
    for a unit between 0 and 255 whose clip is a FORM FTXT of well-formed
    chunks in which the first CHRS chunk has a payload that is not empty,
    the listing has a row for the unit, and the preview of every row of the
    unit is the sanitised image of the first 40 bytes of that payload, or
    of all of it when it is shorter. *)
Theorem C7_listing_preview_sanitised :
  (forall b : Z,
     (b = 10 \/ b = 13 \/ b = 9 -> sanitize_byte b = 32) /\
     (b < 32 \/ 127 <= b -> b <> 10 -> b <> 13 -> b <> 9 ->
      sanitize_byte b = 46) /\
     (32 <= b <= 126 -> sanitize_byte b = b)) /\
  (forall w : World,
     exists o,
       w_out (snd (ListClipboards w)) = w_out w ++ o /\
       Forall (fun row =>
                 forall p, row_preview row = Some p ->
                   (List.length p <= 40)%nat /\
                   exists n off,
                     p = map sanitize_byte
                           (firstn n (skipn off
                              (cu_clip (w_units w (row_unit row))))))
              (rows_of o)) /\
  (forall (w : World) (u : Z) (cs skipped after : list (Z * list Z))
          (p : list Z),
     cooperative w -> 0 <= u <= 255 ->
     cu_clip (w_units w u) = form ID_FTXT (chunks cs) ->
     Forall wf_chunk cs -> 4 + Zlen (chunks cs) < 2 ^ 31 ->
     next_CHRS cs = Some (skipped, p, after) -> 0 < Zlen p ->
     exists o,
       w_out (snd (ListClipboards w)) = w_out w ++ o /\
       (exists row, In row (rows_of o) /\ row_unit row = u) /\
       Forall (fun row =>
                 row_unit row = u ->
                 row_preview row = Some (map sanitize_byte (firstn 40 p)))
              (rows_of o)).
Proof.
  split; [ | split].
  - intro b. unfold sanitize_byte. repeat split.
    + intros [-> | [-> | ->]]; reflexivity.
    + intros Hout H10 H13 H9.
      assert ((b <? 32) || (127 <=? b) = true) as ->.
      { apply orb_true_iff. destruct Hout; [left | right]; lia. }
      assert ((b =? chr "010") || (b =? chr "013") || (b =? chr "009") = false)
        as ->.
      { change (chr "010") with 10. change (chr "013") with 13.
        change (chr "009") with 9.
        repeat (apply orb_false_iff; split); apply Z.eqb_neq; assumption. }
      reflexivity.
    + intro Hin.
      assert ((b <? 32) || (127 <=? b) = false) as ->.
      { apply orb_false_iff. split; lia. }
      reflexivity.
  - intro w.
    destruct (ListClipboards_spec w w (frame_refl w)) as (_ & o & Hf & _ & Hall).
    exists o. split; [exact (fr_out _ _ Hf) | ].
    eapply Forall_impl; [ | exact Hall].
    intros row (_ & _ & (_ & _ & _ & _ & Hp)) p Hrow.
    destruct (Hp p Hrow) as (_ & Hlen & Hmap). split; assumption.
  - intros w u cs skipped after p Hc Hu Hclip Hwf Hsize Hnext Hp.
    exact (ListClipboards_preview u cs skipped after p Hwf Hsize Hnext Hp w
             Hc Hu Hclip).
Qed.

(** Unit 0 holds a text whose first chunk is no CHRS chunk and whose CHRS
    chunk has 47 bytes, with control characters among the first 40. *)
Definition chunks_preview : list (Z * list Z) :=
  [ (MAKE_ID (chr "N") (chr "A") (chr "M") (chr "E"), bytes_of_string "x");
    (ID_CHRS,
     bytes_of_string "a" ++ [9; 10; 13; 0; 200; 127] ++
     bytes_of_string "0123456789012345678901234567890123456789") ].

Definition world_preview : World :=
  with_clip 0 (form ID_FTXT (chunks chunks_preview)) world0.

Lemma C7_witness :
  cooperative world_preview /\
  0 <= 0 <= 255 /\
  cu_clip (w_units world_preview 0) = form ID_FTXT (chunks chunks_preview) /\
  Forall wf_chunk chunks_preview /\
  4 + Zlen (chunks chunks_preview) < 2 ^ 31 /\
  0 < Zlen (bytes_of_string "a" ++ [9; 10; 13; 0; 200; 127] ++
            bytes_of_string "0123456789012345678901234567890123456789") /\
  exists o,
    w_out (snd (ListClipboards world_preview)) = w_out world_preview ++ o /\
    (exists row, In row (rows_of o) /\ row_unit row = 0) /\
    Forall (fun row =>
              row_unit row = 0 ->
              row_preview row
              = Some (bytes_of_string
                        "a   ...012345678901234567890123456789012"))
           (rows_of o).
Proof.
  assert (cooperative world_preview) as H1 by (intro n; reflexivity).
  assert (0 <= 0 <= 255) as H2 by lia.
  assert (Forall wf_chunk chunks_preview) as H3.
  { repeat constructor; cbn; try lia; discriminate. }
  assert (4 + Zlen (chunks chunks_preview) < 2 ^ 31) as H4
    by (vm_compute; reflexivity).
  assert (0 < Zlen (bytes_of_string "a" ++ [9; 10; 13; 0; 200; 127] ++
                    bytes_of_string
                      "0123456789012345678901234567890123456789")) as H5
    by (vm_compute; reflexivity).
  split; [exact H1 | ]. split; [exact H2 | ]. split; [reflexivity | ].
  split; [exact H3 | ]. split; [exact H4 | ]. split; [exact H5 | ].
  exact (proj2 (proj2 C7_listing_preview_sanitised) world_preview 0
           chunks_preview _ _ _ H1 H2 eq_refl H3 H4 eq_refl H5).
Defined.
